(** * libnettest2: a shallow embedding of [libnettest2.hpp]

    The development follows the single header of measurement-kit/libnettest2:

    - [StdMap]: [std::map<std::string, T>] as a key-sorted association list;
    - [Json]: the part of [nlohmann::json] the header relies on (values,
      [operator[]], JSON pointers, typed [get<T>()]);
    - [Settings] and [ParseSettings]: the [Settings] class and
      [parse_settings()];
    - [Double]: rounding to binary64, on rationals;
    - [Dispatcher]: the worker lambda of [Runner::run()] and the main
      thread's wait as an interleaving transition system over the shared
      index and the counter of running workers;
    - [Runner]: [Runner::run()], [Runner::run_with_index32()] and the
      collector / probe-IP helpers, in a state monad that threads the
      outside world, the emitted events and the byte counters.

    Conventions.  Fixed-width integers are [Z] with the wrap-around written
    out.  A C++ [double] that holds a finite value is represented by the
    rational it denotes ([Q]); where the header computes with doubles (the
    runtime budget, the elapsed times) the result is rounded as IEEE 754
    binary64 does ([Double]).
    Pointers handed around by the header (out-parameters) are always valid
    in the callers modelled here, so the [nullptr] guards are not
    represented.  A [noexcept] function that lets an exception escape, and
    an out-of-range [operator[]] on a vector, end the process: the monad
    returns [None] there. *)

From Stdlib Require Import ZArith QArith List String Ascii Bool Lia FinFun.
From Stdlib Require Import DecimalString.
Import ListNotations.

Set Warnings "-register-all".

Local Open Scope string_scope.
Local Open Scope list_scope.
Local Open Scope Z_scope.

Notation "s1 +++ s2" := (String.append s1 s2)
  (at level 60, right associativity) : string_scope.

Definition option_bind {A B : Type} (o : option A) (f : A -> option B)
  : option B :=
  match o with
  | Some a => f a
  | None => None
  end.

(** Decimal rendering of an integer, as [operator<<] does for integral types. *)
Definition decimal (z : Z) : string :=
  NilZero.string_of_int (Z.to_int z).

(* ===================================================================== *)
(** ** [std::map<std::string, T>] *)
(* ===================================================================== *)

Module StdMap.

(** Keys are kept in increasing order, as iteration over a [std::map]
    yields them; [std::string] compares byte-wise, as [String.compare]. *)
Definition t (A : Type) : Type := list (string * A).

Definition empty {A : Type} : t A := [].

Fixpoint find {A : Type} (k : string) (m : t A) : option A :=
  match m with
  | [] => None
  | (k', v) :: m' => if String.eqb k k' then Some v else find k m'
  end.

(** [m[k] = v]: the mapped value is replaced when the key exists. *)
Fixpoint insert_or_assign {A : Type} (k : string) (v : A) (m : t A) : t A :=
  match m with
  | [] => [(k, v)]
  | (k', v') :: m' =>
      match String.compare k k' with
      | Eq => (k, v) :: m'
      | Lt => (k, v) :: (k', v') :: m'
      | Gt => (k', v') :: insert_or_assign k v m'
      end
  end.

(** [m.emplace(k, v)]: nothing happens when the key exists. *)
Definition emplace {A : Type} (k : string) (v : A) (m : t A) : t A :=
  match find k m with
  | Some _ => m
  | None => insert_or_assign k v m
  end.

Definition count {A : Type} (k : string) (m : t A) : Z :=
  match find k m with Some _ => 1 | None => 0 end.

Definition of_pairs {A : Type} (l : list (string * A)) : t A :=
  fold_left (fun m kv => emplace (fst kv) (snd kv) m) l empty.

Definition map_values {A B : Type} (f : A -> B) (m : t A) : t B :=
  List.map (fun kv => (fst kv, f (snd kv))) m.

End StdMap.

(* ===================================================================== *)
(** ** [nlohmann::json] *)
(* ===================================================================== *)

Module Json.

(** [number_integer] and [number_unsigned] are both [JInt]; a
    [number_float] carries the rational value of its (finite) double. *)
Inductive json : Type :=
| JNull
| JBool (b : bool)
| JInt (z : Z)
| JFloat (q : Q)
| JString (s : string)
| JArray (l : list json)
| JObject (o : StdMap.t json).

Definition is_object (j : json) : bool :=
  match j with JObject _ => true | _ => false end.

Definition is_string (j : json) : bool :=
  match j with JString _ => true | _ => false end.

Definition is_number (j : json) : bool :=
  match j with JInt _ | JFloat _ => true | _ => false end.

Definition is_boolean (j : json) : bool :=
  match j with JBool _ => true | _ => false end.

(** [basic_json::type_name()]. *)
Definition type_name (j : json) : string :=
  match j with
  | JNull => "null"
  | JBool _ => "boolean"
  | JInt _ | JFloat _ => "number"
  | JString _ => "string"
  | JArray _ => "array"
  | JObject _ => "object"
  end.

(** An initializer list of key/value pairs, [{{"k", v}, ...}]. *)
Definition object_of (l : list (string * json)) : json :=
  JObject (StdMap.of_pairs l).

(** [j.count(key)]: zero on anything that is not an object. *)
Definition count (key : string) (j : json) : Z :=
  match j with
  | JObject o => StdMap.count key o
  | _ => 0
  end.

(** [j.at(key)]: throws ([None]) on a missing key or a non-object. *)
Definition at_key (key : string) (j : json) : option json :=
  match j with
  | JObject o => StdMap.find key o
  | _ => None
  end.

(** [j[k1][k2]...[kn] = v].  The non-const [operator[]] turns a null value
    into an object, inserts a null member for a missing key and throws on
    every other type of value. *)
Fixpoint set_path (path : list string) (v : json) (j : json) : option json :=
  match path with
  | [] => Some v
  | k :: path' =>
      match j with
      | JNull =>
          match set_path path' v JNull with
          | Some sub => Some (JObject [(k, sub)])
          | None => None
          end
      | JObject o =>
          let cur := match StdMap.find k o with
                     | Some x => x
                     | None => JNull
                     end in
          match set_path path' v cur with
          | Some sub => Some (JObject (StdMap.insert_or_assign k sub o))
          | None => None
          end
      | _ => None
      end
  end.

(** [j = map]: a [std::map<std::string, std::string>] becomes an object. *)
Definition of_string_map (m : StdMap.t string) : json :=
  JObject (StdMap.map_values JString m).

(** *** JSON pointers *)

(** The array index of a reference token: decimal digits, no leading zero
    unless the token is ["0"]. *)
Definition digit_of (c : ascii) : option nat :=
  let n := nat_of_ascii c in
  if andb (Nat.leb 48 n) (Nat.leb n 57) then Some (n - 48)%nat else None.

Fixpoint digits_value (acc : nat) (s : string) : option nat :=
  match s with
  | EmptyString => Some acc
  | String c s' =>
      match digit_of c with
      | Some d => digits_value (10 * acc + d)%nat s'
      | None => None
      end
  end.

Definition array_index (tok : string) : option nat :=
  match tok with
  | EmptyString => None
  | String c rest =>
      if andb (Ascii.eqb c "0"%char) (negb (String.eqb rest ""))
      then None
      else digits_value 0%nat tok
  end.

(** [doc.at(pointer)], the pointer given by its reference tokens. *)
Fixpoint at_pointer (toks : list string) (j : json) : option json :=
  match toks with
  | [] => Some j
  | tok :: toks' =>
      match j with
      | JObject o =>
          match StdMap.find tok o with
          | Some x => at_pointer toks' x
          | None => None
          end
      | JArray l =>
          match array_index tok with
          | Some n =>
              match nth_error l n with
              | Some x => at_pointer toks' x
              | None => None
              end
          | None => None
          end
      | _ => None
      end
  end.

(** *** [get<T>()] *)

Definition get_bool (j : json) : option bool :=
  match j with JBool b => Some b | _ => None end.

(** [get<double>()]: [double] is the library's own [number_float_t], whose
    conversion accepts the three number types and throws [type_error] 302
    on everything else, a boolean included. *)
Definition get_double (j : json) : option Q :=
  match j with
  | JInt z => Some (inject_Z z)
  | JFloat q => Some q
  | _ => None
  end.

Definition get_string (j : json) : option string :=
  match j with JString s => Some s | _ => None end.

Fixpoint get_strings (l : list json) : option (list string) :=
  match l with
  | [] => Some []
  | x :: l' =>
      match get_string x, get_strings l' with
      | Some s, Some r => Some (s :: r)
      | _, _ => None
      end
  end.

Definition get_string_vector (j : json) : option (list string) :=
  match j with JArray l => get_strings l | _ => None end.

Fixpoint get_string_pairs (o : StdMap.t json) : option (StdMap.t string) :=
  match o with
  | [] => Some []
  | (k, x) :: o' =>
      match get_string x, get_string_pairs o' with
      | Some s, Some r => Some ((k, s) :: r)
      | _, _ => None
      end
  end.

Definition get_string_map (j : json) : option (StdMap.t string) :=
  match j with JObject o => get_string_pairs o | _ => None end.

End Json.

(* ===================================================================== *)
(** ** Versioning, log levels, errors *)
(* ===================================================================== *)

Definition default_engine_name : string := "libnettest2".

Definition version_major : Z := 0.
Definition version_minor : Z := 6.
Definition version_patch : Z := 0.

Definition version : string :=
  decimal version_major +++ "." +++ decimal version_minor +++ "."
  +++ decimal version_patch.

(** [Timeout] is [uint16_t]. *)
Definition TimeoutDefault : Z := 90.

Definition UINT8_MAX : Z := 255.
Definition UINT16_MAX : Z := 65535.
Definition UINT32_MAX : Z := 4294967295.
Definition UINT64_MOD : Z := 18446744073709551616.

Inductive LogLevel : Type :=
| log_quiet
| log_err
| log_warning
| log_info
| log_debug
| log_debug2.

(** The enumerators' values ([enum class LogLevel : uint32_t]). *)
Definition log_level_value (l : LogLevel) : Z :=
  match l with
  | log_quiet => 0
  | log_err => 1
  | log_warning => 2
  | log_info => 3
  | log_debug => 4
  | log_debug2 => 5
  end.

Module ErrContext.
Record t : Type := mk {
  code : Z;               (* int64_t *)
  library_name : string;
  library_version : string;
  reason : string
}.

(** [ErrContext err{}]: the code is nonzero by default. *)
Definition default : t :=
  {| code := 1; library_name := ""; library_version := ""; reason := "" |}.
End ErrContext.

Inductive Errors : Type :=
| none
| mmdb_enoent
| mmdb_enodatafortype.

Definition libnettest2_strerror (n : Errors) : string :=
  match n with
  | none => "none"
  | mmdb_enoent => "mmdb_enoent"
  | mmdb_enodatafortype => "mmdb_enodatafortype"
  end.

(* ===================================================================== *)
(** ** Settings *)
(* ===================================================================== *)

Module Settings.

Record t : Type := mk {
  (* top-level settings *)
  annotations : StdMap.t string;
  inputs : list string;
  input_filepaths : list string;
  log_filepath : string;
  log_level : LogLevel;
  name : string;
  output_filepath : string;
  (* settings inside the 'options' sub-dictionary *)
  all_endpoints : bool;
  bouncer_base_url : string;
  ca_bundle_path : string;
  collector_base_url : string;
  engine_name : string;
  engine_version : string;
  engine_version_full : string;
  geoip_asn_path : string;
  geoip_country_path : string;
  max_runtime : Z;
  no_asn_lookup : bool;
  no_bouncer : bool;
  no_cc_lookup : bool;
  no_collector : bool;
  no_file_report : bool;
  no_ip_lookup : bool;
  no_resolver_lookup : bool;
  parallelism : Z;
  platform : string;
  port : Z;
  probe_ip : string;
  probe_asn : string;
  probe_network_name : string;
  probe_cc : string;
  randomize_input : bool;
  save_real_probe_asn : bool;
  save_real_probe_ip : bool;
  save_real_probe_cc : bool;
  save_real_resolver_ip : bool;
  server : string;
  software_name : string;
  software_version : string
}.

(** The default member initializers of the class. *)
Definition default : t := {|
  annotations := StdMap.empty;
  inputs := [];
  input_filepaths := [];
  log_filepath := "";
  log_level := log_warning;
  name := "";
  output_filepath := "";
  all_endpoints := false;
  bouncer_base_url := "https://bouncer.ooni.io";
  ca_bundle_path := "";
  collector_base_url := "";
  engine_name := default_engine_name;
  engine_version := version;
  engine_version_full := version;
  geoip_asn_path := "";
  geoip_country_path := "";
  max_runtime := TimeoutDefault;
  no_asn_lookup := false;
  no_bouncer := false;
  no_cc_lookup := false;
  no_collector := false;
  no_file_report := false;
  no_ip_lookup := false;
  no_resolver_lookup := false;
  parallelism := 0;
  platform := "";
  port := 0;
  probe_ip := "";
  probe_asn := "";
  probe_network_name := "";
  probe_cc := "";
  randomize_input := true;
  save_real_probe_asn := true;
  save_real_probe_ip := false;
  save_real_probe_cc := true;
  save_real_resolver_ip := true;
  server := "";
  software_name := default_engine_name;
  software_version := version
|}.

(** Assignment to one member, [settings->f = v]. *)
Definition set_annotations (v : StdMap.t string) (s : t) : t :=
  mk v (inputs s) (input_filepaths s) (log_filepath s) (log_level s) (name
  s) (output_filepath s) (all_endpoints s) (bouncer_base_url s)
  (ca_bundle_path s) (collector_base_url s) (engine_name s) (engine_version
  s) (engine_version_full s) (geoip_asn_path s) (geoip_country_path s)
  (max_runtime s) (no_asn_lookup s) (no_bouncer s) (no_cc_lookup s)
  (no_collector s) (no_file_report s) (no_ip_lookup s) (no_resolver_lookup
  s) (parallelism s) (platform s) (port s) (probe_ip s) (probe_asn s)
  (probe_network_name s) (probe_cc s) (randomize_input s)
  (save_real_probe_asn s) (save_real_probe_ip s) (save_real_probe_cc s)
  (save_real_resolver_ip s) (server s) (software_name s) (software_version
  s).
Definition set_inputs (v : list string) (s : t) : t :=
  mk (annotations s) v (input_filepaths s) (log_filepath s) (log_level s)
  (name s) (output_filepath s) (all_endpoints s) (bouncer_base_url s)
  (ca_bundle_path s) (collector_base_url s) (engine_name s) (engine_version
  s) (engine_version_full s) (geoip_asn_path s) (geoip_country_path s)
  (max_runtime s) (no_asn_lookup s) (no_bouncer s) (no_cc_lookup s)
  (no_collector s) (no_file_report s) (no_ip_lookup s) (no_resolver_lookup
  s) (parallelism s) (platform s) (port s) (probe_ip s) (probe_asn s)
  (probe_network_name s) (probe_cc s) (randomize_input s)
  (save_real_probe_asn s) (save_real_probe_ip s) (save_real_probe_cc s)
  (save_real_resolver_ip s) (server s) (software_name s) (software_version
  s).
Definition set_input_filepaths (v : list string) (s : t) : t :=
  mk (annotations s) (inputs s) v (log_filepath s) (log_level s) (name s)
  (output_filepath s) (all_endpoints s) (bouncer_base_url s) (ca_bundle_path
  s) (collector_base_url s) (engine_name s) (engine_version s)
  (engine_version_full s) (geoip_asn_path s) (geoip_country_path s)
  (max_runtime s) (no_asn_lookup s) (no_bouncer s) (no_cc_lookup s)
  (no_collector s) (no_file_report s) (no_ip_lookup s) (no_resolver_lookup
  s) (parallelism s) (platform s) (port s) (probe_ip s) (probe_asn s)
  (probe_network_name s) (probe_cc s) (randomize_input s)
  (save_real_probe_asn s) (save_real_probe_ip s) (save_real_probe_cc s)
  (save_real_resolver_ip s) (server s) (software_name s) (software_version
  s).
Definition set_log_filepath (v : string) (s : t) : t :=
  mk (annotations s) (inputs s) (input_filepaths s) v (log_level s) (name s)
  (output_filepath s) (all_endpoints s) (bouncer_base_url s) (ca_bundle_path
  s) (collector_base_url s) (engine_name s) (engine_version s)
  (engine_version_full s) (geoip_asn_path s) (geoip_country_path s)
  (max_runtime s) (no_asn_lookup s) (no_bouncer s) (no_cc_lookup s)
  (no_collector s) (no_file_report s) (no_ip_lookup s) (no_resolver_lookup
  s) (parallelism s) (platform s) (port s) (probe_ip s) (probe_asn s)
  (probe_network_name s) (probe_cc s) (randomize_input s)
  (save_real_probe_asn s) (save_real_probe_ip s) (save_real_probe_cc s)
  (save_real_resolver_ip s) (server s) (software_name s) (software_version
  s).
Definition set_log_level (v : LogLevel) (s : t) : t :=
  mk (annotations s) (inputs s) (input_filepaths s) (log_filepath s) v (name
  s) (output_filepath s) (all_endpoints s) (bouncer_base_url s)
  (ca_bundle_path s) (collector_base_url s) (engine_name s) (engine_version
  s) (engine_version_full s) (geoip_asn_path s) (geoip_country_path s)
  (max_runtime s) (no_asn_lookup s) (no_bouncer s) (no_cc_lookup s)
  (no_collector s) (no_file_report s) (no_ip_lookup s) (no_resolver_lookup
  s) (parallelism s) (platform s) (port s) (probe_ip s) (probe_asn s)
  (probe_network_name s) (probe_cc s) (randomize_input s)
  (save_real_probe_asn s) (save_real_probe_ip s) (save_real_probe_cc s)
  (save_real_resolver_ip s) (server s) (software_name s) (software_version
  s).
Definition set_name (v : string) (s : t) : t :=
  mk (annotations s) (inputs s) (input_filepaths s) (log_filepath s)
  (log_level s) v (output_filepath s) (all_endpoints s) (bouncer_base_url s)
  (ca_bundle_path s) (collector_base_url s) (engine_name s) (engine_version
  s) (engine_version_full s) (geoip_asn_path s) (geoip_country_path s)
  (max_runtime s) (no_asn_lookup s) (no_bouncer s) (no_cc_lookup s)
  (no_collector s) (no_file_report s) (no_ip_lookup s) (no_resolver_lookup
  s) (parallelism s) (platform s) (port s) (probe_ip s) (probe_asn s)
  (probe_network_name s) (probe_cc s) (randomize_input s)
  (save_real_probe_asn s) (save_real_probe_ip s) (save_real_probe_cc s)
  (save_real_resolver_ip s) (server s) (software_name s) (software_version
  s).
Definition set_output_filepath (v : string) (s : t) : t :=
  mk (annotations s) (inputs s) (input_filepaths s) (log_filepath s)
  (log_level s) (name s) v (all_endpoints s) (bouncer_base_url s)
  (ca_bundle_path s) (collector_base_url s) (engine_name s) (engine_version
  s) (engine_version_full s) (geoip_asn_path s) (geoip_country_path s)
  (max_runtime s) (no_asn_lookup s) (no_bouncer s) (no_cc_lookup s)
  (no_collector s) (no_file_report s) (no_ip_lookup s) (no_resolver_lookup
  s) (parallelism s) (platform s) (port s) (probe_ip s) (probe_asn s)
  (probe_network_name s) (probe_cc s) (randomize_input s)
  (save_real_probe_asn s) (save_real_probe_ip s) (save_real_probe_cc s)
  (save_real_resolver_ip s) (server s) (software_name s) (software_version
  s).
Definition set_all_endpoints (v : bool) (s : t) : t :=
  mk (annotations s) (inputs s) (input_filepaths s) (log_filepath s)
  (log_level s) (name s) (output_filepath s) v (bouncer_base_url s)
  (ca_bundle_path s) (collector_base_url s) (engine_name s) (engine_version
  s) (engine_version_full s) (geoip_asn_path s) (geoip_country_path s)
  (max_runtime s) (no_asn_lookup s) (no_bouncer s) (no_cc_lookup s)
  (no_collector s) (no_file_report s) (no_ip_lookup s) (no_resolver_lookup
  s) (parallelism s) (platform s) (port s) (probe_ip s) (probe_asn s)
  (probe_network_name s) (probe_cc s) (randomize_input s)
  (save_real_probe_asn s) (save_real_probe_ip s) (save_real_probe_cc s)
  (save_real_resolver_ip s) (server s) (software_name s) (software_version
  s).
Definition set_bouncer_base_url (v : string) (s : t) : t :=
  mk (annotations s) (inputs s) (input_filepaths s) (log_filepath s)
  (log_level s) (name s) (output_filepath s) (all_endpoints s) v
  (ca_bundle_path s) (collector_base_url s) (engine_name s) (engine_version
  s) (engine_version_full s) (geoip_asn_path s) (geoip_country_path s)
  (max_runtime s) (no_asn_lookup s) (no_bouncer s) (no_cc_lookup s)
  (no_collector s) (no_file_report s) (no_ip_lookup s) (no_resolver_lookup
  s) (parallelism s) (platform s) (port s) (probe_ip s) (probe_asn s)
  (probe_network_name s) (probe_cc s) (randomize_input s)
  (save_real_probe_asn s) (save_real_probe_ip s) (save_real_probe_cc s)
  (save_real_resolver_ip s) (server s) (software_name s) (software_version
  s).
Definition set_ca_bundle_path (v : string) (s : t) : t :=
  mk (annotations s) (inputs s) (input_filepaths s) (log_filepath s)
  (log_level s) (name s) (output_filepath s) (all_endpoints s)
  (bouncer_base_url s) v (collector_base_url s) (engine_name s)
  (engine_version s) (engine_version_full s) (geoip_asn_path s)
  (geoip_country_path s) (max_runtime s) (no_asn_lookup s) (no_bouncer s)
  (no_cc_lookup s) (no_collector s) (no_file_report s) (no_ip_lookup s)
  (no_resolver_lookup s) (parallelism s) (platform s) (port s) (probe_ip s)
  (probe_asn s) (probe_network_name s) (probe_cc s) (randomize_input s)
  (save_real_probe_asn s) (save_real_probe_ip s) (save_real_probe_cc s)
  (save_real_resolver_ip s) (server s) (software_name s) (software_version
  s).
Definition set_collector_base_url (v : string) (s : t) : t :=
  mk (annotations s) (inputs s) (input_filepaths s) (log_filepath s)
  (log_level s) (name s) (output_filepath s) (all_endpoints s)
  (bouncer_base_url s) (ca_bundle_path s) v (engine_name s) (engine_version
  s) (engine_version_full s) (geoip_asn_path s) (geoip_country_path s)
  (max_runtime s) (no_asn_lookup s) (no_bouncer s) (no_cc_lookup s)
  (no_collector s) (no_file_report s) (no_ip_lookup s) (no_resolver_lookup
  s) (parallelism s) (platform s) (port s) (probe_ip s) (probe_asn s)
  (probe_network_name s) (probe_cc s) (randomize_input s)
  (save_real_probe_asn s) (save_real_probe_ip s) (save_real_probe_cc s)
  (save_real_resolver_ip s) (server s) (software_name s) (software_version
  s).
Definition set_engine_name (v : string) (s : t) : t :=
  mk (annotations s) (inputs s) (input_filepaths s) (log_filepath s)
  (log_level s) (name s) (output_filepath s) (all_endpoints s)
  (bouncer_base_url s) (ca_bundle_path s) (collector_base_url s) v
  (engine_version s) (engine_version_full s) (geoip_asn_path s)
  (geoip_country_path s) (max_runtime s) (no_asn_lookup s) (no_bouncer s)
  (no_cc_lookup s) (no_collector s) (no_file_report s) (no_ip_lookup s)
  (no_resolver_lookup s) (parallelism s) (platform s) (port s) (probe_ip s)
  (probe_asn s) (probe_network_name s) (probe_cc s) (randomize_input s)
  (save_real_probe_asn s) (save_real_probe_ip s) (save_real_probe_cc s)
  (save_real_resolver_ip s) (server s) (software_name s) (software_version
  s).
Definition set_engine_version (v : string) (s : t) : t :=
  mk (annotations s) (inputs s) (input_filepaths s) (log_filepath s)
  (log_level s) (name s) (output_filepath s) (all_endpoints s)
  (bouncer_base_url s) (ca_bundle_path s) (collector_base_url s)
  (engine_name s) v (engine_version_full s) (geoip_asn_path s)
  (geoip_country_path s) (max_runtime s) (no_asn_lookup s) (no_bouncer s)
  (no_cc_lookup s) (no_collector s) (no_file_report s) (no_ip_lookup s)
  (no_resolver_lookup s) (parallelism s) (platform s) (port s) (probe_ip s)
  (probe_asn s) (probe_network_name s) (probe_cc s) (randomize_input s)
  (save_real_probe_asn s) (save_real_probe_ip s) (save_real_probe_cc s)
  (save_real_resolver_ip s) (server s) (software_name s) (software_version
  s).
Definition set_engine_version_full (v : string) (s : t) : t :=
  mk (annotations s) (inputs s) (input_filepaths s) (log_filepath s)
  (log_level s) (name s) (output_filepath s) (all_endpoints s)
  (bouncer_base_url s) (ca_bundle_path s) (collector_base_url s)
  (engine_name s) (engine_version s) v (geoip_asn_path s)
  (geoip_country_path s) (max_runtime s) (no_asn_lookup s) (no_bouncer s)
  (no_cc_lookup s) (no_collector s) (no_file_report s) (no_ip_lookup s)
  (no_resolver_lookup s) (parallelism s) (platform s) (port s) (probe_ip s)
  (probe_asn s) (probe_network_name s) (probe_cc s) (randomize_input s)
  (save_real_probe_asn s) (save_real_probe_ip s) (save_real_probe_cc s)
  (save_real_resolver_ip s) (server s) (software_name s) (software_version
  s).
Definition set_geoip_asn_path (v : string) (s : t) : t :=
  mk (annotations s) (inputs s) (input_filepaths s) (log_filepath s)
  (log_level s) (name s) (output_filepath s) (all_endpoints s)
  (bouncer_base_url s) (ca_bundle_path s) (collector_base_url s)
  (engine_name s) (engine_version s) (engine_version_full s) v
  (geoip_country_path s) (max_runtime s) (no_asn_lookup s) (no_bouncer s)
  (no_cc_lookup s) (no_collector s) (no_file_report s) (no_ip_lookup s)
  (no_resolver_lookup s) (parallelism s) (platform s) (port s) (probe_ip s)
  (probe_asn s) (probe_network_name s) (probe_cc s) (randomize_input s)
  (save_real_probe_asn s) (save_real_probe_ip s) (save_real_probe_cc s)
  (save_real_resolver_ip s) (server s) (software_name s) (software_version
  s).
Definition set_geoip_country_path (v : string) (s : t) : t :=
  mk (annotations s) (inputs s) (input_filepaths s) (log_filepath s)
  (log_level s) (name s) (output_filepath s) (all_endpoints s)
  (bouncer_base_url s) (ca_bundle_path s) (collector_base_url s)
  (engine_name s) (engine_version s) (engine_version_full s) (geoip_asn_path
  s) v (max_runtime s) (no_asn_lookup s) (no_bouncer s) (no_cc_lookup s)
  (no_collector s) (no_file_report s) (no_ip_lookup s) (no_resolver_lookup
  s) (parallelism s) (platform s) (port s) (probe_ip s) (probe_asn s)
  (probe_network_name s) (probe_cc s) (randomize_input s)
  (save_real_probe_asn s) (save_real_probe_ip s) (save_real_probe_cc s)
  (save_real_resolver_ip s) (server s) (software_name s) (software_version
  s).
Definition set_max_runtime (v : Z) (s : t) : t :=
  mk (annotations s) (inputs s) (input_filepaths s) (log_filepath s)
  (log_level s) (name s) (output_filepath s) (all_endpoints s)
  (bouncer_base_url s) (ca_bundle_path s) (collector_base_url s)
  (engine_name s) (engine_version s) (engine_version_full s) (geoip_asn_path
  s) (geoip_country_path s) v (no_asn_lookup s) (no_bouncer s) (no_cc_lookup
  s) (no_collector s) (no_file_report s) (no_ip_lookup s)
  (no_resolver_lookup s) (parallelism s) (platform s) (port s) (probe_ip s)
  (probe_asn s) (probe_network_name s) (probe_cc s) (randomize_input s)
  (save_real_probe_asn s) (save_real_probe_ip s) (save_real_probe_cc s)
  (save_real_resolver_ip s) (server s) (software_name s) (software_version
  s).
Definition set_no_asn_lookup (v : bool) (s : t) : t :=
  mk (annotations s) (inputs s) (input_filepaths s) (log_filepath s)
  (log_level s) (name s) (output_filepath s) (all_endpoints s)
  (bouncer_base_url s) (ca_bundle_path s) (collector_base_url s)
  (engine_name s) (engine_version s) (engine_version_full s) (geoip_asn_path
  s) (geoip_country_path s) (max_runtime s) v (no_bouncer s) (no_cc_lookup
  s) (no_collector s) (no_file_report s) (no_ip_lookup s)
  (no_resolver_lookup s) (parallelism s) (platform s) (port s) (probe_ip s)
  (probe_asn s) (probe_network_name s) (probe_cc s) (randomize_input s)
  (save_real_probe_asn s) (save_real_probe_ip s) (save_real_probe_cc s)
  (save_real_resolver_ip s) (server s) (software_name s) (software_version
  s).
Definition set_no_bouncer (v : bool) (s : t) : t :=
  mk (annotations s) (inputs s) (input_filepaths s) (log_filepath s)
  (log_level s) (name s) (output_filepath s) (all_endpoints s)
  (bouncer_base_url s) (ca_bundle_path s) (collector_base_url s)
  (engine_name s) (engine_version s) (engine_version_full s) (geoip_asn_path
  s) (geoip_country_path s) (max_runtime s) (no_asn_lookup s) v
  (no_cc_lookup s) (no_collector s) (no_file_report s) (no_ip_lookup s)
  (no_resolver_lookup s) (parallelism s) (platform s) (port s) (probe_ip s)
  (probe_asn s) (probe_network_name s) (probe_cc s) (randomize_input s)
  (save_real_probe_asn s) (save_real_probe_ip s) (save_real_probe_cc s)
  (save_real_resolver_ip s) (server s) (software_name s) (software_version
  s).
Definition set_no_cc_lookup (v : bool) (s : t) : t :=
  mk (annotations s) (inputs s) (input_filepaths s) (log_filepath s)
  (log_level s) (name s) (output_filepath s) (all_endpoints s)
  (bouncer_base_url s) (ca_bundle_path s) (collector_base_url s)
  (engine_name s) (engine_version s) (engine_version_full s) (geoip_asn_path
  s) (geoip_country_path s) (max_runtime s) (no_asn_lookup s) (no_bouncer s)
  v (no_collector s) (no_file_report s) (no_ip_lookup s) (no_resolver_lookup
  s) (parallelism s) (platform s) (port s) (probe_ip s) (probe_asn s)
  (probe_network_name s) (probe_cc s) (randomize_input s)
  (save_real_probe_asn s) (save_real_probe_ip s) (save_real_probe_cc s)
  (save_real_resolver_ip s) (server s) (software_name s) (software_version
  s).
Definition set_no_collector (v : bool) (s : t) : t :=
  mk (annotations s) (inputs s) (input_filepaths s) (log_filepath s)
  (log_level s) (name s) (output_filepath s) (all_endpoints s)
  (bouncer_base_url s) (ca_bundle_path s) (collector_base_url s)
  (engine_name s) (engine_version s) (engine_version_full s) (geoip_asn_path
  s) (geoip_country_path s) (max_runtime s) (no_asn_lookup s) (no_bouncer s)
  (no_cc_lookup s) v (no_file_report s) (no_ip_lookup s) (no_resolver_lookup
  s) (parallelism s) (platform s) (port s) (probe_ip s) (probe_asn s)
  (probe_network_name s) (probe_cc s) (randomize_input s)
  (save_real_probe_asn s) (save_real_probe_ip s) (save_real_probe_cc s)
  (save_real_resolver_ip s) (server s) (software_name s) (software_version
  s).
Definition set_no_file_report (v : bool) (s : t) : t :=
  mk (annotations s) (inputs s) (input_filepaths s) (log_filepath s)
  (log_level s) (name s) (output_filepath s) (all_endpoints s)
  (bouncer_base_url s) (ca_bundle_path s) (collector_base_url s)
  (engine_name s) (engine_version s) (engine_version_full s) (geoip_asn_path
  s) (geoip_country_path s) (max_runtime s) (no_asn_lookup s) (no_bouncer s)
  (no_cc_lookup s) (no_collector s) v (no_ip_lookup s) (no_resolver_lookup
  s) (parallelism s) (platform s) (port s) (probe_ip s) (probe_asn s)
  (probe_network_name s) (probe_cc s) (randomize_input s)
  (save_real_probe_asn s) (save_real_probe_ip s) (save_real_probe_cc s)
  (save_real_resolver_ip s) (server s) (software_name s) (software_version
  s).
Definition set_no_ip_lookup (v : bool) (s : t) : t :=
  mk (annotations s) (inputs s) (input_filepaths s) (log_filepath s)
  (log_level s) (name s) (output_filepath s) (all_endpoints s)
  (bouncer_base_url s) (ca_bundle_path s) (collector_base_url s)
  (engine_name s) (engine_version s) (engine_version_full s) (geoip_asn_path
  s) (geoip_country_path s) (max_runtime s) (no_asn_lookup s) (no_bouncer s)
  (no_cc_lookup s) (no_collector s) (no_file_report s) v (no_resolver_lookup
  s) (parallelism s) (platform s) (port s) (probe_ip s) (probe_asn s)
  (probe_network_name s) (probe_cc s) (randomize_input s)
  (save_real_probe_asn s) (save_real_probe_ip s) (save_real_probe_cc s)
  (save_real_resolver_ip s) (server s) (software_name s) (software_version
  s).
Definition set_no_resolver_lookup (v : bool) (s : t) : t :=
  mk (annotations s) (inputs s) (input_filepaths s) (log_filepath s)
  (log_level s) (name s) (output_filepath s) (all_endpoints s)
  (bouncer_base_url s) (ca_bundle_path s) (collector_base_url s)
  (engine_name s) (engine_version s) (engine_version_full s) (geoip_asn_path
  s) (geoip_country_path s) (max_runtime s) (no_asn_lookup s) (no_bouncer s)
  (no_cc_lookup s) (no_collector s) (no_file_report s) (no_ip_lookup s) v
  (parallelism s) (platform s) (port s) (probe_ip s) (probe_asn s)
  (probe_network_name s) (probe_cc s) (randomize_input s)
  (save_real_probe_asn s) (save_real_probe_ip s) (save_real_probe_cc s)
  (save_real_resolver_ip s) (server s) (software_name s) (software_version
  s).
Definition set_parallelism (v : Z) (s : t) : t :=
  mk (annotations s) (inputs s) (input_filepaths s) (log_filepath s)
  (log_level s) (name s) (output_filepath s) (all_endpoints s)
  (bouncer_base_url s) (ca_bundle_path s) (collector_base_url s)
  (engine_name s) (engine_version s) (engine_version_full s) (geoip_asn_path
  s) (geoip_country_path s) (max_runtime s) (no_asn_lookup s) (no_bouncer s)
  (no_cc_lookup s) (no_collector s) (no_file_report s) (no_ip_lookup s)
  (no_resolver_lookup s) v (platform s) (port s) (probe_ip s) (probe_asn s)
  (probe_network_name s) (probe_cc s) (randomize_input s)
  (save_real_probe_asn s) (save_real_probe_ip s) (save_real_probe_cc s)
  (save_real_resolver_ip s) (server s) (software_name s) (software_version
  s).
Definition set_platform (v : string) (s : t) : t :=
  mk (annotations s) (inputs s) (input_filepaths s) (log_filepath s)
  (log_level s) (name s) (output_filepath s) (all_endpoints s)
  (bouncer_base_url s) (ca_bundle_path s) (collector_base_url s)
  (engine_name s) (engine_version s) (engine_version_full s) (geoip_asn_path
  s) (geoip_country_path s) (max_runtime s) (no_asn_lookup s) (no_bouncer s)
  (no_cc_lookup s) (no_collector s) (no_file_report s) (no_ip_lookup s)
  (no_resolver_lookup s) (parallelism s) v (port s) (probe_ip s) (probe_asn
  s) (probe_network_name s) (probe_cc s) (randomize_input s)
  (save_real_probe_asn s) (save_real_probe_ip s) (save_real_probe_cc s)
  (save_real_resolver_ip s) (server s) (software_name s) (software_version
  s).
Definition set_port (v : Z) (s : t) : t :=
  mk (annotations s) (inputs s) (input_filepaths s) (log_filepath s)
  (log_level s) (name s) (output_filepath s) (all_endpoints s)
  (bouncer_base_url s) (ca_bundle_path s) (collector_base_url s)
  (engine_name s) (engine_version s) (engine_version_full s) (geoip_asn_path
  s) (geoip_country_path s) (max_runtime s) (no_asn_lookup s) (no_bouncer s)
  (no_cc_lookup s) (no_collector s) (no_file_report s) (no_ip_lookup s)
  (no_resolver_lookup s) (parallelism s) (platform s) v (probe_ip s)
  (probe_asn s) (probe_network_name s) (probe_cc s) (randomize_input s)
  (save_real_probe_asn s) (save_real_probe_ip s) (save_real_probe_cc s)
  (save_real_resolver_ip s) (server s) (software_name s) (software_version
  s).
Definition set_probe_ip (v : string) (s : t) : t :=
  mk (annotations s) (inputs s) (input_filepaths s) (log_filepath s)
  (log_level s) (name s) (output_filepath s) (all_endpoints s)
  (bouncer_base_url s) (ca_bundle_path s) (collector_base_url s)
  (engine_name s) (engine_version s) (engine_version_full s) (geoip_asn_path
  s) (geoip_country_path s) (max_runtime s) (no_asn_lookup s) (no_bouncer s)
  (no_cc_lookup s) (no_collector s) (no_file_report s) (no_ip_lookup s)
  (no_resolver_lookup s) (parallelism s) (platform s) (port s) v (probe_asn
  s) (probe_network_name s) (probe_cc s) (randomize_input s)
  (save_real_probe_asn s) (save_real_probe_ip s) (save_real_probe_cc s)
  (save_real_resolver_ip s) (server s) (software_name s) (software_version
  s).
Definition set_probe_asn (v : string) (s : t) : t :=
  mk (annotations s) (inputs s) (input_filepaths s) (log_filepath s)
  (log_level s) (name s) (output_filepath s) (all_endpoints s)
  (bouncer_base_url s) (ca_bundle_path s) (collector_base_url s)
  (engine_name s) (engine_version s) (engine_version_full s) (geoip_asn_path
  s) (geoip_country_path s) (max_runtime s) (no_asn_lookup s) (no_bouncer s)
  (no_cc_lookup s) (no_collector s) (no_file_report s) (no_ip_lookup s)
  (no_resolver_lookup s) (parallelism s) (platform s) (port s) (probe_ip s)
  v (probe_network_name s) (probe_cc s) (randomize_input s)
  (save_real_probe_asn s) (save_real_probe_ip s) (save_real_probe_cc s)
  (save_real_resolver_ip s) (server s) (software_name s) (software_version
  s).
Definition set_probe_network_name (v : string) (s : t) : t :=
  mk (annotations s) (inputs s) (input_filepaths s) (log_filepath s)
  (log_level s) (name s) (output_filepath s) (all_endpoints s)
  (bouncer_base_url s) (ca_bundle_path s) (collector_base_url s)
  (engine_name s) (engine_version s) (engine_version_full s) (geoip_asn_path
  s) (geoip_country_path s) (max_runtime s) (no_asn_lookup s) (no_bouncer s)
  (no_cc_lookup s) (no_collector s) (no_file_report s) (no_ip_lookup s)
  (no_resolver_lookup s) (parallelism s) (platform s) (port s) (probe_ip s)
  (probe_asn s) v (probe_cc s) (randomize_input s) (save_real_probe_asn s)
  (save_real_probe_ip s) (save_real_probe_cc s) (save_real_resolver_ip s)
  (server s) (software_name s) (software_version s).
Definition set_probe_cc (v : string) (s : t) : t :=
  mk (annotations s) (inputs s) (input_filepaths s) (log_filepath s)
  (log_level s) (name s) (output_filepath s) (all_endpoints s)
  (bouncer_base_url s) (ca_bundle_path s) (collector_base_url s)
  (engine_name s) (engine_version s) (engine_version_full s) (geoip_asn_path
  s) (geoip_country_path s) (max_runtime s) (no_asn_lookup s) (no_bouncer s)
  (no_cc_lookup s) (no_collector s) (no_file_report s) (no_ip_lookup s)
  (no_resolver_lookup s) (parallelism s) (platform s) (port s) (probe_ip s)
  (probe_asn s) (probe_network_name s) v (randomize_input s)
  (save_real_probe_asn s) (save_real_probe_ip s) (save_real_probe_cc s)
  (save_real_resolver_ip s) (server s) (software_name s) (software_version
  s).
Definition set_randomize_input (v : bool) (s : t) : t :=
  mk (annotations s) (inputs s) (input_filepaths s) (log_filepath s)
  (log_level s) (name s) (output_filepath s) (all_endpoints s)
  (bouncer_base_url s) (ca_bundle_path s) (collector_base_url s)
  (engine_name s) (engine_version s) (engine_version_full s) (geoip_asn_path
  s) (geoip_country_path s) (max_runtime s) (no_asn_lookup s) (no_bouncer s)
  (no_cc_lookup s) (no_collector s) (no_file_report s) (no_ip_lookup s)
  (no_resolver_lookup s) (parallelism s) (platform s) (port s) (probe_ip s)
  (probe_asn s) (probe_network_name s) (probe_cc s) v (save_real_probe_asn
  s) (save_real_probe_ip s) (save_real_probe_cc s) (save_real_resolver_ip s)
  (server s) (software_name s) (software_version s).
Definition set_save_real_probe_asn (v : bool) (s : t) : t :=
  mk (annotations s) (inputs s) (input_filepaths s) (log_filepath s)
  (log_level s) (name s) (output_filepath s) (all_endpoints s)
  (bouncer_base_url s) (ca_bundle_path s) (collector_base_url s)
  (engine_name s) (engine_version s) (engine_version_full s) (geoip_asn_path
  s) (geoip_country_path s) (max_runtime s) (no_asn_lookup s) (no_bouncer s)
  (no_cc_lookup s) (no_collector s) (no_file_report s) (no_ip_lookup s)
  (no_resolver_lookup s) (parallelism s) (platform s) (port s) (probe_ip s)
  (probe_asn s) (probe_network_name s) (probe_cc s) (randomize_input s) v
  (save_real_probe_ip s) (save_real_probe_cc s) (save_real_resolver_ip s)
  (server s) (software_name s) (software_version s).
Definition set_save_real_probe_ip (v : bool) (s : t) : t :=
  mk (annotations s) (inputs s) (input_filepaths s) (log_filepath s)
  (log_level s) (name s) (output_filepath s) (all_endpoints s)
  (bouncer_base_url s) (ca_bundle_path s) (collector_base_url s)
  (engine_name s) (engine_version s) (engine_version_full s) (geoip_asn_path
  s) (geoip_country_path s) (max_runtime s) (no_asn_lookup s) (no_bouncer s)
  (no_cc_lookup s) (no_collector s) (no_file_report s) (no_ip_lookup s)
  (no_resolver_lookup s) (parallelism s) (platform s) (port s) (probe_ip s)
  (probe_asn s) (probe_network_name s) (probe_cc s) (randomize_input s)
  (save_real_probe_asn s) v (save_real_probe_cc s) (save_real_resolver_ip s)
  (server s) (software_name s) (software_version s).
Definition set_save_real_probe_cc (v : bool) (s : t) : t :=
  mk (annotations s) (inputs s) (input_filepaths s) (log_filepath s)
  (log_level s) (name s) (output_filepath s) (all_endpoints s)
  (bouncer_base_url s) (ca_bundle_path s) (collector_base_url s)
  (engine_name s) (engine_version s) (engine_version_full s) (geoip_asn_path
  s) (geoip_country_path s) (max_runtime s) (no_asn_lookup s) (no_bouncer s)
  (no_cc_lookup s) (no_collector s) (no_file_report s) (no_ip_lookup s)
  (no_resolver_lookup s) (parallelism s) (platform s) (port s) (probe_ip s)
  (probe_asn s) (probe_network_name s) (probe_cc s) (randomize_input s)
  (save_real_probe_asn s) (save_real_probe_ip s) v (save_real_resolver_ip s)
  (server s) (software_name s) (software_version s).
Definition set_save_real_resolver_ip (v : bool) (s : t) : t :=
  mk (annotations s) (inputs s) (input_filepaths s) (log_filepath s)
  (log_level s) (name s) (output_filepath s) (all_endpoints s)
  (bouncer_base_url s) (ca_bundle_path s) (collector_base_url s)
  (engine_name s) (engine_version s) (engine_version_full s) (geoip_asn_path
  s) (geoip_country_path s) (max_runtime s) (no_asn_lookup s) (no_bouncer s)
  (no_cc_lookup s) (no_collector s) (no_file_report s) (no_ip_lookup s)
  (no_resolver_lookup s) (parallelism s) (platform s) (port s) (probe_ip s)
  (probe_asn s) (probe_network_name s) (probe_cc s) (randomize_input s)
  (save_real_probe_asn s) (save_real_probe_ip s) (save_real_probe_cc s) v
  (server s) (software_name s) (software_version s).
Definition set_server (v : string) (s : t) : t :=
  mk (annotations s) (inputs s) (input_filepaths s) (log_filepath s)
  (log_level s) (name s) (output_filepath s) (all_endpoints s)
  (bouncer_base_url s) (ca_bundle_path s) (collector_base_url s)
  (engine_name s) (engine_version s) (engine_version_full s) (geoip_asn_path
  s) (geoip_country_path s) (max_runtime s) (no_asn_lookup s) (no_bouncer s)
  (no_cc_lookup s) (no_collector s) (no_file_report s) (no_ip_lookup s)
  (no_resolver_lookup s) (parallelism s) (platform s) (port s) (probe_ip s)
  (probe_asn s) (probe_network_name s) (probe_cc s) (randomize_input s)
  (save_real_probe_asn s) (save_real_probe_ip s) (save_real_probe_cc s)
  (save_real_resolver_ip s) v (software_name s) (software_version s).
Definition set_software_name (v : string) (s : t) : t :=
  mk (annotations s) (inputs s) (input_filepaths s) (log_filepath s)
  (log_level s) (name s) (output_filepath s) (all_endpoints s)
  (bouncer_base_url s) (ca_bundle_path s) (collector_base_url s)
  (engine_name s) (engine_version s) (engine_version_full s) (geoip_asn_path
  s) (geoip_country_path s) (max_runtime s) (no_asn_lookup s) (no_bouncer s)
  (no_cc_lookup s) (no_collector s) (no_file_report s) (no_ip_lookup s)
  (no_resolver_lookup s) (parallelism s) (platform s) (port s) (probe_ip s)
  (probe_asn s) (probe_network_name s) (probe_cc s) (randomize_input s)
  (save_real_probe_asn s) (save_real_probe_ip s) (save_real_probe_cc s)
  (save_real_resolver_ip s) (server s) v (software_version s).
Definition set_software_version (v : string) (s : t) : t :=
  mk (annotations s) (inputs s) (input_filepaths s) (log_filepath s)
  (log_level s) (name s) (output_filepath s) (all_endpoints s)
  (bouncer_base_url s) (ca_bundle_path s) (collector_base_url s)
  (engine_name s) (engine_version s) (engine_version_full s) (geoip_asn_path
  s) (geoip_country_path s) (max_runtime s) (no_asn_lookup s) (no_bouncer s)
  (no_cc_lookup s) (no_collector s) (no_file_report s) (no_ip_lookup s)
  (no_resolver_lookup s) (parallelism s) (platform s) (port s) (probe_ip s)
  (probe_asn s) (probe_network_name s) (probe_cc s) (randomize_input s)
  (save_real_probe_asn s) (save_real_probe_ip s) (save_real_probe_cc s)
  (save_real_resolver_ip s) (server s) (software_name s) v.

End Settings.

(* ===================================================================== *)
(** ** JSON parsing of settings *)
(* ===================================================================== *)

Module ParseSettings.
Import Json.

(** The reference tokens of a JSON pointer given as ["/a/b"].  None of the
    pointers of the header contains an escape sequence. *)
Fixpoint split_tokens (s : string) : string * list string :=
  match s with
  | EmptyString => ("", [])
  | String c s' =>
      let (tok, rest) := split_tokens s' in
      if Ascii.eqb c "/"%char then ("", tok :: rest)
      else (String c tok, rest)
  end.

Definition pointer_tokens (ptr_string : string) : list string :=
  match ptr_string with
  | EmptyString => []
  | String _ s' => let (tok, rest) := split_tokens s' in tok :: rest
  end.

(** [json_maybe_get<Type>(doc, ptr_string, value, err)].  [get] is
    [entry.get<Type>()], [dflt] is [Type{}] and [type_name] is
    [describe_pointer<Type>::type_name].  The result is the returned flag
    with the final contents of [*value] and [*err]. *)
Definition json_maybe_get {T : Type} (get : json -> option T) (dflt : T)
    (type_name : string) (doc : json) (ptr_string : string) (err : string)
  : bool * T * string :=
  match at_pointer (pointer_tokens ptr_string) doc with
  | None => (true, dflt, err)
  | Some entry =>
      match get entry with
      | Some v => (true, v, err)
      | None =>
          (false, dflt,
           "invalid_settings_error: cannot convert variable accessed using "
           +++ "'" +++ ptr_string +++ "' as JSON pointer from JSON type '"
           +++ Json.type_name entry +++ "' to C++ type '"
           +++ type_name +++ "'")
      end
  end.

Definition out_of_range_error_gen (ptr : string) (minimum maximum : Z)
  : string :=
  "invalid_settings_error: cannot validate variable accessed using "
  +++ "'" +++ ptr +++ "' because the value is out of range (The "
  +++ "minimum acceptable value is " +++ decimal minimum
  +++ " while the maximum "
  +++ "acceptable value is " +++ decimal maximum +++ ")".

Definition format_error_gen (ptr : string) : string :=
  "invalid_settings_error: cannot validate variable accessed using "
  +++ "'" +++ ptr +++ "' because the variable should be an integer "
  +++ "but you actually provided a floating point number".

(** The text stored in [*warn] by [MAYBE_GET_BOOL]. *)
Definition number_as_boolean_warning (path : string) : string :=
  "Found number variable at '" +++ path +++ "' and "
  +++ "treating it as boolean. This is for backward "
  +++ "compatibility with MK <= 0.9.0-alpha.9 where we "
  +++ "did not allow boolean variables. Change your "
  +++ "code to use boolean to get rid of this warning. "
  +++ "Be aware that we will remove this backward "
  +++ "compatibility hack in the future, so change your "
  +++ "code today to avoid your app breaking sometime "
  +++ "in the future. Please!".

(** [modf(x, &ipart)]: the fractional and the integral part, both with the
    sign of [x]. *)
Definition modf (x : Q) : Q * Q :=
  let i := Z.quot (Qnum x) (Z.pos (Qden x)) in
  (Qminus x (inject_Z i), inject_Z i).

Definition Qlt_bool (x y : Q) : bool := negb (Qle_bool y x).

(** [(uint8_t)x] and [(uint16_t)x] for a value already known to be in
    range. *)
Definition to_unsigned (bits : Z) (x : Q) : Z :=
  Z.quot (Qnum x) (Z.pos (Qden x)) mod 2 ^ bits.

(** What [parse_settings] has written so far through its out-parameters. *)
Record PState : Type := mkPState {
  settings : Settings.t;
  err : string;
  warn : string
}.

(** Each macro either falls through to the next statement or makes
    [parse_settings] return false. *)
Inductive Flow : Type :=
| Next (st : PState)
| ReturnFalse (st : PState).

Definition Stmt : Type := PState -> Flow.

Definition seq (a b : Stmt) : Stmt :=
  fun st => match a st with
            | Next st' => b st'
            | ReturnFalse st' => ReturnFalse st'
            end.

Notation "a ;;; b" := (seq a b) (at level 62, right associativity).

Definition set_err (e : string) (st : PState) : PState :=
  mkPState (settings st) e (warn st).

Section Macros.
Variable doc : json.

Definition MAYBE_GET {T : Type} (get : json -> option T) (dflt : T)
    (type_name : string) (path : string)
    (variable : T -> Settings.t -> Settings.t) : Stmt :=
  fun st =>
    let '(ok, v, e) := json_maybe_get get dflt type_name doc path (err st) in
    let st' := mkPState (variable v (settings st)) e (warn st) in
    if ok then Next st' else ReturnFalse st'.

Definition MAYBE_GET_string :=
  MAYBE_GET get_string "" "std::string".
Definition MAYBE_GET_vector :=
  MAYBE_GET get_string_vector [] "std::vector<std::string>".
Definition MAYBE_GET_map :=
  MAYBE_GET get_string_map StdMap.empty "std::map<std::string, std::string>".

Definition MAYBE_GET_BOOL (path : string)
    (variable : bool -> Settings.t -> Settings.t) : Stmt :=
  fun st =>
    let '(ok, v, e) := json_maybe_get get_bool false "bool" doc path (err st) in
    let st' := mkPState (variable v (settings st)) e (warn st) in
    if ok then Next st'
    else
      let '(ok2, scratch, _) :=
        json_maybe_get get_double (inject_Z 0) "double" doc path "" in
      if negb ok2 then ReturnFalse st'
      else
        Next (mkPState
                (variable (negb (Qeq_bool scratch (inject_Z 0)))
                          (settings st'))
                ""  (* Forget about error, we sorted it out *)
                (number_as_boolean_warning path)).

Definition MAYBE_GET_UINT (bits maximum : Z) (path : string)
    (variable : Z -> Settings.t -> Settings.t) : Stmt :=
  fun st =>
    let '(ok, scratch, e) :=
      json_maybe_get get_double (inject_Z 0) "double" doc path (err st) in
    if negb ok then ReturnFalse (set_err e st)
    else if negb (Qeq_bool (fst (modf scratch)) (inject_Z 0)) then
      ReturnFalse (set_err (format_error_gen path) st)
    else if orb (Qlt_bool scratch (inject_Z 0))
                (Qlt_bool (inject_Z maximum) scratch) then
      ReturnFalse (set_err (out_of_range_error_gen path 0 maximum) st)
    else
      Next (mkPState (variable (to_unsigned bits scratch) (settings st))
                     e (warn st)).

Definition MAYBE_GET_UINT8 := MAYBE_GET_UINT 8 UINT8_MAX.
Definition MAYBE_GET_UINT16 := MAYBE_GET_UINT 16 UINT16_MAX.

(** The block that maps the ["/log_level"] string to the enumeration. *)
Definition log_level_block : Stmt :=
  fun st =>
    let '(ok, s, e) :=
      json_maybe_get get_string "" "std::string" doc "/log_level" (err st) in
    let st' := set_err e st in
    let set l :=
      Next (mkPState (Settings.set_log_level l (settings st')) e (warn st')) in
    if negb ok then ReturnFalse st'
    else if String.eqb s "" then Next st'
    else if String.eqb s "QUIET" then set log_quiet
    else if String.eqb s "ERR" then set log_err
    else if String.eqb s "WARNING" then set log_warning
    else if String.eqb s "INFO" then set log_info
    else if String.eqb s "DEBUG" then set log_debug
    else if String.eqb s "DEBUG2" then set log_debug2
    else
      ReturnFalse
        (set_err
           ("invalid_settings_error: cannot convert variable accessed using "
            +++ "'/log_level' as JSON pointer to a C++ enumeration containing "
            +++ "one of: QUIET, ERR, WARNING, INFO, DEBUG, DEBUG2") st').

(** The sequence of macro calls that ends [parse_settings]. *)
Definition fields : Stmt :=
  MAYBE_GET_map "/annotations" Settings.set_annotations ;;;
  MAYBE_GET_vector "/inputs" Settings.set_inputs ;;;
  MAYBE_GET_vector "/input_filepaths" Settings.set_input_filepaths ;;;
  MAYBE_GET_string "/log_filepath" Settings.set_log_filepath ;;;
  log_level_block ;;;
  MAYBE_GET_string "/name" Settings.set_name ;;;
  MAYBE_GET_string "/output_filepath" Settings.set_output_filepath ;;;
  MAYBE_GET_BOOL "/options/all_endpoints" Settings.set_all_endpoints ;;;
  MAYBE_GET_string "/options/bouncer_base_url" Settings.set_bouncer_base_url ;;;
  MAYBE_GET_string "/options/ca_bundle_path" Settings.set_ca_bundle_path ;;;
  MAYBE_GET_string "/options/collector_base_url" Settings.set_collector_base_url ;;;
  MAYBE_GET_string "/options/engine_name" Settings.set_engine_name ;;;
  MAYBE_GET_string "/options/engine_version" Settings.set_engine_version ;;;
  MAYBE_GET_string "/options/engine_version_full" Settings.set_engine_version_full ;;;
  MAYBE_GET_string "/options/geoip_asn_path" Settings.set_geoip_asn_path ;;;
  MAYBE_GET_string "/options/geoip_country_path" Settings.set_geoip_country_path ;;;
  MAYBE_GET_UINT16 "/options/max_runtime" Settings.set_max_runtime ;;;
  MAYBE_GET_BOOL "/options/no_asn_lookup" Settings.set_no_asn_lookup ;;;
  MAYBE_GET_BOOL "/options/no_bouncer" Settings.set_no_bouncer ;;;
  MAYBE_GET_BOOL "/options/no_cc_lookup" Settings.set_no_cc_lookup ;;;
  MAYBE_GET_BOOL "/options/no_collector" Settings.set_no_collector ;;;
  MAYBE_GET_BOOL "/options/no_file_report" Settings.set_no_file_report ;;;
  MAYBE_GET_BOOL "/options/no_ip_lookup" Settings.set_no_ip_lookup ;;;
  MAYBE_GET_BOOL "/options/no_resolver_lookup" Settings.set_no_resolver_lookup ;;;
  MAYBE_GET_UINT8 "/options/parallelism" Settings.set_parallelism ;;;
  MAYBE_GET_string "/options/platform" Settings.set_platform ;;;
  MAYBE_GET_UINT16 "/options/port" Settings.set_port ;;;
  MAYBE_GET_string "/options/probe_ip" Settings.set_probe_ip ;;;
  MAYBE_GET_string "/options/probe_asn" Settings.set_probe_asn ;;;
  MAYBE_GET_string "/options/probe_network_name" Settings.set_probe_network_name ;;;
  MAYBE_GET_string "/options/probe_cc" Settings.set_probe_cc ;;;
  MAYBE_GET_BOOL "/options/randomize_input" Settings.set_randomize_input ;;;
  MAYBE_GET_BOOL "/options/save_real_probe_asn" Settings.set_save_real_probe_asn ;;;
  MAYBE_GET_BOOL "/options/save_real_probe_ip" Settings.set_save_real_probe_ip ;;;
  MAYBE_GET_BOOL "/options/save_real_probe_cc" Settings.set_save_real_probe_cc ;;;
  MAYBE_GET_BOOL "/options/save_real_resolver_ip" Settings.set_save_real_resolver_ip ;;;
  MAYBE_GET_string "/options/server" Settings.set_server ;;;
  MAYBE_GET_string "/options/software_name" Settings.set_software_name ;;;
  MAYBE_GET_string "/options/software_version" Settings.set_software_version.

(** [parse_settings] from the point where [doc] has been parsed. *)
Definition parse_document (st : PState) : bool * PState :=
  if negb (is_object doc) then
    (false, set_err "invalid_settings_error: JSON document is not an object" st)
  else if Json.count "options" doc <=? 0 then
    (false, set_err "invalid_settings_error: missing 'options' entry" st)
  else if negb (match at_key "options" doc with
                | Some o => is_object o
                | None => false
                end) then
    (false, set_err "invalid_settings_error: 'options' entry is not an object" st)
  else if Json.count "name" doc <=? 0 then
    (false, set_err "invalid_settings_error: missing 'name' entry" st)
  else if negb (match at_key "name" doc with
                | Some n => is_string n
                | None => false
                end) then
    (false, set_err "invalid_settings_error: 'name' entry is not a string" st)
  else
    match fields st with
    | Next st' => (true, st')
    | ReturnFalse st' => (false, st')
    end.
End Macros.

(** The options read with [MAYBE_GET_BOOL]: the pointer, the member that
    is written and its setter. *)
Definition bool_options
  : list (string * (Settings.t -> bool) * (bool -> Settings.t -> Settings.t)) :=
  [("/options/all_endpoints", Settings.all_endpoints, Settings.set_all_endpoints);
   ("/options/no_asn_lookup", Settings.no_asn_lookup, Settings.set_no_asn_lookup);
   ("/options/no_bouncer", Settings.no_bouncer, Settings.set_no_bouncer);
   ("/options/no_cc_lookup", Settings.no_cc_lookup, Settings.set_no_cc_lookup);
   ("/options/no_collector", Settings.no_collector, Settings.set_no_collector);
   ("/options/no_file_report", Settings.no_file_report, Settings.set_no_file_report);
   ("/options/no_ip_lookup", Settings.no_ip_lookup, Settings.set_no_ip_lookup);
   ("/options/no_resolver_lookup", Settings.no_resolver_lookup,
    Settings.set_no_resolver_lookup);
   ("/options/randomize_input", Settings.randomize_input,
    Settings.set_randomize_input);
   ("/options/save_real_probe_asn", Settings.save_real_probe_asn,
    Settings.set_save_real_probe_asn);
   ("/options/save_real_probe_ip", Settings.save_real_probe_ip,
    Settings.set_save_real_probe_ip);
   ("/options/save_real_probe_cc", Settings.save_real_probe_cc,
    Settings.set_save_real_probe_cc);
   ("/options/save_real_resolver_ip", Settings.save_real_resolver_ip,
    Settings.set_save_real_resolver_ip)].

(** Whether a JSON number differs from zero. *)
Definition number_nonzero (x : json) : bool :=
  match x with
  | JInt z => negb (z =? 0)
  | JFloat q => negb (Qeq_bool q (inject_Z 0))
  | _ => false
  end.

(** [w] is the deprecation warning of one of the boolean options. *)
Definition deprecation_warning (w : string) : Prop :=
  exists p, In p (List.map (fun o => fst (fst o)) bool_options)
            /\ w = number_as_boolean_warning p.

(** The member read by [g] holds [b] and [*warn] is a deprecation
    warning: what the statements after a coerced option preserve. *)
Definition kept (g : Settings.t -> bool) (b : bool) (st : PState) : Prop :=
  g (settings st) = b /\ deprecation_warning (warn st).

(** [parse_settings(str, settings, err, warn)].  [parse] stands for
    [nlohmann::json::parse], [None] when it throws; the result is the
    returned flag with what [*settings], [*err] and [*warn] hold. *)
Definition parse_settings (parse : string -> option json) (str : string)
    (st : PState) : bool * PState :=
  match parse str with
  | None => (false, set_err "json_parse_error" st)
  | Some doc => parse_document doc st
  end.

(** The members read with [MAYBE_GET] into a [std::string], with their
    pointers. *)
Definition string_options : list (string * (Settings.t -> string)) :=
  [("/log_filepath", Settings.log_filepath);
   ("/name", Settings.name);
   ("/output_filepath", Settings.output_filepath);
   ("/options/bouncer_base_url", Settings.bouncer_base_url);
   ("/options/ca_bundle_path", Settings.ca_bundle_path);
   ("/options/collector_base_url", Settings.collector_base_url);
   ("/options/engine_name", Settings.engine_name);
   ("/options/engine_version", Settings.engine_version);
   ("/options/engine_version_full", Settings.engine_version_full);
   ("/options/geoip_asn_path", Settings.geoip_asn_path);
   ("/options/geoip_country_path", Settings.geoip_country_path);
   ("/options/platform", Settings.platform);
   ("/options/probe_ip", Settings.probe_ip);
   ("/options/probe_asn", Settings.probe_asn);
   ("/options/probe_network_name", Settings.probe_network_name);
   ("/options/probe_cc", Settings.probe_cc);
   ("/options/server", Settings.server);
   ("/options/software_name", Settings.software_name);
   ("/options/software_version", Settings.software_version)].

(** The members read with [MAYBE_GET_UINT8] and [MAYBE_GET_UINT16], with
    their pointers and the largest value they take. *)
Definition uint_options : list (string * (Settings.t -> Z) * Z) :=
  [("/options/max_runtime", Settings.max_runtime, UINT16_MAX);
   ("/options/parallelism", Settings.parallelism, UINT8_MAX);
   ("/options/port", Settings.port, UINT16_MAX)].

(** The members read with [MAYBE_GET] into a
    [std::vector<std::string>]. *)
Definition vector_options : list (string * (Settings.t -> list string)) :=
  [("/inputs", Settings.inputs);
   ("/input_filepaths", Settings.input_filepaths)].

(** The string that a pointer leads to, [""] when it leads nowhere. *)
Definition string_entry (doc : json) (path : string) : string :=
  match at_pointer (pointer_tokens path) doc with
  | Some (JString s) => s
  | _ => ""
  end.

(** The boolean that a pointer leads to (a number counts as true when it
    is not zero), [false] when it leads nowhere. *)
Definition bool_entry (doc : json) (path : string) : bool :=
  match at_pointer (pointer_tokens path) doc with
  | Some (JBool b) => b
  | Some x => number_nonzero x
  | None => false
  end.

(** The list of strings that a pointer leads to, empty when it leads
    nowhere. *)
Definition vector_entry (doc : json) (path : string) : list string :=
  match option_bind (at_pointer (pointer_tokens path) doc)
          get_string_vector with
  | Some l => l
  | None => []
  end.

(** The level that the ["/log_level"] string names. *)
Definition log_level_named (s : string) : option LogLevel :=
  if String.eqb s "QUIET" then Some log_quiet
  else if String.eqb s "ERR" then Some log_err
  else if String.eqb s "WARNING" then Some log_warning
  else if String.eqb s "INFO" then Some log_info
  else if String.eqb s "DEBUG" then Some log_debug
  else if String.eqb s "DEBUG2" then Some log_debug2
  else None.

(** *** The documents that [parse_settings] accepts *)

(** The entry at [path] is missing or converts with [get]. *)
Definition converts {T : Type} (get : json -> option T) (doc : json)
    (path : string) : bool :=
  match at_pointer (pointer_tokens path) doc with
  | None => true
  | Some entry =>
      match get entry with
      | Some _ => true
      | None => false
      end
  end.

(** The entry at [path] is missing, a boolean or a number. *)
Definition boolean_or_number (doc : json) (path : string) : bool :=
  match at_pointer (pointer_tokens path) doc with
  | None => true
  | Some entry => orb (is_boolean entry) (is_number entry)
  end.

(** A double that holds an integer between zero and [maximum]. *)
Definition unsigned_within (maximum : Z) (x : Q) : bool :=
  andb (Qeq_bool x (inject_Z (Z.quot (Qnum x) (Z.pos (Qden x)))))
       (andb (Qle_bool (inject_Z 0) x) (Qle_bool x (inject_Z maximum))).

(** The entry at [path] is missing or such a number. *)
Definition unsigned_entry (doc : json) (maximum : Z) (path : string)
  : bool :=
  match at_pointer (pointer_tokens path) doc with
  | None => true
  | Some entry =>
      match get_double entry with
      | Some x => unsigned_within maximum x
      | None => false
      end
  end.

(** The entry at ["/log_level"] is missing, the empty string or the
    name of a level. *)
Definition names_log_level (doc : json) : bool :=
  match at_pointer (pointer_tokens "/log_level") doc with
  | None => true
  | Some entry =>
      match get_string entry with
      | Some s =>
          orb (String.eqb s "")
              (match log_level_named s with
               | Some _ => true
               | None => false
               end)
      | None => false
      end
  end.

(** A document of the shape that [parse_settings] requires (an object
    with an object under ["options"] and a string under ["name"]) in
    which every entry that [parse_settings] reads has a value of the type
    of its member, a number standing for a boolean included, the integers
    being within the bounds of their members. *)
Definition acceptable (doc : json) : bool :=
  is_object doc
  && (match at_key "options" doc with
      | Some o => is_object o
      | None => false
      end)
  && (match at_key "name" doc with
      | Some n => is_string n
      | None => false
      end)
  && converts get_string_map doc "/annotations"
  && forallb (fun o => converts get_string_vector doc (fst o)) vector_options
  && forallb (fun o => converts get_string doc (fst o)) string_options
  && names_log_level doc
  && forallb (fun o => boolean_or_number doc (fst (fst o))) bool_options
  && forallb (fun o => unsigned_entry doc (snd o) (fst (fst o)))
       uint_options.

End ParseSettings.

(* ===================================================================== *)
(** ** EndpointInfo, NettestContext, BytesInfo *)
(* ===================================================================== *)

(** [EndpointType] is [uint8_t]. *)
Definition endpoint_type_none : Z := 0.
Definition endpoint_type_onion : Z := 1.
Definition endpoint_type_cloudfront : Z := 2.
Definition endpoint_type_https : Z := 3.

Module EndpointInfo.
Record t : Type := mk {
  type : Z;
  address : string;
  front : string          (* Only valid for endpoint_type_cloudfront *)
}.
End EndpointInfo.

Module NettestContext.
Record t : Type := mk {
  collectors : list EndpointInfo.t;
  probe_asn : string;
  probe_cc : string;
  probe_ip : string;
  probe_network_name : string;
  report_id : string;
  resolver_ip : string;
  test_helpers : StdMap.t (list EndpointInfo.t)
}.

(** [NettestContext ctx;] *)
Definition default : t :=
  mk [] "" "" "" "" "" "" StdMap.empty.

Definition set_collectors v (c : t) : t :=
  mk v (probe_asn c) (probe_cc c) (probe_ip c) (probe_network_name c)
     (report_id c) (resolver_ip c) (test_helpers c).
Definition set_probe_asn v (c : t) : t :=
  mk (collectors c) v (probe_cc c) (probe_ip c) (probe_network_name c)
     (report_id c) (resolver_ip c) (test_helpers c).
Definition set_probe_cc v (c : t) : t :=
  mk (collectors c) (probe_asn c) v (probe_ip c) (probe_network_name c)
     (report_id c) (resolver_ip c) (test_helpers c).
Definition set_probe_ip v (c : t) : t :=
  mk (collectors c) (probe_asn c) (probe_cc c) v (probe_network_name c)
     (report_id c) (resolver_ip c) (test_helpers c).
Definition set_probe_network_name v (c : t) : t :=
  mk (collectors c) (probe_asn c) (probe_cc c) (probe_ip c) v
     (report_id c) (resolver_ip c) (test_helpers c).
Definition set_report_id v (c : t) : t :=
  mk (collectors c) (probe_asn c) (probe_cc c) (probe_ip c)
     (probe_network_name c) v (resolver_ip c) (test_helpers c).
Definition set_resolver_ip v (c : t) : t :=
  mk (collectors c) (probe_asn c) (probe_cc c) (probe_ip c)
     (probe_network_name c) (report_id c) v (test_helpers c).
Definition set_test_helpers v (c : t) : t :=
  mk (collectors c) (probe_asn c) (probe_cc c) (probe_ip c)
     (probe_network_name c) (report_id c) (resolver_ip c) v.
End NettestContext.

Module BytesInfo.
(** Two [std::atomic<uint64_t>] counters. *)
Record t : Type := mk {
  bytes_down : Z;
  bytes_up : Z
}.

Definition zero : t := mk 0 0.
End BytesInfo.

(* ===================================================================== *)
(** ** Text helpers of the header *)
(* ===================================================================== *)

(** [constexpr long curl_timeout = 5]. *)
Definition curl_timeout : Z := 5.

(** [without_final_slash]: the loop drops one trailing slash per round; a
    string of [n] characters needs at most [n] rounds. *)
Fixpoint without_final_slash_loop (rounds : nat) (src : string) : string :=
  match rounds with
  | O => src
  | S rounds' =>
      let size := String.length src in
      if andb (Nat.ltb 0 size)
              (match String.get (size - 1) src with
               | Some c => Ascii.eqb c "/"%char
               | None => false
               end)
      then without_final_slash_loop rounds' (String.substring 0 (size - 1) src)
      else src
  end.

Definition without_final_slash (src : string) : string :=
  without_final_slash_loop (String.length src) src.

(** A run of [k] slashes. *)
Fixpoint slashes (k : nat) : string :=
  match k with
  | O => ""
  | S k' => String "/"%char (slashes k')
  end.

(** [isspace] and [tolower] in the "C" locale. *)
Definition isspace (c : ascii) : bool :=
  let n := nat_of_ascii c in
  orb (Nat.eqb n 32) (andb (Nat.leb 9 n) (Nat.leb n 13)).

Definition tolower (c : ascii) : ascii :=
  let n := nat_of_ascii c in
  if andb (Nat.leb 65 n) (Nat.leb n 90) then ascii_of_nat (n + 32) else c.

(** The loop of [xml_extract] that appends to [*result]. *)
Fixpoint append_lowered (input : string) (result : string) : string :=
  match input with
  | EmptyString => result
  | String ch input' =>
      if isspace ch then append_lowered input' result
      else append_lowered input' (result +++ String (tolower ch) "")
  end.

(** [xml_extract(input, open_tag, close_tag, result)]: the returned flag and
    the final contents of [*result]. *)
Definition xml_extract (input open_tag close_tag : string) (result : string)
  : bool * string :=
  match String.index 0 open_tag input with
  | None => (false, result)
  | Some pos =>
      let start := (pos + String.length open_tag)%nat in
      let input := String.substring start (String.length input - start) input in
      match String.index 0 close_tag input with
      | None => (false, result)
      | Some pos => (true, append_lowered (String.substring 0 pos input) result)
      end
  end.

(** What the loop of [xml_extract] makes of the characters [input]. *)
Definition squeezed (input : string) : string := append_lowered input "".

(** Whether an occurrence of [tag] in [pre] followed by [rest] begins
    within [pre]. *)
Fixpoint begins_within (tag pre rest : string) : bool :=
  match pre with
  | EmptyString => false
  | String _ pre' =>
      orb (String.prefix tag (pre +++ rest)) (begins_within tag pre' rest)
  end.

(** An upper-case letter of the "C" locale. *)
Definition isupper (c : ascii) : bool :=
  let n := nat_of_ascii c in
  andb (Nat.leb 65 n) (Nat.leb n 90).

(** *** UUID4 *)

Module sole.
Record uuid : Type := mk { ab : Z; cd : Z }.   (* two uint64_t *)

Definition hex_digit (n : Z) : ascii :=
  if n <? 10 then ascii_of_N (Z.to_N (48 + n))
  else ascii_of_N (Z.to_N (87 + n)).

(** [std::hex << std::nouppercase << std::setfill('0') << std::setw(w)] of
    a value that fits [w] digits. *)
Fixpoint hex (w : nat) (n : Z) : string :=
  match w with
  | O => ""
  | S w' => hex w' (Z.shiftr n 4) +++ String (hex_digit (Z.land n 15)) ""
  end.

Definition str (u : uuid) : string :=
  let a := Z.shiftr (ab u) 32 in
  let b := Z.land (ab u) 0xFFFFFFFF in
  let c := Z.shiftr (cd u) 32 in
  let d := Z.land (cd u) 0xFFFFFFFF in
  hex 8 a +++ "-"
  +++ hex 4 (Z.shiftr b 16) +++ "-"
  +++ hex 4 (Z.land b 0xFFFF) +++ "-"
  +++ hex 4 (Z.shiftr c 16) +++ "-"
  +++ hex 4 (Z.land c 0xFFFF)
  +++ hex 8 d.

(** [uuid4()] from the two draws of the random device. *)
Definition uuid4 (r1 r2 : Z) : uuid :=
  let ab := r1 mod UINT64_MOD in
  let cd := r2 mod UINT64_MOD in
  mk (Z.lor (Z.land ab 0xFFFFFFFFFFFF0FFF) 0x0000000000004000)
     (Z.lor (Z.land cd 0x3FFFFFFFFFFFFFFF) 0x8000000000000000).
End sole.

(* ===================================================================== *)
(** ** The outside world *)
(* ===================================================================== *)

(** Everything the header reaches through a library or through a virtual
    method whose body only wraps one (cURL, libmaxminddb, [getaddrinfo],
    the clocks, the random device, the thread scheduler) is a function of an
    abstract [World] that returns the next [World].  Out-parameters appear
    as arguments (the value on entry) and results (the value on exit). *)

Module Nettest.
Record t (World : Type) : Type := mk {
  name : string;
  test_helpers : list string;
  version : string;
  needs_input : bool;
  (** [run(settings, context, input, test_keys, info)]: the returned flag,
      [*test_keys] and [*info] on exit. *)
  run : Settings.t -> NettestContext.t -> string -> Json.json ->
        BytesInfo.t -> World -> bool * Json.json * BytesInfo.t * World
}.
Arguments name {World}.
Arguments test_helpers {World}.
Arguments version {World}.
Arguments needs_input {World}.
Arguments run {World}.
End Nettest.

Module Env.
Record t (World : Type) : Type := mk {
  (** [Runner::query_bouncer]: flag, [*collectors], [*helpers], [*info],
      [*err]. *)
  query_bouncer :
    string -> list string -> string ->
    list EndpointInfo.t -> StdMap.t (list EndpointInfo.t) ->
    BytesInfo.t -> ErrContext.t -> World ->
    bool * list EndpointInfo.t * StdMap.t (list EndpointInfo.t)
    * BytesInfo.t * ErrContext.t * World;
  (** [Runner::lookup_asn]: flag, [*asn], [*network_name], [*err]. *)
  lookup_asn :
    string -> string -> string -> string -> ErrContext.t -> World ->
    bool * string * string * ErrContext.t * World;
  (** [Runner::lookup_cc]: flag, [*cc], [*err]. *)
  lookup_cc :
    string -> string -> string -> ErrContext.t -> World ->
    bool * string * ErrContext.t * World;
  (** [Runner::lookup_resolver_ip]: flag, [*ip], [*info], [*err]. *)
  lookup_resolver_ip :
    string -> BytesInfo.t -> ErrContext.t -> World ->
    bool * string * BytesInfo.t * ErrContext.t * World;
  (** [Runner::curlx_post_json(url, requestbody, timeout, ...)]: flag,
      [*responsebody], [*info], [*err]. *)
  curlx_post_json :
    string -> string -> Z -> BytesInfo.t -> ErrContext.t -> World ->
    bool * string * BytesInfo.t * ErrContext.t * World;
  (** [Runner::curlx_get(url, timeout, ...)]. *)
  curlx_get :
    string -> Z -> BytesInfo.t -> ErrContext.t -> World ->
    bool * string * BytesInfo.t * ErrContext.t * World;
  (** [nlohmann::json::parse]: the document, or [what()] of the
      exception. *)
  json_parse : string -> Json.json + string;
  (** [json::dump()]: the text, or [what()] of the exception thrown on
      data that is not UTF-8. *)
  json_dump : Json.json -> string + string;
  (** [what()] of the exception raised when [doc.at("report_id")] cannot
      be read as a string. *)
  report_id_what : Json.json -> string;
  nlohmann_json_version : string;
  LIBNETTEST2_PLATFORM : string;
  (** [format_system_clock_now()]. *)
  format_system_clock_now : World -> string * World;
  (** [std::chrono::steady_clock::now()], in seconds. *)
  steady_clock_now : World -> Q * World;
  (** One draw of [dist(rd)] in [sole::uuid4]. *)
  random_device : World -> Z * World;
  (** [std::shuffle] with a freshly seeded [std::mt19937]. *)
  shuffle : list string -> World -> list string * World;
  (** The current value of [interrupted_], set by [Runner::interrupt()]
      from another thread. *)
  interrupted : World -> bool;
  (** The thread scheduler: which runnable worker moves next. *)
  schedule : World -> nat * World;
  (** The thread scheduler again: whether the main thread gets to test
      [active] before the next move of a worker. *)
  main_polls : World -> bool * World
}.
Arguments query_bouncer {World}.
Arguments lookup_asn {World}.
Arguments lookup_cc {World}.
Arguments lookup_resolver_ip {World}.
Arguments curlx_post_json {World}.
Arguments curlx_get {World}.
Arguments json_parse {World}.
Arguments json_dump {World}.
Arguments report_id_what {World}.
Arguments nlohmann_json_version {World}.
Arguments LIBNETTEST2_PLATFORM {World}.
Arguments format_system_clock_now {World}.
Arguments steady_clock_now {World}.
Arguments random_device {World}.
Arguments shuffle {World}.
Arguments interrupted {World}.
Arguments schedule {World}.
Arguments main_polls {World}.
End Env.

(* ===================================================================== *)
(** ** The reply of the bouncer *)
(* ===================================================================== *)

(** The second [try] block of [Runner::query_bouncer]: what the loops
    over the parsed reply push into [*collectors] and [*test_helpers].
    Each function returns false when an exception of the JSON library
    leaves the block, together with what had been pushed until then. *)
Module Bouncer.
Import Json.

(** [for (auto &entry : j)]: the elements of an array, the values of an
    object, nothing for null, the value itself for any other value. *)
Definition elements (j : json) : list json :=
  match j with
  | JArray l => l
  | JObject o => List.map snd o
  | JNull => []
  | _ => [j]
  end.

(** [for (auto &entry : j.items())]: [entry.key()] and [entry.value()];
    the key of an array element is its index. *)
Definition items (j : json) : list (string * json) :=
  match j with
  | JObject o => o
  | JArray l =>
      combine (List.map (fun n => decimal (Z.of_nat n))
                 (seq 0 (List.length l))) l
  | JNull => []
  | _ => [("", j)]
  end.

(** [j == "text"]. *)
Definition equals (j : json) (text : string) : bool :=
  match j with
  | JString s => String.eqb s text
  | _ => false
  end.

(** [std::string s = j.at(key)]. *)
Definition string_at (key : string) (j : json) : option string :=
  option_bind (at_key key j) get_string.

(** The body of the loops over alternate endpoints, up to the
    [push_back]: [None] when [at] or a conversion throws, [Some None] on
    [continue], the endpoint otherwise. *)
Definition alternate (entry : json) : option (option EndpointInfo.t) :=
  match at_key "type" entry with
  | None => None
  | Some type =>
      if equals type "https" then
        match string_at "address" entry with
        | None => None
        | Some address =>
            Some (Some (EndpointInfo.mk endpoint_type_https address ""))
        end
      else if equals type "cloudfront" then
        match string_at "address" entry with
        | None => None
        | Some address =>
            match string_at "front" entry with
            | None => None
            | Some front =>
                Some (Some (EndpointInfo.mk endpoint_type_cloudfront
                              address front))
            end
        end
      else Some None
  end.

(** [for (auto &entry : entry.at("collector-alternate"))]. *)
Fixpoint collector_alternates (entries : list json)
    (collectors : list EndpointInfo.t) : bool * list EndpointInfo.t :=
  match entries with
  | [] => (true, collectors)
  | entry :: entries' =>
      match alternate entry with
      | None => (false, collectors)
      | Some None => collector_alternates entries' collectors
      | Some (Some info) =>
          collector_alternates entries' (collectors ++ [info])
      end
  end.

(** [push_back(info)] on the list under [key] in [*test_helpers], which
    [operator[]] creates when the key is new. *)
Definition push_back (key : string) (info : EndpointInfo.t)
    (test_helpers : StdMap.t (list EndpointInfo.t))
  : StdMap.t (list EndpointInfo.t) :=
  StdMap.insert_or_assign key
    (match StdMap.find key test_helpers with
     | Some l => l
     | None => []
     end ++ [info])
    test_helpers.

(** [for (auto &entry : entry.at("test-helpers").items())]. *)
Fixpoint helpers (entries : list (string * json))
    (test_helpers : StdMap.t (list EndpointInfo.t))
  : bool * StdMap.t (list EndpointInfo.t) :=
  match entries with
  | [] => (true, test_helpers)
  | (key, value) :: entries' =>
      match get_string value with
      | None => (false, test_helpers)
      | Some address =>
          helpers entries'
            (push_back key (EndpointInfo.mk endpoint_type_onion address "")
               test_helpers)
      end
  end.

(** [for (auto &entry : entry.value())], the alternates of one helper. *)
Fixpoint helper_alternates (key : string) (entries : list json)
    (test_helpers : StdMap.t (list EndpointInfo.t))
  : bool * StdMap.t (list EndpointInfo.t) :=
  match entries with
  | [] => (true, test_helpers)
  | entry :: entries' =>
      match alternate entry with
      | None => (false, test_helpers)
      | Some None => helper_alternates key entries' test_helpers
      | Some (Some info) =>
          helper_alternates key entries' (push_back key info test_helpers)
      end
  end.

(** [for (auto &entry : entry.at("test-helpers-alternate").items())]. *)
Fixpoint helpers_alternate (entries : list (string * json))
    (test_helpers : StdMap.t (list EndpointInfo.t))
  : bool * StdMap.t (list EndpointInfo.t) :=
  match entries with
  | [] => (true, test_helpers)
  | (key, value) :: entries' =>
      let (ok, test_helpers) :=
        helper_alternates key (elements value) test_helpers in
      if ok then helpers_alternate entries' test_helpers
      else (false, test_helpers)
  end.

(** The body of [for (auto &entry : doc.at("net-tests"))]. *)
Definition net_test (entry : json) (collectors : list EndpointInfo.t)
    (test_helpers : StdMap.t (list EndpointInfo.t))
  : bool * list EndpointInfo.t * StdMap.t (list EndpointInfo.t) :=
  match string_at "collector" entry with
  | None => (false, collectors, test_helpers)
  | Some address =>
      let collectors :=
        collectors ++ [EndpointInfo.mk endpoint_type_onion address ""] in
      match at_key "collector-alternate" entry with
      | None => (false, collectors, test_helpers)
      | Some alternates =>
          let (ok, collectors) :=
            collector_alternates (elements alternates) collectors in
          if negb ok then (false, collectors, test_helpers)
          else
            match at_key "test-helpers" entry with
            | None => (false, collectors, test_helpers)
            | Some named =>
                let (ok, test_helpers) :=
                  helpers (items named) test_helpers in
                if negb ok then (false, collectors, test_helpers)
                else
                  match at_key "test-helpers-alternate" entry with
                  | None => (false, collectors, test_helpers)
                  | Some named =>
                      let (ok, test_helpers) :=
                        helpers_alternate (items named) test_helpers in
                      (ok, collectors, test_helpers)
                  end
            end
      end
  end.

Fixpoint net_tests (entries : list json) (collectors : list EndpointInfo.t)
    (test_helpers : StdMap.t (list EndpointInfo.t))
  : bool * list EndpointInfo.t * StdMap.t (list EndpointInfo.t) :=
  match entries with
  | [] => (true, collectors, test_helpers)
  | entry :: entries' =>
      let '(ok, collectors, test_helpers) :=
        net_test entry collectors test_helpers in
      if ok then net_tests entries' collectors test_helpers
      else (false, collectors, test_helpers)
  end.

(** The block on the parsed reply [doc], entered with [*collectors] and
    [*test_helpers] as given (the method has cleared both). *)
Definition read_reply (doc : json) (collectors : list EndpointInfo.t)
    (test_helpers : StdMap.t (list EndpointInfo.t))
  : bool * list EndpointInfo.t * StdMap.t (list EndpointInfo.t) :=
  match at_key "net-tests" doc with
  | None => (false, collectors, test_helpers)
  | Some tests => net_tests (elements tests) collectors test_helpers
  end.

(** An endpoint as the block builds them: of one of the three types,
    with a front only when it is a cloudfront endpoint. *)
Definition typed (info : EndpointInfo.t) : Prop :=
  (EndpointInfo.type info = endpoint_type_onion
   /\ EndpointInfo.front info = "")
  \/ (EndpointInfo.type info = endpoint_type_https
      /\ EndpointInfo.front info = "")
  \/ EndpointInfo.type info = endpoint_type_cloudfront.

End Bouncer.

(* ===================================================================== *)
(** ** The write callback given to libcurl *)
(* ===================================================================== *)

Module Curl.

Definition SIZE_MAX : Z := 18446744073709551615.

(** [libnettest2_curl_stringstream_callback(ptr, size, nmemb, userdata)]:
    the returned count and the contents of the stream afterwards; [ptr]
    stands for the bytes that libcurl hands over, [ss] for the stream
    before the call.  [assert(false)] ends the process ([None]) unless
    the header is compiled with [NDEBUG]. *)
Definition libnettest2_curl_stringstream_callback (NDEBUG : bool)
    (ptr : string) (size nmemb : Z) (ss : string) : option (Z * string) :=
  if nmemb <=? 0 then Some (0, ss)                 (* "no body" *)
  else if SIZE_MAX / nmemb <? size then
    if NDEBUG then Some (0, ss) else None          (* assert(false) *)
  else
    let realsiz := (size * nmemb) mod (SIZE_MAX + 1) in
    Some (nmemb, ss +++ String.substring 0 (Z.to_nat realsiz) ptr).

End Curl.

(* ===================================================================== *)
(** ** Doubles *)
(* ===================================================================== *)

(** The arithmetic of [double] on the rationals that doubles denote: the
    exact result, rounded to the nearest binary64 number. *)
Module Double.

(** [2^e] as a rational, for any integer [e]. *)
Definition pow2 (e : Z) : Q :=
  if 0 <=? e then inject_Z (2 ^ e) else 1 # Pos.pow 2 (Z.to_pos (- e)).

(** The exponent [e] with [2^e <= n / d < 2^(e + 1)], for positive [n] and
    [d]. *)
Definition ilog2 (n d : Z) : Z :=
  let e := Z.log2 n - Z.log2 d in
  if Qle_bool (pow2 e) (n # Z.to_pos d) then e else e - 1.

(** The integer nearest to [n / d], the even one of two that are equally
    near ([n >= 0], [d > 0]). *)
Definition nearest_even (n d : Z) : Z :=
  let q := n / d in
  let r := n mod d in
  if 2 * r <? d then q
  else if d <? 2 * r then q + 1
  else if Z.even q then q else q + 1.

(** The finite binary64 number nearest to a non-negative rational (the
    overflow to infinity apart): 53 bits of precision, exponents down to
    that of the subnormal numbers. *)
Definition round_pos (x : Q) : Q :=
  let n := Qnum x in
  let d := Zpos (Qden x) in
  if n <=? 0 then 0%Q
  else
    let e := Z.max (-1074) (ilog2 n d - 52) in
    let m := if 0 <=? e then nearest_even n (d * 2 ^ e)
             else nearest_even (n * 2 ^ (- e)) d in
    Qred (Qmult (inject_Z m) (pow2 e)).

(** Rounding to nearest, ties to even. *)
Definition round (x : Q) : Q :=
  if Qle_bool 0 x then round_pos x else Qopp (round_pos (Qopp x)).

(** [x * y] and [x / y] on doubles. *)
Definition mul (x y : Q) : Q := round (Qmult x y).
Definition div (x y : Q) : Q := round (Qdiv x y).

End Double.

(* ===================================================================== *)
(** ** The parallel dispatcher *)
(* ===================================================================== *)

Module Dispatcher.

(** Where a worker thread stands in the lambda of [Runner::run()]: created
    and not yet running, about to evaluate the loop condition, past that
    test and about to take the mutex, holding an index it has claimed
    under the mutex, or past [active -= 1]. *)
Inductive Worker : Type :=
| NotStarted
| AtLoopTop
| PastTest
| Holding (idx : Z)
| Exited.

Section Pool.
(** What the workers share besides the index: the state on which
    [run_with_index32] and the interrupt flag act. *)
Variable Shared : Type.
Variable interrupted : Shared -> bool.
Variable run_with_index32 : Z -> Shared -> option (bool * Shared).
(** [cinputs.size()]. *)
Variable size : Z.

(** [i] and [active] are the atomics of [Runner::run()].  [claimed] is a
    history variable: which worker took which index, in the order of
    the critical sections. *)
Record Pool : Type := mkPool {
  i : Z;                        (* std::atomic<uint64_t> *)
  active : Z;                   (* std::atomic<uint8_t> *)
  workers : list Worker;
  claimed : list (nat * Z);
  shared : Shared
}.

Fixpoint set_worker (w : nat) (x : Worker) (ws : list Worker)
  : list Worker :=
  match ws, w with
  | [], _ => []
  | _ :: ws', O => x :: ws'
  | y :: ws', S w' => y :: set_worker w' x ws'
  end.

(** The first statement of the lambda: [active += 1]. *)
Definition enter (w : nat) (p : Pool) : Pool :=
  mkPool (i p) ((active p + 1) mod 256) (set_worker w AtLoopTop (workers p))
         (claimed p) (shared p).

(** Leaving the loop: [active -= 1]. *)
Definition leave (w : nat) (p : Pool) : Pool :=
  mkPool (i p) ((active p - 1) mod 256) (set_worker w Exited (workers p))
         (claimed p) (shared p).

(** One move of worker [w].  A thread that has not run yet counts itself
    in.  At the loop top it tests [interrupted_].  Past the test it
    enters the critical section, which claims an index or breaks out of
    the loop; the flag is not read again there.  While holding an index
    it calls [run_with_index32]. *)
Definition step (w : nat) (p : Pool) : option Pool :=
  match nth_error (workers p) w with
  | None | Some Exited => Some p
  | Some NotStarted => Some (enter w p)
  | Some AtLoopTop =>
      if interrupted (shared p) then Some (leave w p)
      else Some (mkPool (i p) (active p)
                        (set_worker w PastTest (workers p))
                        (claimed p) (shared p))
  | Some PastTest =>
      if orb (UINT32_MAX <? i p) (size <=? i p) then Some (leave w p)
      else
        let idx := i p mod 2 ^ 32 in        (* (uint32_t)i *)
        Some (mkPool ((i p + 1) mod UINT64_MOD) (active p)
                     (set_worker w (Holding idx) (workers p))
                     (claimed p ++ [(w, idx)]) (shared p))
  | Some (Holding idx) =>
      match run_with_index32 idx (shared p) with
      | None => None
      | Some (true, s') =>
          Some (mkPool (i p) (active p)
                       (set_worker w AtLoopTop (workers p))
                       (claimed p) s')
      | Some (false, s') =>
          Some (leave w (mkPool (i p) (active p) (workers p)
                                (claimed p) s'))
      end
  end.

(** The pool once the main thread has created and detached its [n]
    threads: none of them has run yet, and [active] is still zero. *)
Definition start (n : nat) (s : Shared) : Pool :=
  mkPool 0 0 (repeat NotStarted n) [] s.

(** A run of the pool under an explicit interleaving. *)
Fixpoint exec (sched : list nat) (p : Pool) : option Pool :=
  match sched with
  | [] => Some p
  | w :: sched' =>
      match step w p with
      | Some p' => exec sched' p'
      | None => None
      end
  end.

Definition is_exited (x : Worker) : bool :=
  match x with Exited => true | _ => false end.

Definition all_exited (p : Pool) : bool := forallb is_exited (workers p).

(** A worker that is between its [active += 1] and its [active -= 1]. *)
Definition in_loop (x : Worker) : bool :=
  match x with
  | AtLoopTop | PastTest | Holding _ => true
  | NotStarted | Exited => false
  end.

(** No worker is inside the lambda: each has either not run yet or
    left. *)
Definition none_in_loop (p : Pool) : bool :=
  forallb (fun x => negb (in_loop x)) (workers p).

(** The workers that can still move. *)
Fixpoint runnable_from (k : nat) (ws : list Worker) : list nat :=
  match ws with
  | [] => []
  | x :: ws' =>
      if is_exited x then runnable_from (S k) ws'
      else k :: runnable_from (S k) ws'
  end.

Definition runnable (p : Pool) : list nat := runnable_from 0 (workers p).

Definition with_shared (s : Shared) (p : Pool) : Pool :=
  mkPool (i p) (active p) (workers p) (claimed p) s.

(** The main thread's [while (active > 0)] next to the workers.  Before
    each move of a worker the scheduler says, through [poll], whether the
    main thread gets to test [active] first; the main thread goes on as
    soon as it reads zero, also when threads have not run yet.  A test
    that reads a positive value changes nothing.  The scheduler then
    [pick]s the worker that moves; [fuel] bounds the number of moves. *)
Variable poll : Shared -> bool * Shared.
Variable pick : Shared -> nat * Shared.

Fixpoint wait (fuel : nat) (p : Pool) : option Pool :=
  match fuel with
  | O => Some p
  | S fuel' =>
      let (tests, s1) := poll (shared p) in
      let p1 := with_shared s1 p in
      if andb tests (active p1 <=? 0) then Some p1
      else
        let (n, s2) := pick (shared p1) in
        let p2 := with_shared s2 p1 in
        match runnable p2 with
        | [] => Some p2
        | w0 :: _ =>
            let w := nth (n mod List.length (runnable p2)) (runnable p2) w0 in
            match step w p2 with
            | Some p' => wait fuel' p'
            | None => None
            end
        end
  end.

(** The indices below [n], in increasing order. *)
Definition zrange (n : Z) : list Z :=
  List.map Z.of_nat (seq 0 (Z.to_nat n)).

(** Where the shared index stops: the size of the input list, capped
    by the 32 bit ceiling. *)
Definition ceiling : Z := Z.max 0 (Z.min size (UINT32_MAX + 1)).

(** What every reachable pool satisfies. *)
Definition consistent (p : Pool) : Prop :=
  0 <= i p <= ceiling
  /\ List.map snd (claimed p) = zrange (i p)
  /\ Forall (fun x => match x with
                      | Holding idx => 0 <= idx < i p
                      | _ => True
                      end) (workers p)
  /\ Forall (fun c => (fst c < List.length (workers p))%nat) (claimed p).

(** When no interrupt and no timeout fires, a worker has left only
    when the shared index had reached the ceiling. *)
Definition drained (p : Pool) : Prop :=
  (exists w, nth_error (workers p) w = Some Exited) -> i p = ceiling.

(** The moves a worker still has to make before it can leave, not
    counting the indices it may yet claim. *)
Definition weight (x : Worker) : Z :=
  match x with
  | NotStarted => 3
  | AtLoopTop => 2
  | PastTest => 1
  | Holding _ => 3
  | Exited => 0
  end.

Definition total_weight (ws : list Worker) : Z :=
  fold_right Z.add 0 (List.map weight ws).

(** Every move of a runnable worker lowers this measure, so that many
    moves empty the pool. *)
Definition moves_left (p : Pool) : Z :=
  3 * (ceiling - i p) + total_weight (workers p).

(** [active] counts the workers that are inside the lambda. *)
Definition counted (p : Pool) : Prop :=
  active p = Z.of_nat (List.length (filter in_loop (workers p)))
  /\ (List.length (workers p) <= 255)%nat.
End Pool.

(** A worker that has not claimed since it last came to the loop top (or
    has not claimed at all). *)
Definition may_claim (x : Worker) : bool :=
  match x with
  | NotStarted | AtLoopTop | PastTest => true
  | Holding _ | Exited => false
  end.

(** How many workers may still claim an index before a call of
    [run_with_index32] returns. *)
Definition claimers (ws : list Worker) : nat :=
  List.length (filter may_claim ws).

(** A worker that has found the flag down and has not yet entered the
    critical section. *)
Definition past_test (x : Worker) : bool :=
  match x with PastTest => true | _ => false end.

Definition past_the_test (ws : list Worker) : nat :=
  List.length (filter past_test ws).
End Dispatcher.

(* ===================================================================== *)
(** ** Runner *)
(* ===================================================================== *)

Module Runner.
Import Json.

(** The calls of the Runner's own virtual methods and of the nettest are
    recorded next to the events (a history variable; the header keeps no
    such log). *)
Inductive Call : Type :=
| call_query_bouncer
| call_lookup_ip
| call_lookup_asn (dbpath ip : string)
| call_lookup_cc (dbpath ip : string)
| call_lookup_resolver_ip
| call_open_report (collector_base_url : string)
| call_update_report (collector_base_url report_id json_str : string)
| call_close_report (collector_base_url report_id : string)
| call_nettest_run (input : string).

(** What a run leaves behind, in order: the JSON documents handed to
    [on_event] and the calls above. *)
Inductive Item : Type :=
| Emitted (event : json)
| Called (c : Call).

Section WithWorld.
Context {World : Type}.

Record State : Type := mkState {
  world : World;
  trace : list Item;
  info : BytesInfo.t          (* the [BytesInfo info{}] of [run()] *)
}.

(** A computation either finishes with a value and a state or ends the
    process ([None]). *)
Definition M (A : Type) : Type := State -> option (A * State).

Definition ret {A : Type} (a : A) : M A := fun st => Some (a, st).

Definition bind {A B : Type} (m : M A) (k : A -> M B) : M B :=
  fun st => match m st with
            | Some (a, st') => k a st'
            | None => None
            end.

Definition terminate {A : Type} : M A := fun _ => None.

Definition log_item (x : Item) : M unit :=
  fun st => Some (tt, mkState (world st) (trace st ++ [x]) (info st)).

Definition the_world {A : Type} (f : World -> A * World) : M A :=
  fun st => let (a, w) := f (world st) in
            Some (a, mkState w (trace st) (info st)).

Definition get_info : M BytesInfo.t := fun st => Some (info st, st).

Definition put_info (b : BytesInfo.t) : M unit :=
  fun st => Some (tt, mkState (world st) (trace st) b).

Definition put_world (w : World) : M unit :=
  fun st => Some (tt, mkState w (trace st) (info st)).

Definition get_world : M World := fun st => Some (world st, st).

(** A JSON operation that throws inside a [noexcept] function. *)
Definition or_terminate {A : Type} (o : option A) : M A :=
  match o with
  | Some a => ret a
  | None => terminate
  end.
End WithWorld.

Arguments State : clear implicits.
Arguments M : clear implicits.

Declare Scope runner_scope.
Delimit Scope runner_scope with runner.
Notation "x <- m ;; k" := (bind m (fun x => k))
  (at level 61, m at next level, right associativity) : runner_scope.
Notation "' p <- m ;; k" := (bind m (fun x => match x with p => k end))
  (at level 61, p pattern, m at next level, right associativity)
  : runner_scope.
Notation "m ;; k" := (bind m (fun _ => k))
  (at level 61, right associativity) : runner_scope.

Section Methods.
Context {World : Type}.
Variable env : Env.t World.
Variable nettest_ : Nettest.t World.
Variable settings_ : Settings.t.

Local Open Scope runner_scope.

(** [Runner::emit_ev]: the event is [{"key": key, "value": value}]. *)
Definition event (key : string) (value : json) : json :=
  object_of [("key", JString key); ("value", value)].

Definition emit_ev (key : string) (value : json) : M World unit :=
  log_item (Emitted (event key value)).

Definition get_log_level : LogLevel := Settings.log_level settings_.

(** [LIBNETTEST2_EMIT_LOG(self, level, uppercase_level, statements)]. *)
Definition EMIT_LOG (level : LogLevel) (uppercase_level : string)
    (statements : string) : M World unit :=
  if log_level_value level <=? log_level_value get_log_level then
    emit_ev "log"
      (object_of [("log_level", JString uppercase_level);
                  ("message", JString ("libnettest2: " +++ statements))])
  else ret tt.

Definition EMIT_WARNING := EMIT_LOG log_warning "WARNING".
Definition EMIT_INFO := EMIT_LOG log_info "INFO".
Definition EMIT_DEBUG := EMIT_LOG log_debug "DEBUG".

(** [to_json(j, ErrContext)]. *)
Definition err_to_json (ec : ErrContext.t) : json :=
  object_of [("code", JInt (ErrContext.code ec));
             ("library_name", JString (ErrContext.library_name ec));
             ("library_version", JString (ErrContext.library_version ec));
             ("reason", JString (ErrContext.reason ec))].

Definition library_error (err : ErrContext.t) : json :=
  object_of [("failure", JString "library_error");
             ("library_error_context", err_to_json err)].

Definition progress (percentage : Q) (message : string) : M World unit :=
  emit_ev "status.progress"
    (object_of [("percentage", JFloat percentage);
                ("message", JString message)]).

(** What the [catch] blocks around the JSON library store in [*err]. *)
Definition json_error (what : string) (err : ErrContext.t) : ErrContext.t :=
  (* err->reason = 1; then the three assignments that follow *)
  let err := ErrContext.mk (ErrContext.code err) (ErrContext.library_name err)
               (ErrContext.library_version err)
               (String (ascii_of_nat 1) "") in
  let err := ErrContext.mk (ErrContext.code err) "nlohmann/json"
               (ErrContext.library_version err) (ErrContext.reason err) in
  let err := ErrContext.mk (ErrContext.code err) (ErrContext.library_name err)
               (Env.nlohmann_json_version env) (ErrContext.reason err) in
  ErrContext.mk (ErrContext.code err) (ErrContext.library_name err)
    (ErrContext.library_version err) what.

(** The transport, acting on the [BytesInfo] of the run. *)
Definition curlx_post_json (url requestbody : string) (timeout : Z)
    (err : ErrContext.t) : M World (bool * string * ErrContext.t) :=
  fun st =>
    let '(ok, body, b, err', w) :=
      Env.curlx_post_json env url requestbody timeout (info st) err
        (world st) in
    Some ((ok, body, err'), mkState w (trace st) b).

Definition curlx_get (url : string) (timeout : Z) (err : ErrContext.t)
  : M World (bool * string * ErrContext.t) :=
  fun st =>
    let '(ok, body, b, err', w) :=
      Env.curlx_get env url timeout (info st) err (world st) in
    Some ((ok, body, err'), mkState w (trace st) b).

(** [Runner::query_bouncer(nettest_name, nettest_helper_names,
    nettest_version, collectors, helpers, info, err)]: flag,
    [*collectors], [*helpers], [*err]. *)
Definition query_bouncer (nettest_name : string)
    (nettest_helper_names : list string) (nettest_version : string)
    (collectors : list EndpointInfo.t)
    (helpers : StdMap.t (list EndpointInfo.t)) (err : ErrContext.t)
  : M World (bool * list EndpointInfo.t * StdMap.t (list EndpointInfo.t)
             * ErrContext.t) :=
  fun st =>
    let '(ok, collectors, helpers, b, err, w) :=
      Env.query_bouncer env nettest_name nettest_helper_names
        nettest_version collectors helpers (info st) err (world st) in
    Some ((ok, collectors, helpers, err), mkState w (trace st) b).

(** [Runner::lookup_asn(dbpath, probe_ip, asn, network_name, err)]:
    flag, [*asn], [*network_name], [*err]. *)
Definition lookup_asn (dbpath probe_ip asn network_name : string)
    (err : ErrContext.t) : M World (bool * string * string * ErrContext.t) :=
  fun st =>
    let '(ok, asn, network_name, err, w) :=
      Env.lookup_asn env dbpath probe_ip asn network_name err (world st) in
    Some ((ok, asn, network_name, err), mkState w (trace st) (info st)).

(** [Runner::lookup_cc(dbpath, probe_ip, cc, err)]: flag, [*cc],
    [*err]. *)
Definition lookup_cc (dbpath probe_ip cc : string) (err : ErrContext.t)
  : M World (bool * string * ErrContext.t) :=
  fun st =>
    let '(ok, cc, err, w) :=
      Env.lookup_cc env dbpath probe_ip cc err (world st) in
    Some ((ok, cc, err), mkState w (trace st) (info st)).

(** [Runner::lookup_resolver_ip(ip, info, err)]: flag, [*ip], [*err]. *)
Definition lookup_resolver_ip (ip : string) (err : ErrContext.t)
  : M World (bool * string * ErrContext.t) :=
  fun st =>
    let '(ok, ip, b, err, w) :=
      Env.lookup_resolver_ip env ip (info st) err (world st) in
    Some ((ok, ip, err), mkState w (trace st) b).

(** [Runner::lookup_ip(ip, info, err)]: flag, [*ip], [*err]. *)
Definition lookup_ip (ip : string) (err : ErrContext.t)
  : M World (bool * string * ErrContext.t) :=
  let ip := "" in                                   (* ip->clear() *)
  let url := "https://geoip.ubuntu.com/lookup" in
  EMIT_DEBUG ("lookup_ip: URL: " +++ url) ;;
  '(ok, responsebody, err) <- curlx_get url curl_timeout err ;;
  if negb ok then ret (false, ip, err)
  else
    EMIT_DEBUG ("lookup_ip: response: " +++ responsebody) ;;
    let (found, ip) := xml_extract responsebody "<Ip>" "</Ip>" ip in
    ret (found, ip, err).

(** [Runner::open_report]: flag, [*report_id], [*err]. *)
Definition open_report (collector_base_url test_start_time : string)
    (context : NettestContext.t) (report_id : string) (err : ErrContext.t)
  : M World (bool * string * ErrContext.t) :=
  let report_id := "" in                            (* report_id->clear() *)
  let doc :=
    set_path ["data_format_version"] (JString "0.2.0") JNull in
  let doc := option_bind doc (set_path ["format"] (JString "json")) in
  let doc := option_bind doc (set_path ["input_hashes"] (JArray [])) in
  let doc := option_bind doc
    (set_path ["probe_asn"] (JString (NettestContext.probe_asn context))) in
  let doc := option_bind doc
    (set_path ["probe_cc"] (JString (NettestContext.probe_cc context))) in
  let doc := option_bind doc
    (set_path ["software_name"] (JString (Settings.software_name settings_))) in
  let doc := option_bind doc
    (set_path ["software_version"]
              (JString (Settings.software_version settings_))) in
  let doc := option_bind doc
    (set_path ["test_name"] (JString (Nettest.name nettest_))) in
  let doc := option_bind doc
    (set_path ["test_start_time"] (JString test_start_time)) in
  let doc := option_bind doc
    (set_path ["test_version"] (JString (Nettest.version nettest_))) in
  doc <- or_terminate doc ;;     (* [doc] starts null: nothing throws *)
  match Env.json_dump env doc with
  | inr what =>
      EMIT_WARNING "open_report: cannot serialize JSON" ;;
      ret (false, report_id, json_error what err)
  | inl requestbody =>
      EMIT_DEBUG ("open_report: JSON request: " +++ requestbody) ;;
      let url := without_final_slash collector_base_url +++ "/report" in
      EMIT_DEBUG ("open_report: URL: " +++ url) ;;
      '(ok, responsebody, err) <-
        curlx_post_json url requestbody curl_timeout err ;;
      if negb ok then ret (false, report_id, err)
      else
        EMIT_DEBUG ("open_report: JSON reply: " +++ responsebody) ;;
        match Env.json_parse env responsebody with
        | inr what =>
            EMIT_WARNING ("open_report: can't parse reply: " +++ what) ;;
            ret (false, report_id, json_error what err)
        | inl doc =>
            match option_bind (at_key "report_id" doc) get_string with
            | Some id => ret (true, id, err)
            | None =>
                let what := Env.report_id_what env doc in
                EMIT_WARNING ("open_report: can't parse reply: " +++ what) ;;
                ret (false, report_id, json_error what err)
            end
        end
  end.

(** [Runner::update_report]: flag and [*err]. *)
Definition update_report (collector_base_url report_id json_str : string)
    (err : ErrContext.t) : M World (bool * ErrContext.t) :=
  let url := without_final_slash collector_base_url in
  let url := url +++ "/report/" in
  let url := url +++ report_id in
  let message := set_path ["content"] (JString json_str) JNull in
  let message := option_bind message (set_path ["format"] (JString "json")) in
  message <- or_terminate message ;;  (* [message] starts null *)
  match Env.json_dump env message with
  | inr what =>
      EMIT_WARNING "update_report: cannot serialize request" ;;
      ret (false, json_error what err)
  | inl requestbody =>
      EMIT_DEBUG ("update_report: JSON request: " +++ requestbody) ;;
      EMIT_DEBUG ("update_report: URL: " +++ url) ;;
      '(ok, responsebody, err) <-
        curlx_post_json url requestbody curl_timeout err ;;
      if negb ok then ret (false, err)
      else
        EMIT_DEBUG ("update_report: JSON reply: " +++ responsebody) ;;
        ret (true, err)
  end.

(** [Runner::close_report]: flag and [*err]. *)
Definition close_report (collector_base_url report_id : string)
    (err : ErrContext.t) : M World (bool * ErrContext.t) :=
  let url := without_final_slash collector_base_url in
  let url := url +++ ("/report/" +++ report_id +++ "/close") in
  EMIT_DEBUG ("close_report: URL: " +++ url) ;;
  '(ok, responsebody, err) <- curlx_post_json url "" curl_timeout err ;;
  if negb ok then ret (false, err)
  else
    EMIT_DEBUG ("close_report: response body: " +++ responsebody) ;;
    ret (true, err).

(** *** [Runner::run_with_index32] *)

(** [std::chrono::duration<double> elapsed = d] for the difference [d]
    (in seconds) of two readings of the steady clock: the count of ticks,
    which are nanoseconds, is converted to [double] and divided by
    [1e9]. *)
Definition seconds (d : Q) : Q :=
  Double.div (Double.round (Qmult d (inject_Z 1000000000)))
             (inject_Z 1000000000).

(** [settings_.max_runtime >= 0 && elapsed.count() >=
    settings_.max_runtime * 0.9]: the product is a product of doubles,
    [0.9] being the double nearest to nine tenths. *)
Definition exceeded_max_runtime (elapsed : Q) : bool :=
  andb (0 <=? Settings.max_runtime settings_)
       (Qle_bool (Double.mul
                    (Double.round (inject_Z (Settings.max_runtime settings_)))
                    (Double.round (9 # 10)))
                 elapsed).

(** [measurement[k1]...[kn] = v]. *)
Definition assign (path : list string) (v : json) (measurement : json)
  : M World json :=
  or_terminate (set_path path v measurement).

(** [inputs[i]]. *)
Definition input_at (inputs : list string) (i : Z) : M World string :=
  or_terminate (if i <? 0 then None else nth_error inputs (Z.to_nat i)).

(** The body of the inner loop over the endpoints of one helper. *)
Definition add_test_helper (key : string) (measurement : json)
    (epnt : EndpointInfo.t) : option json :=
  let m := set_path ["test_helpers"; key] (JObject []) measurement in
  let m := option_bind m
    (set_path ["test_helpers"; key; "address"]
              (JString (EndpointInfo.address epnt))) in
  if EndpointInfo.type epnt =? endpoint_type_onion then
    option_bind m (set_path ["test_helpers"; key; "type"] (JString "onion"))
  else if EndpointInfo.type epnt =? endpoint_type_https then
    option_bind m (set_path ["test_helpers"; key; "type"] (JString "https"))
  else if EndpointInfo.type epnt =? endpoint_type_cloudfront then
    let m := option_bind m
      (set_path ["test_helpers"; key; "type"] (JString "cloudfront")) in
    option_bind m
      (set_path ["test_helpers"; key; "front"]
                (JString (EndpointInfo.front epnt)))
  else m.

(** [for (auto &pair : ctx.test_helpers) for (auto &epnt : values)]. *)
Definition add_test_helpers (helpers : StdMap.t (list EndpointInfo.t))
    (measurement : json) : option json :=
  fold_left
    (fun m pair =>
       fold_left
         (fun m epnt => option_bind m (fun m => add_test_helper (fst pair) m epnt))
         (snd pair) m)
    helpers (Some measurement).

(** What the body of the loop over the endpoints of a helper leaves
    under the helper's name: the description of that endpoint. *)
Definition helper_entry (epnt : EndpointInfo.t) : json :=
  let entry :=
    StdMap.insert_or_assign "address" (JString (EndpointInfo.address epnt))
      StdMap.empty in
  JObject
    (if EndpointInfo.type epnt =? endpoint_type_onion then
       StdMap.insert_or_assign "type" (JString "onion") entry
     else if EndpointInfo.type epnt =? endpoint_type_https then
       StdMap.insert_or_assign "type" (JString "https") entry
     else if EndpointInfo.type epnt =? endpoint_type_cloudfront then
       StdMap.insert_or_assign "front" (JString (EndpointInfo.front epnt))
         (StdMap.insert_or_assign "type" (JString "cloudfront") entry)
     else entry).

(** The members that the two loops give to [test_helpers], starting
    from the members [h]. *)
Definition helpers_object (helpers : StdMap.t (list EndpointInfo.t))
    (h : StdMap.t json) : StdMap.t json :=
  fold_left
    (fun h pair =>
       fold_left
         (fun h epnt =>
            StdMap.insert_or_assign (fst pair) (helper_entry epnt) h)
         (snd pair) h)
    helpers h.

(** The part of [run_with_index32] that builds the record: from
    [nlohmann::json measurement;] to the assignment of
    [client_resolver].  The result is the flag returned by the nettest
    and the record. *)
Definition make_measurement (test_start_time : string)
    (inputs : list string) (ctx : NettestContext.t) (i : Z)
  : M World (bool * json) :=
  let measurement := JNull in
  measurement <- assign ["annotations"]
    (of_string_map (Settings.annotations settings_)) measurement ;;
  measurement <- assign ["annotations"; "engine_name"]
    (JString (Settings.engine_name settings_)) measurement ;;
  measurement <- assign ["annotations"; "engine_version"]
    (JString (Settings.engine_version settings_)) measurement ;;
  measurement <- assign ["annotations"; "engine_version_full"]
    (JString (Settings.engine_version_full settings_)) measurement ;;
  measurement <- assign ["annotations"; "platform"]
    (JString (if negb (String.eqb (Settings.platform settings_) "")
              then Settings.platform settings_
              else Env.LIBNETTEST2_PLATFORM env)) measurement ;;
  measurement <- assign ["annotations"; "probe_network_name"]
    (JString (if Settings.save_real_probe_asn settings_
              then NettestContext.probe_network_name ctx
              else "")) measurement ;;
  r1 <- the_world (Env.random_device env) ;;
  r2 <- the_world (Env.random_device env) ;;
  measurement <- assign ["id"]
    (JString (sole.str (sole.uuid4 r1 r2))) measurement ;;
  input <- input_at inputs i ;;
  measurement <- assign ["input"] (JString input) measurement ;;
  measurement <- assign ["input_hashes"] (JArray []) measurement ;;
  now <- the_world (Env.format_system_clock_now env) ;;
  measurement <- assign ["measurement_start_time"] (JString now) measurement ;;
  measurement <- assign ["options"] (JArray []) measurement ;;
  measurement <- assign ["probe_asn"]
    (JString (if Settings.save_real_probe_asn settings_
              then NettestContext.probe_asn ctx else "")) measurement ;;
  measurement <- assign ["probe_cc"]
    (JString (if Settings.save_real_probe_cc settings_
              then NettestContext.probe_cc ctx else "")) measurement ;;
  measurement <- assign ["probe_city"] JNull measurement ;;
  measurement <- assign ["probe_ip"]
    (JString (if Settings.save_real_probe_ip settings_
              then NettestContext.probe_ip ctx else "")) measurement ;;
  measurement <- assign ["report_id"]
    (JString (NettestContext.report_id ctx)) measurement ;;
  measurement <- assign ["sotfware_name"]
    (JString (Settings.software_name settings_)) measurement ;;
  measurement <- assign ["sotfware_version"]
    (JString (Settings.software_version settings_)) measurement ;;
  measurement <- assign ["test_helpers"] (JObject []) measurement ;;
  measurement <- or_terminate
    (add_test_helpers (NettestContext.test_helpers ctx) measurement) ;;
  measurement <- assign ["test_name"]
    (JString (Nettest.name nettest_)) measurement ;;
  measurement <- assign ["test_start_time"]
    (JString test_start_time) measurement ;;
  measurement <- assign ["test_version"]
    (JString (Nettest.version nettest_)) measurement ;;
  let test_keys := JNull in
  measurement_start <- the_world (Env.steady_clock_now env) ;;
  input <- input_at inputs i ;;
  log_item (Called (call_nettest_run input)) ;;
  '(rv, test_keys) <-
    (fun st =>
       let '(rv, test_keys, b, w) :=
         Nettest.run nettest_ settings_ ctx input test_keys (info st)
           (world st) in
       Some ((rv, test_keys), mkState w (trace st) b)) ;;
  current_time <- the_world (Env.steady_clock_now env) ;;
  let elapsed := seconds (Qminus current_time measurement_start) in
  measurement <- assign ["test_runtime"] (JFloat elapsed) measurement ;;
  (* We fill the resolver_ip after the measurement. *)
  measurement <- assign ["test_keys"] test_keys measurement ;;
  measurement <- assign ["test_keys"; "client_resolver"]
    (JString (if Settings.save_real_resolver_ip settings_
              then NettestContext.resolver_ip ctx else "")) measurement ;;
  ret (rv, measurement).

(** The [do { ... } while (0)] that serializes and submits the record. *)
Definition submit_measurement (ctx : NettestContext.t)
    (collector_base_url : string) (i : Z) (measurement : json)
  : M World unit :=
  match Env.json_dump env measurement with
  | inr what =>
      EMIT_WARNING ("run: cannot serialize JSON: " +++ what)   (* break *)
  | inl str =>
      (if andb (negb (Settings.no_collector settings_))
               (negb (String.eqb (NettestContext.report_id ctx) ""))
       then
         log_item (Called (call_update_report collector_base_url
                             (NettestContext.report_id ctx) str)) ;;
         '(ok, err) <- update_report collector_base_url
                         (NettestContext.report_id ctx) str
                         ErrContext.default ;;
         if negb ok then
           EMIT_WARNING "run: update_report() failed" ;;
           emit_ev "failure.measurement_submission"
             (object_of [("failure", JString "library_error");
                         ("library_error_context", err_to_json err);
                         ("idx", JInt i);
                         ("json_str", JString str)])
         else
           emit_ev "status.measurement_submission"
             (object_of [("idx", JInt i)])
       else if String.eqb (NettestContext.report_id ctx) "" then
         emit_ev "failure.measurement_submission"
           (object_of [("failure", JString "report_not_open_error")])
       else ret tt) ;;
      emit_ev "measurement"
        (object_of [("idx", JInt i); ("json_str", JString str)])
  end.

(** [Runner::run_with_index32(begin, test_start_time, inputs, ctx,
    collector_base_url, i, info)]. *)
Definition run_with_index32 (begin : Q) (test_start_time : string)
    (inputs : list string) (ctx : NettestContext.t)
    (collector_base_url : string) (i : Z) : M World bool :=
  current_time <- the_world (Env.steady_clock_now env) ;;
  let elapsed := seconds (Qminus current_time begin) in
  if exceeded_max_runtime elapsed
  then
    EMIT_INFO "exceeded max runtime" ;;
    ret false
  else
    input <- input_at inputs i ;;
    emit_ev "status.measurement_start"
      (object_of [("idx", JInt i); ("input", JString input)]) ;;
    '(rv, measurement) <- make_measurement test_start_time inputs ctx i ;;
    (if negb rv then
       emit_ev "failure.measurement"
         (object_of [("failure", JString "generic_error");
                     ("idx", JInt i)])
     else ret tt) ;;
    submit_measurement ctx collector_base_url i measurement ;;
    emit_ev "status.measurement_done" (object_of [("idx", JInt i)]) ;;
    ret true.

(** *** The stages of [Runner::run] *)

Definition bouncer_stage (ctx : NettestContext.t)
  : M World NettestContext.t :=
  if negb (Settings.no_bouncer settings_) then
    log_item (Called call_query_bouncer) ;;
    '(ok, collectors, helpers, err) <-
      query_bouncer (Nettest.name nettest_) (Nettest.test_helpers nettest_)
        (Nettest.version nettest_) (NettestContext.collectors ctx)
        (NettestContext.test_helpers ctx) ErrContext.default ;;
    let ctx := NettestContext.set_test_helpers helpers
                 (NettestContext.set_collectors collectors ctx) in
    if negb ok then
      EMIT_WARNING "run: query_bouncer() failed" ;;
      ret ctx
    else ret ctx
  else ret ctx.

Definition probe_ip_stage (ctx : NettestContext.t)
  : M World NettestContext.t :=
  if String.eqb (Settings.probe_ip settings_) "" then
    let ctx := NettestContext.set_probe_ip "127.0.0.1" ctx in
    if negb (Settings.no_ip_lookup settings_) then
      log_item (Called call_lookup_ip) ;;
      '(ok, ip, err) <-
        lookup_ip (NettestContext.probe_ip ctx) ErrContext.default ;;
      let ctx := NettestContext.set_probe_ip ip ctx in
      if negb ok then
        EMIT_WARNING "run: lookup_ip() failed" ;;
        emit_ev "failure.ip_lookup" (library_error err) ;;
        ret ctx
      else
        EMIT_INFO ("Your public IP address: "
                   +++ NettestContext.probe_ip ctx) ;;
        ret ctx
    else ret ctx
  else ret (NettestContext.set_probe_ip (Settings.probe_ip settings_) ctx).

Definition probe_asn_stage (ctx : NettestContext.t)
  : M World NettestContext.t :=
  if String.eqb (Settings.probe_asn settings_) "" then
    let ctx := NettestContext.set_probe_asn "AS0" ctx in
    if negb (Settings.no_asn_lookup settings_) then
      log_item (Called (call_lookup_asn (Settings.geoip_asn_path settings_)
                          (NettestContext.probe_ip ctx))) ;;
      '(ok, asn, network_name, err) <-
        lookup_asn (Settings.geoip_asn_path settings_)
          (NettestContext.probe_ip ctx) (NettestContext.probe_asn ctx)
          (NettestContext.probe_network_name ctx) ErrContext.default ;;
      let ctx := NettestContext.set_probe_network_name network_name
                   (NettestContext.set_probe_asn asn ctx) in
      if negb ok then
        EMIT_WARNING "run: lookup_asn() failed" ;;
        emit_ev "failure.asn_lookup" (library_error err) ;;
        ret ctx
      else
        EMIT_INFO ("Your ISP number: " +++ NettestContext.probe_asn ctx) ;;
        EMIT_DEBUG ("Your ISP name: "
                    +++ NettestContext.probe_network_name ctx) ;;
        ret ctx
    else ret ctx
  else
    let ctx := NettestContext.set_probe_network_name
                 (Settings.probe_network_name settings_) ctx in
    ret (NettestContext.set_probe_asn (Settings.probe_asn settings_) ctx).

Definition probe_cc_stage (ctx : NettestContext.t)
  : M World NettestContext.t :=
  if String.eqb (Settings.probe_cc settings_) "" then
    let ctx := NettestContext.set_probe_cc "ZZ" ctx in
    if negb (Settings.no_cc_lookup settings_) then
      log_item (Called (call_lookup_cc (Settings.geoip_country_path settings_)
                          (NettestContext.probe_ip ctx))) ;;
      '(ok, cc, err) <-
        lookup_cc (Settings.geoip_country_path settings_)
          (NettestContext.probe_ip ctx) (NettestContext.probe_cc ctx)
          ErrContext.default ;;
      let ctx := NettestContext.set_probe_cc cc ctx in
      if negb ok then
        EMIT_WARNING "run: lookup_cc() failed" ;;
        emit_ev "failure.cc_lookup" (library_error err) ;;
        ret ctx
      else
        EMIT_INFO ("Your country: " +++ NettestContext.probe_cc ctx) ;;
        ret ctx
    else ret ctx
  else ret (NettestContext.set_probe_cc (Settings.probe_cc settings_) ctx).

(** The two events that close the geoip stage. *)
Definition geoip_events (ctx : NettestContext.t) : M World unit :=
  progress (2 # 10) "geoip lookup" ;;
  emit_ev "status.geoip_lookup"
    (object_of
       [("probe_cc", JString (NettestContext.probe_cc ctx));
        ("probe_asn", JString (NettestContext.probe_asn ctx));
        ("probe_ip", JString (NettestContext.probe_ip ctx));
        ("probe_network_name",
         JString (NettestContext.probe_network_name ctx))]).

Definition resolver_stage (ctx : NettestContext.t)
  : M World NettestContext.t :=
  ctx <-
    (if negb (Settings.no_resolver_lookup settings_) then
       log_item (Called call_lookup_resolver_ip) ;;
       '(ok, ip, err) <-
         lookup_resolver_ip (NettestContext.resolver_ip ctx)
           ErrContext.default ;;
       let ctx := NettestContext.set_resolver_ip ip ctx in
       if negb ok then
         EMIT_WARNING "run: lookup_resolver_ip() failed" ;;
         emit_ev "failure.resolver_lookup" (library_error err) ;;
         ret ctx
       else ret ctx
     else ret ctx) ;;
  EMIT_DEBUG ("resolver_ip: " +++ NettestContext.resolver_ip ctx) ;;
  ret ctx.

(** [for (auto &epnt : ctx.collectors)]: the first https collector. *)
Fixpoint select_collector (collectors : list EndpointInfo.t)
    (collector_base_url : string) : M World string :=
  match collectors with
  | [] => ret collector_base_url
  | epnt :: collectors' =>
      if EndpointInfo.type epnt =? endpoint_type_https then
        EMIT_INFO ("Using discovered collector: "
                   +++ EndpointInfo.address epnt) ;;
        ret (EndpointInfo.address epnt)                      (* break *)
      else select_collector collectors' collector_base_url
  end.

(** The open-report stage: the context and [collector_base_url] that
    the rest of [run()] uses. *)
Definition open_report_stage (ctx : NettestContext.t)
    (test_start_time : string) : M World (NettestContext.t * string) :=
  let collector_base_url := "" in
  if negb (Settings.no_collector settings_) then
    if String.eqb (Settings.collector_base_url settings_) "" then
      collector_base_url <-
        select_collector (NettestContext.collectors ctx)
          collector_base_url ;;
      EMIT_INFO "Opening report; please be patient..." ;;
      log_item (Called (call_open_report collector_base_url)) ;;
      '(ok, report_id, err) <-
        open_report collector_base_url test_start_time ctx
          (NettestContext.report_id ctx) ErrContext.default ;;
      let ctx := NettestContext.set_report_id report_id ctx in
      if negb ok then
        EMIT_WARNING "run: open_report() failed" ;;
        emit_ev "failure.report_create" (library_error err) ;;
        ret (ctx, collector_base_url)
      else
        EMIT_INFO ("Report ID: " +++ NettestContext.report_id ctx) ;;
        emit_ev "status.report_create"
          (object_of [("report_id",
                       JString (NettestContext.report_id ctx))]) ;;
        ret (ctx, collector_base_url)
    else ret (ctx, Settings.collector_base_url settings_)
  else ret (ctx, collector_base_url).

(** The worker threads and the main thread's wait.  The pool starts
    where the main thread has created and detached its threads: none of
    them has run yet and [active] is zero, so that the first test of
    [while (active > 0)] ends the wait when it comes before the first
    [active += 1].  The threads that have not run when the main thread
    goes on are left behind: what they do afterwards, on locals of
    [run()] that are gone, is not represented.  One call of
    [run_with_index32] is one move of its worker, so the events of two
    calls that overlap in time appear one call after the other. *)
Definition dispatch (parallelism : Z) (begin : Q)
    (test_start_time : string) (inputs : list string)
    (ctx : NettestContext.t) (collector_base_url : string)
  : M World unit :=
  fun st =>
    let size := Z.of_nat (List.length inputs) in
    let body :=
      run_with_index32 begin test_start_time inputs ctx
        collector_base_url in
    let interrupted := fun s : State World =>
      Env.interrupted env (world s) in
    let poll := fun s : State World =>
      let (tests, w) := Env.main_polls env (world s) in
      (tests, mkState w (trace s) (info s)) in
    let pick := fun s : State World =>
      let (n, w) := Env.schedule env (world s) in
      (n, mkState w (trace s) (info s)) in
    let p0 := Dispatcher.start (State World) (Z.to_nat parallelism) st in
    match Dispatcher.wait (State World) interrupted body size poll pick
            (Z.to_nat (Dispatcher.moves_left (State World) size p0)) p0 with
    | Some p => Some (tt, Dispatcher.shared (State World) p)
    | None => None
    end.

Definition close_report_stage (ctx : NettestContext.t)
    (collector_base_url : string) : M World unit :=
  if andb (negb (Settings.no_collector settings_))
          (negb (String.eqb (NettestContext.report_id ctx) ""))
  then
    log_item (Called (call_close_report collector_base_url
                        (NettestContext.report_id ctx))) ;;
    '(ok, err) <- close_report collector_base_url
                    (NettestContext.report_id ctx) ErrContext.default ;;
    if negb ok then
      EMIT_WARNING "run: close_report() failed" ;;
      emit_ev "failure.report_close" (library_error err)
    else
      emit_ev "status.report_close"
        (object_of [("report_id", JString (NettestContext.report_id ctx))])
  else if String.eqb (NettestContext.report_id ctx) "" then
    emit_ev "failure.report_close"
      (object_of [("failure", JString "report_not_open_error")])
  else ret tt.

Definition default_parallelism : Z := 3.

(** The [do { ... } while (0)] of [run()]: input preparation, the
    workers, the close of the report. *)
Definition measure_stage (ctx : NettestContext.t)
    (collector_base_url test_start_time : string) : M World unit :=
  if andb (Nettest.needs_input nettest_)
          (match Settings.inputs settings_ with [] => true | _ => false end)
  then
    EMIT_WARNING "run: no input provided"                      (* break *)
  else
    let inputs : list string := [] in
    inputs <-
      (if Nettest.needs_input nettest_ then
         ret (inputs ++ Settings.inputs settings_)
       else
         (match Settings.inputs settings_ with
          | [] => ret tt
          | _ => EMIT_WARNING "run: got unexpected input; ignoring it"
          end) ;;
         ret (inputs ++ [""])) ;;
    inputs <-
      (if Settings.randomize_input settings_
       then the_world (Env.shuffle env inputs)
       else ret inputs) ;;
    let parallelism :=
      if negb (Nettest.needs_input nettest_) then 1
      else if 0 <? Settings.parallelism settings_
           then Settings.parallelism settings_
           else default_parallelism in
    begin <- the_world (Env.steady_clock_now env) ;;
    dispatch parallelism begin test_start_time inputs ctx
      collector_base_url ;;
    progress (9 # 10) "measurement complete" ;;
    close_report_stage ctx collector_base_url ;;
    progress (1 # 1) "report close".

(** [Runner::run()]. *)
Definition run : M World bool :=
  put_info BytesInfo.zero ;;
  emit_ev "status.queued" (JObject []) ;;
  let ctx := NettestContext.default in
  emit_ev "status.started" (JObject []) ;;
  ctx <- bouncer_stage ctx ;;
  progress (1 # 10) "contact bouncer" ;;
  ctx <- probe_ip_stage ctx ;;
  ctx <- probe_asn_stage ctx ;;
  ctx <- probe_cc_stage ctx ;;
  geoip_events ctx ;;
  ctx <- resolver_stage ctx ;;
  progress (3 # 10) "resolver lookup" ;;
  emit_ev "status.resolver_lookup"
    (object_of [("resolver_ip", JString (NettestContext.resolver_ip ctx))]) ;;
  test_start_time <- the_world (Env.format_system_clock_now env) ;;
  '(ctx, collector_base_url) <- open_report_stage ctx test_start_time ;;
  progress (4 # 10) "open report" ;;
  measure_stage ctx collector_base_url test_start_time ;;
  b <- get_info ;;
  emit_ev "status.end"
    (object_of
       [("failure", JString "");
        ("downloaded_kb",
         JFloat (Qmake (BytesInfo.bytes_down b) 1024));
        ("uploaded_kb",
         JFloat (Qmake (BytesInfo.bytes_up b) 1024))]) ;;
  ret true.

(** *** What the claims talk about *)

(** The contract of [Nettest::run] with respect to [*test_keys], which
    the Runner hands over as a null value: it is left null or made an
    object, so that the Runner can add a member to it. *)
Definition fills_test_keys : Prop :=
  forall s c input b w,
    let tk' := snd (fst (fst (Nettest.run nettest_ s c input JNull b w))) in
    tk' = JNull \/ is_object tk' = true.

(** The events with which the main thread marks its stages. *)
Definition stage_keys : list string :=
  ["status.queued"; "status.started"; "status.progress";
   "status.geoip_lookup"; "status.resolver_lookup"; "status.end"].

Definition percentage_of (value : json) : list Q :=
  match at_key "percentage" value with
  | Some (JFloat q) => [q]
  | _ => []
  end.

(** The checkpoint an item stands for, if any: a stage event (with the
    percentage it carries) or the call that a stage before the
    measurements makes. *)
Definition checkpoint (x : Item) : list (string * list Q) :=
  match x with
  | Emitted ev =>
      match at_key "key" ev, at_key "value" ev with
      | Some (JString k), Some v =>
          if existsb (String.eqb k) stage_keys
          then [(k, percentage_of v)] else []
      | _, _ => []
      end
  | Called call_query_bouncer => [("query_bouncer", [])]
  | Called call_lookup_ip => [("lookup_ip", [])]
  | Called (call_lookup_asn _ _) => [("lookup_asn", [])]
  | Called (call_lookup_cc _ _) => [("lookup_cc", [])]
  | Called call_lookup_resolver_ip => [("lookup_resolver_ip", [])]
  | Called (call_open_report _) => [("open_report", [])]
  | Called _ => []
  end.

Definition checkpoints (T : list Item) : list (string * list Q) :=
  flat_map checkpoint T.

(** The percentages of the [status.progress] events, in order. *)
Definition progress_percentages (T : list Item) : list Q :=
  flat_map snd
    (filter (fun c => String.eqb (fst c) "status.progress") (checkpoints T)).

Definition when (b : bool) (l : list (string * list Q))
  : list (string * list Q) :=
  if b then l else [].

(** The input list is required and empty: [run()] leaves its
    [do { ... } while (0)] at once. *)
Definition no_input_provided : bool :=
  andb (Nettest.needs_input nettest_)
       (match Settings.inputs settings_ with [] => true | _ => false end).

(** The checkpoints of a run as the settings alone determine them. *)
Definition skeleton : list (string * list Q) :=
  [("status.queued", []); ("status.started", [])]
  ++ when (negb (Settings.no_bouncer settings_)) [("query_bouncer", [])]
  ++ [("status.progress", [1 # 10])]
  ++ when (andb (String.eqb (Settings.probe_ip settings_) "")
                (negb (Settings.no_ip_lookup settings_)))
          [("lookup_ip", [])]
  ++ when (andb (String.eqb (Settings.probe_asn settings_) "")
                (negb (Settings.no_asn_lookup settings_)))
          [("lookup_asn", [])]
  ++ when (andb (String.eqb (Settings.probe_cc settings_) "")
                (negb (Settings.no_cc_lookup settings_)))
          [("lookup_cc", [])]
  ++ [("status.progress", [2 # 10]); ("status.geoip_lookup", [])]
  ++ when (negb (Settings.no_resolver_lookup settings_))
          [("lookup_resolver_ip", [])]
  ++ [("status.progress", [3 # 10]); ("status.resolver_lookup", [])]
  ++ when (andb (negb (Settings.no_collector settings_))
                (String.eqb (Settings.collector_base_url settings_) ""))
          [("open_report", [])]
  ++ [("status.progress", [4 # 10])]
  ++ when (negb no_input_provided)
          [("status.progress", [9 # 10]); ("status.progress", [1 # 1])]
  ++ [("status.end", [])].

(** A computation that always finishes and whose new items stand for
    the checkpoints [L]. *)
Definition yields {A : Type} (L : list (string * list Q)) (m : M World A)
  : Prop :=
  forall st, exists a st' T,
    m st = Some (a, st') /\ trace st' = trace st ++ T
    /\ checkpoints T = L.

(** The trace grows by items that stand for no checkpoint. *)
Definition quietly (s s' : State World) : Prop :=
  exists T, trace s' = trace s ++ T /\ checkpoints T = [].






(** The address that the loop over [ctx.collectors] selects. *)
Fixpoint first_https (collectors : list EndpointInfo.t) (dflt : string)
  : string :=
  match collectors with
  | [] => dflt
  | epnt :: collectors' =>
      if EndpointInfo.type epnt =? endpoint_type_https
      then EndpointInfo.address epnt
      else first_https collectors' dflt
  end.

(** Whatever a computation hands back satisfies [P]. *)
Definition returns {A : Type} (P : A -> Prop) (m : M World A) : Prop :=
  forall st a st', m st = Some (a, st') -> P a.

(** A computation that always finishes, and logs only items that
    satisfy [P]. *)
Definition only {A : Type} (P : Item -> Prop) (m : M World A) : Prop :=
  forall st, exists a st' T,
    m st = Some (a, st') /\ trace st' = trace st ++ T /\ Forall P T.

(** The keys of the events of a run, the log lines apart. *)
Definition event_keys : list string :=
  ["status.queued"; "status.started"; "status.progress";
   "failure.ip_lookup"; "failure.asn_lookup"; "failure.cc_lookup";
   "status.geoip_lookup"; "failure.resolver_lookup";
   "status.resolver_lookup"; "failure.report_create";
   "status.report_create"; "status.measurement_start";
   "failure.measurement"; "failure.measurement_submission";
   "status.measurement_submission"; "measurement";
   "status.measurement_done"; "failure.report_close";
   "status.report_close"; "status.end"].

(** The levels of the log lines of a run, with their names. *)
Definition log_levels : list (LogLevel * string) :=
  [(log_warning, "WARNING"); (log_info, "INFO"); (log_debug, "DEBUG")].

(** The inputs of the measurements: the configured inputs for a nettest
    that needs input, the empty input otherwise. *)
Definition candidates : list string :=
  if Nettest.needs_input nettest_ then Settings.inputs settings_ else [""].

(** The list that the workers share: the candidates, shuffled when
    [randomize_input] is set. *)
Definition shared_inputs (inputs : list string) : Prop :=
  inputs = candidates
  \/ (Settings.randomize_input settings_ = true
      /\ exists w, inputs = fst (Env.shuffle env candidates w)).

(** What [run()] may leave in the history, each item with the condition
    on the settings under which the code reaches it. *)
Inductive may_log : Item -> Prop :=
| log_event (key : string) (o : StdMap.t json) :
    In key event_keys -> may_log (Emitted (event key (JObject o)))
| log_line (level : LogLevel) (upper msg : string) :
    In (level, upper) log_levels ->
    log_level_value level <= log_level_value (Settings.log_level settings_) ->
    may_log (Emitted
               (event "log"
                  (object_of [("log_level", JString upper);
                              ("message", JString msg)])))
| log_query_bouncer :
    Settings.no_bouncer settings_ = false ->
    may_log (Called call_query_bouncer)
| log_lookup_ip :
    Settings.no_ip_lookup settings_ = false ->
    Settings.probe_ip settings_ = "" ->
    may_log (Called call_lookup_ip)
| log_lookup_asn (dbpath ip : string) :
    Settings.no_asn_lookup settings_ = false ->
    Settings.probe_asn settings_ = "" ->
    dbpath = Settings.geoip_asn_path settings_ ->
    may_log (Called (call_lookup_asn dbpath ip))
| log_lookup_cc (dbpath ip : string) :
    Settings.no_cc_lookup settings_ = false ->
    Settings.probe_cc settings_ = "" ->
    dbpath = Settings.geoip_country_path settings_ ->
    may_log (Called (call_lookup_cc dbpath ip))
| log_lookup_resolver_ip :
    Settings.no_resolver_lookup settings_ = false ->
    may_log (Called call_lookup_resolver_ip)
| log_open_report (base : string) :
    Settings.no_collector settings_ = false ->
    Settings.collector_base_url settings_ = "" ->
    may_log (Called (call_open_report base))
| log_update_report (base report_id json_str : string) :
    Settings.no_collector settings_ = false ->
    report_id <> "" ->
    may_log (Called (call_update_report base report_id json_str))
| log_close_report (base report_id : string) :
    Settings.no_collector settings_ = false ->
    report_id <> "" ->
    may_log (Called (call_close_report base report_id))
| log_nettest_run (inputs : list string) (input : string) :
    shared_inputs inputs -> In input inputs ->
    may_log (Called (call_nettest_run input)).

Fixpoint nondecreasing (l : list Q) : bool :=
  match l with
  | [] => true
  | x :: l' =>
      match l' with
      | [] => true
      | y :: _ => andb (Qle_bool x y) (nondecreasing l')
      end
  end.

(** *** The outline of a run *)

(** Whether an item is a log line. *)
Definition is_log (x : Item) : bool :=
  match x with
  | Emitted ev =>
      match at_key "key" ev with
      | Some (JString k) => String.eqb k "log"
      | _ => false
      end
  | Called _ => false
  end.

(** A history without its log lines. *)
Definition unlogged (T : list Item) : list Item :=
  filter (fun x => negb (is_log x)) T.

(** The name under which a call shows in an outline. *)
Definition call_name (c : Call) : string :=
  match c with
  | call_query_bouncer => "query_bouncer"
  | call_lookup_ip => "lookup_ip"
  | call_lookup_asn _ _ => "lookup_asn"
  | call_lookup_cc _ _ => "lookup_cc"
  | call_lookup_resolver_ip => "lookup_resolver_ip"
  | call_open_report _ => "open_report"
  | call_update_report _ _ _ => "update_report"
  | call_close_report _ _ => "close_report"
  | call_nettest_run _ => "nettest.run"
  end.

(** What an item adds to the outline: the key of an event that is not a
    log line, the name of a call. *)
Definition mark (x : Item) : list string :=
  match x with
  | Emitted ev =>
      match at_key "key" ev with
      | Some (JString k) => if String.eqb k "log" then [] else [k]
      | _ => []
      end
  | Called c => [call_name c]
  end.

Definition marks (T : list Item) : list string := flat_map mark T.

(** A computation that always finishes, with the outline [L]. *)
Definition outlines {A : Type} (L : list string) (m : M World A) : Prop :=
  forall st, exists a st' T,
    m st = Some (a, st') /\ trace st' = trace st ++ T /\ marks T = L.

(** The same, with an outline that depends on how the computation went
    ([F ok] for one of the two values of [ok]). *)
Definition outlines_by {A : Type} (F : bool -> list string) (m : M World A)
  : Prop :=
  forall st, exists ok a st' T,
    m st = Some (a, st') /\ trace st' = trace st ++ T /\ marks T = F ok.

(** How one call of [run_with_index32] went: the budget was spent, or a
    measurement was made, with the flag that the nettest returned,
    whether the record could be serialized, and the flag that
    [update_report] returned (when it was called). *)
Inductive Attempt : Type :=
| Skipped
| Measured (nettest_ok serialized submitted : bool).

(** How a run went: the flags that the operations of the stages
    returned (for the stages that the settings switch on), whether
    [ctx.report_id] was set when the measurements began, and the calls
    of [run_with_index32] in the order in which the workers made them. *)
Record Outcome : Type := mkOutcome {
  ip_found : bool;
  asn_found : bool;
  cc_found : bool;
  resolver_found : bool;
  report_created : bool;
  report_open : bool;
  attempts : list Attempt;
  report_closed : bool
}.

(** A stage that calls [call] when it is switched on, and emits
    [failure] when the call returns false. *)
Definition lookup_marks (enabled : bool) (call failure : string)
    (ok : bool) : list string :=
  if enabled then call :: (if ok then [] else [failure]) else [].

(** A stage of the collector: the call with the event of its result
    when a report can be used, the failure event alone when no report is
    open. *)
Definition collector_marks (open : bool) (call status failure : string)
    (ok : bool) : list string :=
  if andb (negb (Settings.no_collector settings_)) open
  then [call; if ok then status else failure]
  else if negb open then [failure] else [].

Definition attempt_marks (open : bool) (a : Attempt) : list string :=
  match a with
  | Skipped => []
  | Measured nettest_ok serialized submitted =>
      ["status.measurement_start"; "nettest.run"]
      ++ (if nettest_ok then [] else ["failure.measurement"])
      ++ (if serialized
          then collector_marks open "update_report"
                 "status.measurement_submission"
                 "failure.measurement_submission" submitted
               ++ ["measurement"]
          else [])
      ++ ["status.measurement_done"]
  end.

(** The outline of a run that went as [o] says. *)
Definition run_marks (o : Outcome) : list string :=
  ["status.queued"; "status.started"]
  ++ (if negb (Settings.no_bouncer settings_) then ["query_bouncer"] else [])
  ++ ["status.progress"]
  ++ lookup_marks (andb (String.eqb (Settings.probe_ip settings_) "")
                        (negb (Settings.no_ip_lookup settings_)))
       "lookup_ip" "failure.ip_lookup" (ip_found o)
  ++ lookup_marks (andb (String.eqb (Settings.probe_asn settings_) "")
                        (negb (Settings.no_asn_lookup settings_)))
       "lookup_asn" "failure.asn_lookup" (asn_found o)
  ++ lookup_marks (andb (String.eqb (Settings.probe_cc settings_) "")
                        (negb (Settings.no_cc_lookup settings_)))
       "lookup_cc" "failure.cc_lookup" (cc_found o)
  ++ ["status.progress"; "status.geoip_lookup"]
  ++ lookup_marks (negb (Settings.no_resolver_lookup settings_))
       "lookup_resolver_ip" "failure.resolver_lookup" (resolver_found o)
  ++ ["status.progress"; "status.resolver_lookup"]
  ++ (if andb (negb (Settings.no_collector settings_))
              (String.eqb (Settings.collector_base_url settings_) "")
      then ["open_report";
            if report_created o then "status.report_create"
            else "failure.report_create"]
      else [])
  ++ ["status.progress"]
  ++ (if no_input_provided then []
      else flat_map (attempt_marks (report_open o)) (attempts o)
           ++ ["status.progress"]
           ++ collector_marks (report_open o) "close_report"
                "status.report_close" "failure.report_close"
                (report_closed o)
           ++ ["status.progress"])
  ++ ["status.end"].
End Methods.
End Runner.

(* ===================================================================== *)
(** ** A concrete world, used to run the model *)
(* ===================================================================== *)

Module Scenario.
Import Json Runner.

(** A host without network: every transfer and every lookup fails, the
    clocks stand still, and the scheduler always takes the first runnable
    worker.  [main_first] says whether the main thread gets to test
    [active] before the workers move. *)
Definition host (main_first : bool) : Env.t unit :=
  Env.mk unit
    (fun _ _ _ _ _ b e w => (false, [], StdMap.empty, b, e, w))
    (fun _ _ _ _ e w => (false, "", "", e, w))
    (fun _ _ _ e w => (false, "", e, w))
    (fun _ b e w => (false, "", b, e, w))
    (fun _ _ _ b e w => (false, "", b, e, w))
    (fun _ _ b e w => (false, "", b, e, w))
    (fun _ => inr "parse error")
    (fun _ => inl "{}")
    (fun _ => "type error")
    "3.1.2"
    "linux"
    (fun w => ("2018-10-01 12:00:00", w))
    (fun w => (inject_Z 0, w))
    (fun w => (0, w))
    (fun l w => (l, w))
    (fun _ => false)
    (fun w => (0%nat, w))
    (fun w => (main_first, w)).

(** The host on which the workers run before the main thread looks at
    [active]. *)
Definition offline : Env.t unit := host false.

(** The host on which the main thread looks at [active] as soon as it has
    detached the threads. *)
Definition hasty : Env.t unit := host true.

(** The host [offline] with a JSON library that cannot serialize what it
    is given. *)
Definition unserializable : Env.t unit :=
  Env.mk unit
    (Env.query_bouncer offline) (Env.lookup_asn offline)
    (Env.lookup_cc offline) (Env.lookup_resolver_ip offline)
    (Env.curlx_post_json offline) (Env.curlx_get offline)
    (Env.json_parse offline)
    (fun _ => inr "[json.exception.type_error.316] invalid UTF-8 byte")
    (Env.report_id_what offline) (Env.nlohmann_json_version offline)
    (Env.LIBNETTEST2_PLATFORM offline) (Env.format_system_clock_now offline)
    (Env.steady_clock_now offline) (Env.random_device offline)
    (Env.shuffle offline) (Env.interrupted offline) (Env.schedule offline)
    (Env.main_polls offline).

(** A nettest that takes input and reports a failure on every input,
    after writing its own [client_resolver]. *)
Definition failing_nettest : Nettest.t unit :=
  Nettest.mk unit "failing" [] "0.0.1" true
    (fun _ _ _ _ b w =>
       (false, object_of [("client_resolver", JString "6.6.6.6")], b, w)).

(** [Nettest]'s own defaults, without the two seconds of sleep. *)
Definition dummy_nettest : Nettest.t unit :=
  Nettest.mk unit "" [] "0.0.1" false
    (fun _ _ _ test_keys b w => (true, test_keys, b, w)).

Definition three_inputs : Settings.t :=
  Settings.set_inputs ["a"; "b"; "c"]
    (Settings.set_randomize_input false Settings.default).

Definition context : NettestContext.t :=
  NettestContext.mk [] "AS30722" "IT" "93.147.252.33" "Vodafone Italia"
    "20181001T120000Z_AS30722_abc" "8.8.8.8" StdMap.empty.

Definition initial : State unit := mkState tt [] BytesInfo.zero.

(** A settings document that uses a number for a boolean option. *)
Definition numeric_no_bouncer : json :=
  object_of [("name", JString "dummy");
             ("options", object_of [("no_bouncer", JInt 1)])].

(** The same, with an entry of the wrong type next to it. *)
Definition numeric_no_bouncer_bad_port : json :=
  object_of [("name", JString "dummy");
             ("options", object_of [("no_bouncer", JInt 1);
                                    ("port", JString "abc")])].
End Scenario.

(* ===================================================================== *)
(** * Properties *)
(* ===================================================================== *)

(** ** [std::map] and JSON members *)

Lemma find_insert_same {A : Type} (k : string) (v : A) (m : StdMap.t A) :
  StdMap.find k (StdMap.insert_or_assign k v m) = Some v.
Proof.
  induction m as [|[k' v'] m IH]; simpl.
  - now rewrite String.eqb_refl.
  - destruct (String.compare k k') eqn:C; simpl.
    + now rewrite String.eqb_refl.
    + now rewrite String.eqb_refl.
    + destruct (String.eqb_spec k k') as [->|_]; [|exact IH].
      pose proof (String.compare_antisym k' k') as E.
      rewrite C in E. discriminate E.
Qed.

Lemma find_insert_other {A : Type} (k k' : string) (v : A) (m : StdMap.t A) :
  k <> k' -> StdMap.find k' (StdMap.insert_or_assign k v m) = StdMap.find k' m.
Proof.
  intros N. induction m as [|[k0 v0] m IH]; simpl.
  - destruct (String.eqb_spec k' k); congruence.
  - destruct (String.compare k k0) eqn:C; simpl.
    + apply String.compare_eq_iff in C. subst k0.
      destruct (String.eqb_spec k' k); congruence.
    + destruct (String.eqb_spec k' k); congruence.
    + destruct (String.eqb_spec k' k0); [reflexivity|exact IH].
Qed.

(** Assigning below one member leaves the other members alone. *)
Lemma set_path_other (k k' : string) (path : list string) (v j j' : Json.json) :
  Json.set_path (k :: path) v j = Some j' -> k <> k' ->
  Json.at_key k' j' = Json.at_key k' j.
Proof.
  intros H N. simpl in H. destruct j; try discriminate.
  - destruct (Json.set_path path v Json.JNull); inversion H; subst; simpl.
    destruct (String.eqb_spec k' k); congruence.
  - destruct (Json.set_path path v _); inversion H; subst; simpl.
    now apply find_insert_other.
Qed.

Lemma set_path_same (k : string) (v j j' : Json.json) :
  Json.set_path [k] v j = Some j' -> Json.at_key k j' = Some v.
Proof.
  intros H. simpl in H. destruct j; inversion H; subst; simpl.
  - now rewrite String.eqb_refl.
  - apply find_insert_same.
Qed.

Lemma at_key_singleton (k : string) (v : Json.json) :
  Json.at_key k (Json.JObject [(k, v)]) = Some v.
Proof. simpl. now rewrite String.eqb_refl. Qed.

Lemma at_key_insert (k : string) (v : Json.json) (o : StdMap.t Json.json) :
  Json.at_key k (Json.JObject (StdMap.insert_or_assign k v o)) = Some v.
Proof. simpl. apply find_insert_same. Qed.

Lemma set_path_nested (k1 k2 : string) (v j j' : Json.json) :
  Json.set_path [k1; k2] v j = Some j' ->
  exists sub, Json.at_key k1 j' = Some sub /\ Json.at_key k2 sub = Some v.
Proof.
  intros H. cbn [Json.set_path] in H. destruct j; try discriminate.
  - inversion H; subst. eexists. split; apply at_key_singleton.
  - destruct (match StdMap.find k1 o with Some x => x | None => Json.JNull end)
      as [| | | | | |o1]; inversion H; subst; eexists;
      (split; [apply at_key_insert|]);
      first [apply at_key_singleton | apply at_key_insert].
Qed.

(** A top-level assignment to a null or an object never throws. *)
Lemma set_path_top (k : string) (v j : Json.json) :
  j = Json.JNull \/ Json.is_object j = true ->
  exists o, Json.set_path [k] v j = Some (Json.JObject o).
Proof.
  intros [->|H]; [simpl; eauto|]. destruct j; try discriminate. simpl. eauto.
Qed.

(** ** [parse_settings]: numbers in place of booleans *)

Section ParseSettingsFacts.
Import Json ParseSettings.

Variable doc : json.

Lemma seq_Next (a b : Stmt) (st st' : PState) :
  seq a b st = Next st' -> exists mid, a st = Next mid /\ b mid = Next st'.
Proof.
  unfold seq. destruct (a st) as [mid|mid]; [eauto|discriminate].
Qed.

(** What [MAYBE_GET_BOOL] does on a number. *)
Lemma MAYBE_GET_BOOL_number (path : string) variable (x : json) (st : PState) :
  at_pointer (pointer_tokens path) doc = Some x ->
  is_number x = true ->
  MAYBE_GET_BOOL doc path variable st =
  Next (mkPState (variable (number_nonzero x) (variable false (settings st)))
                 "" (number_as_boolean_warning path)).
Proof.
  intros P N. unfold MAYBE_GET_BOOL, json_maybe_get. rewrite P.
  destruct x; try discriminate; simpl.
  - unfold Qeq_bool; simpl. now rewrite Z.mul_1_r.
  - reflexivity.
Qed.

Lemma MAYBE_GET_kept {T : Type} get (dflt : T) tn path variable g b st st' :
  (forall v s, g (variable v s) = g s) ->
  kept g b st ->
  MAYBE_GET doc get dflt tn path variable st = Next st' ->
  kept g b st'.
Proof.
  intros I [G W] H. unfold MAYBE_GET in H.
  destruct (json_maybe_get get dflt tn doc path (err st)) as [[ok v] e].
  destruct ok; inversion H; subst; split; simpl; [now rewrite I|exact W].
Qed.

Lemma MAYBE_GET_BOOL_kept path variable g b st st' :
  (forall v s, g (variable v s) = g s) ->
  In path (List.map (fun o => fst (fst o)) bool_options) ->
  kept g b st ->
  MAYBE_GET_BOOL doc path variable st = Next st' ->
  kept g b st'.
Proof.
  intros I P [G W] H. unfold MAYBE_GET_BOOL in H.
  destruct (json_maybe_get get_bool false "bool" doc path (err st))
    as [[ok v] e].
  destruct ok.
  - inversion H; subst; split; simpl; [now rewrite I|exact W].
  - destruct (json_maybe_get get_double (inject_Z 0) "double" doc path "")
      as [[ok2 scratch] e2].
    destruct ok2; inversion H; subst; split; simpl.
    + now rewrite !I.
    + exists path. split; [exact P|reflexivity].
Qed.

Lemma MAYBE_GET_UINT_kept bits maximum path variable g b st st' :
  (forall v s, g (variable v s) = g s) ->
  kept g b st ->
  MAYBE_GET_UINT doc bits maximum path variable st = Next st' ->
  kept g b st'.
Proof.
  intros I [G W] H. unfold MAYBE_GET_UINT in H.
  destruct (json_maybe_get get_double (inject_Z 0) "double" doc path (err st))
    as [[ok scratch] e].
  destruct ok; simpl in H; [|discriminate].
  repeat match type of H with
         | (if ?c then _ else _) = _ => destruct c
         end;
    try discriminate.
  inversion H; subst; split; simpl; [now rewrite I|exact W].
Qed.

Lemma log_level_block_kept g b st st' :
  (forall v s, g (Settings.set_log_level v s) = g s) ->
  kept g b st ->
  log_level_block doc st = Next st' ->
  kept g b st'.
Proof.
  intros I [G W] H. unfold log_level_block in H.
  destruct (json_maybe_get get_string "" "std::string" doc "/log_level" (err st))
    as [[ok s] e].
  destruct ok; simpl in H; [|discriminate].
  repeat match type of H with
         | (if ?c then _ else _) = _ => destruct c
         end;
    try discriminate;
    inversion H; subst; (split; simpl; [first [reflexivity | now rewrite I]|exact W]).
Qed.
End ParseSettingsFacts.

Import Json.

Ltac split_fields H :=
  repeat (apply seq_Next in H;
          let mid := fresh "mid" in
          let Step := fresh "Step" in
          destruct H as (mid & Step & H)).

(** Carry [kept] over the next statement of [fields]. *)
Ltac keep_one :=
  match goal with
  | K : ParseSettings.kept ?g ?b ?a, Step : _ ?a = ParseSettings.Next ?c |- _ =>
      let K' := fresh "K" in
      assert (K' : ParseSettings.kept g b c)
        by (first
              [ eapply MAYBE_GET_kept; [|exact K|exact Step];
                intros; reflexivity
              | eapply MAYBE_GET_UINT_kept; [|exact K|exact Step];
                intros; reflexivity
              | eapply log_level_block_kept; [|exact K|exact Step];
                intros; reflexivity
              | eapply MAYBE_GET_BOOL_kept; [| |exact K|exact Step];
                [intros; reflexivity|simpl; tauto] ]);
      clear K Step
  end.

(** Establish [kept] at the statement that reads the option of [P]. *)
Ltac keep_first x P N :=
  match type of P with
  | at_pointer (ParseSettings.pointer_tokens ?path) ?doc = Some _ =>
      match goal with
      | S : ParseSettings.MAYBE_GET_BOOL doc path ?setter ?a
            = ParseSettings.Next ?c |- ParseSettings.kept ?g _ _ =>
          rewrite (MAYBE_GET_BOOL_number doc path setter x a P N) in S;
          assert (ParseSettings.kept g (ParseSettings.number_nonzero x) c)
            by (inversion S; split; simpl;
                [reflexivity
                |exists path; split; [simpl; tauto|reflexivity]]);
          clear S
      end
  end.

Lemma fields_numeric (doc : json) path getter setter (x : json) st st' :
  In (path, getter, setter) ParseSettings.bool_options ->
  at_pointer (ParseSettings.pointer_tokens path) doc = Some x ->
  is_number x = true ->
  ParseSettings.fields doc st = ParseSettings.Next st' ->
  ParseSettings.kept getter (ParseSettings.number_nonzero x) st'.
Proof.
  intros Hin P N F. unfold ParseSettings.fields in F. split_fields F.
  simpl in Hin.
  repeat (destruct Hin as [Hin|Hin]; [inversion Hin; subst; clear Hin|]);
    [..|contradiction];
    keep_first x P N; repeat keep_one; assumption.
Qed.

Lemma parse_document_true (doc : json) (st st' : ParseSettings.PState) :
  ParseSettings.parse_document doc st = (true, st') ->
  ParseSettings.fields doc st = ParseSettings.Next st'.
Proof.
  unfold ParseSettings.parse_document. intros H.
  repeat match type of H with
         | (if ?c then _ else _) = _ => destruct c; [discriminate H|]
         end.
  destruct (ParseSettings.fields doc st); inversion H; reflexivity.
Qed.

(** ** The Runner: building blocks *)

Import Runner.

Lemma insert_insert_same {A : Type} (k : string) (v v' : A) (m : StdMap.t A) :
  StdMap.insert_or_assign k v' (StdMap.insert_or_assign k v m)
  = StdMap.insert_or_assign k v' m.
Proof.
  assert (R : String.compare k k = Eq).
  { destruct (String.compare k k) eqn:C; [reflexivity| |];
      pose proof (String.compare_antisym k k) as E; rewrite C in E;
      discriminate E. }
  induction m as [|[k0 v0] m IH]; simpl.
  - now rewrite R.
  - destruct (String.compare k k0) eqn:C; simpl.
    + now rewrite R.
    + now rewrite R.
    + now rewrite C, IH.
Qed.

Section RunnerFacts.
Context {World : Type}.
Variable env : Env.t World.
Variable nettest_ : Nettest.t World.
Variable settings_ : Settings.t.

Local Open Scope runner_scope.

Lemma checkpoints_app (T1 T2 : list Item) :
  checkpoints (T1 ++ T2) = checkpoints T1 ++ checkpoints T2.
Proof. apply flat_map_app. Qed.

Lemma quietly_refl (s : State World) : quietly s s.
Proof. exists []. now rewrite app_nil_r. Qed.

Lemma quietly_trans (s1 s2 s3 : State World) :
  quietly s1 s2 -> quietly s2 s3 -> quietly s1 s3.
Proof.
  intros (T1 & E1 & C1) (T2 & E2 & C2). exists (T1 ++ T2). split.
  - now rewrite E2, E1, app_assoc.
  - now rewrite checkpoints_app, C1, C2.
Qed.

(** *** [yields], compositionally *)

Lemma yields_ret {A : Type} (a : A) : yields [] (@ret World A a).
Proof.
  intros st. exists a, st, []. repeat split. now rewrite app_nil_r.
Qed.

Lemma yields_bind {A B : Type} (L1 L2 : list (string * list Q))
    (m : M World A) (k : A -> M World B) :
  yields L1 m -> (forall a, yields L2 (k a)) -> yields (L1 ++ L2) (bind m k).
Proof.
  intros Hm Hk st. destruct (Hm st) as (a & st1 & T1 & E1 & Tr1 & C1).
  destruct (Hk a st1) as (b & st2 & T2 & E2 & Tr2 & C2).
  exists b, st2, (T1 ++ T2). unfold bind. rewrite E1. split; [exact E2|]. split.
  - now rewrite Tr2, Tr1, app_assoc.
  - now rewrite checkpoints_app, C1, C2.
Qed.

Lemma yields_quiet_bind {A B : Type} (L : list (string * list Q))
    (m : M World A) (k : A -> M World B) :
  yields [] m -> (forall a, yields L (k a)) -> yields L (bind m k).
Proof. intros Hm Hk. exact (yields_bind [] L m k Hm Hk). Qed.

Lemma yields_log_item (x : Item) :
  yields (checkpoint x) (@log_item World x).
Proof.
  intros st. exists tt, (mkState (world st) (trace st ++ [x]) (info st)), [x].
  repeat split. unfold checkpoints. simpl. now rewrite app_nil_r.
Qed.

Lemma yields_emit_ev (key : string) (value : json) :
  yields (checkpoint (Emitted (event key value))) (@emit_ev World key value).
Proof. apply yields_log_item. Qed.

Lemma yields_the_world {A : Type} (f : World -> A * World) :
  yields [] (the_world f).
Proof.
  intros st. unfold the_world. destruct (f (world st)) as [a w].
  exists a, (mkState w (trace st) (info st)), []. repeat split.
  simpl. now rewrite app_nil_r.
Qed.

Lemma yields_get_info : yields [] (@get_info World).
Proof.
  intros st. exists (info st), st, []. repeat split. now rewrite app_nil_r.
Qed.

Lemma yields_put_info (b : BytesInfo.t) : yields [] (@put_info World b).
Proof.
  intros st. exists tt, (mkState (world st) (trace st) b), []. repeat split.
  simpl. now rewrite app_nil_r.
Qed.

Lemma yields_EMIT_LOG level upper msg :
  yields [] (@EMIT_LOG World settings_ level upper msg).
Proof.
  unfold EMIT_LOG. destruct (_ <=? _)%Z.
  - apply yields_emit_ev.
  - apply yields_ret.
Qed.

Lemma yields_curlx_post_json url body timeout err :
  yields [] (curlx_post_json env url body timeout err).
Proof.
  intros st. unfold curlx_post_json.
  destruct (Env.curlx_post_json env url body timeout (info st) err (world st))
    as [[[[ok rb] b] e] w].
  eexists _, _, []. repeat split. simpl. now rewrite app_nil_r.
Qed.

Lemma yields_curlx_get url timeout err :
  yields [] (curlx_get env url timeout err).
Proof.
  intros st. unfold curlx_get.
  destruct (Env.curlx_get env url timeout (info st) err (world st))
    as [[[[ok rb] b] e] w].
  eexists _, _, []. repeat split. simpl. now rewrite app_nil_r.
Qed.

Lemma yields_query_bouncer name helpers version cs hs err :
  yields [] (query_bouncer env name helpers version cs hs err).
Proof.
  intros st. unfold query_bouncer.
  destruct (Env.query_bouncer env name helpers version cs hs (info st) err
              (world st)) as [[[[[ok cs'] hs'] b] e] w].
  eexists _, _, []. repeat split. simpl. now rewrite app_nil_r.
Qed.

Lemma yields_lookup_asn dbpath ip asn network_name err :
  yields [] (lookup_asn env dbpath ip asn network_name err).
Proof.
  intros st. unfold lookup_asn.
  destruct (Env.lookup_asn env dbpath ip asn network_name err (world st))
    as [[[[ok asn'] name'] e] w].
  eexists _, _, []. repeat split. simpl. now rewrite app_nil_r.
Qed.

Lemma yields_lookup_cc dbpath ip cc err :
  yields [] (lookup_cc env dbpath ip cc err).
Proof.
  intros st. unfold lookup_cc.
  destruct (Env.lookup_cc env dbpath ip cc err (world st))
    as [[[ok cc'] e] w].
  eexists _, _, []. repeat split. simpl. now rewrite app_nil_r.
Qed.

Lemma yields_lookup_resolver_ip ip err :
  yields [] (lookup_resolver_ip env ip err).
Proof.
  intros st. unfold lookup_resolver_ip.
  destruct (Env.lookup_resolver_ip env ip (info st) err (world st))
    as [[[[ok ip'] b] e] w].
  eexists _, _, []. repeat split. simpl. now rewrite app_nil_r.
Qed.
End RunnerFacts.


(** ** The measurement record *)

Section RecordFacts.
Context {World : Type}.
Variable env : Env.t World.
Variable nettest_ : Nettest.t World.
Variable settings_ : Settings.t.

(** One endpoint only rewrites the [test_helpers] member. *)
Lemma add_test_helper_object key epnt o h0 :
  StdMap.find "test_helpers" o = Some (JObject h0) ->
  exists h, add_test_helper key (JObject o) epnt
            = Some (JObject (StdMap.insert_or_assign "test_helpers"
                               (JObject h) o)).
Proof.
  intros F. unfold add_test_helper.
  repeat match goal with
         | |- context [if ?c then _ else _] => destruct c
         end;
    repeat (progress (cbn [set_path option_bind];
                      rewrite ?F, ?find_insert_same, ?insert_insert_same));
    eexists; reflexivity.
Qed.

Lemma add_test_helpers_insert helpers o h0 :
  exists h,
    add_test_helpers helpers
      (JObject (StdMap.insert_or_assign "test_helpers" (JObject h0) o))
    = Some (JObject (StdMap.insert_or_assign "test_helpers" (JObject h) o)).
Proof.
  unfold add_test_helpers.
  assert (Inner : forall key l h',
             exists h,
               fold_left
                 (fun m epnt =>
                    option_bind m (fun m => add_test_helper key m epnt))
                 l (Some (JObject (StdMap.insert_or_assign "test_helpers"
                                     (JObject h') o)))
               = Some (JObject (StdMap.insert_or_assign "test_helpers"
                                  (JObject h) o))).
  { intros key l. induction l as [|e l IH]; intros h'; simpl.
    - eauto.
    - destruct (add_test_helper_object key e
                  (StdMap.insert_or_assign "test_helpers" (JObject h') o) h'
                  (find_insert_same _ _ _)) as [h1 E1].
      rewrite E1, insert_insert_same. apply IH. }
  revert h0. induction helpers as [|[key l] helpers IH]; intros h0; simpl.
  - eauto.
  - destruct (Inner key l h0) as [h1 E1]. rewrite E1. apply IH.
Qed.

Lemma add_test_helpers_object helpers o h0 :
  StdMap.insert_or_assign "test_helpers" (JObject h0) o = o ->
  exists h, add_test_helpers helpers (JObject o)
            = Some (JObject (StdMap.insert_or_assign "test_helpers"
                               (JObject h) o)).
Proof.
  intros E. destruct (add_test_helpers_insert helpers o h0) as [h H].
  rewrite E in H. eauto.
Qed.
End RecordFacts.

Local Arguments sole.str : simpl never.
Local Arguments sole.uuid4 : simpl never.

(** Name the next result that [make_measurement] takes from the world. *)
Ltac oracle :=
  match goal with
  | |- context [Env.random_device ?e ?w] =>
      destruct (Env.random_device e w) as [? ?] eqn:?
  | |- context [Env.format_system_clock_now ?e ?w] =>
      destruct (Env.format_system_clock_now e w) as [? ?] eqn:?
  | |- context [Env.steady_clock_now ?e ?w] =>
      destruct (Env.steady_clock_now e w) as [? ?] eqn:?
  | |- context [Nettest.run ?n ?s ?c ?i ?k ?b ?w] =>
      destruct (Nettest.run n s c i k b w) as [[[? ?] ?] ?] eqn:?
  | |- context [add_test_helpers ?h (JObject ?o)] =>
      let x := fresh "helpers" in
      let E := fresh "E" in
      destruct (add_test_helpers_object h o [] eq_refl) as [x E];
      rewrite E; clear E
  end.

Ltac unfold_measurement :=
  unfold make_measurement;
  unfold bind, assign, or_terminate, ret, the_world, input_at, log_item,
    terminate.

Section MeasurementFacts.
Context {World : Type}.
Variable env : Env.t World.
Variable nettest_ : Nettest.t World.
Variable settings_ : Settings.t.

(** What every record that [make_measurement] hands back contains. *)
Lemma make_measurement_inv t inputs ctx i st rv m st' :
  make_measurement env nettest_ settings_ t inputs ctx i st
  = Some ((rv, m), st') ->
  exists input test_keys,
    nth_error inputs (Z.to_nat i) = Some input /\ 0 <= i
    /\ trace st' = trace st ++ [Called (call_nettest_run input)]
    /\ at_key "input" m = Some (JString input)
    /\ at_key "probe_asn" m
       = Some (JString (if Settings.save_real_probe_asn settings_
                        then NettestContext.probe_asn ctx else ""))
    /\ at_key "probe_cc" m
       = Some (JString (if Settings.save_real_probe_cc settings_
                        then NettestContext.probe_cc ctx else ""))
    /\ at_key "probe_ip" m
       = Some (JString (if Settings.save_real_probe_ip settings_
                        then NettestContext.probe_ip ctx else ""))
    /\ at_key "report_id" m = Some (JString (NettestContext.report_id ctx))
    /\ at_key "software_name" m = None
    /\ at_key "software_version" m = None
    /\ at_key "sotfware_name" m
       = Some (JString (Settings.software_name settings_))
    /\ at_key "sotfware_version" m
       = Some (JString (Settings.software_version settings_))
    /\ at_key "test_keys" m = Some test_keys
    /\ at_key "client_resolver" test_keys
       = Some (JString (if Settings.save_real_resolver_ip settings_
                        then NettestContext.resolver_ip ctx else "")).
Proof.
  unfold_measurement.
  destruct (i <? 0) eqn:Hi; [cbn; repeat (oracle; cbn); discriminate|].
  destruct (nth_error inputs (Z.to_nat i)) as [input|] eqn:Hin;
    [|cbn; repeat (oracle; cbn); discriminate].
  repeat (cbn; oracle). cbn.
  match goal with
  | |- context [match ?j with JNull => _ | _ => _ end] =>
      destruct j; cbn; try discriminate
  end;
    intros H; inversion H; subst; clear H;
    eexists input, _; (split; [reflexivity|]); (split; [lia|]);
    cbn; repeat split; apply find_insert_same.
Qed.
End MeasurementFacts.


(** ** The Runner's methods finish, and mark no stage of their own *)

Lemma yields_emit_quiet {World : Type} (key : string) (value : json) :
  checkpoint (Emitted (event key value)) = [] ->
  yields [] (@emit_ev World key value).
Proof. intros E. rewrite <- E. apply yields_emit_ev. Qed.

Lemma yields_called_quiet {World : Type} (c : Call) :
  checkpoint (Called c) = [] -> yields [] (@log_item World (Called c)).
Proof. intros E. rewrite <- E. apply yields_log_item. Qed.

Lemma yields_or_terminate {World A : Type} (a : A) :
  yields [] (@or_terminate World A (Some a)).
Proof. apply yields_ret. Qed.

(** Walk through a computation that marks no stage. *)
Ltac quiet :=
  repeat
    match goal with
    | |- yields [] (bind _ _) => apply yields_quiet_bind; [|intros]
    | |- yields [] (ret _) => apply yields_ret
    | |- yields [] (the_world _) => apply yields_the_world
    | |- yields [] (EMIT_WARNING _ _) => apply yields_EMIT_LOG
    | |- yields [] (EMIT_INFO _ _) => apply yields_EMIT_LOG
    | |- yields [] (EMIT_DEBUG _ _) => apply yields_EMIT_LOG
    | |- yields [] (curlx_post_json _ _ _ _ _) => apply yields_curlx_post_json
    | |- yields [] (curlx_get _ _ _ _) => apply yields_curlx_get
    | |- yields [] (query_bouncer _ _ _ _ _ _ _) =>
        apply yields_query_bouncer
    | |- yields [] (lookup_asn _ _ _ _ _ _) => apply yields_lookup_asn
    | |- yields [] (lookup_cc _ _ _ _ _) => apply yields_lookup_cc
    | |- yields [] (lookup_resolver_ip _ _ _) =>
        apply yields_lookup_resolver_ip
    | |- yields [] (emit_ev _ _) => apply yields_emit_quiet; reflexivity
    | |- yields [] (log_item (Called _)) => apply yields_called_quiet; reflexivity
    | |- yields [] (or_terminate (Some _)) => apply yields_or_terminate
    | |- yields [] (if ?c then _ else _) => destruct c
    | |- yields [] (match ?x with inl _ => _ | inr _ => _ end) => destruct x
    | |- yields [] (match ?x with Some _ => _ | None => _ end) =>
        destruct x eqn:?
    | |- yields [] (match ?x with (_, _) => _ end) => destruct x
    end.

Section MethodFacts.
Context {World : Type}.
Variable env : Env.t World.
Variable nettest_ : Nettest.t World.
Variable settings_ : Settings.t.

Lemma yields_lookup_ip ip err :
  yields [] (lookup_ip env settings_ ip err).
Proof. unfold lookup_ip. quiet. Qed.

Lemma yields_open_report base t ctx rid err :
  yields [] (open_report env nettest_ settings_ base t ctx rid err).
Proof. unfold open_report. cbn [set_path option_bind]. quiet. Qed.

Lemma yields_update_report base rid str err :
  yields [] (update_report env settings_ base rid str err).
Proof. unfold update_report. cbn [set_path option_bind]. quiet. Qed.

Lemma yields_close_report base rid err :
  yields [] (close_report env settings_ base rid err).
Proof. unfold close_report. quiet. Qed.

Lemma yields_submit_measurement ctx base i m :
  yields [] (submit_measurement env settings_ ctx base i m).
Proof.
  unfold submit_measurement. quiet; try apply yields_update_report; quiet.
Qed.

Lemma yields_input_at (inputs : list string) (i : Z) :
  0 <= i < Z.of_nat (List.length inputs) ->
  yields [] (@input_at World inputs i).
Proof.
  intros R. unfold input_at.
  destruct (i <? 0) eqn:Hi; [lia|].
  destruct (nth_error inputs (Z.to_nat i)) eqn:Hn.
  - apply yields_ret.
  - apply nth_error_None in Hn. lia.
Qed.

Hypothesis contract : fills_test_keys nettest_.

Lemma yields_make_measurement t inputs ctx i :
  0 <= i < Z.of_nat (List.length inputs) ->
  yields [] (make_measurement env nettest_ settings_ t inputs ctx i).
Proof.
  intros R st. unfold_measurement.
  destruct (i <? 0) eqn:Hi; [lia|].
  destruct (nth_error inputs (Z.to_nat i)) as [input|] eqn:Hn;
    [|apply nth_error_None in Hn; lia].
  repeat (cbn; oracle). cbn.
  match goal with
  | H : Nettest.run _ _ _ _ JNull ?b ?w = (_, ?j, _, _) |- _ =>
      pose proof (contract settings_ ctx input b w) as C;
      rewrite H in C; simpl in C
  end.
  destruct C as [->|C];
    [|match type of C with is_object ?j = true =>
        destruct j; try discriminate C end];
    cbn; eexists _, _, [_]; (split; [reflexivity|]); split; reflexivity.
Qed.

Lemma yields_run_with_index32 begin t inputs ctx base i :
  0 <= i < Z.of_nat (List.length inputs) ->
  yields [] (run_with_index32 env nettest_ settings_ begin t inputs ctx base i).
Proof.
  intros R. unfold run_with_index32. quiet;
    first [ now apply yields_input_at
          | now apply yields_make_measurement
          | apply yields_submit_measurement
          | idtac ].
Qed.
End MethodFacts.


(** ** The parallel dispatcher *)

Section DispatcherFacts.
Import Dispatcher.
Variable Shared : Type.
Variable interrupted : Shared -> bool.
Variable run_with_index32 : Z -> Shared -> option (bool * Shared).
Variable size : Z.

Local Abbreviation Pool := (Dispatcher.Pool Shared).
Local Abbreviation step :=
  (Dispatcher.step Shared interrupted run_with_index32 size).
Local Abbreviation exec :=
  (Dispatcher.exec Shared interrupted run_with_index32 size).
Local Abbreviation consistent := (Dispatcher.consistent Shared size).
Local Abbreviation ceiling := (Dispatcher.ceiling size).
Local Abbreviation drained := (Dispatcher.drained Shared size).

Lemma zrange_succ (n : Z) : 0 <= n -> zrange (n + 1) = zrange n ++ [n].
Proof.
  intros H. unfold zrange.
  replace (Z.to_nat (n + 1)) with (S (Z.to_nat n)) by lia.
  rewrite seq_S, map_app. simpl. now rewrite Z2Nat.id.
Qed.

Lemma in_zrange (n x : Z) : In x (zrange n) <-> 0 <= x < n.
Proof.
  unfold zrange. rewrite in_map_iff. split.
  - intros (k & <- & H). apply in_seq in H. lia.
  - intros H. exists (Z.to_nat x). split; [lia|]. apply in_seq. lia.
Qed.

Lemma NoDup_zrange (n : Z) : NoDup (zrange n).
Proof.
  unfold zrange. apply Injective_map_NoDup; [|apply seq_NoDup].
  intros a b. lia.
Qed.

Lemma set_worker_length w x (ws : list Worker) :
  List.length (set_worker w x ws) = List.length ws.
Proof.
  revert w. induction ws as [|y ws IH]; intros [|w]; simpl; auto.
Qed.

Lemma set_worker_Forall (P : Worker -> Prop) w x (ws : list Worker) :
  Forall P ws -> P x -> Forall P (set_worker w x ws).
Proof.
  intros H Hx. revert w. induction H as [|y ws Hy H IH]; intros [|w]; simpl;
    constructor; auto.
Qed.

Lemma nth_error_set_worker w x (ws : list Worker) y :
  nth_error ws w = Some y -> nth_error (set_worker w x ws) w = Some x.
Proof.
  revert w. induction ws as [|z ws IH]; intros [|w]; simpl; try discriminate;
    auto.
Qed.

(** What a move changes: the state of one worker, and what goes with
    it. *)
Ltac moves H :=
  unfold Dispatcher.step in H;
  repeat match type of H with
         | match ?x with _ => _ end = _ => destruct x eqn:?
         | (if ?c then _ else _) = _ => destruct c eqn:?
         end;
  try discriminate H; inversion H; subst; clear H;
  unfold enter, leave; cbn [i active workers claimed shared].

Lemma step_length w (p p' : Pool) :
  step w p = Some p' ->
  List.length (workers Shared p') = List.length (workers Shared p).
Proof.
  intros H. moves H; rewrite ?set_worker_length; reflexivity.
Qed.

(** The critical section hands out the indices in order, each once. *)
Lemma step_consistent w (p p' : Pool) :
  consistent p -> step w p = Some p' -> consistent p'.
Proof.
  intros (Hi & Hc & Hw & Hl) H. pose proof (step_length w p p' H) as L.
  unfold Dispatcher.consistent. rewrite L.
  assert (Keep : forall x,
             match x with Holding idx => 0 <= idx < i Shared p | _ => True end ->
             0 <= i Shared p <= ceiling
             /\ List.map snd (claimed Shared p) = zrange (i Shared p)
             /\ Forall (fun x => match x with
                                 | Holding idx => 0 <= idx < i Shared p
                                 | _ => True
                                 end)
                  (set_worker w x (workers Shared p))
             /\ Forall (fun c => (fst c < List.length (workers Shared p))%nat)
                  (claimed Shared p)).
  { intros x Hx. refine (conj Hi (conj Hc (conj _ Hl))).
    now apply set_worker_Forall. }
  moves H; try (apply Keep; exact I);
    try exact (conj Hi (conj Hc (conj Hw Hl))).
  match goal with
  | B : orb _ _ = false |- _ =>
      apply Bool.orb_false_iff in B; destruct B as [B1 B2];
      apply Z.ltb_ge in B1; apply Z.leb_gt in B2
  end.
  unfold Dispatcher.ceiling, UINT32_MAX, UINT64_MOD in *.
  rewrite (Z.mod_small (i Shared p)) by lia.
  rewrite (Z.mod_small (i Shared p + 1)) by lia.
  refine (conj _ (conj _ (conj _ _))).
  - lia.
  - rewrite map_app, Hc, zrange_succ by lia. reflexivity.
  - apply set_worker_Forall; [|lia].
    eapply Forall_impl; [|exact Hw]. intros [| | | |]; simpl; lia.
  - apply Forall_app. split; [exact Hl|]. constructor; [|constructor].
    simpl. apply nth_error_Some. congruence.
Qed.

Lemma start_consistent (n : nat) (s : Shared) : consistent (start Shared n s).
Proof.
  unfold Dispatcher.consistent, start, Dispatcher.ceiling, UINT32_MAX. simpl.
  refine (conj _ (conj eq_refl (conj _ _))).
  - lia.
  - apply Forall_forall. intros x Hx. apply repeat_spec in Hx. now subst.
  - constructor.
Qed.

Lemma exec_consistent sched (p p' : Pool) :
  consistent p -> exec sched p = Some p' -> consistent p'.
Proof.
  revert p. induction sched as [|w sched IH]; simpl; intros p C H.
  - now inversion H; subst.
  - destruct (step w p) as [p1|] eqn:S1; [|discriminate].
    eapply IH; [|exact H]. eapply step_consistent; eauto.
Qed.

Lemma exec_length sched (p p' : Pool) :
  exec sched p = Some p' ->
  List.length (workers Shared p') = List.length (workers Shared p).
Proof.
  revert p. induction sched as [|w sched IH]; simpl; intros p H.
  - now inversion H.
  - destruct (step w p) as [p1|] eqn:S1; [|discriminate].
    rewrite (IH _ H). eapply step_length; eauto.
Qed.

(** *** No interrupt, no timeout *)

Hypothesis never_interrupted : forall s, interrupted s = false.
Hypothesis never_false :
  forall idx s s', run_with_index32 idx s <> Some (false, s').

Lemma nth_error_set_worker_inv w w' x (ws : list Worker) y :
  nth_error (set_worker w x ws) w' = Some y ->
  y = x \/ nth_error ws w' = Some y.
Proof.
  revert w w'. induction ws as [|z ws IH]; intros [|w] [|w']; simpl; auto.
  - intros H; inversion H; auto.
  - apply IH.
Qed.

Lemma step_drained w (p p' : Pool) :
  consistent p -> drained p -> step w p = Some p' -> drained p'.
Proof.
  intros (Hi & _) D H.
  assert (Same : forall x,
             x <> Exited ->
             (exists w', nth_error (set_worker w x (workers Shared p)) w'
                         = Some Exited) ->
             i Shared p = ceiling).
  { intros x Nx (w' & E). apply nth_error_set_worker_inv in E.
    destruct E as [E|E]; [congruence|]. apply D; eauto. }
  moves H; try exact D; unfold Dispatcher.drained;
    cbn [i workers];
    try (apply Same; discriminate).
  - rewrite never_interrupted in *. discriminate.
  - intros _.
    match goal with
    | B : orb _ _ = true |- _ => apply Bool.orb_true_iff in B;
        unfold Dispatcher.ceiling, UINT32_MAX in *;
        destruct B as [B|B]; [apply Z.ltb_lt in B|apply Z.leb_le in B]; lia
    end.
  - intros E.
    match goal with
    | B : orb _ _ = false |- _ =>
        apply Bool.orb_false_iff in B; destruct B as [B1 B2];
        apply Z.ltb_ge in B1; apply Z.leb_gt in B2
    end.
    assert (i Shared p = ceiling) by (apply (Same (Holding (i Shared p mod 2 ^ 32))); [discriminate|exact E]).
    unfold Dispatcher.ceiling, UINT32_MAX in *. lia.
  - exfalso. eapply never_false. eassumption.
Qed.

Lemma exec_drained sched (p p' : Pool) :
  consistent p -> drained p -> exec sched p = Some p' -> drained p'.
Proof.
  revert p. induction sched as [|w sched IH]; simpl; intros p C D H.
  - now inversion H; subst.
  - destruct (step w p) as [p1|] eqn:S1; [|discriminate].
    eapply IH; [| |exact H].
    + eapply step_consistent; eauto.
    + eapply step_drained; eauto.
Qed.

Lemma start_drained (n : nat) (s : Shared) : drained (start Shared n s).
Proof.
  intros (w & E). unfold start in E. simpl in E.
  apply nth_error_In, repeat_spec in E. discriminate.
Qed.

(** Once the workers are gone, the indices below the ceiling have been
    handed out, in order, each once. *)
Lemma complete_run_claims (n : nat) (s0 : Shared) sched (p : Pool) :
  (0 < n)%nat ->
  exec sched (start Shared n s0) = Some p ->
  all_exited Shared p = true ->
  List.map snd (claimed Shared p) = zrange (Z.min size (UINT32_MAX + 1))
  /\ Forall (fun c => (fst c < n)%nat) (claimed Shared p).
Proof.
  intros Hn E A.
  pose proof (exec_consistent _ _ _ (start_consistent n s0) E)
    as (Hi & Hc & Hw & Hl).
  pose proof (exec_drained _ _ _ (start_consistent n s0)
                (start_drained n s0) E) as D.
  pose proof (exec_length _ _ _ E) as L. simpl in L.
  rewrite repeat_length in L. rewrite L in Hl. split; [|exact Hl].
  rewrite Hc. assert (X : i Shared p = ceiling).
  { apply D. destruct (workers Shared p) as [|x ws] eqn:W;
      [simpl in L; lia|].
    exists 0%nat. unfold all_exited in A. rewrite W in A. simpl in A.
    apply Bool.andb_true_iff in A. destruct A as [A _].
    destruct x; try discriminate. reflexivity. }
  rewrite X. unfold Dispatcher.ceiling, zrange.
  destruct (Z.le_gt_cases 0 (Z.min size (UINT32_MAX + 1))) as [G|G].
  - now rewrite Z.max_r.
  - rewrite Z.max_l by lia.
    replace (Z.to_nat (Z.min size (UINT32_MAX + 1))) with 0%nat by lia.
    reflexivity.
Qed.
End DispatcherFacts.

Section WaitFacts.
Import Dispatcher.
Variable Shared : Type.
Variable interrupted : Shared -> bool.
Variable run_with_index32 : Z -> Shared -> option (bool * Shared).
Variable size : Z.
Variable poll : Shared -> bool * Shared.
Variable pick : Shared -> nat * Shared.

Local Abbreviation Pool := (Dispatcher.Pool Shared).
Local Abbreviation step :=
  (Dispatcher.step Shared interrupted run_with_index32 size).
Local Abbreviation wait :=
  (Dispatcher.wait Shared interrupted run_with_index32 size poll pick).
Local Abbreviation consistent := (Dispatcher.consistent Shared size).
Local Abbreviation ceiling := (Dispatcher.ceiling size).
Local Abbreviation counted := (Dispatcher.counted Shared).
Local Abbreviation moves_left := (Dispatcher.moves_left Shared size).

(** An index held by a worker is an index of the input list. *)
Lemma holding_in_range (p : Pool) w idx :
  consistent p -> nth_error (workers Shared p) w = Some (Holding idx) ->
  0 <= idx < size.
Proof.
  intros (Hi & _ & Hw & _) N. apply nth_error_In in N.
  rewrite Forall_forall in Hw. specialize (Hw _ N). simpl in Hw.
  unfold Dispatcher.ceiling, UINT32_MAX in Hi. lia.
Qed.

Lemma runnable_from_spec k (ws : list Worker) w :
  In w (runnable_from k ws) <->
  (k <= w)%nat /\ exists x, nth_error ws (w - k) = Some x
                            /\ is_exited x = false.
Proof.
  revert k. induction ws as [|y ws IH]; intros k; simpl.
  - split; [tauto|]. intros (_ & x & N & _). destruct (w - k)%nat; discriminate.
  - destruct (is_exited y) eqn:E; simpl; rewrite IH; split.
    + intros (L & x & N & X). split; [lia|]. exists x. split; [|exact X].
      replace (w - k)%nat with (S (w - S k)) by lia. exact N.
    + intros (L & x & N & X). destruct (w - k)%nat as [|d] eqn:D.
      * simpl in N. inversion N; subst. congruence.
      * split; [lia|]. exists x. split; [|exact X].
        replace (w - S k)%nat with d by lia. exact N.
    + intros [<-|(L & x & N & X)].
      * split; [lia|]. exists y. rewrite Nat.sub_diag. auto.
      * split; [lia|]. exists x. split; [|exact X].
        replace (w - k)%nat with (S (w - S k)) by lia. exact N.
    + intros (L & x & N & X). destruct (w - k)%nat as [|d] eqn:D.
      * left. lia.
      * right. split; [lia|]. exists x. split; [|exact X].
        replace (w - S k)%nat with d by lia. exact N.
Qed.

Lemma runnable_spec (p : Pool) w :
  In w (runnable Shared p) <->
  exists x, nth_error (workers Shared p) w = Some x
            /\ is_exited x = false.
Proof.
  unfold runnable. rewrite runnable_from_spec, Nat.sub_0_r.
  split; [tauto|]. intros H. split; [lia|exact H].
Qed.

(** The scheduler's choice is a runnable worker. *)
Lemma chosen_runnable (l : list nat) (n w0 : nat) :
  l <> [] -> In (nth (n mod List.length l) l w0) l.
Proof.
  intros N. apply nth_In. apply Nat.mod_upper_bound.
  destruct l; [congruence|simpl; lia].
Qed.

(** *** The wait never gets stuck, and keeps what the moves keep *)

Variable R : Shared -> Shared -> Prop.
Hypothesis R_refl : forall s, R s s.
Hypothesis R_trans : forall s1 s2 s3, R s1 s2 -> R s2 s3 -> R s1 s3.
Hypothesis body_ok :
  forall idx s, 0 <= idx < size ->
                exists r s', run_with_index32 idx s = Some (r, s') /\ R s s'.
Hypothesis poll_ok : forall s, R s (snd (poll s)).
Hypothesis pick_ok : forall s, R s (snd (pick s)).

Lemma step_keeps w (p : Pool) :
  consistent p ->
  exists p', step w p = Some p' /\ R (shared Shared p) (shared Shared p').
Proof.
  intros C. unfold Dispatcher.step.
  destruct (nth_error (workers Shared p) w) as [[| | |idx|]|] eqn:N.
  - eexists; split; [reflexivity|apply R_refl].
  - destruct (interrupted _); eexists; split;
      try reflexivity; simpl; apply R_refl.
  - destruct (orb _ _); eexists; split;
      try reflexivity; simpl; apply R_refl.
  - destruct (body_ok idx (shared Shared p) (holding_in_range p w idx C N))
      as (r & s' & E & HR).
    rewrite E. destruct r; eexists; (split; [reflexivity|]); simpl; exact HR.
  - eexists; split; [reflexivity|apply R_refl].
  - eexists; split; [reflexivity|apply R_refl].
Qed.

Lemma wait_keeps fuel (p : Pool) :
  consistent p ->
  exists p', wait fuel p = Some p' /\ R (shared Shared p) (shared Shared p')
             /\ consistent p'.
Proof.
  revert p. induction fuel as [|fuel IH]; intros p C; cbn [Dispatcher.wait].
  - exists p. auto.
  - pose proof (poll_ok (shared Shared p)) as HQ.
    destruct (poll (shared Shared p)) as [tests s1]. simpl in HQ.
    set (p1 := with_shared Shared s1 p).
    assert (C1 : consistent p1) by exact C.
    destruct (andb tests (active Shared p1 <=? 0)); [exists p1; auto|].
    pose proof (pick_ok (shared Shared p1)) as HP.
    destruct (pick (shared Shared p1)) as [n s2]. simpl in HP.
    set (p2 := with_shared Shared s2 p1).
    assert (C2 : consistent p2) by exact C.
    destruct (runnable Shared p2) as [|w0 l] eqn:Rn.
    + exists p2. split; [reflexivity|]. split; [|exact C2].
      eapply R_trans; [exact HQ|exact HP].
    + destruct (step_keeps
                  (nth (n mod List.length (w0 :: l)) (w0 :: l) w0) p2 C2)
        as (p3 & E3 & R3).
      rewrite E3.
      destruct (IH p3 (step_consistent _ _ _ _ _ _ _ C2 E3))
        as (p4 & E4 & R4 & C4).
      exists p4. split; [exact E4|]. split; [|exact C4].
      eapply R_trans; [exact HQ|]. eapply R_trans; [exact HP|].
      eapply R_trans; [exact R3|exact R4].
Qed.

(** *** The fuel given to the wait is enough *)

Lemma total_weight_set w x y (ws : list Worker) :
  nth_error ws w = Some y ->
  total_weight (set_worker w x ws) = total_weight ws - weight y + weight x.
Proof.
  unfold total_weight. revert w.
  induction ws as [|z ws IH]; intros [|w];
    cbn [fold_right List.map set_worker nth_error]; try discriminate.
  - intros H; inversion H; subst. lia.
  - intros H. rewrite (IH _ H). lia.
Qed.

Lemma total_weight_nonneg (ws : list Worker) : 0 <= total_weight ws.
Proof.
  unfold total_weight.
  induction ws as [|[| | | |] ws IH]; cbn [fold_right List.map weight]; lia.
Qed.

Lemma total_weight_zero (ws : list Worker) :
  total_weight ws <= 0 -> forallb is_exited ws = true.
Proof.
  unfold total_weight.
  induction ws as [|z ws IH]; cbn [fold_right List.map forallb];
    [reflexivity|].
  pose proof (total_weight_nonneg ws) as P. unfold total_weight in P.
  destruct z; cbn [weight is_exited andb]; intros H; try lia.
  apply IH. lia.
Qed.

Lemma runnable_from_nil k (ws : list Worker) :
  runnable_from k ws = [] -> forallb is_exited ws = true.
Proof.
  revert k. induction ws as [|z ws IH]; intros k; simpl; [reflexivity|].
  destruct (is_exited z); [apply IH|discriminate].
Qed.

(** How many workers are inside the lambda changes with the worker that
    moves. *)
Lemma in_loop_set w x y (ws : list Worker) :
  nth_error ws w = Some y ->
  Z.of_nat (List.length (filter in_loop (set_worker w x ws)))
  = Z.of_nat (List.length (filter in_loop ws))
    - (if in_loop y then 1 else 0) + (if in_loop x then 1 else 0).
Proof.
  revert w. induction ws as [|z ws IH]; intros [|w];
    cbn [set_worker nth_error filter]; try discriminate.
  - intros H; inversion H; subst.
    destruct (in_loop y), (in_loop x); cbn [List.length]; lia.
  - intros H. specialize (IH _ H).
    destruct (in_loop z); cbn [List.length]; lia.
Qed.

Lemma in_loop_bounds w y (ws : list Worker) :
  nth_error ws w = Some y ->
  ((if in_loop y then 1 else 0) <= List.length (filter in_loop ws)
   /\ List.length (filter in_loop ws) + (if in_loop y then 0 else 1)
      <= List.length ws)%nat.
Proof.
  revert w. induction ws as [|z ws IH]; intros [|w];
    cbn [nth_error filter]; try discriminate.
  - intros H; inversion H; subst.
    pose proof (filter_length_le in_loop ws).
    destruct (in_loop y); cbn [List.length]; lia.
  - intros H. specialize (IH _ H).
    destruct (in_loop z), (in_loop y); cbn [List.length] in *; lia.
Qed.

(** A move of a runnable worker uses up at least one of the moves left. *)
Lemma step_moves w x (p p' : Pool) :
  consistent p -> counted p ->
  nth_error (workers Shared p) w = Some x -> is_exited x = false ->
  step w p = Some p' ->
  moves_left p' <= moves_left p - 1 /\ counted p'.
Proof.
  intros (Hi & _) (Ha & Hn) N E.
  pose proof (in_loop_bounds _ _ _ N) as B.
  unfold Dispatcher.step, Dispatcher.moves_left, Dispatcher.counted.
  rewrite N.
  destruct x as [| | |idx|]; [| | | |discriminate]; cbn [in_loop] in B.
  - intros H; inversion H; subst. unfold enter.
    cbn [i active workers claimed shared].
    rewrite (total_weight_set _ _ _ _ N), set_worker_length,
      (in_loop_set _ _ _ _ N).
    cbn [weight in_loop]. rewrite Ha, Z.mod_small by lia.
    split; [lia|]. split; lia.
  - destruct (interrupted _);
      intros H; inversion H; subst; unfold leave;
      cbn [i active workers claimed shared];
      rewrite (total_weight_set _ _ _ _ N), set_worker_length,
        (in_loop_set _ _ _ _ N);
      cbn [weight in_loop].
    + rewrite Ha, Z.mod_small by lia. split; [lia|]. split; lia.
    + split; [lia|]. split; lia.
  - destruct (orb _ _) eqn:Bo;
      intros H; inversion H; subst; unfold leave;
      cbn [i active workers claimed shared];
      rewrite (total_weight_set _ _ _ _ N), set_worker_length,
        (in_loop_set _ _ _ _ N);
      cbn [weight in_loop].
    + rewrite Ha, Z.mod_small by lia. split; [lia|]. split; lia.
    + apply Bool.orb_false_iff in Bo. destruct Bo as [B1 B2].
      apply Z.ltb_ge in B1. apply Z.leb_gt in B2.
      unfold Dispatcher.ceiling, UINT32_MAX, UINT64_MOD in *.
      rewrite (Z.mod_small (i Shared p + 1)) by lia.
      split; [lia|]. split; lia.
  - destruct (run_with_index32 idx _) as [[[|] s']|];
      intros H; inversion H; subst; unfold leave;
      cbn [i active workers claimed shared];
      rewrite (total_weight_set _ _ _ _ N), set_worker_length,
        (in_loop_set _ _ _ _ N);
      cbn [weight in_loop].
    + split; [lia|]. split; lia.
    + rewrite Ha, Z.mod_small by lia. split; [lia|]. split; lia.
Qed.

Lemma none_in_loop_spec (ws : list Worker) :
  List.length (filter in_loop ws) = 0%nat <->
  forallb (fun x => negb (in_loop x)) ws = true.
Proof.
  induction ws as [|z ws IH]; cbn [filter forallb]; [tauto|].
  destruct (in_loop z); cbn [List.length negb andb]; [|exact IH].
  split; [lia|discriminate].
Qed.

Lemma exited_not_in_loop (ws : list Worker) :
  forallb is_exited ws = true ->
  List.length (filter in_loop ws) = 0%nat.
Proof.
  induction ws as [|z ws IH]; cbn [filter forallb]; [reflexivity|].
  destruct z; cbn [is_exited andb in_loop]; try discriminate. exact IH.
Qed.

(** The wait ends with [active] at zero and no worker inside the
    lambda; under a main thread that never tests before the threads are
    gone, with every worker past [active -= 1]. *)
Lemma wait_completes_all fuel (p p' : Pool) :
  consistent p -> counted p -> moves_left p <= Z.of_nat fuel ->
  wait fuel p = Some p' ->
  (active Shared p' = 0 /\ none_in_loop Shared p' = true /\ counted p')
  /\ ((forall s, fst (poll s) = false) -> all_exited Shared p' = true).
Proof.
  assert (Done : forall q : Pool,
             counted q -> forallb is_exited (workers Shared q) = true ->
             (active Shared q = 0 /\ none_in_loop Shared q = true
              /\ counted q)
             /\ ((forall s, fst (poll s) = false) ->
                 all_exited Shared q = true)).
  { intros q K X. pose proof (exited_not_in_loop _ X) as Z0.
    destruct K as (Ha & Hn). split; [|intros _; exact X].
    split; [rewrite Ha, Z0; reflexivity|].
    split; [apply none_in_loop_spec; exact Z0|split; assumption]. }
  revert p. induction fuel as [|fuel IH]; intros p C K M;
    cbn [Dispatcher.wait].
  - intros H; inversion H; subst. apply Done; [exact K|].
    apply total_weight_zero. destruct C as (Hi & _).
    unfold Dispatcher.moves_left in M. lia.
  - pose proof (fun F : forall s, fst (poll s) = false =>
                  F (shared Shared p)) as NP.
    destruct (poll (shared Shared p)) as [tests s1]. simpl in NP.
    set (p1 := with_shared Shared s1 p).
    assert (C1 : consistent p1) by exact C.
    assert (K1 : counted p1) by exact K.
    destruct (andb tests (active Shared p1 <=? 0)) eqn:A.
    + intros H; inversion H; subst.
      apply Bool.andb_true_iff in A. destruct A as [T A].
      apply Z.leb_le in A. destruct K1 as (Ha & Hn). split.
      * assert (Z0 : List.length (filter in_loop (workers Shared p1))
                     = 0%nat) by lia.
        split; [lia|]. split; [apply none_in_loop_spec; exact Z0|].
        split; assumption.
      * intros F. rewrite (NP F) in T. discriminate.
    + destruct (pick (shared Shared p1)) as [n s2].
      set (p2 := with_shared Shared s2 p1).
      assert (C2 : consistent p2) by exact C.
      assert (K2 : counted p2) by exact K.
      assert (M2 : moves_left p2 = moves_left p) by reflexivity.
      destruct (runnable Shared p2) as [|w0 l] eqn:Rn.
      * intros H; inversion H; subst. apply Done; [exact K2|].
        apply (runnable_from_nil 0). exact Rn.
      * assert (Hin : In (nth (n mod List.length (w0 :: l)) (w0 :: l) w0)
                          (runnable Shared p2))
          by (rewrite Rn; apply chosen_runnable; discriminate).
        apply runnable_spec in Hin.
        destruct Hin as (x & N & E).
        destruct (step _ p2) as [p3|] eqn:S3; [|discriminate].
        destruct (step_moves _ x p2 p3 C2 K2 N E S3) as (M3 & K3).
        apply IH; [|exact K3|lia].
        eapply step_consistent; eauto.
Qed.

Lemma wait_completes fuel (p p' : Pool) :
  consistent p -> counted p -> moves_left p <= Z.of_nat fuel ->
  wait fuel p = Some p' ->
  active Shared p' = 0 /\ none_in_loop Shared p' = true /\ counted p'.
Proof.
  intros C K M W. exact (proj1 (wait_completes_all fuel p p' C K M W)).
Qed.

Lemma start_counted (n : nat) (s : Shared) :
  (n <= 255)%nat -> counted (start Shared n s).
Proof.
  intros H. unfold Dispatcher.counted, start. simpl.
  rewrite repeat_length. split; [|exact H].
  induction n as [|n IH]; simpl; [reflexivity|]. apply IH. lia.
Qed.

Lemma start_moves (n : nat) (s : Shared) :
  (0 < n)%nat -> 3 <= moves_left (start Shared n s).
Proof.
  intros Hn. unfold Dispatcher.moves_left, start.
  cbn [i workers].
  assert (0 <= ceiling) by (unfold Dispatcher.ceiling; lia).
  destruct n as [|n]; [lia|].
  pose proof (total_weight_nonneg (repeat NotStarted n)) as Wn.
  unfold total_weight in *.
  cbn [repeat List.map fold_right weight]. lia.
Qed.

(** *** A main thread that tests first *)

(** When the main thread reads [active] before any of the threads it has
    detached has run, the wait is over at once: no index is claimed. *)
Lemma wait_eager fuel (n : nat) (s s1 : Shared) :
  poll s = (true, s1) ->
  wait (S fuel) (start Shared n s) = Some (start Shared n s1).
Proof.
  intros E. cbn [Dispatcher.wait]. unfold start at 1.
  cbn [shared]. rewrite E. reflexivity.
Qed.
End WaitFacts.

(** A wait under a scheduler that leaves the shared state alone is one of
    the interleavings. *)
Lemma wait_exec (Shared : Type) interrupted body size poll pick fuel
    (p p' : Dispatcher.Pool Shared) :
  (forall s, snd (poll s) = s) ->
  (forall s, snd (pick s) = s) ->
  Dispatcher.wait Shared interrupted body size poll pick fuel p = Some p' ->
  exists sched, Dispatcher.exec Shared interrupted body size sched p = Some p'.
Proof.
  intros Q P. revert p. induction fuel as [|fuel IH]; intros p;
    cbn [Dispatcher.wait].
  - intros H; inversion H; subst. exists []. reflexivity.
  - pose proof (Q (Dispatcher.shared Shared p)) as Q1.
    destruct (poll (Dispatcher.shared Shared p)) as [tests s1]. simpl in Q1.
    subst s1.
    assert (Same : forall q : Dispatcher.Pool Shared,
               Dispatcher.with_shared Shared (Dispatcher.shared Shared q) q
               = q) by (intros []; reflexivity).
    rewrite Same.
    destruct (andb tests _).
    + intros H; inversion H; subst. exists []. reflexivity.
    + pose proof (P (Dispatcher.shared Shared p)) as P1.
      destruct (pick (Dispatcher.shared Shared p)) as [n s']. simpl in P1.
      subst s'. rewrite Same.
      destruct (Dispatcher.runnable Shared _) as [|w0 l].
      * intros H; inversion H; subst. exists []. reflexivity.
      * destruct (Dispatcher.step Shared interrupted body size _ _)
          as [p2|] eqn:S2; [|discriminate].
        intros H. destruct (IH _ H) as (sched & E).
        eexists (_ :: sched). simpl. rewrite S2. exact E.
Qed.

(** The pool can always be run to the end: some interleaving empties it. *)
Lemma complete_run_exists (Shared : Type) (interrupted : Shared -> bool)
    (body : Z -> Shared -> option (bool * Shared)) (size : Z) (n : nat)
    (s0 : Shared) :
  (n <= 255)%nat ->
  (forall idx s, 0 <= idx < size -> exists r s', body idx s = Some (r, s')) ->
  exists sched p,
    Dispatcher.exec Shared interrupted body size sched
      (Dispatcher.start Shared n s0) = Some p
    /\ Dispatcher.all_exited Shared p = true.
Proof.
  intros Hn Total.
  set (poll := fun s : Shared => (false, s)).
  set (pick := fun s : Shared => (0%nat, s)).
  set (p0 := Dispatcher.start Shared n s0).
  set (ml := Dispatcher.moves_left Shared size p0).
  destruct (wait_keeps Shared interrupted body size poll pick
              (fun _ _ => True) (fun _ => I) (fun _ _ _ _ _ => I))
    with (fuel := Z.to_nat ml) (p := p0) as (p & W & _ & _).
  - intros idx s R. destruct (Total idx s R) as (r & s' & E). eauto.
  - intros s. exact I.
  - intros s. exact I.
  - apply start_consistent.
  - assert (A : Dispatcher.all_exited Shared p = true).
    { eapply (wait_completes_all Shared interrupted body size poll pick);
        [| | |exact W|reflexivity].
      - apply start_consistent.
      - apply start_counted. exact Hn.
      - lia. }
    destruct (wait_exec Shared interrupted body size poll pick (Z.to_nat ml)
                p0 p (fun _ => eq_refl) (fun _ => eq_refl) W) as (sched & E).
    exists sched, p. auto.
Qed.


(** ** The stages of [run()] *)

Section StageFacts.
Context {World : Type}.
Variable env : Env.t World.
Variable nettest_ : Nettest.t World.
Variable settings_ : Settings.t.

Lemma returns_ret {A : Type} (P : A -> Prop) (a : A) :
  P a -> returns P (@ret World A a).
Proof. intros H st a' st' E. inversion E; subst. exact H. Qed.

Lemma returns_bind {A B : Type} (P : B -> Prop) (m : M World A)
    (k : A -> M World B) :
  (forall a, returns P (k a)) -> returns P (bind m k).
Proof.
  intros H st b st' E. unfold bind in E.
  destruct (m st) as [[a st1]|]; [|discriminate]. exact (H a st1 b st' E).
Qed.

Lemma yields_bouncer_stage ctx :
  yields (when (negb (Settings.no_bouncer settings_)) [("query_bouncer", [])])
         (bouncer_stage env nettest_ settings_ ctx).
Proof.
  unfold bouncer_stage. destruct (Settings.no_bouncer settings_); simpl.
  - apply yields_ret.
  - apply (yields_bind [("query_bouncer", [])] []);
      [apply yields_log_item|intros].
    quiet.
Qed.

Lemma yields_probe_ip_stage ctx :
  yields (when (andb (String.eqb (Settings.probe_ip settings_) "")
                     (negb (Settings.no_ip_lookup settings_)))
               [("lookup_ip", [])])
         (probe_ip_stage env settings_ ctx).
Proof.
  unfold probe_ip_stage.
  destruct (String.eqb (Settings.probe_ip settings_) "");
    [|apply yields_ret].
  destruct (Settings.no_ip_lookup settings_); simpl; [apply yields_ret|].
  apply (yields_bind [("lookup_ip", [])] []); [apply yields_log_item|intros].
  quiet. apply yields_lookup_ip.
Qed.

Lemma yields_probe_asn_stage ctx :
  yields (when (andb (String.eqb (Settings.probe_asn settings_) "")
                     (negb (Settings.no_asn_lookup settings_)))
               [("lookup_asn", [])])
         (probe_asn_stage env settings_ ctx).
Proof.
  unfold probe_asn_stage.
  destruct (String.eqb (Settings.probe_asn settings_) "");
    [|apply yields_ret].
  destruct (Settings.no_asn_lookup settings_); simpl; [apply yields_ret|].
  apply (yields_bind [("lookup_asn", [])] []); [apply yields_log_item|intros].
  quiet.
Qed.

Lemma yields_probe_cc_stage ctx :
  yields (when (andb (String.eqb (Settings.probe_cc settings_) "")
                     (negb (Settings.no_cc_lookup settings_)))
               [("lookup_cc", [])])
         (probe_cc_stage env settings_ ctx).
Proof.
  unfold probe_cc_stage.
  destruct (String.eqb (Settings.probe_cc settings_) "");
    [|apply yields_ret].
  destruct (Settings.no_cc_lookup settings_); simpl; [apply yields_ret|].
  apply (yields_bind [("lookup_cc", [])] []); [apply yields_log_item|intros].
  quiet.
Qed.

Lemma yields_progress (q : Q) (message : string) :
  yields [("status.progress", [q])] (@progress World q message).
Proof. apply yields_emit_ev. Qed.

Lemma yields_geoip_events ctx :
  yields [("status.progress", [2 # 10]); ("status.geoip_lookup", [])]
         (@geoip_events World ctx).
Proof.
  unfold geoip_events.
  apply (yields_bind [("status.progress", [2 # 10])]
                     [("status.geoip_lookup", [])]).
  - apply yields_progress.
  - intros _. apply yields_emit_ev.
Qed.

Lemma yields_resolver_stage ctx :
  yields (when (negb (Settings.no_resolver_lookup settings_))
               [("lookup_resolver_ip", [])])
         (resolver_stage env settings_ ctx).
Proof.
  unfold resolver_stage.
  rewrite <- (app_nil_r (when _ _)). apply yields_bind; [|intros; quiet].
  destruct (Settings.no_resolver_lookup settings_); simpl;
    [apply yields_ret|].
  apply (yields_bind [("lookup_resolver_ip", [])] []);
    [apply yields_log_item|intros].
  quiet.
Qed.

Lemma yields_select_collector collectors base :
  yields [] (@select_collector World settings_ collectors base).
Proof.
  induction collectors as [|epnt collectors IH]; simpl.
  - apply yields_ret.
  - destruct (_ =? _); [quiet|exact IH].
Qed.

Lemma yields_open_report_stage ctx t :
  yields (when (andb (negb (Settings.no_collector settings_))
                     (String.eqb (Settings.collector_base_url settings_) ""))
               [("open_report", [])])
         (open_report_stage env nettest_ settings_ ctx t).
Proof.
  unfold open_report_stage.
  destruct (Settings.no_collector settings_); simpl; [apply yields_ret|].
  destruct (String.eqb (Settings.collector_base_url settings_) "");
    simpl; [|apply yields_ret].
  apply yields_quiet_bind; [apply yields_select_collector|intros base].
  apply yields_quiet_bind; [apply yields_EMIT_LOG|intros _].
  apply (yields_bind [("open_report", [])] []);
    [apply yields_log_item|intros].
  quiet. apply yields_open_report.
Qed.

Lemma yields_close_report_stage ctx base :
  yields [] (close_report_stage env settings_ ctx base).
Proof.
  unfold close_report_stage. quiet. apply yields_close_report.
Qed.
End StageFacts.


Section RunFacts.
Context {World : Type}.
Variable env : Env.t World.
Variable nettest_ : Nettest.t World.
Variable settings_ : Settings.t.
Hypothesis contract : fills_test_keys nettest_.

(** The wait ends whatever the scheduler does, and keeps every relation
    on states that the calls of [run_with_index32] and the moves of the
    scheduler keep. *)
Lemma dispatch_keeps (R : State World -> State World -> Prop) parallelism
    begin t inputs ctx base :
  (forall s, R s s) ->
  (forall s1 s2 s3, R s1 s2 -> R s2 s3 -> R s1 s3) ->
  (forall s w, R s (mkState w (trace s) (info s))) ->
  (forall idx s,
      0 <= idx < Z.of_nat (List.length inputs) ->
      exists r s',
        run_with_index32 env nettest_ settings_ begin t inputs ctx base idx s
        = Some (r, s') /\ R s s') ->
  forall st, exists st',
    dispatch env nettest_ settings_ parallelism begin t inputs ctx base st
    = Some (tt, st') /\ R st st'.
Proof.
  intros Rr Rt Rw Body st. unfold dispatch.
  set (body := run_with_index32 env nettest_ settings_ begin t inputs ctx
                 base).
  set (size := Z.of_nat (List.length inputs)).
  set (poll := fun s : State World =>
                 let (tests, w) := Env.main_polls env (world s) in
                 (tests, mkState w (trace s) (info s))).
  set (pick := fun s : State World =>
                 let (n, w) := Env.schedule env (world s) in
                 (n, mkState w (trace s) (info s))).
  assert (Poll : forall s, R s (snd (poll s))).
  { intros s. unfold poll. destruct (Env.main_polls env (world s)) as [b w].
    apply Rw. }
  assert (Pick : forall s, R s (snd (pick s))).
  { intros s. unfold pick. destruct (Env.schedule env (world s)) as [n w].
    apply Rw. }
  match goal with
  | |- context [Dispatcher.wait _ ?int _ _ _ _ ?fl ?p0] =>
      destruct (wait_keeps (State World) int body size poll pick R
                  Rr Rt Body Poll Pick fl p0 (start_consistent _ _ _ _))
        as (p' & E & K & _)
  end.
  rewrite E. exists (Dispatcher.shared _ p'). auto.
Qed.

(** The workers and the wait mark no stage. *)
Lemma yields_dispatch parallelism begin t inputs ctx base :
  yields [] (dispatch env nettest_ settings_ parallelism begin t inputs ctx
               base).
Proof.
  intros st.
  destruct (dispatch_keeps quietly parallelism begin t inputs ctx base
              (@quietly_refl World) (@quietly_trans World)) with (st := st)
    as (st' & E & T & Tr & C).
  - intros s w. exists []. simpl. now rewrite app_nil_r.
  - intros idx s R.
    destruct (yields_run_with_index32 env nettest_ settings_ contract
                begin t inputs ctx base idx R s)
      as (r & s' & T & E & Tr & C).
    exists r, s'. split; [exact E|]. exists T. auto.
  - exists tt, st', T. auto.
Qed.

(** When the main thread leaves its wait, [active] is zero and no worker
    is between its [active += 1] and its [active -= 1]: the bound on the
    number of moves is never what ends the wait. *)
Lemma dispatch_waits_for_active parallelism begin t inputs ctx base st p :
  0 <= parallelism <= 255 ->
  let size := Z.of_nat (List.length inputs) in
  let p0 := Dispatcher.start (State World) (Z.to_nat parallelism) st in
  Dispatcher.wait (State World)
    (fun s => Env.interrupted env (world s))
    (run_with_index32 env nettest_ settings_ begin t inputs ctx base)
    size
    (fun s => let (tests, w) := Env.main_polls env (world s) in
              (tests, mkState w (trace s) (info s)))
    (fun s => let (n, w) := Env.schedule env (world s) in
              (n, mkState w (trace s) (info s)))
    (Z.to_nat (Dispatcher.moves_left (State World) size p0)) p0 = Some p ->
  Dispatcher.active (State World) p = 0
  /\ Dispatcher.none_in_loop (State World) p = true.
Proof.
  intros R size p0 H.
  assert (A : Dispatcher.active (State World) p = 0
              /\ Dispatcher.none_in_loop (State World) p = true
              /\ Dispatcher.counted (State World) p).
  { eapply wait_completes; [| | |exact H].
    - apply start_consistent.
    - apply start_counted. lia.
    - lia. }
  tauto.
Qed.

Lemma yields_measure_stage ctx base t :
  yields (when (negb (no_input_provided nettest_ settings_))
               [("status.progress", [9 # 10]);
                ("status.progress", [1 # 1])])
         (measure_stage env nettest_ settings_ ctx base t).
Proof.
  unfold measure_stage, no_input_provided.
  destruct (andb _ _); simpl; [apply yields_EMIT_LOG|].
  apply yields_quiet_bind; [quiet|intros inputs].
  apply yields_quiet_bind; [quiet|intros inputs'].
  apply yields_quiet_bind; [quiet|intros begin].
  apply yields_quiet_bind; [apply yields_dispatch|intros _].
  apply (yields_bind [("status.progress", [9 # 10])]
                     [("status.progress", [1 # 1])]);
    [apply yields_progress|intros _].
  apply yields_quiet_bind; [apply yields_close_report_stage|intros _].
  apply yields_progress.
Qed.

(** Every run passes the checkpoints that its settings determine. *)
Lemma yields_run : yields (skeleton nettest_ settings_)
                          (run env nettest_ settings_).
Proof.
  unfold run, skeleton.
  apply yields_quiet_bind; [apply yields_put_info|intros _].
  apply (yields_bind [("status.queued", [])]); [apply yields_emit_ev|intros _].
  apply (yields_bind [("status.started", [])]); [apply yields_emit_ev|intros _].
  apply yields_bind; [apply yields_bouncer_stage|intros ctx1].
  apply (yields_bind [_]); [apply yields_progress|intros _].
  apply yields_bind; [apply yields_probe_ip_stage|intros ctx2].
  apply yields_bind; [apply yields_probe_asn_stage|intros ctx3].
  apply yields_bind; [apply yields_probe_cc_stage|intros ctx4].
  apply (yields_bind [_; _]); [apply yields_geoip_events|intros _].
  apply yields_bind; [apply yields_resolver_stage|intros ctx5].
  apply (yields_bind [_]); [apply yields_progress|intros _].
  apply (yields_bind [("status.resolver_lookup", [])]);
    [apply yields_emit_ev|intros _].
  apply yields_quiet_bind; [apply yields_the_world|intros t].
  apply yields_bind; [apply yields_open_report_stage|intros [ctx6 base]].
  apply (yields_bind [_]); [apply yields_progress|intros _].
  apply yields_bind; [apply yields_measure_stage|intros _].
  apply yields_quiet_bind; [apply yields_get_info|intros b].
  rewrite <- (app_nil_r [("status.end", [])]).
  apply yields_bind; [apply yields_emit_ev|intros _].
  apply yields_ret.
Qed.

Lemma returns_true_run : returns (fun r => r = true) (run env nettest_ settings_).
Proof.
  unfold run.
  repeat (apply returns_bind; intros;
          try match goal with
              | |- returns _ (match ?x with (_, _) => _ end) => destruct x
              end).
  now apply returns_ret.
Qed.
End RunFacts.


(** ** Failure events *)

Section FailureFacts.
Context {World : Type}.
Variable env : Env.t World.
Variable nettest_ : Nettest.t World.
Variable settings_ : Settings.t.

Local Open Scope runner_scope.


(** *** [reports], compositionally *)
















End FailureFacts.


Section SurfaceFacts.
Context {World : Type}.
Variable env : Env.t World.
Variable nettest_ : Nettest.t World.
Variable settings_ : Settings.t.

Local Open Scope runner_scope.





(** *** [logs_only] *)





(** *** [surfaces] *)





(** *** The stages *)








End SurfaceFacts.


(** ** The claims about [Runner::run()] *)

Lemma skeleton_percentages {World : Type} (nettest_ : Nettest.t World)
    (settings_ : Settings.t) (T : list Item) :
  checkpoints T = skeleton nettest_ settings_ ->
  progress_percentages T
  = [1 # 10; 2 # 10; 3 # 10; 4 # 10]
    ++ (if no_input_provided nettest_ settings_ then []
        else [9 # 10; 1 # 1]).
Proof.
  intros C. unfold progress_percentages. rewrite C. unfold skeleton.
  destruct (negb (Settings.no_bouncer settings_)),
    (andb (String.eqb (Settings.probe_ip settings_) "")
          (negb (Settings.no_ip_lookup settings_))),
    (andb (String.eqb (Settings.probe_asn settings_) "")
          (negb (Settings.no_asn_lookup settings_))),
    (andb (String.eqb (Settings.probe_cc settings_) "")
          (negb (Settings.no_cc_lookup settings_))),
    (negb (Settings.no_resolver_lookup settings_)),
    (andb (negb (Settings.no_collector settings_))
          (String.eqb (Settings.collector_base_url settings_) "")),
    (no_input_provided nettest_ settings_); reflexivity.
Qed.

(** C4, as amended.  For every run, the percentages carried by the
    [status.progress] events (all emitted between [status.queued] and
    [status.end]) are 0.1, 0.2, 0.3, 0.4 and then, unless the nettest needs
    input and the configured input list is empty, 0.9 and 1.0: the sequence
    is non-decreasing; its last element is 1.0, except in a run of a
    needs-input nettest with an empty input list, where it is 0.4. *)
Theorem progress_is_monotone :
  forall (World : Type) (env : Env.t World) (nettest_ : Nettest.t World)
         (settings_ : Settings.t) (st : State World),
    fills_test_keys nettest_ ->
    exists st' T,
      run env nettest_ settings_ st = Some (true, st')
      /\ trace st' = trace st ++ T
      /\ hd_error (checkpoints T) = Some ("status.queued", [])
      /\ last (checkpoints T) ("", []) = ("status.end", [])
      /\ progress_percentages T
         = [1 # 10; 2 # 10; 3 # 10; 4 # 10]
           ++ (if no_input_provided nettest_ settings_ then []
               else [9 # 10; 1 # 1])
      /\ nondecreasing (progress_percentages T) = true
      /\ last (progress_percentages T) (0 # 1)
         = (if no_input_provided nettest_ settings_ then 4 # 10 else 1 # 1).
Proof.
  intros World env nettest_ settings_ st contract.
  destruct (yields_run env nettest_ settings_ contract st)
    as (r & st' & T & E & Tr & C).
  assert (r = true) by exact (returns_true_run env nettest_ settings_ st r st' E).
  subst r. exists st', T.
  rewrite (skeleton_percentages nettest_ settings_ T C), C.
  split; [exact E|]. split; [exact Tr|]. split; [reflexivity|].
  split.
  - unfold skeleton. rewrite !app_assoc. apply last_last.
  - destruct (no_input_provided nettest_ settings_); repeat split.
Qed.

(** The theorem on a run that takes no input. *)
Lemma progress_is_monotone_witness :
  exists st' T,
    run Scenario.offline Scenario.dummy_nettest Settings.default
      Scenario.initial = Some (true, st')
    /\ trace st' = trace Scenario.initial ++ T
    /\ nondecreasing (progress_percentages T) = true
    /\ last (progress_percentages T) (0 # 1) = 1 # 1.
Proof.
  destruct (progress_is_monotone unit Scenario.offline Scenario.dummy_nettest
              Settings.default Scenario.initial
              ltac:(intros s c input b w; simpl; left; reflexivity))
    as (st' & T & E & Tr & _ & _ & _ & N & L).
  exists st', T. auto.
Defined.

(** C4 as stated fails: a nettest that needs input, run with an empty input
    list, ends its progress at 0.4. *)
Lemma progress_stops_without_input :
  exists st',
    run Scenario.offline Scenario.failing_nettest Settings.default
      Scenario.initial = Some (true, st')
    /\ progress_percentages (trace st') = [1 # 10; 2 # 10; 3 # 10; 4 # 10]
    /\ ~ Qeq (last (progress_percentages (trace st')) (0 # 1)) (1 # 1).
Proof.
  eexists. split; [vm_compute; reflexivity|]. split; [vm_compute; reflexivity|].
  vm_compute. discriminate.
Qed.


(** ** Measurements *)

Section SubmissionFacts.
Context {World : Type}.
Variable env : Env.t World.
Variable nettest_ : Nettest.t World.
Variable settings_ : Settings.t.

(** A record that can be serialized is submitted when a report is open,
    and the [measurement] event carries its text. *)
Lemma submit_measurement_dumped ctx base i m str st :
  Env.json_dump env m = inl str ->
  exists st' T,
    submit_measurement env settings_ ctx base i m st = Some (tt, st')
    /\ trace st' = trace st ++ T
    /\ In (Emitted (event "measurement"
                      (object_of [("idx", JInt i);
                                  ("json_str", JString str)]))) T
    /\ (Settings.no_collector settings_ = false ->
        NettestContext.report_id ctx <> "" ->
        In (Called (call_update_report base
                      (NettestContext.report_id ctx) str)) T).
Proof.
  intros D. unfold submit_measurement. rewrite D.
  assert (Last : forall (m1 : M World unit) (P : Prop),
             (forall st, exists a st1 T1,
                 m1 st = Some (a, st1) /\ trace st1 = trace st ++ T1
                 /\ (P -> In (Called (call_update_report base
                                        (NettestContext.report_id ctx) str))
                             T1)) ->
             exists st' T,
               bind m1 (fun _ =>
                 emit_ev "measurement"
                   (object_of [("idx", JInt i); ("json_str", JString str)]))
                 st = Some (tt, st')
               /\ trace st' = trace st ++ T
               /\ In (Emitted (event "measurement"
                                 (object_of [("idx", JInt i);
                                             ("json_str", JString str)]))) T
               /\ (P -> In (Called (call_update_report base
                                      (NettestContext.report_id ctx) str)) T)).
  { intros m1 P H. destruct (H st) as ([] & st1 & T1 & E1 & Tr1 & I1).
    unfold bind. rewrite E1. eexists _, (T1 ++ [_]).
    split; [reflexivity|]. split; [simpl; now rewrite Tr1, app_assoc|].
    split; [apply in_or_app; right; left; reflexivity|].
    intros HP. apply in_or_app. left. auto. }
  destruct (Settings.no_collector settings_) eqn:NC; simpl.
  - destruct (Last (if String.eqb (NettestContext.report_id ctx) ""
                    then emit_ev "failure.measurement_submission"
                           (object_of [("failure",
                                        JString "report_not_open_error")])
                    else ret tt) False) as (st' & T & E & Tr & I & _).
    { intros s. destruct (String.eqb _ _).
      - eexists tt, _, [_]. repeat split. contradiction.
      - exists tt, s, []. repeat split; [now rewrite app_nil_r|contradiction]. }
    exists st', T. repeat split; auto. discriminate.
  - destruct (String.eqb_spec (NettestContext.report_id ctx) "") as [Z|NZ];
      simpl.
    + destruct (Last (emit_ev "failure.measurement_submission"
                        (object_of [("failure",
                                     JString "report_not_open_error")]))
                  False) as (st' & T & E & Tr & I & _).
      { intros s. eexists tt, _, [_]. repeat split. contradiction. }
      exists st', T. repeat split; auto. congruence.
    + match goal with
      | |- context [bind ?m1 _ st] =>
          destruct (Last m1 True) as (st' & T & E & Tr & I & U)
      end.
      { intros s. unfold bind at 1.
        unfold log_item at 1. cbn beta iota.
        match goal with
        | |- context [bind ?u ?k ?s1] =>
            assert (K : forall a, yields [] (k a))
              by (intros [[|] e]; quiet);
            destruct (yields_update_report env settings_ base
                        (NettestContext.report_id ctx) str
                        ErrContext.default s1)
              as (a & s2 & T2 & E2 & Tr2 & _);
            destruct (K a s2) as ([] & s3 & T3 & E3 & Tr3 & _)
        end.
        unfold bind. rewrite E2.
        exists tt, s3, ([Called (call_update_report base
                                   (NettestContext.report_id ctx) str)]
                        ++ T2 ++ T3).
        split; [exact E3|]. split.
        - rewrite Tr3, Tr2. simpl. now rewrite <- !app_assoc.
        - intros _. left. reflexivity. }
      exists st', T. repeat split; auto.
Qed.

Lemma submit_measurement_total ctx base i m st :
  exists st' T,
    submit_measurement env settings_ ctx base i m st = Some (tt, st')
    /\ trace st' = trace st ++ T.
Proof.
  destruct (yields_submit_measurement env settings_ ctx base i m st)
    as ([] & st' & T & E & Tr & _). eauto.
Qed.
End SubmissionFacts.


Section SubmissionSteps.
Context {World : Type}.
Variable env : Env.t World.
Variable nettest_ : Nettest.t World.
Variable settings_ : Settings.t.

Lemma unlogged_app (T1 T2 : list Item) :
  unlogged (T1 ++ T2) = unlogged T1 ++ unlogged T2.
Proof. apply filter_app. Qed.

(** The request of [update_report]. *)
Lemma update_report_message (json_str : string) :
  option_bind (set_path ["content"] (JString json_str) JNull)
    (set_path ["format"] (JString "json"))
  = Some (object_of [("content", JString json_str);
                     ("format", JString "json")]).
Proof. reflexivity. Qed.

(** A log line changes nothing but the history, and only by a log
    line. *)
Lemma EMIT_LOG_silent level upper msg (st : State World) :
  exists T,
    EMIT_LOG settings_ level upper msg st
    = Some (tt, mkState (world st) (trace st ++ T) (info st))
    /\ unlogged T = [].
Proof.
  unfold EMIT_LOG. destruct (_ <=? _).
  - eexists [_]. split; reflexivity.
  - exists []. unfold ret. rewrite app_nil_r. destruct st. split; reflexivity.
Qed.

Lemma EMIT_LOG_bind {B : Type} level upper msg (k : unit -> M World B)
    (st : State World) :
  exists T,
    bind (EMIT_LOG settings_ level upper msg) k st
    = k tt (mkState (world st) (trace st ++ T) (info st))
    /\ unlogged T = [].
Proof.
  destruct (EMIT_LOG_silent level upper msg st) as (T & E & U).
  exists T. unfold bind. rewrite E. auto.
Qed.

(** [update_report] posts the request to the report's URL, unless the
    request cannot be serialized; its flag and [*err] are those of the
    transfer. *)
Lemma update_report_posts base rid str err (st : State World) :
  exists T r w b,
    update_report env settings_ base rid str err st
    = Some (r, mkState w (trace st ++ T) b)
    /\ unlogged T = []
    /\ match Env.json_dump env
               (object_of [("content", JString str);
                           ("format", JString "json")]) with
       | inr what =>
           r = (false, json_error env what err)
           /\ w = world st /\ b = info st
       | inl requestbody =>
           (r, b, w)
           = (let '(ok, _, b', err', w') :=
                Env.curlx_post_json env
                  ((without_final_slash base +++ "/report/") +++ rid)
                  requestbody curl_timeout (info st) err (world st) in
              ((ok, err'), b', w'))
       end.
Proof.
  unfold update_report. rewrite update_report_message.
  cbn [or_terminate]. unfold bind at 1, ret at 1.
  destruct (Env.json_dump env _) as [requestbody|what].
  - unfold EMIT_DEBUG.
    match goal with
    | |- context [bind (EMIT_LOG _ ?l ?u ?msg) ?k ?s] =>
        destruct (EMIT_LOG_bind l u msg k s) as (T1 & E1 & U1); rewrite E1
    end.
    match goal with
    | |- context [bind (EMIT_LOG _ ?l ?u ?msg) ?k ?s] =>
        destruct (EMIT_LOG_bind l u msg k s) as (T2 & E2 & U2); rewrite E2
    end.
    cbn [world trace info].
    unfold bind at 1, curlx_post_json at 1. cbn [world trace info].
    destruct (Env.curlx_post_json env _ requestbody curl_timeout (info st)
                err (world st)) as [[[[ok rb] b'] err'] w'].
    destruct ok; cbn [negb].
    + match goal with
      | |- context [bind (EMIT_LOG _ ?l ?u ?msg) ?k ?s] =>
          destruct (EMIT_LOG_bind l u msg k s) as (T3 & E3 & U3); rewrite E3
      end.
      unfold ret. cbn [world trace info].
      exists ((T1 ++ T2) ++ T3), (true, err'), w', b'.
      rewrite !app_assoc. split; [reflexivity|].
      split; [|reflexivity].
      now rewrite !unlogged_app, U1, U2, U3.
    + unfold ret. exists (T1 ++ T2), (false, err'), w', b'.
      rewrite !app_assoc. split; [reflexivity|].
      split; [|reflexivity].
      now rewrite !unlogged_app, U1, U2.
  - unfold EMIT_WARNING.
    match goal with
    | |- context [bind (EMIT_LOG _ ?l ?u ?msg) ?k ?s] =>
        destruct (EMIT_LOG_bind l u msg k s) as (T1 & E1 & U1); rewrite E1
    end.
    unfold ret.
    exists T1, (false, json_error env what err), (world st), (info st).
    split; [reflexivity|]. split; [exact U1|]. auto.
Qed.
(** What the block that serializes and submits a record does, case by
    case. *)
Lemma submit_measurement_steps ctx base i m (st : State World) :
  let rid := NettestContext.report_id ctx in
  exists T w b,
    submit_measurement env settings_ ctx base i m st
    = Some (tt, mkState w (trace st ++ T) b)
    /\ match Env.json_dump env m with
       | inr _ => unlogged T = [] /\ w = world st /\ b = info st
       | inl str =>
           let measurement :=
             Emitted (event "measurement"
                        (object_of [("idx", JInt i);
                                    ("json_str", JString str)])) in
           let failed err :=
             Emitted (event "failure.measurement_submission"
                        (object_of
                           [("failure", JString "library_error");
                            ("library_error_context", err_to_json err);
                            ("idx", JInt i);
                            ("json_str", JString str)])) in
           if andb (negb (Settings.no_collector settings_))
                   (negb (String.eqb rid ""))
           then
             match Env.json_dump env
                     (object_of [("content", JString str);
                                 ("format", JString "json")]) with
             | inr what =>
                 unlogged T
                 = [Called (call_update_report base rid str);
                    failed (json_error env what ErrContext.default);
                    measurement]
                 /\ w = world st /\ b = info st
             | inl requestbody =>
                 let '(ok, _, b', err', w') :=
                   Env.curlx_post_json env
                     ((without_final_slash base +++ "/report/") +++ rid)
                     requestbody curl_timeout (info st) ErrContext.default
                     (world st) in
                 unlogged T
                 = [Called (call_update_report base rid str);
                    if ok
                    then Emitted (event "status.measurement_submission"
                                    (object_of [("idx", JInt i)]))
                    else failed err';
                    measurement]
                 /\ w = w' /\ b = b'
             end
           else
             unlogged T
             = (if String.eqb rid ""
                then [Emitted (event "failure.measurement_submission"
                                 (object_of
                                    [("failure",
                                      JString "report_not_open_error")]))]
                else [])
               ++ [measurement]
             /\ w = world st /\ b = info st
       end.
Proof.
  intros rid. unfold submit_measurement. fold rid.
  destruct (Env.json_dump env m) as [str|what].
  - destruct (andb (negb (Settings.no_collector settings_))
                   (negb (String.eqb rid ""))) eqn:Open.
    + unfold bind at 1. unfold bind at 1, log_item at 1.
      cbn [world trace info].
      destruct (update_report_posts base rid str ErrContext.default
                  (mkState (world st)
                     (trace st ++ [Called (call_update_report base rid str)])
                     (info st)))
        as (T1 & r & w & b & E & U & Post).
      unfold bind at 1. rewrite E. clear E. cbn [world trace info] in Post.
      destruct (Env.json_dump env
                  (object_of [("content", JString str);
                              ("format", JString "json")]))
        as [requestbody|what].
      * destruct (Env.curlx_post_json env _ requestbody curl_timeout
                    (info st) ErrContext.default (world st))
          as [[[[ok rb] b'] err'] w'].
        inversion Post; subst. destruct ok; cbn [negb].
        -- unfold emit_ev, log_item. cbn [world trace info].
           eexists _, w', b'. rewrite <- !app_assoc.
           split; [reflexivity|].
           split; [|auto]. rewrite !unlogged_app, U. reflexivity.
        -- unfold EMIT_WARNING.
           match goal with
           | |- context [bind (EMIT_LOG _ ?l ?u ?msg) ?k ?s] =>
               destruct (EMIT_LOG_bind l u msg k s) as (T2 & E2 & U2);
               rewrite E2
           end.
           unfold emit_ev, log_item. cbn [world trace info].
           eexists _, w', b'. rewrite <- !app_assoc.
           split; [reflexivity|].
           split; [|auto]. rewrite !unlogged_app, U, U2. reflexivity.
      * destruct Post as (-> & -> & ->). cbn [negb].
        unfold EMIT_WARNING.
        match goal with
        | |- context [bind (EMIT_LOG _ ?l ?u ?msg) ?k ?s] =>
            destruct (EMIT_LOG_bind l u msg k s) as (T2 & E2 & U2);
            rewrite E2
        end.
        unfold emit_ev, log_item. cbn [world trace info].
        eexists _, (world st), (info st). rewrite <- !app_assoc.
        split; [reflexivity|].
        split; [|auto]. rewrite !unlogged_app, U, U2. reflexivity.
    + unfold bind at 1. destruct (String.eqb rid "").
      * unfold emit_ev, log_item. cbn [world trace info].
        eexists _, (world st), (info st). rewrite <- !app_assoc.
        split; [reflexivity|]. split; [reflexivity|auto].
      * unfold ret, emit_ev, log_item. cbn [world trace info].
        eexists _, (world st), (info st).
        split; [reflexivity|]. split; [reflexivity|auto].
  - unfold EMIT_WARNING.
    destruct (EMIT_LOG_silent log_warning "WARNING"
                ("run: cannot serialize JSON: " +++ what) st)
      as (T & E & U).
    exists T, (world st), (info st). auto.
Qed.
End SubmissionSteps.

(** C10, as amended.  When the nettest's [run()] returns false for the
    input at index [i] (the runtime budget not being spent),
    [run_with_index32] emits [failure.measurement] with that index and
    then does what it does after a success.  If the record can be
    serialized and a report is open ([no_collector] is false and
    [ctx.report_id] is not empty), it posts the record to
    [<collector>/report/<report_id>] (the state of the world afterwards
    is the one that this transfer leaves) and emits
    [status.measurement_submission] or [failure.measurement_submission]
    according to the flag of the transfer, then the [measurement] event
    with the text of the record.  If the record can be serialized and no
    report is open, nothing is sent: [failure.measurement_submission]
    ([report_not_open_error]) is emitted when [ctx.report_id] is empty,
    and the [measurement] event follows.  If the record cannot be
    serialized, nothing is sent and no [measurement] event is emitted.
    In every case [status.measurement_done] comes last and the call
    returns true: the worker that holds the index is back at the top of
    its loop and, unless it is interrupted or the indices are used up,
    claims the next index with its next two moves. *)
Theorem failed_measurement_is_still_submitted :
  forall (World : Type) (env : Env.t World) (nettest_ : Nettest.t World)
         (settings_ : Settings.t) (begin : Q) (t : string)
         (inputs : list string) (ctx : NettestContext.t) (base : string)
         (i : Z) (st : State World) (now : Q) (w1 : World) (input : string)
         (m : json) (st2 : State World),
    Env.steady_clock_now env (world st) = (now, w1) ->
    exceeded_max_runtime settings_ (seconds (Qminus now begin)) = false ->
    0 <= i -> nth_error inputs (Z.to_nat i) = Some input ->
    make_measurement env nettest_ settings_ t inputs ctx i
      (mkState w1
         (trace st ++ [Emitted (event "status.measurement_start"
                                  (object_of [("idx", JInt i);
                                              ("input", JString input)]))])
         (info st))
    = Some ((false, m), st2) ->
    let rid := NettestContext.report_id ctx in
    let failure :=
      Emitted (event "failure.measurement"
                 (object_of [("failure", JString "generic_error");
                             ("idx", JInt i)])) in
    let done :=
      Emitted (event "status.measurement_done"
                 (object_of [("idx", JInt i)])) in
    (exists T w b,
        run_with_index32 env nettest_ settings_ begin t inputs ctx base i st
        = Some (true, mkState w (trace st2 ++ T) b)
        /\ match Env.json_dump env m with
           | inr _ =>
               unlogged T = [failure; done]
               /\ w = world st2 /\ b = info st2
           | inl str =>
               let measurement :=
                 Emitted (event "measurement"
                            (object_of [("idx", JInt i);
                                        ("json_str", JString str)])) in
               let failed err :=
                 Emitted (event "failure.measurement_submission"
                            (object_of
                               [("failure", JString "library_error");
                                ("library_error_context", err_to_json err);
                                ("idx", JInt i);
                                ("json_str", JString str)])) in
               if andb (negb (Settings.no_collector settings_))
                       (negb (String.eqb rid ""))
               then
                 match Env.json_dump env
                         (object_of [("content", JString str);
                                     ("format", JString "json")]) with
                 | inr what =>
                     unlogged T
                     = [failure;
                        Called (call_update_report base rid str);
                        failed (json_error env what ErrContext.default);
                        measurement; done]
                     /\ w = world st2 /\ b = info st2
                 | inl requestbody =>
                     let '(ok, _, b', err', w') :=
                       Env.curlx_post_json env
                         ((without_final_slash base +++ "/report/") +++ rid)
                         requestbody curl_timeout (info st2)
                         ErrContext.default (world st2) in
                     unlogged T
                     = [failure;
                        Called (call_update_report base rid str);
                        if ok
                        then Emitted (event "status.measurement_submission"
                                        (object_of [("idx", JInt i)]))
                        else failed err';
                        measurement; done]
                     /\ w = w' /\ b = b'
                 end
               else
                 unlogged T
                 = [failure]
                   ++ (if String.eqb rid ""
                       then [Emitted (event "failure.measurement_submission"
                                        (object_of
                                           [("failure",
                                             JString
                                               "report_not_open_error")]))]
                       else [])
                   ++ [measurement; done]
                 /\ w = world st2 /\ b = info st2
           end)
    /\ (forall interrupted size (p : Dispatcher.Pool (State World)) k,
           nth_error (Dispatcher.workers _ p) k = Some (Dispatcher.Holding i) ->
           Dispatcher.shared _ p = st ->
           exists p',
             Dispatcher.step (State World) interrupted
               (run_with_index32 env nettest_ settings_ begin t inputs ctx
                  base) size k p = Some p'
             /\ nth_error (Dispatcher.workers _ p') k
                = Some Dispatcher.AtLoopTop
             /\ (interrupted (Dispatcher.shared _ p') = false ->
                 orb (UINT32_MAX <? Dispatcher.i _ p)
                     (size <=? Dispatcher.i _ p) = false ->
                 exists p'',
                   Dispatcher.exec (State World) interrupted
                     (run_with_index32 env nettest_ settings_ begin t inputs
                        ctx base) size [k; k] p' = Some p''
                   /\ nth_error (Dispatcher.workers _ p'') k
                      = Some (Dispatcher.Holding
                                (Dispatcher.i _ p mod 2 ^ 32))
                   /\ Dispatcher.claimed _ p''
                      = Dispatcher.claimed _ p
                        ++ [(k, Dispatcher.i _ p mod 2 ^ 32)])).
Proof.
  intros World env nettest_ settings_ begin t inputs ctx base i st now w1
    input m st2 Clock Budget Hi Hin Make rid failure done.
  assert (Hlt : (i <? 0) = false) by (apply Z.ltb_ge; exact Hi).
  set (st2' := mkState (world st2) (trace st2 ++ [failure]) (info st2)).
  destruct (submit_measurement_steps env settings_ ctx base i m st2')
    as (T & w & b & Sub & Steps).
  fold rid in Steps.
  assert (Run : run_with_index32 env nettest_ settings_ begin t inputs ctx
                  base i st
                = Some (true,
                        mkState w (trace st2 ++ ([failure] ++ T ++ [done]))
                          b)).
  { unfold run_with_index32, bind, the_world, input_at, or_terminate, ret.
    rewrite Clock, Budget, Hlt, Hin. cbn beta iota.
    unfold emit_ev at 1, log_item at 1. cbn beta iota delta [world trace info].
    rewrite Make. cbn beta iota. unfold negb.
    unfold emit_ev at 1, log_item at 1. fold failure. fold st2'.
    rewrite Sub. unfold emit_ev, log_item. cbn [world trace info].
    fold done. unfold st2'. cbn [trace]. now rewrite <- !app_assoc. }
  split.
  - exists ([failure] ++ T ++ [done]), w, b. split; [exact Run|].
    rewrite !unlogged_app.
    change (unlogged [failure]) with [failure].
    change (unlogged [done]) with [done].
    cbn [world info st2'] in Steps.
    destruct (Env.json_dump env m) as [str|what].
    + cbv zeta in Steps. cbv zeta.
      destruct (andb _ _).
      * destruct (Env.json_dump env _) as [requestbody|what].
        -- destruct (Env.curlx_post_json env _ requestbody curl_timeout
                       (info st2) ErrContext.default (world st2))
             as [[[[ok rb] b'] err'] w'].
           destruct Steps as (U & -> & ->). rewrite U. auto.
        -- destruct Steps as (U & -> & ->). rewrite U. auto.
      * destruct Steps as (U & -> & ->). rewrite U.
        rewrite <- !app_assoc. auto.
    + destruct Steps as (U & -> & ->). rewrite U. auto.
  - intros interrupted size p k N S.
    unfold Dispatcher.step at 1. rewrite N, S, Run.
    eexists. split; [reflexivity|].
    cbn [Dispatcher.workers Dispatcher.shared Dispatcher.i
         Dispatcher.claimed Dispatcher.active].
    pose proof (nth_error_set_worker k Dispatcher.AtLoopTop _ _ N) as N1.
    split; [exact N1|].
    intros NI Left. cbn [Dispatcher.exec].
    unfold Dispatcher.step at 1.
    cbn [Dispatcher.workers Dispatcher.shared Dispatcher.i
         Dispatcher.claimed Dispatcher.active].
    rewrite N1, NI.
    pose proof (nth_error_set_worker k Dispatcher.PastTest _ _ N1) as N2.
    unfold Dispatcher.step at 1.
    cbn [Dispatcher.workers Dispatcher.shared Dispatcher.i
         Dispatcher.claimed Dispatcher.active].
    rewrite N2, Left.
    eexists. split; [reflexivity|].
    cbn [Dispatcher.workers Dispatcher.claimed].
    split; [|reflexivity].
    eapply nth_error_set_worker. exact N2.
Qed.

(** The theorem on the second of three inputs, with a nettest that always
    fails, a report that is open and a collector that cannot be reached:
    the record is posted, the transfer fails. *)
Lemma failed_measurement_is_still_submitted_witness :
  exists T w b st2 m,
    run_with_index32 Scenario.offline Scenario.failing_nettest
      Scenario.three_inputs (inject_Z 0) "2018-10-01 12:00:00"
      ["a"; "b"; "c"] Scenario.context "https://collector.example" 1
      Scenario.initial = Some (true, mkState w (trace st2 ++ T) b)
    /\ unlogged T
       = [Emitted (event "failure.measurement"
                     (object_of [("failure", JString "generic_error");
                                 ("idx", JInt 1)]));
          Called (call_update_report "https://collector.example"
                    "20181001T120000Z_AS30722_abc" "{}");
          Emitted (event "failure.measurement_submission"
                     (object_of
                        [("failure", JString "library_error");
                         ("library_error_context",
                          err_to_json ErrContext.default);
                         ("idx", JInt 1);
                         ("json_str", JString "{}")]));
          Emitted (event "measurement"
                     (object_of [("idx", JInt 1);
                                 ("json_str", JString "{}")]));
          Emitted (event "status.measurement_done"
                     (object_of [("idx", JInt 1)]))]
    /\ Env.curlx_post_json Scenario.offline
         "https://collector.example/report/20181001T120000Z_AS30722_abc"
         "{}" curl_timeout (info st2) ErrContext.default (world st2)
       = (false, "", b, ErrContext.default, w)
    /\ Env.json_dump Scenario.offline m = inl "{}".
Proof.
  assert (Make : exists m st2,
             make_measurement Scenario.offline Scenario.failing_nettest
               Scenario.three_inputs "2018-10-01 12:00:00" ["a"; "b"; "c"]
               Scenario.context 1
               (mkState tt
                  (trace Scenario.initial
                   ++ [Emitted (event "status.measurement_start"
                                  (object_of [("idx", JInt 1);
                                              ("input", JString "b")]))])
                  (info Scenario.initial))
             = Some ((false, m), st2))
    by (vm_compute; eexists _, _; reflexivity).
  destruct Make as (m & st2 & Make).
  destruct (proj1 (failed_measurement_is_still_submitted unit
                     Scenario.offline Scenario.failing_nettest
                     Scenario.three_inputs (inject_Z 0)
                     "2018-10-01 12:00:00" ["a"; "b"; "c"] Scenario.context
                     "https://collector.example" 1 Scenario.initial
                     (inject_Z 0) tt "b" m st2 eq_refl
                     ltac:(vm_compute; reflexivity) ltac:(lia) eq_refl Make))
    as (T & w & b & Run & Steps).
  exists T, w, b, st2, m. split; [exact Run|].
  change (Env.json_dump Scenario.offline m) with (@inl string string "{}")
    in Steps.
  cbv beta iota zeta in Steps.
  change (Env.json_dump Scenario.offline
            (object_of [("content", JString "{}");
                        ("format", JString "json")]))
    with (@inl string string "{}") in Steps.
  cbv beta iota in Steps.
  destruct Steps as (U & -> & ->).
  split; [exact U|]. split; reflexivity.
Defined.

(** C10 as stated fails: the record of a failed measurement is not
    always submitted, and the [measurement] event is not always emitted.
    With no report open ([ctx.report_id] is empty), the call for the
    second of three inputs emits [failure.measurement_submission] and
    sends nothing; with a record that cannot be serialized, it goes from
    [failure.measurement] straight to [status.measurement_done]. *)
Lemma failed_measurement_may_not_be_submitted :
  (exists st3,
      run_with_index32 Scenario.offline Scenario.failing_nettest
        Scenario.three_inputs (inject_Z 0) "2018-10-01 12:00:00"
        ["a"; "b"; "c"] NettestContext.default "https://collector.example" 1
        Scenario.initial = Some (true, st3)
      /\ marks (trace st3)
         = ["status.measurement_start"; "nettest.run";
            "failure.measurement"; "failure.measurement_submission";
            "measurement"; "status.measurement_done"]
      /\ In (Emitted (event "failure.measurement_submission"
                        (object_of [("failure",
                                     JString "report_not_open_error")])))
            (trace st3))
  /\ (exists st3,
         run_with_index32 Scenario.unserializable Scenario.failing_nettest
           Scenario.three_inputs (inject_Z 0) "2018-10-01 12:00:00"
           ["a"; "b"; "c"] Scenario.context "https://collector.example" 1
           Scenario.initial = Some (true, st3)
         /\ marks (trace st3)
            = ["status.measurement_start"; "nettest.run";
               "failure.measurement"; "status.measurement_done"]).
Proof.
  split.
  - eexists. split; [vm_compute; reflexivity|].
    split; [vm_compute; reflexivity|]. vm_compute. tauto.
  - eexists. split; [vm_compute; reflexivity|]. vm_compute. reflexivity.
Qed.

(** ** The outline of a run *)

Section OutlineFacts.
Context {World : Type}.
Variable env : Env.t World.
Variable nettest_ : Nettest.t World.
Variable settings_ : Settings.t.

Local Open Scope runner_scope.

Lemma marks_app (T1 T2 : list Item) : marks (T1 ++ T2) = marks T1 ++ marks T2.
Proof. apply flat_map_app. Qed.

(** Log lines show in no outline. *)
Lemma mark_unlogged (x : Item) :
  marks (if negb (is_log x) then [x] else []) = mark x.
Proof.
  destruct x as [ev|c]; [|reflexivity].
  unfold is_log, mark, marks.
  destruct (at_key "key" ev) as [j|] eqn:K;
    [destruct j|]; cbn [negb flat_map mark];
    rewrite ?K, ?app_nil_r; try reflexivity.
  destruct (String.eqb s "log") eqn:E; cbn [negb flat_map mark];
    rewrite ?K, ?E, ?app_nil_r; reflexivity.
Qed.

Lemma marks_unlogged (T : list Item) : marks (unlogged T) = marks T.
Proof.
  induction T as [|x T IH]; [reflexivity|].
  assert (E : unlogged (x :: T)
              = (if negb (is_log x) then [x] else []) ++ unlogged T)
    by (unfold unlogged; cbn [filter]; destruct (negb (is_log x));
        reflexivity).
  rewrite E, marks_app, IH, mark_unlogged. reflexivity.
Qed.
(** *** [outlines], compositionally *)

Lemma outlines_ret {A : Type} (a : A) : outlines [] (@ret World A a).
Proof.
  intros st. exists a, st, []. repeat split. now rewrite app_nil_r.
Qed.

Lemma outlines_bind {A B : Type} (L1 L2 : list string) (m : M World A)
    (k : A -> M World B) :
  outlines L1 m -> (forall a, outlines L2 (k a)) ->
  outlines (L1 ++ L2) (bind m k).
Proof.
  intros Hm Hk st. destruct (Hm st) as (a & st1 & T1 & E1 & Tr1 & C1).
  destruct (Hk a st1) as (b & st2 & T2 & E2 & Tr2 & C2).
  exists b, st2, (T1 ++ T2). unfold bind. rewrite E1. split; [exact E2|]. split.
  - now rewrite Tr2, Tr1, app_assoc.
  - now rewrite marks_app, C1, C2.
Qed.

Lemma outlines_quiet_bind {A B : Type} (L : list string) (m : M World A)
    (k : A -> M World B) :
  outlines [] m -> (forall a, outlines L (k a)) -> outlines L (bind m k).
Proof. intros Hm Hk. exact (outlines_bind [] L m k Hm Hk). Qed.

Lemma outlines_log_item (x : Item) : outlines (mark x) (@log_item World x).
Proof.
  intros st. exists tt, (mkState (world st) (trace st ++ [x]) (info st)), [x].
  repeat split. unfold marks. simpl. now rewrite app_nil_r.
Qed.

Lemma outlines_emit_ev (key : string) (value : json) :
  outlines (mark (Emitted (event key value))) (@emit_ev World key value).
Proof. apply outlines_log_item. Qed.

Lemma outlines_event (key : string) (value : json) (L : list string) :
  mark (Emitted (event key value)) = L ->
  outlines L (@emit_ev World key value).
Proof. intros <-. apply outlines_emit_ev. Qed.

Lemma outlines_called (c : Call) :
  outlines [call_name c] (@log_item World (Called c)).
Proof. apply (outlines_log_item (Called c)). Qed.

(** A computation that leaves the history alone has the empty
    outline. *)
Lemma outlines_untraced {A : Type} (m : M World A) :
  (forall st, exists a st', m st = Some (a, st') /\ trace st' = trace st) ->
  outlines [] m.
Proof.
  intros H st. destruct (H st) as (a & st' & E & Tr).
  exists a, st', []. repeat split; [exact E|]. now rewrite app_nil_r.
Qed.

Lemma outlines_the_world {A : Type} (f : World -> A * World) :
  outlines [] (the_world f).
Proof.
  apply outlines_untraced. intros st. unfold the_world.
  destruct (f (world st)) as [a w]. eexists _, _. split; reflexivity.
Qed.

Lemma outlines_get_info : outlines [] (@get_info World).
Proof.
  apply outlines_untraced. intros st. eexists _, _. split; reflexivity.
Qed.

Lemma outlines_put_info (b : BytesInfo.t) : outlines [] (@put_info World b).
Proof.
  apply outlines_untraced. intros st. eexists _, _. split; reflexivity.
Qed.

Lemma outlines_EMIT_LOG level upper msg :
  outlines [] (@EMIT_LOG World settings_ level upper msg).
Proof.
  unfold EMIT_LOG. destruct (_ <=? _)%Z.
  - apply outlines_event. reflexivity.
  - apply outlines_ret.
Qed.

Lemma outlines_curlx_post_json url body timeout err :
  outlines [] (curlx_post_json env url body timeout err).
Proof.
  apply outlines_untraced. intros st. unfold curlx_post_json.
  destruct (Env.curlx_post_json env url body timeout (info st) err (world st))
    as [[[[ok rb] b] e] w].
  eexists _, _. split; reflexivity.
Qed.

Lemma outlines_curlx_get url timeout err :
  outlines [] (curlx_get env url timeout err).
Proof.
  apply outlines_untraced. intros st. unfold curlx_get.
  destruct (Env.curlx_get env url timeout (info st) err (world st))
    as [[[[ok rb] b] e] w].
  eexists _, _. split; reflexivity.
Qed.

Lemma outlines_query_bouncer name helpers version cs hs err :
  outlines [] (query_bouncer env name helpers version cs hs err).
Proof.
  apply outlines_untraced. intros st. unfold query_bouncer.
  destruct (Env.query_bouncer env name helpers version cs hs (info st) err
              (world st)) as [[[[[ok cs'] hs'] b] e] w].
  eexists _, _. split; reflexivity.
Qed.

Lemma outlines_lookup_asn dbpath ip asn network_name err :
  outlines [] (lookup_asn env dbpath ip asn network_name err).
Proof.
  apply outlines_untraced. intros st. unfold lookup_asn.
  destruct (Env.lookup_asn env dbpath ip asn network_name err (world st))
    as [[[[ok asn'] name'] e] w].
  eexists _, _. split; reflexivity.
Qed.

Lemma outlines_lookup_cc dbpath ip cc err :
  outlines [] (lookup_cc env dbpath ip cc err).
Proof.
  apply outlines_untraced. intros st. unfold lookup_cc.
  destruct (Env.lookup_cc env dbpath ip cc err (world st))
    as [[[ok cc'] e] w].
  eexists _, _. split; reflexivity.
Qed.

Lemma outlines_lookup_resolver_ip ip err :
  outlines [] (lookup_resolver_ip env ip err).
Proof.
  apply outlines_untraced. intros st. unfold lookup_resolver_ip.
  destruct (Env.lookup_resolver_ip env ip (info st) err (world st))
    as [[[[ok ip'] b] e] w].
  eexists _, _. split; reflexivity.
Qed.

(** *** [outlines_by] *)

Lemma outlines_by_const {A : Type} (L : list string) (m : M World A) :
  outlines L m -> outlines_by (fun _ => L) m.
Proof.
  intros H st. destruct (H st) as (a & st' & T & E & Tr & C).
  exists true, a, st', T. auto.
Qed.

Lemma outlines_by_op {A B : Type} (flag : A -> bool) (F : bool -> list string)
    (op : M World A) (k : A -> M World B) :
  outlines [] op -> (forall a, outlines (F (flag a)) (k a)) ->
  outlines_by F (bind op k).
Proof.
  intros Hop Hk st. destruct (Hop st) as (a & st1 & T1 & E1 & Tr1 & C1).
  destruct (Hk a st1) as (b & st2 & T2 & E2 & Tr2 & C2).
  exists (flag a), b, st2, (T1 ++ T2). unfold bind. rewrite E1.
  split; [exact E2|]. split.
  - now rewrite Tr2, Tr1, app_assoc.
  - now rewrite marks_app, C1, C2.
Qed.

Lemma outlines_by_pre {A B : Type} (L0 : list string)
    (F : bool -> list string) (pre : M World A) (k : A -> M World B) :
  outlines L0 pre -> (forall a, outlines_by F (k a)) ->
  outlines_by (fun ok => L0 ++ F ok) (bind pre k).
Proof.
  intros Hp Hk st. destruct (Hp st) as (a & st1 & T1 & E1 & Tr1 & C1).
  destruct (Hk a st1) as (ok & b & st2 & T2 & E2 & Tr2 & C2).
  exists ok, b, st2, (T1 ++ T2). unfold bind. rewrite E1.
  split; [exact E2|]. split.
  - now rewrite Tr2, Tr1, app_assoc.
  - now rewrite marks_app, C1, C2.
Qed.

Lemma outlines_by_post {A B : Type} (F : bool -> list string)
    (m : M World A) (k : A -> M World B) :
  outlines_by F m -> (forall a, outlines [] (k a)) ->
  outlines_by F (bind m k).
Proof.
  intros Hm Hk st. destruct (Hm st) as (ok & a & st1 & T1 & E1 & Tr1 & C1).
  destruct (Hk a st1) as (b & st2 & T2 & E2 & Tr2 & C2).
  exists ok, b, st2, (T1 ++ T2). unfold bind. rewrite E1.
  split; [exact E2|]. split.
  - now rewrite Tr2, Tr1, app_assoc.
  - now rewrite marks_app, C1, C2, app_nil_r.
Qed.
End OutlineFacts.

(** Walk through a computation that leaves only log lines. *)
Ltac hum :=
  repeat
    match goal with
    | |- outlines [] (bind _ _) => apply outlines_quiet_bind; [|intros]
    | |- outlines [] (ret _) => apply outlines_ret
    | |- outlines [] (the_world _) => apply outlines_the_world
    | |- outlines [] (EMIT_WARNING _ _) => apply outlines_EMIT_LOG
    | |- outlines [] (EMIT_INFO _ _) => apply outlines_EMIT_LOG
    | |- outlines [] (EMIT_DEBUG _ _) => apply outlines_EMIT_LOG
    | |- outlines [] (curlx_post_json _ _ _ _ _) =>
        apply outlines_curlx_post_json
    | |- outlines [] (curlx_get _ _ _ _) => apply outlines_curlx_get
    | |- outlines [] (query_bouncer _ _ _ _ _ _ _) =>
        apply outlines_query_bouncer
    | |- outlines [] (lookup_asn _ _ _ _ _ _) => apply outlines_lookup_asn
    | |- outlines [] (lookup_cc _ _ _ _ _) => apply outlines_lookup_cc
    | |- outlines [] (lookup_resolver_ip _ _ _) =>
        apply outlines_lookup_resolver_ip
    | |- outlines [] (or_terminate (Some _)) => apply outlines_ret
    | |- outlines [] (if ?c then _ else _) => destruct c
    | |- outlines [] (match ?x with inl _ => _ | inr _ => _ end) => destruct x
    | |- outlines [] (match ?x with Some _ => _ | None => _ end) =>
        destruct x eqn:?
    | |- outlines [] (match ?x with (_, _) => _ end) => destruct x
    end.

Section OutlineStages.
Context {World : Type}.
Variable env : Env.t World.
Variable nettest_ : Nettest.t World.
Variable settings_ : Settings.t.

Local Open Scope runner_scope.

Lemma outlines_lookup_ip ip err :
  outlines [] (lookup_ip env settings_ ip err).
Proof. unfold lookup_ip. hum. Qed.

Lemma outlines_open_report base t ctx rid err :
  outlines [] (open_report env nettest_ settings_ base t ctx rid err).
Proof. unfold open_report. cbn [set_path option_bind]. hum. Qed.

Lemma outlines_close_report base rid err :
  outlines [] (close_report env settings_ base rid err).
Proof. unfold close_report. hum. Qed.

Lemma outlines_select_collector collectors base :
  outlines [] (@select_collector World settings_ collectors base).
Proof.
  induction collectors as [|epnt collectors IH]; simpl.
  - apply outlines_ret.
  - destruct (_ =? _); [hum|exact IH].
Qed.

(** A warning, the failure event of the stage, and the result. *)
Lemma outlines_failure {A : Type} (msg key : string) (value : json) (a : A) :
  mark (Emitted (event key value)) = [key] ->
  outlines [key]
    (EMIT_WARNING settings_ msg ;; emit_ev key value ;; @ret World A a).
Proof.
  intros K.
  apply outlines_quiet_bind; [apply outlines_EMIT_LOG|intros _].
  rewrite <- (app_nil_r [key]).
  apply outlines_bind; [|intros _; apply outlines_ret].
  now apply outlines_event.
Qed.

(** *** The stages before the measurements *)

Lemma bouncer_stage_outline ctx :
  outlines (if negb (Settings.no_bouncer settings_)
            then ["query_bouncer"] else [])
           (bouncer_stage env nettest_ settings_ ctx).
Proof.
  unfold bouncer_stage. destruct (Settings.no_bouncer settings_); simpl.
  - apply outlines_ret.
  - apply (outlines_bind ["query_bouncer"] []);
      [apply outlines_called|intros].
    hum.
Qed.

Lemma probe_ip_stage_outline ctx :
  outlines_by
    (lookup_marks (andb (String.eqb (Settings.probe_ip settings_) "")
                        (negb (Settings.no_ip_lookup settings_)))
       "lookup_ip" "failure.ip_lookup")
    (probe_ip_stage env settings_ ctx).
Proof.
  unfold probe_ip_stage.
  destruct (String.eqb (Settings.probe_ip settings_) "");
    [|apply (outlines_by_const []); apply outlines_ret].
  destruct (Settings.no_ip_lookup settings_); cbn [negb andb];
    [apply (outlines_by_const []); apply outlines_ret|].
  apply (outlines_by_pre ["lookup_ip"]
           (fun ok => if ok then [] else ["failure.ip_lookup"]));
    [apply outlines_called|intros _].
  apply (outlines_by_op (fun r => fst (fst r))); [apply outlines_lookup_ip|].
  intros [[[|] ip] err]; simpl.
  - hum.
  - now apply outlines_failure.
Qed.

Lemma probe_asn_stage_outline ctx :
  outlines_by
    (lookup_marks (andb (String.eqb (Settings.probe_asn settings_) "")
                        (negb (Settings.no_asn_lookup settings_)))
       "lookup_asn" "failure.asn_lookup")
    (probe_asn_stage env settings_ ctx).
Proof.
  unfold probe_asn_stage.
  destruct (String.eqb (Settings.probe_asn settings_) "");
    [|apply (outlines_by_const []); apply outlines_ret].
  destruct (Settings.no_asn_lookup settings_); cbn [negb andb];
    [apply (outlines_by_const []); apply outlines_ret|].
  apply (outlines_by_pre ["lookup_asn"]
           (fun ok => if ok then [] else ["failure.asn_lookup"]));
    [apply outlines_called|intros _].
  apply (outlines_by_op (fun r => fst (fst (fst r))));
    [apply outlines_lookup_asn|].
  intros [[[[|] asn] name] err]; simpl.
  - hum.
  - now apply outlines_failure.
Qed.

Lemma probe_cc_stage_outline ctx :
  outlines_by
    (lookup_marks (andb (String.eqb (Settings.probe_cc settings_) "")
                        (negb (Settings.no_cc_lookup settings_)))
       "lookup_cc" "failure.cc_lookup")
    (probe_cc_stage env settings_ ctx).
Proof.
  unfold probe_cc_stage.
  destruct (String.eqb (Settings.probe_cc settings_) "");
    [|apply (outlines_by_const []); apply outlines_ret].
  destruct (Settings.no_cc_lookup settings_); cbn [negb andb];
    [apply (outlines_by_const []); apply outlines_ret|].
  apply (outlines_by_pre ["lookup_cc"]
           (fun ok => if ok then [] else ["failure.cc_lookup"]));
    [apply outlines_called|intros _].
  apply (outlines_by_op (fun r => fst (fst r))); [apply outlines_lookup_cc|].
  intros [[[|] cc] err]; simpl.
  - hum.
  - now apply outlines_failure.
Qed.

Lemma geoip_events_outline ctx :
  outlines ["status.progress"; "status.geoip_lookup"]
           (@geoip_events World ctx).
Proof.
  unfold geoip_events.
  apply (outlines_bind ["status.progress"] ["status.geoip_lookup"]).
  - now apply outlines_event.
  - intros _. now apply outlines_event.
Qed.

Lemma resolver_stage_outline ctx :
  outlines_by
    (lookup_marks (negb (Settings.no_resolver_lookup settings_))
       "lookup_resolver_ip" "failure.resolver_lookup")
    (resolver_stage env settings_ ctx).
Proof.
  unfold resolver_stage.
  apply outlines_by_post; [|intros; hum].
  destruct (Settings.no_resolver_lookup settings_); cbn [negb];
    [apply (outlines_by_const []); apply outlines_ret|].
  apply (outlines_by_pre ["lookup_resolver_ip"]
           (fun ok => if ok then [] else ["failure.resolver_lookup"]));
    [apply outlines_called|intros _].
  apply (outlines_by_op (fun r => fst (fst r)));
    [apply outlines_lookup_resolver_ip|].
  intros [[[|] ip] err]; simpl.
  - hum.
  - now apply outlines_failure.
Qed.

Lemma open_report_stage_outline ctx t :
  outlines_by
    (fun ok =>
       if andb (negb (Settings.no_collector settings_))
               (String.eqb (Settings.collector_base_url settings_) "")
       then ["open_report";
             if ok then "status.report_create" else "failure.report_create"]
       else [])
    (open_report_stage env nettest_ settings_ ctx t).
Proof.
  unfold open_report_stage.
  destruct (Settings.no_collector settings_); cbn [negb andb];
    [apply (outlines_by_const []); apply outlines_ret|].
  destruct (String.eqb (Settings.collector_base_url settings_) "");
    [|apply (outlines_by_const []); apply outlines_ret].
  apply (outlines_by_pre []
           (fun ok => ["open_report";
                       if ok then "status.report_create"
                       else "failure.report_create"]));
    [apply outlines_select_collector|intros base].
  apply (outlines_by_pre []
           (fun ok => ["open_report";
                       if ok then "status.report_create"
                       else "failure.report_create"]));
    [apply outlines_EMIT_LOG|intros _].
  apply (outlines_by_pre ["open_report"]
           (fun ok => [if ok then "status.report_create"
                       else "failure.report_create"]));
    [apply outlines_called|intros _].
  apply (outlines_by_op (fun r => fst (fst r))); [apply outlines_open_report|].
  intros [[[|] rid] err]; simpl.
  - apply outlines_quiet_bind; [apply outlines_EMIT_LOG|intros _].
    rewrite <- (app_nil_r ["status.report_create"]).
    apply outlines_bind; [now apply outlines_event|intros _].
    apply outlines_ret.
  - now apply outlines_failure.
Qed.

(** *** The measurements and the close of the report *)

Lemma close_report_stage_outline ctx base :
  outlines_by
    (collector_marks settings_
       (negb (String.eqb (NettestContext.report_id ctx) ""))
       "close_report" "status.report_close" "failure.report_close")
    (close_report_stage env settings_ ctx base).
Proof.
  unfold close_report_stage, collector_marks.
  destruct (Settings.no_collector settings_); cbn [negb andb].
  - rewrite Bool.negb_involutive.
    destruct (String.eqb (NettestContext.report_id ctx) "").
    + apply (outlines_by_const ["failure.report_close"]).
      now apply outlines_event.
    + apply (outlines_by_const []). apply outlines_ret.
  - destruct (String.eqb (NettestContext.report_id ctx) ""); cbn [negb].
    + apply (outlines_by_const ["failure.report_close"]).
      now apply outlines_event.
    + apply (outlines_by_pre ["close_report"]
               (fun ok => [if ok then "status.report_close"
                           else "failure.report_close"]));
        [apply outlines_called|intros _].
      apply (outlines_by_op fst); [apply outlines_close_report|].
      intros [[|] err]; simpl.
      * now apply outlines_event.
      * apply outlines_quiet_bind; [apply outlines_EMIT_LOG|intros _].
        now apply outlines_event.
Qed.

Lemma submit_measurement_outline ctx base i m :
  outlines_by
    (fun submitted =>
       match Env.json_dump env m with
       | inl _ =>
           collector_marks settings_
             (negb (String.eqb (NettestContext.report_id ctx) ""))
             "update_report" "status.measurement_submission"
             "failure.measurement_submission" submitted
           ++ ["measurement"]
       | inr _ => []
       end)
    (submit_measurement env settings_ ctx base i m).
Proof.
  intros st.
  destruct (submit_measurement_steps env settings_ ctx base i m st)
    as (T & w & b & E & Steps).
  cbv zeta in Steps. unfold collector_marks.
  destruct (Env.json_dump env m) as [str|what].
  - destruct (andb (negb (Settings.no_collector settings_))
                   (negb (String.eqb (NettestContext.report_id ctx) "")))
      eqn:Open.
    + destruct (Env.json_dump env _) as [requestbody|what].
      * destruct (Env.curlx_post_json env _ requestbody curl_timeout
                    (info st) ErrContext.default (world st))
          as [[[[ok rb] b'] err'] w'].
        destruct Steps as (U & _).
        exists ok, tt, (mkState w (trace st ++ T) b), T.
        split; [exact E|]. split; [reflexivity|].
        rewrite <- marks_unlogged, U. destruct ok; reflexivity.
      * destruct Steps as (U & _).
        exists false, tt, (mkState w (trace st ++ T) b), T.
        split; [exact E|]. split; [reflexivity|].
        rewrite <- marks_unlogged, U. reflexivity.
    + destruct Steps as (U & _).
      exists true, tt, (mkState w (trace st ++ T) b), T.
      split; [exact E|]. split; [reflexivity|].
      rewrite <- marks_unlogged, U. rewrite Bool.negb_involutive.
      destruct (String.eqb (NettestContext.report_id ctx) ""); reflexivity.
  - destruct Steps as (U & _).
    exists true, tt, (mkState w (trace st ++ T) b), T.
    split; [exact E|]. split; [reflexivity|].
    rewrite <- marks_unlogged, U. reflexivity.
Qed.
End OutlineStages.

Section OutlineRun.
Context {World : Type}.
Variable env : Env.t World.
Variable nettest_ : Nettest.t World.
Variable settings_ : Settings.t.
Hypothesis contract : fills_test_keys nettest_.

Local Open Scope runner_scope.

(** One call of [run_with_index32]: nothing but a log line when the
    budget is spent; otherwise the call of the nettest and the events of
    the measurement, whatever the nettest and the collector return. *)
Lemma run_with_index32_outline begin t inputs ctx base i (st : State World) :
  0 <= i < Z.of_nat (List.length inputs) ->
  exists a r st' T,
    run_with_index32 env nettest_ settings_ begin t inputs ctx base i st
    = Some (r, st')
    /\ trace st' = trace st ++ T
    /\ marks T
       = attempt_marks settings_
           (negb (String.eqb (NettestContext.report_id ctx) "")) a.
Proof.
  intros R. unfold run_with_index32. unfold bind at 1, the_world at 1.
  destruct (Env.steady_clock_now env (world st)) as [now w1].
  destruct (exceeded_max_runtime settings_ _).
  - destruct (outlines_EMIT_LOG settings_ log_info "INFO"
                "exceeded max runtime"
                (mkState w1 (trace st) (info st)))
      as ([] & st1 & T1 & E1 & Tr1 & M1).
    unfold bind, EMIT_INFO. rewrite E1.
    exists Skipped, false, st1, T1. auto.
  - unfold bind at 1, input_at at 1.
    destruct (i <? 0) eqn:Hi; [lia|].
    destruct (nth_error inputs (Z.to_nat i)) as [input|] eqn:Hn;
      [|apply nth_error_None in Hn; lia].
    cbn [or_terminate]. unfold ret at 1.
    unfold bind at 1, emit_ev at 1, log_item at 1.
    cbn [world trace info].
    match goal with
    | |- context [bind (make_measurement _ _ _ _ _ _ _) _ ?s] =>
        destruct (yields_make_measurement env nettest_ settings_ contract
                    t inputs ctx i R s)
          as ([rv m] & st2 & T2 & E2 & Tr2 & _);
        pose proof (make_measurement_inv env nettest_ settings_ t inputs
                      ctx i s rv m st2 E2)
          as (input' & tk & _ & _ & Tr2' & _)
    end.
    unfold bind at 1. rewrite E2.
    cbn [trace] in Tr2'.
    set (failure := if negb rv
                    then emit_ev "failure.measurement"
                           (object_of [("failure", JString "generic_error");
                                       ("idx", JInt i)])
                    else @ret World unit tt).
    assert (F : outlines (if rv then [] else ["failure.measurement"])
                  failure).
    { unfold failure. destruct rv; cbn [negb];
        [apply outlines_ret|now apply outlines_event]. }
    destruct (F st2) as ([] & st3 & T3 & E3 & Tr3 & M3).
    unfold bind at 1. fold failure. rewrite E3.
    destruct (submit_measurement_outline env settings_ ctx base i m st3)
      as (submitted & [] & st4 & T4 & E4 & Tr4 & M4).
    unfold bind at 1. rewrite E4.
    unfold bind, emit_ev, log_item, ret.
    exists (Measured rv
              (match Env.json_dump env m with inl _ => true | inr _ => false
               end) submitted), true.
    eexists _, _. split; [reflexivity|]. cbn [trace]. split.
    + rewrite Tr4, Tr3, Tr2'. rewrite <- !app_assoc. reflexivity.
    + rewrite !marks_app, M3, M4. cbn [attempt_marks].
      destruct (Env.json_dump env m); reflexivity.
Qed.

(** When the main thread tests [active] before any worker has run, the
    wait is over at once: the history is as it was. *)
Lemma dispatch_eager parallelism begin t inputs ctx base (st : State World)
    (w : World) :
  0 < parallelism ->
  Env.main_polls env (world st) = (true, w) ->
  dispatch env nettest_ settings_ parallelism begin t inputs ctx base st
  = Some (tt, mkState w (trace st) (info st)).
Proof.
  intros P E. unfold dispatch.
  set (p0 := Dispatcher.start (State World) (Z.to_nat parallelism) st).
  pose proof (start_moves (State World) (Z.of_nat (List.length inputs))
                (Z.to_nat parallelism) st ltac:(lia)) as M.
  fold p0 in M.
  destruct (Z.to_nat (Dispatcher.moves_left (State World)
                        (Z.of_nat (List.length inputs)) p0))
    as [|fuel] eqn:Fuel; [lia|].
  unfold p0.
  rewrite wait_eager
    with (s1 := mkState w (trace st) (info st));
    [reflexivity|].
  rewrite E. reflexivity.
Qed.

(** The workers' calls, in the order in which they are made. *)
Lemma dispatch_outline parallelism begin t inputs ctx base (st : State World) :
  0 < parallelism ->
  exists l st' T,
    dispatch env nettest_ settings_ parallelism begin t inputs ctx base st
    = Some (tt, st')
    /\ trace st' = trace st ++ T
    /\ marks T
       = flat_map (attempt_marks settings_
                     (negb (String.eqb (NettestContext.report_id ctx) "")))
           l
    /\ (fst (Env.main_polls env (world st)) = true -> l = []).
Proof.
  intros P.
  destruct (Env.main_polls env (world st)) as [[|] w] eqn:Polls.
  - exists [], (mkState w (trace st) (info st)), [].
    split; [now apply dispatch_eager|].
    cbn [trace]. rewrite app_nil_r. auto.
  - set (R := fun s s' : State World =>
                exists T l,
                  trace s' = trace s ++ T
                  /\ marks T
                     = flat_map
                         (attempt_marks settings_
                            (negb (String.eqb (NettestContext.report_id ctx)
                                     ""))) l).
    destruct (dispatch_keeps env nettest_ settings_ R parallelism begin t
                inputs ctx base) with (st := st)
      as (st' & E & T & l & Tr & M).
    + intros s. exists [], []. split; [now rewrite app_nil_r|reflexivity].
    + intros s1 s2 s3 (T1 & l1 & E1 & M1) (T2 & l2 & E2 & M2).
      exists (T1 ++ T2), (l1 ++ l2). split.
      * now rewrite E2, E1, app_assoc.
      * now rewrite marks_app, flat_map_app, M1, M2.
    + intros s w'. exists [], []. cbn [trace].
      split; [now rewrite app_nil_r|reflexivity].
    + intros idx s Rg.
      destruct (run_with_index32_outline begin t inputs ctx base idx s Rg)
        as (a & r & s' & T & E & Tr & M).
      exists r, s'. split; [exact E|]. exists T, [a]. split; [exact Tr|].
      cbn [flat_map]. now rewrite app_nil_r.
    + exists l, st', T. split; [exact E|]. split; [exact Tr|].
      split; [exact M|]. cbn [fst]. discriminate.
Qed.
End OutlineRun.

(** Run the next computation of a sequence, given its outline. *)
Ltac pass H a s1 T Tr M :=
  let E := fresh "E" in
  match goal with
  | |- context [bind ?m ?k ?s] =>
      destruct (H s) as (a & s1 & T & E & Tr & M);
      unfold bind at 1; rewrite E; clear E
  end.

Ltac pass_by H ok a s1 T Tr M :=
  let E := fresh "E" in
  match goal with
  | |- context [bind ?m ?k ?s] =>
      destruct (H s) as (ok & a & s1 & T & E & Tr & M);
      unfold bind at 1; rewrite E; clear E
  end.

Section OutlineWhole.
Context {World : Type}.
Variable env : Env.t World.
Variable nettest_ : Nettest.t World.
Variable settings_ : Settings.t.
Hypothesis contract : fills_test_keys nettest_.

Local Open Scope runner_scope.

Lemma progress_outline (q : Q) (message : string) :
  outlines ["status.progress"] (@progress World q message).
Proof. now apply outlines_event. Qed.

Lemma measure_stage_outline ctx base t (st : State World) :
  let open := negb (String.eqb (NettestContext.report_id ctx) "") in
  exists l closed st' T,
    measure_stage env nettest_ settings_ ctx base t st = Some (tt, st')
    /\ trace st' = trace st ++ T
    /\ marks T
       = (if no_input_provided nettest_ settings_ then []
          else flat_map (attempt_marks settings_ open) l
               ++ ["status.progress"]
               ++ collector_marks settings_ open "close_report"
                    "status.report_close" "failure.report_close" closed
               ++ ["status.progress"])
    /\ ((forall w, fst (Env.main_polls env w) = true) -> l = []).
Proof.
  intros open. unfold measure_stage, no_input_provided.
  destruct (andb _ _).
  - destruct (outlines_EMIT_LOG settings_ log_warning "WARNING"
                "run: no input provided" st)
      as ([] & st' & T & E & Tr & M).
    exists [], true, st', T. auto.
  - assert (I1 : outlines []
                   (if Nettest.needs_input nettest_
                    then @ret World _ ([] ++ Settings.inputs settings_)
                    else
                      (match Settings.inputs settings_ with
                       | [] => ret tt
                       | _ :: _ =>
                           EMIT_WARNING settings_
                             "run: got unexpected input; ignoring it"
                       end) ;;
                      ret ([] ++ [""]))) by hum.
    pass I1 inputs st1 T1 Tr1 M1.
    assert (I2 : outlines []
                   (if Settings.randomize_input settings_
                    then the_world (Env.shuffle env inputs)
                    else @ret World _ inputs)) by hum.
    pass I2 inputs' st2 T2 Tr2 M2.
    pass (outlines_the_world (World := World) (Env.steady_clock_now env))
      begin st3 T3 Tr3 M3.
    set (parallelism :=
           if negb (Nettest.needs_input nettest_) then 1
           else if 0 <? Settings.parallelism settings_
                then Settings.parallelism settings_
                else default_parallelism).
    assert (P : 0 < parallelism).
    { unfold parallelism, default_parallelism.
      destruct (negb (Nettest.needs_input nettest_)); [lia|].
      destruct (0 <? Settings.parallelism settings_) eqn:Z0; [|lia].
      now apply Z.ltb_lt. }
    destruct (dispatch_outline env nettest_ settings_ contract parallelism
                begin t inputs' ctx base st3 P)
      as (l & st4 & T4 & E4 & Tr4 & M4 & Eager).
    unfold bind at 1. rewrite E4. clear E4.
    pass (progress_outline (9 # 10) "measurement complete")
      u5 st5 T5 Tr5 M5.
    pass_by (close_report_stage_outline env settings_ ctx base)
      closed u6 st6 T6 Tr6 M6.
    destruct (progress_outline (1 # 1) "report close" st6)
      as ([] & st7 & T7 & E7 & Tr7 & M7).
    exists l, closed, st7, (T1 ++ T2 ++ T3 ++ T4 ++ T5 ++ T6 ++ T7).
    split; [exact E7|]. split.
    + rewrite Tr7, Tr6, Tr5, Tr4, Tr3, Tr2, Tr1. now rewrite <- !app_assoc.
    + split.
      * rewrite !marks_app, M1, M2, M3, M4, M5, M6, M7. reflexivity.
      * intros All. apply Eager. apply All.
Qed.

(** Every run goes through all its stages, whatever each of them
    returns. *)
Lemma run_outline (st : State World) :
  exists o st' T,
    run env nettest_ settings_ st = Some (true, st')
    /\ trace st' = trace st ++ T
    /\ marks T = run_marks nettest_ settings_ o
    /\ ((forall w, fst (Env.main_polls env w) = true) -> attempts o = []).
Proof.
  unfold run.
  pass (outlines_put_info (World := World) BytesInfo.zero) u1 st1 T1 Tr1 M1.
  pass (outlines_event (World := World) "status.queued" (JObject [])
          ["status.queued"] eq_refl) u2 st2 T2 Tr2 M2.
  pass (outlines_event (World := World) "status.started" (JObject [])
          ["status.started"] eq_refl) u3 st3 T3 Tr3 M3.
  pass (bouncer_stage_outline env nettest_ settings_ NettestContext.default)
    ctx1 st4 T4 Tr4 M4.
  pass (progress_outline (1 # 10) "contact bouncer") u5 st5 T5 Tr5 M5.
  pass_by (probe_ip_stage_outline env settings_ ctx1) ip ctx2 st6 T6 Tr6 M6.
  pass_by (probe_asn_stage_outline env settings_ ctx2)
    asn ctx3 st7 T7 Tr7 M7.
  pass_by (probe_cc_stage_outline env settings_ ctx3) cc ctx4 st8 T8 Tr8 M8.
  pass (geoip_events_outline (World := World) ctx4) u9 st9 T9 Tr9 M9.
  pass_by (resolver_stage_outline env settings_ ctx4)
    resolver ctx5 st10 T10 Tr10 M10.
  pass (progress_outline (3 # 10) "resolver lookup") u11 st11 T11 Tr11 M11.
  pass (outlines_event (World := World) "status.resolver_lookup"
          (object_of [("resolver_ip",
                       JString (NettestContext.resolver_ip ctx5))])
          ["status.resolver_lookup"] eq_refl) u12 st12 T12 Tr12 M12.
  pass (outlines_the_world (World := World) (Env.format_system_clock_now env))
    t st13 T13 Tr13 M13.
  pass_by (open_report_stage_outline env nettest_ settings_ ctx5 t)
    created r st14 T14 Tr14 M14.
  destruct r as [ctx6 base].
  pass (progress_outline (4 # 10) "open report") u15 st15 T15 Tr15 M15.
  destruct (measure_stage_outline ctx6 base t st15)
    as (l & closed & st16 & T16 & E16 & Tr16 & M16 & Eager).
  unfold bind at 1. rewrite E16. clear E16.
  unfold bind, get_info, emit_ev, log_item, ret.
  exists (mkOutcome ip asn cc resolver created
            (negb (String.eqb (NettestContext.report_id ctx6) "")) l closed).
  eexists _, _. split; [reflexivity|]. cbn [trace]. split.
  - rewrite Tr16, Tr15, Tr14, Tr13, Tr12, Tr11, Tr10, Tr9, Tr8, Tr7, Tr6,
      Tr5, Tr4, Tr3, Tr2, Tr1. rewrite <- !app_assoc. reflexivity.
  - split; [|exact Eager].
    rewrite !marks_app, M1, M2, M3, M4, M5, M6, M7, M8, M9, M10, M11, M12,
      M13, M14, M15, M16.
    unfold run_marks.
    cbn [ip_found asn_found cc_found resolver_found report_created
         report_open attempts report_closed].
    rewrite <- ?app_assoc. reflexivity.
Qed.
End OutlineWhole.

Lemma lookup_marks_in (enabled : bool) (call failure : string) (ok : bool)
    (x : string) :
  In x (lookup_marks enabled call failure ok) -> x = call \/ x = failure.
Proof.
  unfold lookup_marks. destruct enabled, ok; simpl; intuition auto.
Qed.

Lemma collector_marks_in (settings_ : Settings.t) (open : bool)
    (call status failure : string) (ok : bool) (x : string) :
  In x (collector_marks settings_ open call status failure ok) ->
  x = call \/ x = status \/ x = failure.
Proof.
  unfold collector_marks.
  destruct (andb _ _), open, ok; simpl; intuition auto.
Qed.

(** The outline of a run in which no call of [run_with_index32] was made
    holds the marks of the stages only. *)
Lemma run_marks_without_attempts {World : Type} (nettest_ : Nettest.t World)
    (settings_ : Settings.t) (o : Outcome) (x : string) :
  attempts o = [] ->
  In x (run_marks nettest_ settings_ o) ->
  In x ["status.queued"; "status.started"; "query_bouncer";
        "status.progress"; "lookup_ip"; "failure.ip_lookup"; "lookup_asn";
        "failure.asn_lookup"; "lookup_cc"; "failure.cc_lookup";
        "status.geoip_lookup"; "lookup_resolver_ip";
        "failure.resolver_lookup"; "status.resolver_lookup"; "open_report";
        "status.report_create"; "failure.report_create"; "close_report";
        "status.report_close"; "failure.report_close"; "status.end"].
Proof.
  intros A H. unfold run_marks in H. rewrite A in H. cbn [flat_map] in H.
  repeat (apply in_app_or in H; destruct H as [H|H]);
    try (apply lookup_marks_in in H; destruct H as [->| ->]; simpl; tauto);
    try (repeat match type of H with
                | context [if ?c then _ else _] => destruct c
                end;
         simpl in H; intuition (subst; simpl; tauto)).
  destruct (no_input_provided nettest_ settings_); [destruct H|].
  repeat (apply in_app_or in H; destruct H as [H|H]);
    try (apply collector_marks_in in H; destruct H as [->|[->| ->]];
         simpl; tauto);
    simpl in H; intuition (subst; simpl; tauto).
Qed.


(** ** The claims about all the stages of [Runner::run()] *)




(** ** The fields of a measurement record *)

(** C6.  In every record built by [run_with_index32], [probe_ip] is the
    empty string when [save_real_probe_ip] is false and [ctx.probe_ip]
    otherwise; likewise [probe_asn] with [save_real_probe_asn] and
    [probe_cc] with [save_real_probe_cc].  A record is built for every
    index of the input list, given a nettest that leaves [*test_keys]
    null or an object. *)
Theorem probe_fields_follow_the_save_flags :
  forall (World : Type) (env : Env.t World) (nettest_ : Nettest.t World)
         (settings_ : Settings.t) (t : string) (inputs : list string)
         (ctx : NettestContext.t) (i : Z) (st : State World),
    (forall rv m st',
        make_measurement env nettest_ settings_ t inputs ctx i st
        = Some ((rv, m), st') ->
        at_key "probe_ip" m
        = Some (JString (if Settings.save_real_probe_ip settings_
                         then NettestContext.probe_ip ctx else ""))
        /\ at_key "probe_asn" m
           = Some (JString (if Settings.save_real_probe_asn settings_
                            then NettestContext.probe_asn ctx else ""))
        /\ at_key "probe_cc" m
           = Some (JString (if Settings.save_real_probe_cc settings_
                            then NettestContext.probe_cc ctx else "")))
    /\ (fills_test_keys nettest_ ->
        0 <= i < Z.of_nat (List.length inputs) ->
        exists rv m st',
          make_measurement env nettest_ settings_ t inputs ctx i st
          = Some ((rv, m), st')).
Proof.
  intros World env nettest_ settings_ t inputs ctx i st. split.
  - intros rv m st' H.
    destruct (make_measurement_inv env nettest_ settings_ t inputs ctx i st
                rv m st' H)
      as (input & tk & _ & _ & _ & _ & Asn & Cc & Ip & _).
    auto.
  - intros contract R.
    destruct (yields_make_measurement env nettest_ settings_ contract t
                inputs ctx i R st) as ([rv m] & st' & T & E & _).
    now exists rv, m, st'.
Qed.

(** The theorem on a record built with the default flags (the IP is
    withheld, the ASN and the country are not). *)
Lemma probe_fields_follow_the_save_flags_witness :
  exists rv m st',
    make_measurement Scenario.offline Scenario.dummy_nettest
      Settings.default "2018-10-01 12:00:00" [""] Scenario.context 0
      Scenario.initial = Some ((rv, m), st')
    /\ at_key "probe_ip" m = Some (JString "")
    /\ at_key "probe_asn" m = Some (JString "AS30722")
    /\ at_key "probe_cc" m = Some (JString "IT").
Proof.
  destruct (probe_fields_follow_the_save_flags unit Scenario.offline
              Scenario.dummy_nettest Settings.default "2018-10-01 12:00:00"
              [""] Scenario.context 0 Scenario.initial) as (Fields & Built).
  destruct Built as (rv & m & st' & Make).
  - intros s c input b w. simpl. left. reflexivity.
  - simpl. lia.
  - exists rv, m, st'. split; [exact Make|]. exact (Fields rv m st' Make).
Defined.



(** C3 does not hold of the code: the record has no member [software_name]
    and no member [software_version]; the settings go into two members
    spelled [sotfware_name] and [sotfware_version].  (A record is built for
    every index of the input list, given a nettest that leaves
    [*test_keys] null or an object.) *)
Theorem record_misspells_software_name :
  forall (World : Type) (env : Env.t World) (nettest_ : Nettest.t World)
         (settings_ : Settings.t) (t : string) (inputs : list string)
         (ctx : NettestContext.t) (i : Z) (st : State World),
    (forall rv m st',
        make_measurement env nettest_ settings_ t inputs ctx i st
        = Some ((rv, m), st') ->
        at_key "software_name" m = None
        /\ at_key "software_version" m = None
        /\ at_key "sotfware_name" m
           = Some (JString (Settings.software_name settings_))
        /\ at_key "sotfware_version" m
           = Some (JString (Settings.software_version settings_)))
    /\ (fills_test_keys nettest_ ->
        0 <= i < Z.of_nat (List.length inputs) ->
        exists rv m st',
          make_measurement env nettest_ settings_ t inputs ctx i st
          = Some ((rv, m), st')).
Proof.
  intros World env nettest_ settings_ t inputs ctx i st. split.
  - intros rv m st' H.
    destruct (make_measurement_inv env nettest_ settings_ t inputs ctx i st
                rv m st' H)
      as (input & tk & _ & _ & _ & _ & _ & _ & _ & _ & N1 & N2 & S1 & S2 & _).
    auto.
  - intros contract R.
    destruct (yields_make_measurement env nettest_ settings_ contract t
                inputs ctx i R st) as ([rv m] & st' & T & E & _).
    now exists rv, m, st'.
Qed.

(** The theorem on a record built from the default settings. *)
Lemma record_misspells_software_name_witness :
  exists rv m st',
    make_measurement Scenario.offline Scenario.dummy_nettest
      Settings.default "2018-10-01 12:00:00" [""] Scenario.context 0
      Scenario.initial = Some ((rv, m), st')
    /\ at_key "software_name" m = None
    /\ at_key "software_version" m = None
    /\ at_key "sotfware_name" m = Some (JString "libnettest2")
    /\ at_key "sotfware_version" m = Some (JString "0.6.0").
Proof.
  destruct (record_misspells_software_name unit Scenario.offline
              Scenario.dummy_nettest Settings.default "2018-10-01 12:00:00"
              [""] Scenario.context 0 Scenario.initial) as (Fields & Built).
  destruct Built as (rv & m & st' & Make).
  - intros s c input b w. simpl. left. reflexivity.
  - simpl. lia.
  - exists rv, m, st'. split; [exact Make|]. exact (Fields rv m st' Make).
Defined.


(** ** The dispatcher with the Runner's [run_with_index32] *)

(** [run_with_index32] returns false only through its test of the runtime
    budget. *)
Lemma run_with_index32_false {World : Type} (env : Env.t World)
    (nettest_ : Nettest.t World) (settings_ : Settings.t) begin t inputs ctx
    base i (st st' : State World) :
  run_with_index32 env nettest_ settings_ begin t inputs ctx base i st
  = Some (false, st') ->
  exceeded_max_runtime settings_
    (seconds (Qminus (fst (Env.steady_clock_now env (world st))) begin))
  = true.
Proof.
  unfold run_with_index32. unfold bind at 1. unfold the_world.
  destruct (Env.steady_clock_now env (world st)) as [now w]. simpl fst.
  destruct (exceeded_max_runtime _ _); [reflexivity|]. intros H. exfalso.
  assert (R : returns (fun r : bool => r = true)
                (bind (@input_at World inputs i) (fun input =>
                 bind (emit_ev "status.measurement_start"
                         (object_of [("idx", JInt i);
                                     ("input", JString input)])) (fun _ =>
                 bind (make_measurement env nettest_ settings_ t inputs ctx i)
                   (fun x => match x with
                             | (rv, measurement) =>
                                 bind (if negb rv
                                       then emit_ev "failure.measurement"
                                              (object_of
                                                 [("failure",
                                                   JString "generic_error");
                                                  ("idx", JInt i)])
                                       else ret tt) (fun _ =>
                                 bind (submit_measurement env settings_ ctx
                                         base i measurement) (fun _ =>
                                 bind (emit_ev "status.measurement_done"
                                         (object_of [("idx", JInt i)]))
                                      (fun _ => ret true)))
                             end))))).
  { repeat (apply returns_bind; intros;
            try match goal with
                | |- returns _ (match ?x with (_, _) => _ end) => destruct x
                end).
    now apply returns_ret. }
  specialize (R _ _ _ H). discriminate R.
Qed.

(** C7.  The claim does not hold of the code.  [active] starts at zero
    and each detached thread counts itself in with [active += 1], the
    first statement it runs; so the main thread's [while (active > 0)]
    can read zero before any worker has run.  When it does, the wait is
    over at once.  For every configuration, every input list and every
    number of workers, also with no interrupt and no timeout: the
    dispatcher returns with no index claimed and no worker started, the
    history being as it was; and the whole run goes on to close the
    report and returns true without a call of the nettest and without a
    measurement. *)
Theorem dispatcher_may_claim_no_index :
  forall (World : Type) (env : Env.t World) (nettest_ : Nettest.t World)
         (settings_ : Settings.t),
    fills_test_keys nettest_ ->
    (forall w, fst (Env.main_polls env w) = true) ->
    (forall parallelism begin t inputs ctx base (st : State World),
        0 < parallelism ->
        let size := Z.of_nat (List.length inputs) in
        let p0 := Dispatcher.start (State World) (Z.to_nat parallelism) st in
        exists p,
          Dispatcher.wait (State World)
            (fun s => Env.interrupted env (world s))
            (run_with_index32 env nettest_ settings_ begin t inputs ctx base)
            size
            (fun s => let (tests, w) := Env.main_polls env (world s) in
                      (tests, mkState w (trace s) (info s)))
            (fun s => let (n, w) := Env.schedule env (world s) in
                      (n, mkState w (trace s) (info s)))
            (Z.to_nat (Dispatcher.moves_left (State World) size p0)) p0
          = Some p
          /\ Dispatcher.claimed (State World) p = []
          /\ Dispatcher.workers (State World) p
             = repeat Dispatcher.NotStarted (Z.to_nat parallelism)
          /\ trace (Dispatcher.shared (State World) p) = trace st
          /\ dispatch env nettest_ settings_ parallelism begin t inputs ctx
               base st
             = Some (tt, Dispatcher.shared (State World) p))
    /\ (forall st : State World,
           exists o st' T,
             run env nettest_ settings_ st = Some (true, st')
             /\ trace st' = trace st ++ T
             /\ marks T = run_marks nettest_ settings_ o
             /\ attempts o = []
             /\ ~ In "status.measurement_start" (marks T)
             /\ ~ In "nettest.run" (marks T)
             /\ ~ In "measurement" (marks T)).
Proof.
  intros World env nettest_ settings_ contract Eager. split.
  - intros parallelism begin t inputs ctx base st P size p0.
    pose proof (Eager (world st)) as E0.
    destruct (Env.main_polls env (world st)) as [tests w] eqn:Polls.
    cbn [fst] in E0. subst tests.
    pose proof (start_moves (State World) size (Z.to_nat parallelism) st
                  ltac:(lia)) as M.
    fold p0 in M.
    set (poll := fun s : State World =>
                   let (tests, w) := Env.main_polls env (world s) in
                   (tests, mkState w (trace s) (info s))).
    assert (Ep : poll st = (true, mkState w (trace st) (info st)))
      by (unfold poll; rewrite Polls; reflexivity).
    exists (Dispatcher.start (State World) (Z.to_nat parallelism)
              (mkState w (trace st) (info st))).
    assert (W : forall pick,
               Dispatcher.wait (State World)
                 (fun s => Env.interrupted env (world s))
                 (run_with_index32 env nettest_ settings_ begin t inputs ctx
                    base) size poll pick
                 (Z.to_nat (Dispatcher.moves_left (State World) size p0)) p0
               = Some (Dispatcher.start (State World) (Z.to_nat parallelism)
                         (mkState w (trace st) (info st)))).
    { intros pick.
      destruct (Z.to_nat (Dispatcher.moves_left (State World) size p0))
        as [|fuel] eqn:Fuel; [lia|].
      unfold p0. now apply wait_eager. }
    split; [apply W|]. split; [reflexivity|]. split; [reflexivity|].
    split; [reflexivity|].
    unfold dispatch. fold size. fold p0. fold poll. rewrite W. reflexivity.
  - intros st.
    destruct (run_outline env nettest_ settings_ contract st)
      as (o & st' & T & E & Tr & M & A).
    specialize (A Eager).
    exists o, st', T. split; [exact E|]. split; [exact Tr|].
    split; [exact M|]. split; [exact A|]. rewrite M.
    repeat split; intros H;
      apply (run_marks_without_attempts nettest_ settings_ o _ A) in H;
      simpl in H; intuition discriminate.
Qed.

(** The theorem on three inputs and three workers, with no interrupt and
    a clock that stands still: the run ends with none of the inputs
    measured. *)
Lemma dispatcher_may_claim_no_index_witness :
  Settings.inputs Scenario.three_inputs = ["a"; "b"; "c"]
  /\ Nettest.needs_input Scenario.failing_nettest = true
  /\ exists st',
       run Scenario.hasty Scenario.failing_nettest Scenario.three_inputs
         Scenario.initial = Some (true, st')
       /\ ~ In "status.measurement_start" (marks (trace st'))
       /\ ~ In "nettest.run" (marks (trace st'))
       /\ ~ In "measurement" (marks (trace st')).
Proof.
  split; [reflexivity|]. split; [reflexivity|].
  destruct (proj2 (dispatcher_may_claim_no_index unit Scenario.hasty
                     Scenario.failing_nettest Scenario.three_inputs
                     ltac:(intros s c input b w; simpl; right; reflexivity)
                     ltac:(intros w; reflexivity))
              Scenario.initial)
    as (o & st' & T & E & Tr & _ & _ & N1 & N2 & N3).
  exists st'. split; [exact E|].
  change (trace Scenario.initial) with (@nil Item) in Tr.
  cbn [app] in Tr. rewrite Tr. auto.
Defined.

(** Besides, the shared index stops at [2^32]: with [2^32 + 1] inputs,
    one worker, no interrupt and no timeout, the worker leaves its loop
    with the index [2^32] unclaimed. *)
Lemma dispatcher_stops_at_the_ceiling :
  let size := UINT32_MAX + 2 in
  exists sched p,
    Dispatcher.exec unit (fun _ => false) (fun _ s => Some (true, s)) size
      sched (Dispatcher.start unit 1 tt) = Some p
    /\ Dispatcher.all_exited unit p = true
    /\ 0 <= UINT32_MAX + 1 < size
    /\ ~ In (UINT32_MAX + 1) (List.map snd (Dispatcher.claimed unit p)).
Proof.
  intros size.
  destruct (complete_run_exists unit (fun _ => false)
              (fun _ s => Some (true, s)) size 1%nat tt ltac:(lia)
              ltac:(intros idx s _; eauto)) as (sched & p & E & A).
  exists sched, p. split; [exact E|]. split; [exact A|].
  split; [unfold size, UINT32_MAX; lia|].
  destruct (complete_run_claims unit (fun _ => false)
              (fun _ s => Some (true, s)) size
              (fun _ => eq_refl) ltac:(intros idx s s'; discriminate)
              1%nat tt sched p ltac:(lia) E A) as (C & _).
  rewrite C. intros H.
  pose proof (proj1 (in_zrange (Z.min size (UINT32_MAX + 1))
                       (UINT32_MAX + 1)) H) as R.
  unfold size, UINT32_MAX in R. lia.
Qed.


(** ** Opening the report *)

Section OpenReportFacts.
Context {World : Type}.
Variable env : Env.t World.
Variable nettest_ : Nettest.t World.
Variable settings_ : Settings.t.

Lemma select_collector_first collectors dflt (st : State World) :
  exists st' T,
    select_collector settings_ collectors dflt st
    = Some (first_https collectors dflt, st')
    /\ trace st' = trace st ++ T.
Proof.
  induction collectors as [|epnt collectors IH];
    cbn [select_collector first_https].
  - exists st, []. split; [reflexivity|now rewrite app_nil_r].
  - destruct (_ =? _); [|exact IH].
    destruct (yields_EMIT_LOG settings_ log_info "INFO"
                ("Using discovered collector: "
                 +++ EndpointInfo.address epnt) st)
      as ([] & st' & T & E & Tr & _).
    unfold bind, EMIT_INFO. rewrite E. exists st', T. auto.
Qed.

(** A warning followed by an event. *)
Lemma log_then_emit {A : Type} level upper msg key value (a : A)
    (st : State World) :
  exists st' T,
    bind (EMIT_LOG settings_ level upper msg)
         (fun _ => bind (emit_ev key value) (fun _ => ret a)) st
    = Some (a, st')
    /\ trace st' = trace st ++ T
    /\ In (Emitted (event key value)) T.
Proof.
  destruct (yields_EMIT_LOG settings_ level upper msg st)
    as ([] & s1 & T1 & E1 & Tr1 & _).
  unfold bind at 1. rewrite E1. unfold bind, emit_ev, log_item, ret.
  eexists _, (T1 ++ [_]). split; [reflexivity|]. split.
  - simpl. now rewrite Tr1, app_assoc.
  - apply in_or_app. right. left. reflexivity.
Qed.

(** With no configured URL, the report is opened on the first https
    collector that was discovered, and the outcome of [open_report] is
    what decides between [failure.report_create] and
    [status.report_create]. *)
Lemma discovered_collector_is_opened ctx t (st : State World) :
  Settings.no_collector settings_ = false ->
  Settings.collector_base_url settings_ = "" ->
  let base := first_https (NettestContext.collectors ctx) "" in
  exists st1 ok report_id err st2 T ctx' st',
    open_report env nettest_ settings_ base t ctx
      (NettestContext.report_id ctx) ErrContext.default st1
    = Some ((ok, report_id, err), st2)
    /\ In (Called (call_open_report base)) (trace st1)
    /\ open_report_stage env nettest_ settings_ ctx t st
       = Some ((ctx', base), st')
    /\ NettestContext.report_id ctx' = report_id
    /\ trace st' = trace st2 ++ T
    /\ In (Emitted
             (if ok
              then event "status.report_create"
                     (object_of [("report_id", JString report_id)])
              else event "failure.report_create" (library_error err))) T.
Proof.
  intros NC URL base. unfold open_report_stage. rewrite NC, URL.
  change (negb false) with true. change ("" =? "")%string with true.
  lazy beta iota.
  destruct (select_collector_first (NettestContext.collectors ctx) "" st)
    as (sa & Ta & Ea & Tra).
  unfold bind at 1. rewrite Ea. fold base.
  destruct (yields_EMIT_LOG settings_ log_info "INFO"
              "Opening report; please be patient..." sa)
    as ([] & sb & Tb & Eb & Trb & _).
  unfold bind at 1. unfold EMIT_INFO at 1. rewrite Eb.
  unfold bind at 1. unfold log_item at 1. lazy beta iota.
  set (st1 := mkState (world sb)
                (trace sb ++ [Called (call_open_report base)]) (info sb)).
  destruct (yields_open_report env nettest_ settings_ base t ctx
              (NettestContext.report_id ctx) ErrContext.default st1)
    as ([[ok rid] err] & st2 & T2 & E2 & Tr2 & _).
  unfold bind at 1. rewrite E2. lazy beta iota.
  exists st1, ok, rid, err, st2.
  assert (I1 : In (Called (call_open_report base)) (trace st1))
    by (unfold st1; simpl; apply in_or_app; right; left; reflexivity).
  destruct ok.
  - change (negb true) with false. lazy beta iota.
    destruct (log_then_emit log_info "INFO"
                ("Report ID: "
                 +++ NettestContext.report_id
                       (NettestContext.set_report_id rid ctx))
                "status.report_create"
                (object_of
                   [("report_id",
                     JString (NettestContext.report_id
                                (NettestContext.set_report_id rid ctx)))])
                (NettestContext.set_report_id rid ctx, base) st2)
      as (s3 & T3 & E3 & Tr3 & I3).
    exists T3, (NettestContext.set_report_id rid ctx), s3.
    split; [exact E2|]. split; [exact I1|]. split; [exact E3|].
    split; [reflexivity|]. split; [exact Tr3|exact I3].
  - change (negb false) with true. lazy beta iota.
    destruct (log_then_emit log_warning "WARNING"
                "run: open_report() failed" "failure.report_create"
                (library_error err)
                (NettestContext.set_report_id rid ctx, base) st2)
      as (s3 & T3 & E3 & Tr3 & I3).
    exists T3, (NettestContext.set_report_id rid ctx), s3.
    split; [exact E2|]. split; [exact I1|]. split; [exact E3|].
    split; [reflexivity|]. split; [exact Tr3|exact I3].
Qed.
End OpenReportFacts.

(** C1 does not hold of the code: with [no_collector] false and a
    configured [collector_base_url], the stage copies the URL and does
    nothing else.  [open_report] is not called, nothing is emitted, and the
    report id stays as it was (empty, in [run()]). *)
Theorem configured_collector_opens_no_report :
  forall (World : Type) (env : Env.t World) (nettest_ : Nettest.t World)
         (settings_ : Settings.t) (ctx : NettestContext.t) (t : string)
         (st : State World),
    Settings.no_collector settings_ = false ->
    Settings.collector_base_url settings_ <> "" ->
    open_report_stage env nettest_ settings_ ctx t st
    = Some ((ctx, Settings.collector_base_url settings_), st).
Proof.
  intros World env nettest_ settings_ ctx t st NC URL.
  unfold open_report_stage. rewrite NC. simpl.
  destruct (String.eqb_spec (Settings.collector_base_url settings_) "");
    [contradiction|reflexivity].
Qed.

Lemma configured_collector_opens_no_report_witness :
  let settings_ :=
    Settings.set_collector_base_url "https://collector.example"
      Settings.default in
  open_report_stage Scenario.offline Scenario.dummy_nettest settings_
    NettestContext.default "2018-10-01 12:00:00" Scenario.initial
  = Some ((NettestContext.default, "https://collector.example"),
          Scenario.initial).
Proof.
  intros settings_.
  exact (configured_collector_opens_no_report unit Scenario.offline
           Scenario.dummy_nettest settings_ NettestContext.default
           "2018-10-01 12:00:00" Scenario.initial eq_refl
           ltac:(discriminate)).
Defined.

(** ** The probe's address *)

Lemma xml_extract_false input open_tag close_tag result result' :
  xml_extract input open_tag close_tag result = (false, result') ->
  result' = result.
Proof.
  unfold xml_extract. destruct (String.index 0 open_tag input).
  - destruct (String.index 0 close_tag _); intros H; inversion H; reflexivity.
  - intros H; inversion H; reflexivity.
Qed.

(** A failed [lookup_ip] leaves [*ip] empty, whatever it held on entry. *)
Lemma failed_lookup_ip_clears_ip {World : Type} (env : Env.t World)
    (settings_ : Settings.t) ip err (st st' : State World) ip' err' :
  lookup_ip env settings_ ip err st = Some ((false, ip', err'), st') ->
  ip' = "".
Proof.
  intros H.
  assert (R : returns (fun r : bool * string * ErrContext.t =>
                         fst (fst r) = false -> snd (fst r) = "")
                (lookup_ip env settings_ ip err)).
  { unfold lookup_ip. apply returns_bind; intros _.
    apply returns_bind; intros [[ok body] e].
    destruct ok; unfold negb.
    - apply returns_bind; intros _.
      destruct (xml_extract body "<Ip>" "</Ip>" "") as [found ip2] eqn:X.
      apply returns_ret. simpl. intros ->.
      now apply xml_extract_false in X.
    - apply returns_ret. reflexivity. }
  exact (R _ _ _ H eq_refl).
Qed.

(** With the lookup disabled, the default address stays. *)
Lemma disabled_ip_lookup_keeps_default {World : Type} (env : Env.t World)
    (settings_ : Settings.t) ctx (st : State World) :
  Settings.probe_ip settings_ = "" ->
  Settings.no_ip_lookup settings_ = true ->
  probe_ip_stage env settings_ ctx st
  = Some (NettestContext.set_probe_ip "127.0.0.1" ctx, st).
Proof.
  intros P N. unfold probe_ip_stage. rewrite P, N. reflexivity.
Qed.

(** C2 does not hold of the code when the lookup fails: on a host where
    the transfer fails, with the default settings (empty [probe_ip], lookup
    enabled), [failure.ip_lookup] is emitted and [status.geoip_lookup]
    carries an empty [probe_ip], not ["127.0.0.1"]. *)
Theorem failed_ip_lookup_leaves_probe_ip_empty :
  exists st',
    run Scenario.offline Scenario.dummy_nettest Settings.default
      Scenario.initial = Some (true, st')
    /\ In (Emitted (event "failure.ip_lookup"
                      (library_error ErrContext.default))) (trace st')
    /\ In (Emitted (event "status.geoip_lookup"
                      (object_of [("probe_cc", JString "");
                                  ("probe_asn", JString "");
                                  ("probe_ip", JString "");
                                  ("probe_network_name", JString "")])))
          (trace st').
Proof.
  eexists. split; [vm_compute; reflexivity|].
  split; vm_compute; repeat (first [left; reflexivity | right]).
Qed.

(* ===================================================================== *)
(** * Further properties *)
(* ===================================================================== *)

(** ** [parse_settings]: what each member holds afterwards *)

Section ParseFieldFacts.
Import ParseSettings.

Variable doc : json.

(** A statement leaves alone every member that its setter leaves alone. *)
Lemma MAYBE_GET_frame {T A : Type} get (dflt : T) tn path variable
    (g : Settings.t -> A) st st' :
  MAYBE_GET doc get dflt tn path variable st = Next st' ->
  (forall v s, g (variable v s) = g s) ->
  g (settings st') = g (settings st).
Proof.
  intros H I. unfold MAYBE_GET in H.
  destruct (json_maybe_get get dflt tn doc path (err st)) as [[ok v] e].
  destruct ok; inversion H; subst; simpl. apply I.
Qed.

Lemma MAYBE_GET_BOOL_frame {A : Type} path variable (g : Settings.t -> A)
    st st' :
  MAYBE_GET_BOOL doc path variable st = Next st' ->
  (forall v s, g (variable v s) = g s) ->
  g (settings st') = g (settings st).
Proof.
  intros H I. unfold MAYBE_GET_BOOL in H.
  destruct (json_maybe_get get_bool false "bool" doc path (err st))
    as [[ok v] e].
  destruct ok.
  - inversion H; subst; simpl. apply I.
  - destruct (json_maybe_get get_double (inject_Z 0) "double" doc path "")
      as [[ok2 scratch] e2].
    destruct ok2; inversion H; subst; simpl. now rewrite !I.
Qed.

Lemma MAYBE_GET_UINT_frame {A : Type} bits maximum path variable
    (g : Settings.t -> A) st st' :
  MAYBE_GET_UINT doc bits maximum path variable st = Next st' ->
  (forall v s, g (variable v s) = g s) ->
  g (settings st') = g (settings st).
Proof.
  intros H I. unfold MAYBE_GET_UINT in H.
  destruct (json_maybe_get get_double (inject_Z 0) "double" doc path (err st))
    as [[ok scratch] e].
  destruct ok; simpl in H; [|discriminate].
  repeat match type of H with
         | (if ?c then _ else _) = _ => destruct c
         end;
    try discriminate.
  inversion H; subst; simpl. apply I.
Qed.

Lemma log_level_block_frame {A : Type} (g : Settings.t -> A) st st' :
  log_level_block doc st = Next st' ->
  (forall v s, g (Settings.set_log_level v s) = g s) ->
  g (settings st') = g (settings st).
Proof.
  intros H I. unfold log_level_block in H.
  destruct (json_maybe_get get_string "" "std::string" doc "/log_level" (err st))
    as [[ok s] e].
  destruct ok; simpl in H; [|discriminate].
  repeat match type of H with
         | (if ?c then _ else _) = _ => destruct c
         end;
    try discriminate;
    inversion H; subst; simpl; first [reflexivity | apply I].
Qed.

(** What [json_maybe_get] hands back when it returns true. *)
Lemma json_maybe_get_true {T : Type} (get : json -> option T) (dflt : T) tn
    path e v e' :
  json_maybe_get get dflt tn doc path e = (true, v, e') ->
  e' = e
  /\ match at_pointer (pointer_tokens path) doc with
     | None => v = dflt
     | Some x => get x = Some v
     end.
Proof.
  unfold json_maybe_get.
  destruct (at_pointer (pointer_tokens path) doc) as [x|].
  - destruct (get x) as [y|] eqn:G; intros H; inversion H; subst; auto.
  - intros H; inversion H; auto.
Qed.

(** An entry of the wrong type makes it return false. *)
Lemma json_maybe_get_false {T : Type} (get : json -> option T) (dflt : T) tn
    path e x :
  at_pointer (pointer_tokens path) doc = Some x -> get x = None ->
  fst (fst (json_maybe_get get dflt tn doc path e)) = false.
Proof. intros P G. unfold json_maybe_get. now rewrite P, G. Qed.

(** The value that a statement stores. *)
Lemma MAYBE_GET_value {T : Type} get (dflt : T) tn path variable st st' :
  MAYBE_GET doc get dflt tn path variable st = Next st' ->
  exists v,
    settings st' = variable v (settings st)
    /\ err st' = err st /\ warn st' = warn st
    /\ match at_pointer (pointer_tokens path) doc with
       | None => v = dflt
       | Some x => get x = Some v
       end.
Proof.
  intros H. unfold MAYBE_GET in H.
  destruct (json_maybe_get get dflt tn doc path (err st)) as [[ok v] e] eqn:J.
  destruct ok; inversion H; subst; simpl.
  apply json_maybe_get_true in J. destruct J as [-> J]. exists v. auto.
Qed.

Lemma MAYBE_GET_wrong_type {T : Type} get (dflt : T) tn path variable x st :
  at_pointer (pointer_tokens path) doc = Some x -> get x = None ->
  forall st', MAYBE_GET doc get dflt tn path variable st <> Next st'.
Proof.
  intros P G st' H. unfold MAYBE_GET in H.
  pose proof (json_maybe_get_false get dflt tn path (err st) x P G) as F.
  destruct (json_maybe_get get dflt tn doc path (err st)) as [[ok v] e].
  simpl in F. subst ok. discriminate H.
Qed.

Lemma MAYBE_GET_BOOL_value path variable st st' :
  MAYBE_GET_BOOL doc path variable st = Next st' ->
  (forall v s, variable v (variable false s) = variable v s) ->
  settings st' = variable (bool_entry doc path) (settings st)
  /\ match at_pointer (pointer_tokens path) doc with
     | None | Some (JBool _) => err st' = err st /\ warn st' = warn st
     | Some x =>
         is_number x = true /\ err st' = ""
         /\ warn st' = number_as_boolean_warning path
     end.
Proof.
  intros H I. unfold MAYBE_GET_BOOL, json_maybe_get, bool_entry in *.
  destruct (at_pointer (pointer_tokens path) doc) as [x|].
  - destruct x; simpl in H; try discriminate H; inversion H; subst; simpl;
      [auto| |].
    + rewrite I. unfold Qeq_bool; simpl. rewrite Z.mul_1_r. auto.
    + rewrite I. auto.
  - inversion H; subst; simpl. auto.
Qed.

Lemma MAYBE_GET_BOOL_wrong_type path variable x st :
  at_pointer (pointer_tokens path) doc = Some x ->
  is_boolean x = false -> is_number x = false ->
  forall st', MAYBE_GET_BOOL doc path variable st <> Next st'.
Proof.
  intros P B N st' H. unfold MAYBE_GET_BOOL, json_maybe_get in H.
  rewrite P in H. destruct x; try discriminate; simpl in H; discriminate H.
Qed.

(** A number that is an integer within the bounds is stored as it is;
    any other number is refused. *)
Lemma MAYBE_GET_UINT_integer bits maximum path variable z st :
  at_pointer (pointer_tokens path) doc = Some (JInt z) ->
  0 <= maximum < 2 ^ bits ->
  MAYBE_GET_UINT doc bits maximum path variable st
  = if andb (0 <=? z) (z <=? maximum)
    then Next (mkPState (variable z (settings st)) (err st) (warn st))
    else ReturnFalse (set_err (out_of_range_error_gen path 0 maximum) st).
Proof.
  intros P M. unfold MAYBE_GET_UINT, json_maybe_get. rewrite P.
  cbn [get_double negb].
  assert (F : Qeq_bool (fst (modf (inject_Z z))) (inject_Z 0) = true).
  { unfold modf. cbn [fst Qnum Qden inject_Z]. rewrite Z.quot_1_r.
    apply Qeq_bool_iff. unfold Qeq, Qminus, Qplus, Qopp, inject_Z.
    cbn [Qnum Qden]. lia. }
  rewrite F. cbn [negb].
  assert (L : Qlt_bool (inject_Z z) (inject_Z 0) = negb (0 <=? z)).
  { unfold Qlt_bool, Qle_bool, inject_Z. cbn [Qnum Qden].
    now rewrite !Z.mul_1_r. }
  assert (U : Qlt_bool (inject_Z maximum) (inject_Z z)
              = negb (z <=? maximum)).
  { unfold Qlt_bool, Qle_bool, inject_Z. cbn [Qnum Qden].
    now rewrite !Z.mul_1_r. }
  rewrite L, U.
  destruct (0 <=? z) eqn:L0; destruct (z <=? maximum) eqn:L1; cbn [negb orb andb];
    try reflexivity.
  unfold to_unsigned, inject_Z. cbn [Qnum Qden]. rewrite Z.quot_1_r.
  apply Z.leb_le in L0, L1. rewrite Z.mod_small by lia. reflexivity.
Qed.

Lemma MAYBE_GET_UINT_missing bits maximum path variable st :
  at_pointer (pointer_tokens path) doc = None ->
  0 <= maximum ->
  MAYBE_GET_UINT doc bits maximum path variable st
  = Next (mkPState (variable 0 (settings st)) (err st) (warn st)).
Proof.
  intros P M. unfold MAYBE_GET_UINT, json_maybe_get. rewrite P.
  cbn [negb].
  assert (F : Qeq_bool (fst (modf (inject_Z 0))) (inject_Z 0) = true)
    by reflexivity.
  rewrite F. cbn [negb].
  assert (L : Qlt_bool (inject_Z 0) (inject_Z 0) = false) by reflexivity.
  assert (U : Qlt_bool (inject_Z maximum) (inject_Z 0) = false).
  { unfold Qlt_bool, Qle_bool, inject_Z. cbn [Qnum Qden].
    rewrite !Z.mul_1_r. apply Bool.negb_false_iff, Z.leb_le. exact M. }
  rewrite L, U. cbn [orb]. reflexivity.
Qed.
End ParseFieldFacts.

(** Walk back over a statement of [fields] that does not write the member
    in the goal. *)
Ltac frame_one :=
  match goal with
  | Step : _ = ParseSettings.Next ?c
    |- context [?g (ParseSettings.settings ?c)] =>
      first
        [ rewrite (MAYBE_GET_frame _ _ _ _ _ _ g _ _ Step)
            by (intros; reflexivity)
        | rewrite (MAYBE_GET_BOOL_frame _ _ _ g _ _ Step)
            by (intros; reflexivity)
        | rewrite (MAYBE_GET_UINT_frame _ _ _ _ _ g _ _ Step)
            by (intros; reflexivity)
        | rewrite (log_level_block_frame _ g _ _ Step)
            by (intros; reflexivity) ];
      clear Step
  end.

(** The statement of [fields] that the goal has been walked back to. *)
Ltac the_step k :=
  match goal with
  | Step : _ = ParseSettings.Next ?c
    |- context [_ (ParseSettings.settings ?c)] => k Step
  end.

Lemma fields_string (doc : json) path getter st st' :
  In (path, getter) ParseSettings.string_options ->
  ParseSettings.fields doc st = ParseSettings.Next st' ->
  getter (ParseSettings.settings st') = ParseSettings.string_entry doc path.
Proof.
  intros Hin F. unfold ParseSettings.fields in F. split_fields F.
  simpl in Hin.
  repeat (destruct Hin as [Hin|Hin]; [inversion Hin; subst; clear Hin|]);
    [..|contradiction];
    repeat frame_one;
    the_step ltac:(fun Step =>
      destruct (MAYBE_GET_value _ _ _ _ _ _ _ _ Step)
        as (v & E & _ & _ & V);
      rewrite E; unfold ParseSettings.string_entry;
      destruct (at_pointer _ doc) as [[]|]; simpl in V;
      try discriminate V; inversion V; reflexivity).
Qed.

Lemma fields_string_refused (doc : json) path getter x st st' :
  In (path, getter) ParseSettings.string_options ->
  at_pointer (ParseSettings.pointer_tokens path) doc = Some x ->
  is_string x = false ->
  ParseSettings.fields doc st <> ParseSettings.Next st'.
Proof.
  intros Hin P S F. unfold ParseSettings.fields in F. split_fields F.
  assert (G : get_string x = None) by (destruct x; try reflexivity; discriminate).
  simpl in Hin.
  repeat (destruct Hin as [Hin|Hin]; [inversion Hin; subst; clear Hin|]);
    [..|contradiction];
    match goal with
    | Step : ParseSettings.MAYBE_GET_string doc ?p _ _ = _,
      P : at_pointer (ParseSettings.pointer_tokens ?p) doc = Some _ |- _ =>
        exact (MAYBE_GET_wrong_type doc get_string "" _ p _ x _ P G _ Step)
    end.
Qed.

Lemma fields_bool (doc : json) path getter setter st st' :
  In (path, getter, setter) ParseSettings.bool_options ->
  ParseSettings.fields doc st = ParseSettings.Next st' ->
  getter (ParseSettings.settings st') = ParseSettings.bool_entry doc path.
Proof.
  intros Hin F. unfold ParseSettings.fields in F. split_fields F.
  simpl in Hin.
  repeat (destruct Hin as [Hin|Hin]; [inversion Hin; subst; clear Hin|]);
    [..|contradiction];
    repeat frame_one;
    the_step ltac:(fun Step =>
      destruct (MAYBE_GET_BOOL_value _ _ _ _ _ Step) as (E & _);
      [intros; reflexivity|rewrite E; reflexivity]).
Qed.

Lemma fields_bool_refused (doc : json) path getter setter x st st' :
  In (path, getter, setter) ParseSettings.bool_options ->
  at_pointer (ParseSettings.pointer_tokens path) doc = Some x ->
  is_boolean x = false -> is_number x = false ->
  ParseSettings.fields doc st <> ParseSettings.Next st'.
Proof.
  intros Hin P B N F. unfold ParseSettings.fields in F. split_fields F.
  simpl in Hin.
  repeat (destruct Hin as [Hin|Hin]; [inversion Hin; subst; clear Hin|]);
    [..|contradiction];
    match goal with
    | Step : ParseSettings.MAYBE_GET_BOOL doc ?p _ _ = _,
      P : at_pointer (ParseSettings.pointer_tokens ?p) doc = Some _ |- _ =>
        exact (MAYBE_GET_BOOL_wrong_type doc p _ x _ P B N _ Step)
    end.
Qed.

Lemma fields_uint_missing (doc : json) path getter maximum st st' :
  In (path, getter, maximum) ParseSettings.uint_options ->
  at_pointer (ParseSettings.pointer_tokens path) doc = None ->
  ParseSettings.fields doc st = ParseSettings.Next st' ->
  getter (ParseSettings.settings st') = 0.
Proof.
  intros Hin P F. unfold ParseSettings.fields in F. split_fields F.
  simpl in Hin.
  repeat (destruct Hin as [Hin|Hin]; [inversion Hin; subst; clear Hin|]);
    [..|contradiction];
    repeat frame_one;
    the_step ltac:(fun Step =>
      unfold ParseSettings.MAYBE_GET_UINT16, ParseSettings.MAYBE_GET_UINT8
        in Step;
      rewrite (MAYBE_GET_UINT_missing doc _ _ _ _ _ P) in Step
        by (unfold UINT16_MAX, UINT8_MAX; lia);
      inversion Step; reflexivity).
Qed.

Lemma fields_uint_integer (doc : json) path getter maximum z st st' :
  In (path, getter, maximum) ParseSettings.uint_options ->
  at_pointer (ParseSettings.pointer_tokens path) doc = Some (JInt z) ->
  ParseSettings.fields doc st = ParseSettings.Next st' ->
  0 <= z <= maximum /\ getter (ParseSettings.settings st') = z.
Proof.
  intros Hin P F. unfold ParseSettings.fields in F. split_fields F.
  simpl in Hin.
  repeat (destruct Hin as [Hin|Hin]; [inversion Hin; subst; clear Hin|]);
    [..|contradiction];
    repeat frame_one;
    the_step ltac:(fun Step =>
      unfold ParseSettings.MAYBE_GET_UINT16, ParseSettings.MAYBE_GET_UINT8
        in Step;
      rewrite (MAYBE_GET_UINT_integer doc _ _ _ _ z _ P) in Step
        by (unfold UINT16_MAX, UINT8_MAX; lia);
      destruct (0 <=? z) eqn:L0; destruct (z <=? _) eqn:L1;
      try discriminate Step;
      apply Z.leb_le in L0, L1; inversion Step; split; [lia|reflexivity]).
Qed.

Section ParseRefusals.
Import ParseSettings.
Variable doc : json.

(** A number with a fractional part, an integer out of the bounds and a
    value that is not a number are all refused. *)
Lemma MAYBE_GET_UINT_refused bits maximum path variable x st st' :
  at_pointer (pointer_tokens path) doc = Some x ->
  0 <= maximum < 2 ^ bits ->
  match x with
  | JInt z => z < 0 \/ maximum < z
  | JFloat q => forall n : Z, ~ Qeq q (inject_Z n)
  | _ => True
  end ->
  MAYBE_GET_UINT doc bits maximum path variable st <> Next st'.
Proof.
  intros P M C H.
  destruct x;
    try (unfold MAYBE_GET_UINT, json_maybe_get in H; rewrite P in H;
         discriminate H).
  - rewrite (MAYBE_GET_UINT_integer doc bits maximum path variable z st P M)
      in H.
    destruct (0 <=? z) eqn:L0; destruct (z <=? maximum) eqn:L1;
      try discriminate H.
    apply Z.leb_le in L0, L1. lia.
  - unfold MAYBE_GET_UINT, json_maybe_get in H. rewrite P in H.
    cbn [get_double negb] in H.
    destruct (Qeq_bool (fst (modf q)) (inject_Z 0)) eqn:F;
      [|discriminate H].
    apply Qeq_bool_iff in F. unfold modf in F. cbn [fst] in F.
    apply (C (Z.quot (Qnum q) (Z.pos (Qden q)))).
    set (i := inject_Z (Z.quot (Qnum q) (Z.pos (Qden q)))) in *.
    assert (E : Qeq q (Qplus (Qminus q i) i)) by ring.
    rewrite F in E. rewrite E. ring.
Qed.

(** The level after the block: the one that the string names, or the
    one before when there is no string or an empty one. *)
Lemma log_level_block_value st st' :
  log_level_block doc st = Next st' ->
  Settings.log_level (settings st')
  = match log_level_named (string_entry doc "/log_level") with
    | Some l => l
    | None => Settings.log_level (settings st)
    end
  /\ (string_entry doc "/log_level" = ""
      \/ log_level_named (string_entry doc "/log_level") <> None).
Proof.
  unfold log_level_block, json_maybe_get, string_entry, log_level_named.
  destruct (at_pointer (pointer_tokens "/log_level") doc) as [x|].
  - destruct x; simpl; try discriminate.
    destruct (String.eqb_spec s "") as [->|NE].
    + simpl. intros H; inversion H; subst. split; [reflexivity|now left].
    + repeat match goal with
             | |- context [if ?c then _ else _] => destruct c eqn:?
             end;
        try discriminate; intros H; inversion H; subst; simpl;
        (split; [reflexivity|right; discriminate]).
  - simpl. intros H; inversion H; subst. split; [reflexivity|now left].
Qed.

Lemma log_level_block_refused x st st' :
  at_pointer (pointer_tokens "/log_level") doc = Some x ->
  match x with
  | JString s => s <> "" /\ log_level_named s = None
  | _ => True
  end ->
  log_level_block doc st <> Next st'.
Proof.
  intros P C H. unfold log_level_block, json_maybe_get in H. rewrite P in H.
  destruct x; simpl in H; try discriminate H.
  destruct C as [NE NN]. unfold log_level_named in NN.
  destruct (String.eqb_spec s ""); [contradiction|].
  repeat match type of NN with
         | (if ?c then _ else _) = _ => destruct c; [discriminate NN|]
         end.
  discriminate H.
Qed.

(** Nothing but a number given for a boolean writes [*warn]. *)
Lemma MAYBE_GET_warn {T : Type} get (dflt : T) tn path variable st st' :
  MAYBE_GET doc get dflt tn path variable st = Next st' ->
  warn st' = warn st.
Proof.
  intros H. destruct (MAYBE_GET_value doc _ _ _ _ _ _ _ H)
    as (v & _ & _ & W & _). exact W.
Qed.

Lemma MAYBE_GET_UINT_warn bits maximum path variable st st' :
  MAYBE_GET_UINT doc bits maximum path variable st = Next st' ->
  warn st' = warn st.
Proof.
  intros H. unfold MAYBE_GET_UINT in H.
  destruct (json_maybe_get get_double (inject_Z 0) "double" doc path (err st))
    as [[ok scratch] e].
  destruct ok; simpl in H; [|discriminate].
  repeat match type of H with
         | (if ?c then _ else _) = _ => destruct c
         end;
    try discriminate.
  inversion H; reflexivity.
Qed.

Lemma log_level_block_warn st st' :
  log_level_block doc st = Next st' -> warn st' = warn st.
Proof.
  intros H. unfold log_level_block in H.
  destruct (json_maybe_get get_string "" "std::string" doc "/log_level" (err st))
    as [[ok s] e].
  destruct ok; simpl in H; [|discriminate].
  repeat match type of H with
         | (if ?c then _ else _) = _ => destruct c
         end;
    try discriminate; inversion H; reflexivity.
Qed.

Lemma MAYBE_GET_BOOL_warn path variable st st' :
  MAYBE_GET_BOOL doc path variable st = Next st' ->
  match at_pointer (pointer_tokens path) doc with
  | Some x => is_number x = false
  | None => True
  end ->
  warn st' = warn st.
Proof.
  intros H N. unfold MAYBE_GET_BOOL, json_maybe_get in H.
  destruct (at_pointer (pointer_tokens path) doc) as [x|].
  - destruct x; simpl in H; try discriminate; inversion H; reflexivity.
  - inversion H; reflexivity.
Qed.
End ParseRefusals.

Lemma fields_uint_refused (doc : json) path getter maximum x st st' :
  In (path, getter, maximum) ParseSettings.uint_options ->
  at_pointer (ParseSettings.pointer_tokens path) doc = Some x ->
  match x with
  | JInt z => z < 0 \/ maximum < z
  | JFloat q => forall n : Z, ~ Qeq q (inject_Z n)
  | _ => True
  end ->
  ParseSettings.fields doc st <> ParseSettings.Next st'.
Proof.
  intros Hin P C F. unfold ParseSettings.fields in F. split_fields F.
  simpl in Hin.
  repeat (destruct Hin as [Hin|Hin]; [inversion Hin; subst; clear Hin|]);
    [..|contradiction];
    match goal with
    | Step : _ doc ?p _ _ = _,
      P : at_pointer (ParseSettings.pointer_tokens ?p) doc = Some _ |- _ =>
        refine (MAYBE_GET_UINT_refused doc _ _ p _ x _ _ P _ C Step);
        unfold UINT16_MAX, UINT8_MAX; lia
    end.
Qed.

Lemma fields_vector (doc : json) path getter st st' :
  In (path, getter) ParseSettings.vector_options ->
  ParseSettings.fields doc st = ParseSettings.Next st' ->
  getter (ParseSettings.settings st') = ParseSettings.vector_entry doc path
  /\ forall x, at_pointer (ParseSettings.pointer_tokens path) doc = Some x ->
               get_string_vector x <> None.
Proof.
  intros Hin F. unfold ParseSettings.fields in F. split_fields F.
  simpl in Hin.
  repeat (destruct Hin as [Hin|Hin]; [inversion Hin; subst; clear Hin|]);
    [..|contradiction];
    repeat frame_one;
    the_step ltac:(fun Step =>
      destruct (MAYBE_GET_value _ _ _ _ _ _ _ _ Step)
        as (v & E & _ & _ & V);
      rewrite E; unfold ParseSettings.vector_entry;
      destruct (at_pointer _ doc) as [x|]; simpl in V |- *;
      [rewrite V; split; [reflexivity|];
       intros y Y; inversion Y; subst; congruence
      |subst v; split; [reflexivity|discriminate]]).
Qed.

Lemma fields_annotations (doc : json) st st' :
  ParseSettings.fields doc st = ParseSettings.Next st' ->
  match at_pointer (ParseSettings.pointer_tokens "/annotations") doc with
  | None => Settings.annotations (ParseSettings.settings st') = StdMap.empty
  | Some x =>
      get_string_map x
      = Some (Settings.annotations (ParseSettings.settings st'))
  end.
Proof.
  intros F. unfold ParseSettings.fields in F. split_fields F.
  repeat frame_one.
  the_step ltac:(fun Step =>
    destruct (MAYBE_GET_value _ _ _ _ _ _ _ _ Step) as (v & E & _ & _ & V);
    rewrite E;
    destruct (at_pointer _ doc) as [x|]; simpl in V |- *;
    [exact V|exact V]).
Qed.

Lemma fields_log_level (doc : json) st st' :
  ParseSettings.fields doc st = ParseSettings.Next st' ->
  Settings.log_level (ParseSettings.settings st')
  = match ParseSettings.log_level_named
            (ParseSettings.string_entry doc "/log_level") with
    | Some l => l
    | None => Settings.log_level (ParseSettings.settings st)
    end
  /\ (ParseSettings.string_entry doc "/log_level" = ""
      \/ ParseSettings.log_level_named
           (ParseSettings.string_entry doc "/log_level") <> None).
Proof.
  intros F. unfold ParseSettings.fields in F. split_fields F.
  repeat frame_one.
  the_step ltac:(fun Step =>
    destruct (log_level_block_value _ _ _ Step) as (E & N)).
  rewrite E. split; [|exact N].
  destruct (ParseSettings.log_level_named _); [reflexivity|].
  repeat frame_one. reflexivity.
Qed.

Lemma fields_log_level_refused (doc : json) x st st' :
  at_pointer (ParseSettings.pointer_tokens "/log_level") doc = Some x ->
  match x with
  | JString s => s <> "" /\ ParseSettings.log_level_named s = None
  | _ => True
  end ->
  ParseSettings.fields doc st <> ParseSettings.Next st'.
Proof.
  intros P C F. unfold ParseSettings.fields in F. split_fields F.
  match goal with
  | Step : ParseSettings.log_level_block doc _ = _ |- _ =>
      exact (log_level_block_refused doc x _ _ P C Step)
  end.
Qed.

Lemma fields_warn (doc : json) st st' :
  (forall path getter setter x,
      In (path, getter, setter) ParseSettings.bool_options ->
      at_pointer (ParseSettings.pointer_tokens path) doc = Some x ->
      is_number x = false) ->
  ParseSettings.fields doc st = ParseSettings.Next st' ->
  ParseSettings.warn st' = ParseSettings.warn st.
Proof.
  intros N F. unfold ParseSettings.fields in F. split_fields F.
  repeat match goal with
         | Step : _ = ParseSettings.Next ?c
           |- context [ParseSettings.warn ?c] =>
             first
               [ rewrite (MAYBE_GET_warn _ _ _ _ _ _ _ _ Step)
               | rewrite (MAYBE_GET_UINT_warn _ _ _ _ _ _ _ Step)
               | rewrite (log_level_block_warn _ _ _ Step)
               | rewrite (MAYBE_GET_BOOL_warn _ _ _ _ _ Step)
                   by (match goal with
                       | |- match at_pointer ?t doc with _ => _ end =>
                           destruct (at_pointer t doc) eqn:E;
                           [eapply N; [|exact E]; simpl; tauto|exact I]
                       end) ];
             clear Step
         end.
  reflexivity.
Qed.

Lemma parse_settings_refused parse str doc st :
  parse str = Some doc ->
  (forall st', ParseSettings.fields doc st <> ParseSettings.Next st') ->
  fst (ParseSettings.parse_settings parse str st) = false.
Proof.
  intros P R. unfold ParseSettings.parse_settings. rewrite P.
  destruct (ParseSettings.parse_document doc st) as [[|] st'] eqn:D;
    [|reflexivity].
  apply parse_document_true in D. exfalso. exact (R st' D).
Qed.

Lemma parse_settings_fields parse str doc st st' :
  parse str = Some doc ->
  ParseSettings.parse_settings parse str st = (true, st') ->
  ParseSettings.fields doc st = ParseSettings.Next st'.
Proof.
  intros P H. unfold ParseSettings.parse_settings in H. rewrite P in H.
  now apply parse_document_true.
Qed.

(** X1.  [parse_settings] returns true only on a text that parses to an
    object with an object under ["options"] and a string under ["name"],
    and [settings->name] is then that string. *)
Theorem accepted_settings_are_well_shaped :
  forall (parse : string -> option json) (str : string)
         (st st' : ParseSettings.PState),
    ParseSettings.parse_settings parse str st = (true, st') ->
    exists doc options name,
      parse str = Some doc
      /\ is_object doc = true
      /\ at_key "options" doc = Some options
      /\ is_object options = true
      /\ at_key "name" doc = Some (JString name)
      /\ Settings.name (ParseSettings.settings st') = name.
Proof.
  intros parse str st st' H. unfold ParseSettings.parse_settings in H.
  destruct (parse str) as [doc|] eqn:P; [|discriminate H].
  pose proof (parse_document_true doc st st' H) as F.
  unfold ParseSettings.parse_document in H.
  destruct (is_object doc) eqn:O; [|discriminate H]. cbn [negb] in H.
  destruct (Json.count "options" doc <=? 0); [discriminate H|].
  destruct (at_key "options" doc) as [options|] eqn:Ko; [|discriminate H].
  destruct (is_object options) eqn:Oo; [|discriminate H]. cbn [negb] in H.
  destruct (Json.count "name" doc <=? 0); [discriminate H|].
  destruct (at_key "name" doc) as [n|] eqn:Kn; [|discriminate H].
  destruct n; try discriminate H.
  exists doc, options, s. repeat (split; [reflexivity || assumption|]).
  rewrite (fields_string doc "/name" Settings.name st st'
             ltac:(simpl; tauto) F).
  unfold ParseSettings.string_entry. destruct doc; try discriminate O.
  simpl in Kn |- *. now rewrite Kn.
Qed.

(** The theorem on the document [{"name": "dummy", "options":
    {"no_bouncer": 1}}]. *)
Lemma accepted_settings_are_well_shaped_witness :
  exists st',
    ParseSettings.parse_settings (fun _ => Some Scenario.numeric_no_bouncer)
      "" (ParseSettings.mkPState Settings.default "" "") = (true, st')
    /\ Settings.name (ParseSettings.settings st') = "dummy".
Proof.
  assert (E : exists st',
             ParseSettings.parse_settings
               (fun _ => Some Scenario.numeric_no_bouncer) ""
               (ParseSettings.mkPState Settings.default "" "") = (true, st'))
    by (vm_compute; eexists; reflexivity).
  destruct E as (st' & E). exists st'. split; [exact E|].
  destruct (accepted_settings_are_well_shaped _ _ _ _ E)
    as (doc & options & name & P & _ & _ & _ & K & N).
  inversion P; subst doc. vm_compute in K. rewrite N. congruence.
Defined.

(** X2.  After a successful [parse_settings] every [std::string] member
    holds the string that its pointer leads to in the document, and the
    empty string when the document has no such entry: what the member
    held before (the default of [bouncer_base_url], say) is not kept.
    An entry that is not a string makes [parse_settings] return false. *)
Theorem string_options_follow_the_document :
  forall (parse : string -> option json) (str : string) (doc : json)
         (path : string) (getter : Settings.t -> string)
         (st : ParseSettings.PState),
    In (path, getter) ParseSettings.string_options ->
    parse str = Some doc ->
    (forall st',
        ParseSettings.parse_settings parse str st = (true, st') ->
        getter (ParseSettings.settings st')
        = ParseSettings.string_entry doc path)
    /\ (forall x,
           at_pointer (ParseSettings.pointer_tokens path) doc = Some x ->
           is_string x = false ->
           fst (ParseSettings.parse_settings parse str st) = false).
Proof.
  intros parse str doc path getter st Hin P. split.
  - intros st' H. apply (fields_string doc path getter st st' Hin).
    exact (parse_settings_fields parse str doc st st' P H).
  - intros x X S. apply (parse_settings_refused parse str doc st P).
    intros st'. exact (fields_string_refused doc path getter x st st' Hin X S).
Qed.

(** The theorem on the document [{"name": "dummy", "options":
    {"no_bouncer": 1}}]: the default bouncer is lost. *)
Lemma string_options_follow_the_document_witness :
  Settings.bouncer_base_url Settings.default = "https://bouncer.ooni.io"
  /\ exists st',
       ParseSettings.parse_settings
         (fun _ => Some Scenario.numeric_no_bouncer) ""
         (ParseSettings.mkPState Settings.default "" "") = (true, st')
       /\ Settings.bouncer_base_url (ParseSettings.settings st') = "".
Proof.
  split; [reflexivity|].
  assert (E : exists st',
             ParseSettings.parse_settings
               (fun _ => Some Scenario.numeric_no_bouncer) ""
               (ParseSettings.mkPState Settings.default "" "") = (true, st'))
    by (vm_compute; eexists; reflexivity).
  destruct E as (st' & E). exists st'. split; [exact E|].
  exact (proj1 (string_options_follow_the_document
                  (fun _ => Some Scenario.numeric_no_bouncer) ""
                  Scenario.numeric_no_bouncer "/options/bouncer_base_url"
                  Settings.bouncer_base_url
                  (ParseSettings.mkPState Settings.default "" "")
                  ltac:(simpl; tauto) eq_refl) st' E).
Defined.

(** X3.  After a successful [parse_settings] every boolean member holds
    the boolean that its pointer leads to (a number counts as true when it
    is not zero), and false when the document has no such entry, also for
    the members whose default is true.  An entry that is neither a
    boolean nor a number makes [parse_settings] return false. *)
Theorem boolean_options_follow_the_document :
  forall (parse : string -> option json) (str : string) (doc : json)
         (path : string) getter setter (st : ParseSettings.PState),
    In (path, getter, setter) ParseSettings.bool_options ->
    parse str = Some doc ->
    (forall st',
        ParseSettings.parse_settings parse str st = (true, st') ->
        getter (ParseSettings.settings st')
        = ParseSettings.bool_entry doc path)
    /\ (forall x,
           at_pointer (ParseSettings.pointer_tokens path) doc = Some x ->
           is_boolean x = false -> is_number x = false ->
           fst (ParseSettings.parse_settings parse str st) = false).
Proof.
  intros parse str doc path getter setter st Hin P. split.
  - intros st' H. apply (fields_bool doc path getter setter st st' Hin).
    exact (parse_settings_fields parse str doc st st' P H).
  - intros x X B N. apply (parse_settings_refused parse str doc st P).
    intros st'.
    exact (fields_bool_refused doc path getter setter x st st' Hin X B N).
Qed.

(** The theorem on the document [{"name": "dummy", "options":
    {"no_bouncer": 1}}]: [randomize_input], true by default, is false
    afterwards. *)
Lemma boolean_options_follow_the_document_witness :
  Settings.randomize_input Settings.default = true
  /\ exists st',
       ParseSettings.parse_settings
         (fun _ => Some Scenario.numeric_no_bouncer) ""
         (ParseSettings.mkPState Settings.default "" "") = (true, st')
       /\ Settings.randomize_input (ParseSettings.settings st') = false.
Proof.
  split; [reflexivity|].
  assert (E : exists st',
             ParseSettings.parse_settings
               (fun _ => Some Scenario.numeric_no_bouncer) ""
               (ParseSettings.mkPState Settings.default "" "") = (true, st'))
    by (vm_compute; eexists; reflexivity).
  destruct E as (st' & E). exists st'. split; [exact E|].
  exact (proj1 (boolean_options_follow_the_document
                  (fun _ => Some Scenario.numeric_no_bouncer) ""
                  Scenario.numeric_no_bouncer "/options/randomize_input"
                  Settings.randomize_input Settings.set_randomize_input
                  (ParseSettings.mkPState Settings.default "" "")
                  ltac:(simpl; tauto) eq_refl) st' E).
Defined.

(** X4.  For [max_runtime], [parallelism] and [port]: after a successful
    [parse_settings] the member is zero when the document has no such
    entry (so [max_runtime] loses its default of 90), and the integer of
    the entry, which is then within the bounds of the member's type.  An
    integer out of these bounds, a number that is not an integer, and a
    value that is not a number (a boolean included) make [parse_settings]
    return false. *)
Theorem integer_options_follow_the_document :
  forall (parse : string -> option json) (str : string) (doc : json)
         (path : string) (getter : Settings.t -> Z) (maximum : Z)
         (st : ParseSettings.PState),
    In (path, getter, maximum) ParseSettings.uint_options ->
    parse str = Some doc ->
    (forall st',
        ParseSettings.parse_settings parse str st = (true, st') ->
        match at_pointer (ParseSettings.pointer_tokens path) doc with
        | None => getter (ParseSettings.settings st') = 0
        | Some (JInt z) =>
            0 <= z <= maximum /\ getter (ParseSettings.settings st') = z
        | Some _ => True
        end)
    /\ (forall x,
           at_pointer (ParseSettings.pointer_tokens path) doc = Some x ->
           match x with
           | JInt z => z < 0 \/ maximum < z
           | JFloat q => forall n : Z, ~ Qeq q (inject_Z n)
           | _ => True
           end ->
           fst (ParseSettings.parse_settings parse str st) = false).
Proof.
  intros parse str doc path getter maximum st Hin P. split.
  - intros st' H.
    pose proof (parse_settings_fields parse str doc st st' P H) as F.
    destruct (at_pointer (ParseSettings.pointer_tokens path) doc)
      as [x|] eqn:X.
    + destruct x; try exact I.
      exact (fields_uint_integer doc path getter maximum z st st' Hin X F).
    + exact (fields_uint_missing doc path getter maximum st st' Hin X F).
  - intros x X C. apply (parse_settings_refused parse str doc st P).
    intros st'.
    exact (fields_uint_refused doc path getter maximum x st st' Hin X C).
Qed.

(** The theorem on the document [{"name": "dummy", "options":
    {"no_bouncer": 1}}]: [max_runtime] is zero afterwards. *)
Lemma integer_options_follow_the_document_witness :
  Settings.max_runtime Settings.default = 90
  /\ exists st',
       ParseSettings.parse_settings
         (fun _ => Some Scenario.numeric_no_bouncer) ""
         (ParseSettings.mkPState Settings.default "" "") = (true, st')
       /\ Settings.max_runtime (ParseSettings.settings st') = 0.
Proof.
  split; [reflexivity|].
  assert (E : exists st',
             ParseSettings.parse_settings
               (fun _ => Some Scenario.numeric_no_bouncer) ""
               (ParseSettings.mkPState Settings.default "" "") = (true, st'))
    by (vm_compute; eexists; reflexivity).
  destruct E as (st' & E). exists st'. split; [exact E|].
  exact (proj1 (integer_options_follow_the_document
                  (fun _ => Some Scenario.numeric_no_bouncer) ""
                  Scenario.numeric_no_bouncer "/options/max_runtime"
                  Settings.max_runtime UINT16_MAX
                  (ParseSettings.mkPState Settings.default "" "")
                  ltac:(simpl; tauto) eq_refl) st' E).
Defined.

Lemma fields_vector_refused (doc : json) path getter x st st' :
  In (path, getter) ParseSettings.vector_options ->
  at_pointer (ParseSettings.pointer_tokens path) doc = Some x ->
  get_string_vector x = None ->
  ParseSettings.fields doc st <> ParseSettings.Next st'.
Proof.
  intros Hin P G F. unfold ParseSettings.fields in F. split_fields F.
  simpl in Hin.
  repeat (destruct Hin as [Hin|Hin]; [inversion Hin; subst; clear Hin|]);
    [..|contradiction];
    match goal with
    | Step : ParseSettings.MAYBE_GET_vector doc ?p _ _ = _,
      P : at_pointer (ParseSettings.pointer_tokens ?p) doc = Some _ |- _ =>
        exact (MAYBE_GET_wrong_type doc get_string_vector [] _ p _ x _ P G _
                 Step)
    end.
Qed.

Lemma fields_annotations_refused (doc : json) x st st' :
  at_pointer (ParseSettings.pointer_tokens "/annotations") doc = Some x ->
  get_string_map x = None ->
  ParseSettings.fields doc st <> ParseSettings.Next st'.
Proof.
  intros P G F. unfold ParseSettings.fields in F. split_fields F.
  match goal with
  | Step : ParseSettings.MAYBE_GET_map doc ?p _ _ = _ |- _ =>
      exact (MAYBE_GET_wrong_type doc get_string_map StdMap.empty _ p _ x _ P
               G _ Step)
  end.
Qed.

(** X5.  After a successful [parse_settings], [log_level] is the level
    that the string under ["/log_level"] names (QUIET, ERR, WARNING, INFO,
    DEBUG or DEBUG2); without such an entry, or with the empty string, it
    is what it was before the call.  Any other string, and any value that
    is not a string, makes [parse_settings] return false. *)
Theorem log_level_follows_the_document :
  forall (parse : string -> option json) (str : string) (doc : json)
         (st : ParseSettings.PState),
    parse str = Some doc ->
    (forall st',
        ParseSettings.parse_settings parse str st = (true, st') ->
        Settings.log_level (ParseSettings.settings st')
        = match ParseSettings.log_level_named
                  (ParseSettings.string_entry doc "/log_level") with
          | Some l => l
          | None => Settings.log_level (ParseSettings.settings st)
          end
        /\ (ParseSettings.string_entry doc "/log_level" = ""
            \/ ParseSettings.log_level_named
                 (ParseSettings.string_entry doc "/log_level") <> None))
    /\ (forall x,
           at_pointer (ParseSettings.pointer_tokens "/log_level") doc
           = Some x ->
           match x with
           | JString s => s <> "" /\ ParseSettings.log_level_named s = None
           | _ => True
           end ->
           fst (ParseSettings.parse_settings parse str st) = false).
Proof.
  intros parse str doc st P. split.
  - intros st' H. apply fields_log_level.
    exact (parse_settings_fields parse str doc st st' P H).
  - intros x X C. apply (parse_settings_refused parse str doc st P).
    intros st'. exact (fields_log_level_refused doc x st st' X C).
Qed.

(** The theorem on [{"log_level": "DEBUG2", "name": "dummy", "options":
    {}}]. *)
Lemma log_level_follows_the_document_witness :
  let doc := object_of [("log_level", JString "DEBUG2");
                        ("name", JString "dummy");
                        ("options", object_of [])] in
  exists st',
    ParseSettings.parse_settings (fun _ => Some doc) ""
      (ParseSettings.mkPState Settings.default "" "") = (true, st')
    /\ Settings.log_level (ParseSettings.settings st') = log_debug2.
Proof.
  intros doc.
  assert (E : exists st',
             ParseSettings.parse_settings (fun _ => Some doc) ""
               (ParseSettings.mkPState Settings.default "" "") = (true, st'))
    by (vm_compute; eexists; reflexivity).
  destruct E as (st' & E). exists st'. split; [exact E|].
  exact (proj1 (proj1 (log_level_follows_the_document (fun _ => Some doc) ""
                         doc (ParseSettings.mkPState Settings.default "" "")
                         eq_refl) st' E)).
Defined.

(** X6.  After a successful [parse_settings], [inputs] and
    [input_filepaths] are the lists of strings under ["/inputs"] and
    ["/input_filepaths"], and [annotations] is the map of strings under
    ["/annotations"]; each is empty when the document has no such entry.
    An entry that is not an array of strings (not an object of strings,
    for the annotations) makes [parse_settings] return false. *)
Theorem inputs_and_annotations_follow_the_document :
  forall (parse : string -> option json) (str : string) (doc : json)
         (st : ParseSettings.PState),
    parse str = Some doc ->
    (forall st',
        ParseSettings.parse_settings parse str st = (true, st') ->
        Settings.inputs (ParseSettings.settings st')
        = ParseSettings.vector_entry doc "/inputs"
        /\ Settings.input_filepaths (ParseSettings.settings st')
           = ParseSettings.vector_entry doc "/input_filepaths"
        /\ match at_pointer (ParseSettings.pointer_tokens "/annotations")
                   doc with
           | None =>
               Settings.annotations (ParseSettings.settings st')
               = StdMap.empty
           | Some x =>
               get_string_map x
               = Some (Settings.annotations (ParseSettings.settings st'))
           end)
    /\ (forall path getter x,
           In (path, getter) ParseSettings.vector_options ->
           at_pointer (ParseSettings.pointer_tokens path) doc = Some x ->
           get_string_vector x = None ->
           fst (ParseSettings.parse_settings parse str st) = false)
    /\ (forall x,
           at_pointer (ParseSettings.pointer_tokens "/annotations") doc
           = Some x ->
           get_string_map x = None ->
           fst (ParseSettings.parse_settings parse str st) = false).
Proof.
  intros parse str doc st P. split; [|split].
  - intros st' H.
    pose proof (parse_settings_fields parse str doc st st' P H) as F.
    split; [|split].
    + exact (proj1 (fields_vector doc "/inputs" Settings.inputs st st'
                      ltac:(simpl; tauto) F)).
    + exact (proj1 (fields_vector doc "/input_filepaths"
                      Settings.input_filepaths st st'
                      ltac:(simpl; tauto) F)).
    + exact (fields_annotations doc st st' F).
  - intros path getter x Hin X G.
    apply (parse_settings_refused parse str doc st P). intros st'.
    exact (fields_vector_refused doc path getter x st st' Hin X G).
  - intros x X G. apply (parse_settings_refused parse str doc st P).
    intros st'. exact (fields_annotations_refused doc x st st' X G).
Qed.

(** The theorem on [{"inputs": ["a", "b"], "name": "dummy", "options":
    {}}]. *)
Lemma inputs_and_annotations_follow_the_document_witness :
  let doc := object_of [("inputs", JArray [JString "a"; JString "b"]);
                        ("name", JString "dummy");
                        ("options", object_of [])] in
  exists st',
    ParseSettings.parse_settings (fun _ => Some doc) ""
      (ParseSettings.mkPState Settings.default "" "") = (true, st')
    /\ Settings.inputs (ParseSettings.settings st') = ["a"; "b"].
Proof.
  intros doc.
  assert (E : exists st',
             ParseSettings.parse_settings (fun _ => Some doc) ""
               (ParseSettings.mkPState Settings.default "" "") = (true, st'))
    by (vm_compute; eexists; reflexivity).
  destruct E as (st' & E). exists st'. split; [exact E|].
  exact (proj1 (proj1 (inputs_and_annotations_follow_the_document
                         (fun _ => Some doc) "" doc
                         (ParseSettings.mkPState Settings.default "" "")
                         eq_refl) st' E)).
Defined.

(** X7.  [parse_settings] writes [*warn] only for a boolean option given
    as a number: when no boolean option of the document is a number, a
    successful call leaves [*warn] as the caller passed it. *)
Theorem no_warning_without_a_numeric_boolean :
  forall (parse : string -> option json) (str : string) (doc : json)
         (st st' : ParseSettings.PState),
    parse str = Some doc ->
    (forall path getter setter x,
        In (path, getter, setter) ParseSettings.bool_options ->
        at_pointer (ParseSettings.pointer_tokens path) doc = Some x ->
        is_number x = false) ->
    ParseSettings.parse_settings parse str st = (true, st') ->
    ParseSettings.warn st' = ParseSettings.warn st.
Proof.
  intros parse str doc st st' P N H.
  apply (fields_warn doc st st' N).
  exact (parse_settings_fields parse str doc st st' P H).
Qed.

(** The theorem on [{"name": "dummy", "options": {"no_bouncer": true}}]. *)
Lemma no_warning_without_a_numeric_boolean_witness :
  let doc := object_of [("name", JString "dummy");
                        ("options",
                         object_of [("no_bouncer", JBool true)])] in
  exists st',
    ParseSettings.parse_settings (fun _ => Some doc) ""
      (ParseSettings.mkPState Settings.default "" "kept") = (true, st')
    /\ ParseSettings.warn st' = "kept".
Proof.
  intros doc.
  assert (E : exists st',
             ParseSettings.parse_settings (fun _ => Some doc) ""
               (ParseSettings.mkPState Settings.default "" "kept")
             = (true, st'))
    by (vm_compute; eexists; reflexivity).
  destruct E as (st' & E). exists st'. split; [exact E|].
  refine (no_warning_without_a_numeric_boolean (fun _ => Some doc) "" doc
            (ParseSettings.mkPState Settings.default "" "kept") st' eq_refl
            _ E).
  intros path getter setter x Hin X. simpl in Hin.
  repeat (destruct Hin as [Hin|Hin];
          [inversion Hin; subst; vm_compute in X; inversion X; reflexivity|]).
  contradiction.
Defined.

(** ** [parse_settings]: the documents that are accepted *)

Section ParseAccepts.
Import ParseSettings.
Variable doc : json.

(** A statement that falls through to the next one, whatever it is
    entered with. *)
Local Abbreviation passes a :=
  (forall st : PState, exists st' : PState, a st = Next st').

Lemma seq_passes (a b : Stmt) : passes a -> passes b -> passes (a ;;; b).
Proof.
  intros Ha Hb st. unfold ParseSettings.seq.
  destruct (Ha st) as (mid & ->). apply Hb.
Qed.

Lemma MAYBE_GET_passes {T : Type} get (dflt : T) tn path variable :
  converts get doc path = true ->
  passes (MAYBE_GET doc get dflt tn path variable).
Proof.
  intros C st. unfold MAYBE_GET, json_maybe_get. unfold converts in C.
  destruct (at_pointer (pointer_tokens path) doc) as [x|].
  - destruct (get x); [eauto|discriminate].
  - eauto.
Qed.

Lemma MAYBE_GET_BOOL_passes path variable :
  boolean_or_number doc path = true ->
  passes (MAYBE_GET_BOOL doc path variable).
Proof.
  intros C st. unfold MAYBE_GET_BOOL, json_maybe_get.
  unfold boolean_or_number in C.
  destruct (at_pointer (pointer_tokens path) doc) as [x|]; [|eauto].
  destruct x; try discriminate C; cbn; eauto.
Qed.

Lemma unsigned_within_passes (maximum : Z) (x : Q) :
  unsigned_within maximum x = true ->
  Qeq_bool (fst (modf x)) (inject_Z 0) = true
  /\ orb (Qlt_bool x (inject_Z 0)) (Qlt_bool (inject_Z maximum) x) = false.
Proof.
  unfold unsigned_within. intros H.
  apply andb_true_iff in H. destruct H as [I H].
  apply andb_true_iff in H. destruct H as [L U]. split.
  - apply Qeq_bool_iff in I. apply Qeq_bool_iff. unfold modf. cbn [fst].
    rewrite I at 1. ring.
  - unfold Qlt_bool. rewrite L, U. reflexivity.
Qed.

Lemma MAYBE_GET_UINT_passes bits maximum path variable :
  unsigned_entry doc maximum path = true -> 0 <= maximum ->
  passes (MAYBE_GET_UINT doc bits maximum path variable).
Proof.
  intros C M st. unfold unsigned_entry in C.
  destruct (at_pointer (pointer_tokens path) doc) as [x|] eqn:P.
  - unfold MAYBE_GET_UINT, json_maybe_get. rewrite P.
    destruct (get_double x) as [q|]; [|discriminate].
    destruct (unsigned_within_passes maximum q C) as (I & R).
    cbn [negb]. rewrite I, R. cbn [negb]. eauto.
  - rewrite (MAYBE_GET_UINT_missing doc bits maximum path variable st P M).
    eauto.
Qed.

Lemma log_level_block_passes :
  names_log_level doc = true -> passes (log_level_block doc).
Proof.
  intros C st. unfold log_level_block, json_maybe_get.
  unfold names_log_level in C.
  destruct (at_pointer (pointer_tokens "/log_level") doc) as [x|];
    [|cbn; eauto].
  destruct (get_string x) as [s|]; [|discriminate]. cbn [negb].
  unfold log_level_named in C.
  repeat match goal with
         | |- context [if String.eqb s ?k then _ else _] =>
             destruct (String.eqb s k); [eauto|]
         end.
  discriminate C.
Qed.

(** The statements of [parse_settings] all fall through on an
    acceptable document. *)
Lemma fields_pass : acceptable doc = true -> passes (fields doc).
Proof.
  unfold acceptable. intros A.
  cbn [forallb vector_options string_options bool_options uint_options
       fst snd] in A.
  rewrite !andb_true_iff in A. decompose [and] A. clear A.
  unfold fields.
  repeat (apply seq_passes;
          [first
             [ apply MAYBE_GET_passes; assumption
             | apply log_level_block_passes; assumption
             | apply MAYBE_GET_BOOL_passes; assumption
             | apply MAYBE_GET_UINT_passes;
               [assumption|unfold UINT8_MAX, UINT16_MAX; lia] ]|]).
  apply MAYBE_GET_passes. assumption.
Qed.

Lemma parse_document_passes (st : PState) :
  acceptable doc = true ->
  exists st', parse_document doc st = (true, st').
Proof.
  intros A. destruct (fields_pass A st) as (st' & F).
  unfold acceptable in A.
  rewrite !andb_true_iff in A.
  destruct A as ((((((((O & Opts) & Name) & _) & _) & _) & _) & _) & _).
  unfold parse_document. rewrite O. cbn [negb].
  destruct doc as [| | | | |o|]; try discriminate O.
  cbn [Json.count at_key] in *. unfold StdMap.count.
  destruct (StdMap.find "options" o) as [opts|]; [|discriminate].
  cbn [Z.leb Z.compare]. rewrite Opts. cbn [negb].
  destruct (StdMap.find "name" o) as [n|]; [|discriminate].
  cbn [Z.leb Z.compare]. rewrite Name. cbn [negb].
  rewrite F. eauto.
Qed.
End ParseAccepts.

(** C8, as amended.  For every settings JSON that is acceptable as to
    the rest (an object with an object under ["options"] and a string
    under ["name"], in which every entry that [parse_settings] reads has a
    value of the type of its member, the integers within their bounds; a
    number in place of a boolean is such a value), and for every boolean
    option whose value in it is a number: [parse_settings] succeeds, the
    member is true exactly when the number is nonzero, and [*warn] holds
    the deprecation warning of a boolean option.  The option's own
    [MAYBE_GET_BOOL] statement never makes [parse_settings] return false:
    it sets the member, clears [*err] and stores the deprecation warning
    of the option in [*warn].  And whenever [parse_settings] succeeds, on
    whatever document, the member is true exactly when the number is
    nonzero and [*warn] holds such a warning. *)
Theorem numeric_boolean_option_coerced :
  forall (parse : string -> option json) (str : string) (doc : json)
         (path : string) getter setter (x : json),
    In (path, getter, setter) ParseSettings.bool_options ->
    parse str = Some doc ->
    at_pointer (ParseSettings.pointer_tokens path) doc = Some x ->
    is_number x = true ->
    (ParseSettings.acceptable doc = true ->
     forall st,
       exists st',
         ParseSettings.parse_settings parse str st = (true, st')
         /\ getter (ParseSettings.settings st')
            = ParseSettings.number_nonzero x
         /\ ParseSettings.deprecation_warning (ParseSettings.warn st'))
    /\ (forall st,
           ParseSettings.MAYBE_GET_BOOL doc path setter st =
           ParseSettings.Next
             (ParseSettings.mkPState
                (setter (ParseSettings.number_nonzero x)
                        (setter false (ParseSettings.settings st)))
                "" (ParseSettings.number_as_boolean_warning path)))
    /\ (forall st st',
           ParseSettings.parse_settings parse str st = (true, st') ->
           getter (ParseSettings.settings st') = ParseSettings.number_nonzero x
           /\ ParseSettings.deprecation_warning (ParseSettings.warn st')).
Proof.
  intros parse str doc path getter setter x Hin Hparse P N.
  assert (Values : forall st st',
             ParseSettings.parse_settings parse str st = (true, st') ->
             getter (ParseSettings.settings st')
             = ParseSettings.number_nonzero x
             /\ ParseSettings.deprecation_warning (ParseSettings.warn st')).
  { intros st st' H. unfold ParseSettings.parse_settings in H.
    rewrite Hparse in H. apply parse_document_true in H.
    exact (fields_numeric doc path getter setter x st st' Hin P N H). }
  split; [|split].
  - intros A st.
    destruct (parse_document_passes doc st A) as (st' & E).
    assert (S : ParseSettings.parse_settings parse str st = (true, st'))
      by (unfold ParseSettings.parse_settings; rewrite Hparse; exact E).
    exists st'. split; [exact S|]. exact (Values st st' S).
  - intros st. now apply MAYBE_GET_BOOL_number.
  - exact Values.
Qed.

(** The theorem at the document [{"name": "dummy", "options":
    {"no_bouncer": 1}}]. *)
Lemma numeric_boolean_option_coerced_witness :
  exists st',
    ParseSettings.parse_settings
      (fun _ => Some Scenario.numeric_no_bouncer) ""
      (ParseSettings.mkPState Settings.default "" "") = (true, st')
    /\ Settings.no_bouncer (ParseSettings.settings st') = true
    /\ ParseSettings.deprecation_warning (ParseSettings.warn st').
Proof.
  exact (proj1 (numeric_boolean_option_coerced
                  (fun _ => Some Scenario.numeric_no_bouncer) ""
                  Scenario.numeric_no_bouncer "/options/no_bouncer"
                  Settings.no_bouncer Settings.set_no_bouncer (JInt 1)
                  ltac:(simpl; tauto) eq_refl eq_refl eq_refl)
           ltac:(vm_compute; reflexivity)
           (ParseSettings.mkPState Settings.default "" "")).
Defined.

(** C8 as stated fails: a number in a boolean option does not make
    [parse_settings] succeed when another entry is rejected, here a
    string where the port is expected. *)
Lemma numeric_boolean_option_may_fail :
  let st := ParseSettings.mkPState Settings.default "" "" in
  at_pointer (ParseSettings.pointer_tokens "/options/no_bouncer")
    Scenario.numeric_no_bouncer_bad_port = Some (JInt 1)
  /\ fst (ParseSettings.parse_settings
            (fun _ => Some Scenario.numeric_no_bouncer_bad_port) "" st) = false
  /\ ParseSettings.acceptable Scenario.numeric_no_bouncer_bad_port = false.
Proof. split; [|split]; vm_compute; reflexivity. Qed.

(** ** Strings *)

Lemma append_nil_r (s : string) : s +++ "" = s.
Proof. induction s; simpl; congruence. Qed.

Lemma append_assoc (a b c : string) : (a +++ b) +++ c = a +++ (b +++ c).
Proof. induction a; simpl; congruence. Qed.

Lemma length_append (a b : string) :
  String.length (a +++ b) = (String.length a + String.length b)%nat.
Proof. induction a; simpl; congruence. Qed.

Lemma substring_all (s : string) : String.substring 0 (String.length s) s = s.
Proof. induction s; simpl; congruence. Qed.

Lemma substring_append_l (a b : string) :
  String.substring 0 (String.length a) (a +++ b) = a.
Proof.
  induction a; simpl; [destruct b; reflexivity|congruence].
Qed.

Lemma substring_append_r (a b : string) :
  String.substring (String.length a) (String.length b) (a +++ b) = b.
Proof. induction a; simpl; [apply substring_all|exact IHa]. Qed.

Lemma get_last (s : string) (c : ascii) :
  String.get (String.length s) (s +++ String c "") = Some c.
Proof. induction s; simpl; [reflexivity|exact IHs]. Qed.

(** A string is empty or ends in one character. *)
Lemma string_last (s : string) :
  s = "" \/ exists s' c, s = s' +++ String c "".
Proof.
  induction s as [|a s IH]; [now left|right].
  destruct IH as [->|(s' & c & ->)].
  - exists "", a. reflexivity.
  - exists (String a s'), c. reflexivity.
Qed.

(** ** [without_final_slash] *)

Lemma slashes_snoc (k : nat) : slashes k +++ "/" = slashes (S k).
Proof. induction k; simpl in *; congruence. Qed.

Lemma without_final_slash_loop_spec (rounds : nat) (src : string) :
  (String.length src <= rounds)%nat ->
  exists k,
    src = without_final_slash_loop rounds src +++ slashes k
    /\ forall s, without_final_slash_loop rounds src <> s +++ "/".
Proof.
  revert src. induction rounds as [|rounds IH]; intros src L.
  - destruct src; [|simpl in L; lia]. exists 0%nat. split; [reflexivity|].
    intros s E. destruct s; discriminate E.
  - cbn [without_final_slash_loop].
    destruct (string_last src) as [->|(s' & c & ->)].
    + exists 0%nat. split; [reflexivity|].
      intros s E. destruct s; discriminate E.
    + rewrite length_append in *. cbn [String.length] in *.
      replace (String.length s' + 1 - 1)%nat with (String.length s') by lia.
      rewrite get_last.
      replace (0 <? String.length s' + 1)%nat with true
        by (symmetry; apply Nat.ltb_lt; lia).
      cbn [andb]. destruct (Ascii.eqb_spec c "/"%char) as [->|NE].
      * rewrite substring_append_l.
        destruct (IH s' ltac:(lia)) as (k & E & N).
        exists (S k). split; [|exact N].
        rewrite <- slashes_snoc, <- append_assoc, <- E. reflexivity.
      * exists 0%nat. split; [now rewrite append_nil_r|].
        intros s E.
        assert (G : String.get (String.length s') (s +++ "/") = Some c)
          by (rewrite <- E; apply get_last).
        assert (Len : String.length s' = String.length s).
        { apply (f_equal String.length) in E.
          rewrite !length_append in E. simpl in E. lia. }
        rewrite Len, get_last in G. congruence.
Qed.

(** X8.  [without_final_slash] removes exactly the slashes that end its
    argument: the argument is the result followed by slashes only, and
    the result does not end in a slash. *)
Theorem without_final_slash_strips_all_final_slashes :
  forall src : string,
    (exists k, src = without_final_slash src +++ slashes k)
    /\ (forall s, without_final_slash src <> s +++ "/").
Proof.
  intros src.
  destruct (without_final_slash_loop_spec (String.length src) src
              (Nat.le_refl _)) as (k & E & N).
  split; [exists k; exact E|exact N].
Qed.

(** ** [xml_extract] *)

Lemma append_lowered_acc (input result : string) :
  append_lowered input result = result +++ squeezed input.
Proof.
  unfold squeezed. revert result.
  induction input as [|ch input IH]; intros result; simpl.
  - now rewrite append_nil_r.
  - destruct (isspace ch); [apply IH|].
    rewrite IH, (IH (String (tolower ch) "")), append_assoc. reflexivity.
Qed.

Lemma tolower_not_space (c : ascii) :
  isspace c = false -> isspace (tolower c) = false.
Proof.
  unfold isspace, tolower. intros H.
  destruct (andb (Nat.leb 65 (nat_of_ascii c)) (Nat.leb (nat_of_ascii c) 90))
    eqn:U; [|exact H].
  apply andb_true_iff in U. destruct U as [U1 U2].
  apply Nat.leb_le in U1, U2.
  rewrite nat_ascii_embedding by lia.
  apply orb_false_iff. split.
  - apply Nat.eqb_neq. lia.
  - apply andb_false_iff. right. apply Nat.leb_gt. lia.
Qed.

Lemma tolower_not_upper (c : ascii) : isupper (tolower c) = false.
Proof.
  unfold isupper, tolower.
  destruct (andb (Nat.leb 65 (nat_of_ascii c)) (Nat.leb (nat_of_ascii c) 90))
    eqn:U; [|exact U].
  apply andb_true_iff in U. destruct U as [U1 U2].
  apply Nat.leb_le in U1, U2.
  rewrite nat_ascii_embedding by lia.
  apply andb_false_iff. right. apply Nat.leb_gt. lia.
Qed.

Lemma squeezed_alphabet (input : string) (c : ascii) :
  In c (list_ascii_of_string (squeezed input)) ->
  isspace c = false /\ isupper c = false.
Proof.
  unfold squeezed. induction input as [|ch input IH]; simpl; [tauto|].
  destruct (isspace ch) eqn:S; [exact IH|].
  rewrite append_lowered_acc. simpl. intros [<-|H].
  - split; [now apply tolower_not_space|apply tolower_not_upper].
  - apply IH. exact H.
Qed.

(** X9.  When [xml_extract] returns true, [*result] has grown by
    characters that are neither white space nor upper-case letters; when
    it returns false, [*result] is as it was. *)
Theorem xml_extract_appends_squeezed_text :
  forall input open_tag close_tag result : string,
    if fst (xml_extract input open_tag close_tag result)
    then exists text,
           snd (xml_extract input open_tag close_tag result)
           = result +++ text
           /\ forall c, In c (list_ascii_of_string text) ->
                        isspace c = false /\ isupper c = false
    else snd (xml_extract input open_tag close_tag result) = result.
Proof.
  intros input open_tag close_tag result. unfold xml_extract.
  destruct (String.index 0 open_tag input) as [pos|]; [|reflexivity].
  destruct (String.index 0 close_tag _) as [pos'|]; [|reflexivity].
  cbn [fst snd]. rewrite append_lowered_acc.
  eexists. split; [reflexivity|]. apply squeezed_alphabet.
Qed.

Lemma prefix_append (s r : string) : String.prefix s (s +++ r) = true.
Proof.
  induction s as [|a s IH]; simpl; [destruct r; reflexivity|].
  destruct (ascii_dec a a); [exact IH|congruence].
Qed.

(** The first occurrence of a tag that does not begin earlier. *)
Lemma index_after (pre tag rest : string) :
  begins_within tag pre (tag +++ rest) = false ->
  String.index 0 tag (pre +++ tag +++ rest) = Some (String.length pre).
Proof.
  induction pre as [|c pre IH]; intros N.
  - cbn [String.append String.length].
    pose proof (prefix_append tag rest) as P.
    destruct (tag +++ rest) as [|b s2] eqn:E.
    + destruct tag; [reflexivity|discriminate E].
    + cbn [String.index]. now rewrite P.
  - cbn [begins_within] in N. apply orb_false_iff in N. destruct N as [P N].
    change (String c pre +++ tag +++ rest)
      with (String c (pre +++ tag +++ rest)) in *.
    cbn [String.index]. rewrite P, (IH N). reflexivity.
Qed.

Lemma substring_skip (a b : string) :
  String.substring (String.length a)
    (String.length (a +++ b) - String.length a) (a +++ b) = b.
Proof.
  rewrite length_append.
  replace (String.length a + String.length b - String.length a)%nat
    with (String.length b) by lia.
  apply substring_append_r.
Qed.

(** X10.  On a text in which the opening tag does not begin before the
    place where it stands, nor the closing tag within what follows the
    opening tag, [xml_extract] returns true and appends what lies between
    the two tags, without its white space and in lower case. *)
Theorem xml_extract_finds_the_element :
  forall (pre open_tag body close_tag post result : string),
    begins_within open_tag pre (open_tag +++ body +++ close_tag +++ post)
    = false ->
    begins_within close_tag body (close_tag +++ post) = false ->
    xml_extract (pre +++ open_tag +++ body +++ close_tag +++ post)
      open_tag close_tag result
    = (true, result +++ squeezed body).
Proof.
  intros pre open_tag body close_tag post result N1 N2. unfold xml_extract.
  rewrite (index_after pre open_tag _ N1).
  rewrite <- length_append.
  rewrite <- (append_assoc pre open_tag).
  rewrite substring_skip.
  rewrite (index_after body close_tag post N2).
  rewrite substring_append_l, append_lowered_acc. reflexivity.
Qed.

(** The theorem on a reply of the geolocation service. *)
Lemma xml_extract_finds_the_element_witness :
  xml_extract "<Response><Ip>93.147.252.33</Ip></Response>" "<Ip>" "</Ip>" ""
  = (true, "93.147.252.33").
Proof.
  exact (xml_extract_finds_the_element "<Response>" "<Ip>" "93.147.252.33"
           "</Ip>" "</Response>" "" eq_refl eq_refl).
Defined.

(** ** UUID4 *)

Lemma land_15_bound (n : Z) : 0 <= Z.land n 15 < 16.
Proof.
  change 15 with (Z.ones 4). rewrite Z.land_ones by lia.
  apply Z.mod_pos_bound. reflexivity.
Qed.

Lemma hex_digit_alphabet (n : Z) :
  In (sole.hex_digit (Z.land n 15))
     (list_ascii_of_string "0123456789abcdef").
Proof.
  pose proof (land_15_bound n) as B.
  assert (C : Z.land n 15 = 0 \/ Z.land n 15 = 1 \/ Z.land n 15 = 2
              \/ Z.land n 15 = 3 \/ Z.land n 15 = 4 \/ Z.land n 15 = 5
              \/ Z.land n 15 = 6 \/ Z.land n 15 = 7 \/ Z.land n 15 = 8
              \/ Z.land n 15 = 9 \/ Z.land n 15 = 10 \/ Z.land n 15 = 11
              \/ Z.land n 15 = 12 \/ Z.land n 15 = 13 \/ Z.land n 15 = 14
              \/ Z.land n 15 = 15) by lia.
  repeat (destruct C as [C|C]; [rewrite C; simpl; tauto|]).
  rewrite C; simpl; tauto.
Qed.

(** The digit at bits [k .. k+3] of a value, given these four bits. *)
Lemma nibble_bits (x k : Z) (b3 b2 b1 b0 : bool) :
  0 <= k ->
  Z.testbit x (k + 3) = b3 -> Z.testbit x (k + 2) = b2 ->
  Z.testbit x (k + 1) = b1 -> Z.testbit x k = b0 ->
  Z.land (Z.shiftr x k) 15
  = (if b3 then 8 else 0) + (if b2 then 4 else 0)
    + (if b1 then 2 else 0) + (if b0 then 1 else 0).
Proof.
  intros K B3 B2 B1 B0. apply Z.bits_inj'. intros n N.
  rewrite Z.land_spec, Z.shiftr_spec by exact N.
  assert (C : n = 0 \/ n = 1 \/ n = 2 \/ n = 3 \/ 4 <= n) by lia.
  destruct C as [->|[->|[->|[->|C]]]].
  - rewrite Z.add_0_l, B0. destruct b3, b2, b1, b0; reflexivity.
  - rewrite (Z.add_comm 1 k), B1. destruct b3, b2, b1, b0; reflexivity.
  - rewrite (Z.add_comm 2 k), B2. destruct b3, b2, b1, b0; reflexivity.
  - rewrite (Z.add_comm 3 k), B3. destruct b3, b2, b1, b0; reflexivity.
  - change 15 with (Z.ones 4). rewrite Z.ones_spec_high by lia.
    rewrite andb_false_r. symmetry.
    assert (H : forall v, 0 <= v < 16 -> Z.testbit v n = false).
    { intros v V. destruct (Z.eq_dec v 0) as [->|NZ];
        [apply Z.testbit_0_l|].
      apply Z.bits_above_log2; [lia|].
      apply Z.log2_lt_pow2; [lia|].
      apply Z.lt_le_trans with (m := 2 ^ 4); [simpl; lia|].
      apply Z.pow_le_mono_r; lia. }
    apply H. destruct b3, b2, b1, b0; simpl; lia.
Qed.

Lemma shiftr_4_4_4 (y : Z) :
  Z.shiftr (Z.shiftr (Z.shiftr y 4) 4) 4 = Z.shiftr y 12.
Proof. rewrite !Z.shiftr_shiftr by lia. reflexivity. Qed.

(** The version digit: bits 12 to 15 of [ab] are 0100. *)
Lemma version_digit (r1 r2 : Z) :
  let ab := sole.ab (sole.uuid4 r1 r2) in
  Z.land (Z.shiftr (Z.land (Z.land ab 0xFFFFFFFF) 0xFFFF) 12) 15 = 4.
Proof.
  intros ab. subst ab. unfold sole.uuid4. cbn [sole.ab].
  set (x := r1 mod UINT64_MOD).
  rewrite (nibble_bits _ 12 false true false false); try reflexivity; try lia;
    rewrite !Z.land_spec, Z.lor_spec, Z.land_spec;
    repeat match goal with
           | |- context [Z.testbit ?c ?k] =>
               lazymatch c with
               | x => fail
               | _ => let v := eval vm_compute in (Z.testbit c k) in
                      change (Z.testbit c k) with v
               end
           end;
    rewrite ?andb_false_r, ?andb_true_r, ?orb_false_r, ?orb_true_r;
    reflexivity.
Qed.

(** The variant digit: bits 62 and 63 of [cd] are 0 and 1. *)
Lemma variant_digit (r1 r2 : Z) :
  let cd := sole.cd (sole.uuid4 r1 r2) in
  exists lo : Z,
    0 <= lo < 4
    /\ Z.land (Z.shiftr (Z.shiftr (Z.shiftr cd 32) 16) 12) 15 = 8 + lo.
Proof.
  intros cd. subst cd. unfold sole.uuid4. cbn [sole.cd].
  set (x := r2 mod UINT64_MOD).
  set (cd := Z.lor (Z.land x 0x3FFFFFFFFFFFFFFF) 0x8000000000000000).
  assert (S : Z.shiftr (Z.shiftr (Z.shiftr cd 32) 16) 12 = Z.shiftr cd 60)
    by (rewrite !Z.shiftr_shiftr by lia; reflexivity).
  rewrite S.
  rewrite (nibble_bits cd 60 true false (Z.testbit x 61) (Z.testbit x 60));
    try lia;
    try (unfold cd; rewrite Z.lor_spec, Z.land_spec;
         repeat match goal with
                | |- context [Z.testbit ?c ?k] =>
                    lazymatch c with
                    | x => fail
                    | _ => let v := eval vm_compute in (Z.testbit c k) in
                           change (Z.testbit c k) with v
                    end
                end;
         rewrite ?andb_false_r, ?andb_true_r, ?orb_false_r, ?orb_true_r;
         reflexivity).
  exists ((if Z.testbit x 61 then 2 else 0) + (if Z.testbit x 60 then 1 else 0)).
  destruct (Z.testbit x 61), (Z.testbit x 60); simpl; lia.
Qed.

(** X11.  Whatever the random device draws, the string of a [uuid4()]
    has the form of a version 4 UUID: 36 characters, hyphens at positions
    8, 13, 18 and 23, the digit 4 at position 14, one of 8, 9, a, b at
    position 19, and lower-case hexadecimal digits everywhere else. *)
Theorem uuid4_string_is_well_formed :
  forall r1 r2 : Z,
    let s := sole.str (sole.uuid4 r1 r2) in
    String.length s = 36%nat
    /\ String.get 8 s = Some "-"%char
    /\ String.get 13 s = Some "-"%char
    /\ String.get 18 s = Some "-"%char
    /\ String.get 23 s = Some "-"%char
    /\ String.get 14 s = Some "4"%char
    /\ (exists c, String.get 19 s = Some c
                  /\ In c (list_ascii_of_string "89ab"))
    /\ (forall c, In c (list_ascii_of_string s) ->
                  In c (list_ascii_of_string "0123456789abcdef-")).
Proof.
  intros r1 r2 s. subst s. unfold sole.str.
  pose proof (version_digit r1 r2) as V.
  pose proof (variant_digit r1 r2) as (lo & Lo & W).
  cbv zeta in V, W.
  set (ab := sole.ab (sole.uuid4 r1 r2)) in *.
  set (cd := sole.cd (sole.uuid4 r1 r2)) in *.
  cbn [sole.hex String.append].
  split; [reflexivity|]. do 4 (split; [reflexivity|]).
  split; [|split].
  - cbn [String.get]. rewrite shiftr_4_4_4, V. reflexivity.
  - cbn [String.get]. rewrite shiftr_4_4_4, W. eexists. split; [reflexivity|].
    assert (C : lo = 0 \/ lo = 1 \/ lo = 2 \/ lo = 3) by lia.
    destruct C as [C|[C|[C|C]]]; subst lo; simpl; tauto.
  - intros c I. cbn [list_ascii_of_string] in I.
    assert (H : forall n, In (sole.hex_digit (Z.land n 15))
                            (list_ascii_of_string "0123456789abcdef-")).
    { intros n. pose proof (hex_digit_alphabet n) as A.
      change (list_ascii_of_string "0123456789abcdef-")
        with (list_ascii_of_string "0123456789abcdef" ++ ["-"%char]).
      apply in_or_app. now left. }
    repeat (destruct I as [<-|I];
            [first [apply H | simpl; tauto]|]).
    contradiction.
Qed.

(** ** The dispatcher under interrupts and timeouts *)

(** X12.  Whatever the interleaving, and whenever the interrupt flag is
    raised or [run_with_index32] returns false: the indices claimed so
    far are [0, 1, ..., i - 1] in the order of the claims, so none is
    claimed twice; and every claimed index is an index of the input list,
    at most [2^32 - 1], taken by one of the [n] workers. *)
Theorem claimed_indices_never_repeat :
  forall (Shared : Type) (interrupted : Shared -> bool)
         (run_with_index32 : Z -> Shared -> option (bool * Shared))
         (size : Z) (n : nat) (s0 : Shared) (sched : list nat)
         (p : Dispatcher.Pool Shared),
    Dispatcher.exec Shared interrupted run_with_index32 size sched
      (Dispatcher.start Shared n s0) = Some p ->
    List.map snd (Dispatcher.claimed Shared p)
    = Dispatcher.zrange (Dispatcher.i Shared p)
    /\ NoDup (List.map snd (Dispatcher.claimed Shared p))
    /\ (forall w idx, In (w, idx) (Dispatcher.claimed Shared p) ->
                      (w < n)%nat /\ 0 <= idx < size /\ idx <= UINT32_MAX).
Proof.
  intros Shared interrupted body size n s0 sched p E.
  pose proof (exec_consistent Shared interrupted body size sched _ _
                (start_consistent Shared size n s0) E) as (Hi & Hc & _ & Hl).
  pose proof (exec_length Shared interrupted body size sched _ _ E) as L.
  simpl in L. rewrite repeat_length in L.
  split; [exact Hc|]. split; [rewrite Hc; apply NoDup_zrange|].
  intros w idx I. split.
  - rewrite Forall_forall in Hl. specialize (Hl _ I). simpl in Hl. lia.
  - assert (R : In idx (List.map snd (Dispatcher.claimed Shared p)))
      by (apply in_map_iff; exists (w, idx); auto).
    rewrite Hc in R. apply in_zrange in R.
    unfold Dispatcher.ceiling, UINT32_MAX in *. lia.
Qed.

(** The theorem on two workers and three inputs, the second call
    running out of time. *)
Lemma claimed_indices_never_repeat_witness :
  exists p,
    Dispatcher.exec unit (fun _ => false)
      (fun idx s => Some (negb (idx =? 1), s)) 3
      [0; 0; 0; 1; 1; 1; 0; 1; 0; 0]%nat
      (Dispatcher.start unit 2 tt) = Some p
    /\ List.map snd (Dispatcher.claimed unit p) = [0; 1; 2].
Proof.
  assert (E : exists p,
             Dispatcher.exec unit (fun _ => false)
               (fun idx s => Some (negb (idx =? 1), s)) 3
               [0; 0; 0; 1; 1; 1; 0; 1; 0; 0]%nat
               (Dispatcher.start unit 2 tt) = Some p
             /\ Dispatcher.i unit p = 3)
    by (vm_compute; eexists; split; reflexivity).
  destruct E as (p & E & I). exists p. split; [exact E|].
  rewrite (proj1 (claimed_indices_never_repeat unit _ _ 3 2 tt _ p E)), I.
  reflexivity.
Defined.

(** X29.  In every interleaving of the workers that ends with all of
    them out of their loop, when no interrupt is raised and
    [run_with_index32] never returns false (no [max_runtime] timeout
    fires), the indices claimed are exactly
    [0 .. min(len(inputs), 2^32) - 1], in this order in the history of
    the critical sections: each is claimed once and by one worker, none
    is missing, and every claimed [idx] satisfies
    [0 <= idx < len(inputs)] and [idx <= 2^32 - 1].  Such interleavings
    exist, given that [run_with_index32] returns on every index of the
    list.  (Whether the main thread is still waiting by then is another
    matter: its wait can end before the workers have run.) *)
Theorem complete_runs_claim_each_index_once :
  forall (Shared : Type) (interrupted : Shared -> bool)
         (run_with_index32 : Z -> Shared -> option (bool * Shared))
         (size : Z) (n : nat) (s0 : Shared),
    (0 < n)%nat ->
    (forall s, interrupted s = false) ->
    (forall idx s s', run_with_index32 idx s <> Some (false, s')) ->
    (forall (sched : list nat) (p : Dispatcher.Pool Shared),
        Dispatcher.exec Shared interrupted run_with_index32 size sched
          (Dispatcher.start Shared n s0) = Some p ->
        Dispatcher.all_exited Shared p = true ->
        List.map snd (Dispatcher.claimed Shared p)
        = Dispatcher.zrange (Z.min size (UINT32_MAX + 1))
        /\ NoDup (List.map snd (Dispatcher.claimed Shared p))
        /\ (forall idx, 0 <= idx < Z.min size (UINT32_MAX + 1) ->
                        exists w, In (w, idx) (Dispatcher.claimed Shared p))
        /\ (forall w idx, In (w, idx) (Dispatcher.claimed Shared p) ->
                          (w < n)%nat /\ 0 <= idx < size
                          /\ idx <= UINT32_MAX))
    /\ ((n <= 255)%nat ->
        (forall idx s, 0 <= idx < size ->
                       exists r s', run_with_index32 idx s = Some (r, s')) ->
        exists sched p,
          Dispatcher.exec Shared interrupted run_with_index32 size sched
            (Dispatcher.start Shared n s0) = Some p
          /\ Dispatcher.all_exited Shared p = true).
Proof.
  intros Shared interrupted body size n s0 Hn NI NF. split.
  - intros sched p E A.
    destruct (complete_run_claims Shared interrupted body size NI NF n s0
                sched p Hn E A) as (C & W).
    split; [exact C|]. split; [rewrite C; apply NoDup_zrange|]. split.
    + intros idx R. apply in_zrange in R. rewrite <- C in R.
      apply in_map_iff in R. destruct R as ([w x] & <- & I). now exists w.
    + intros w idx I. split.
      * rewrite Forall_forall in W. exact (W _ I).
      * assert (In idx (List.map snd (Dispatcher.claimed Shared p)))
          by (apply in_map_iff; exists (w, idx); auto).
        rewrite C in H. apply in_zrange in H. unfold UINT32_MAX in *. lia.
  - intros N255 Total.
    exact (complete_run_exists Shared interrupted body size n s0 N255 Total).
Qed.

(** The theorem with two workers on three inputs, the Runner's own
    [run_with_index32] as the body and a clock that stands still. *)
Lemma complete_runs_claim_each_index_once_witness :
  exists p,
    Dispatcher.exec (State unit)
      (fun s => Env.interrupted Scenario.offline (world s))
      (run_with_index32 Scenario.offline Scenario.failing_nettest
         Scenario.three_inputs (inject_Z 0) "2018-10-01 12:00:00"
         ["a"; "b"; "c"] Scenario.context "")
      3 [0; 0; 0; 0; 1; 1; 1; 1; 0; 0; 0; 0; 0; 1; 1]%nat
      (Dispatcher.start (State unit) 2 Scenario.initial) = Some p
    /\ List.map snd (Dispatcher.claimed (State unit) p) = [0; 1; 2].
Proof.
  assert (E : exists p,
             Dispatcher.exec (State unit)
               (fun s => Env.interrupted Scenario.offline (world s))
               (run_with_index32 Scenario.offline Scenario.failing_nettest
                  Scenario.three_inputs (inject_Z 0) "2018-10-01 12:00:00"
                  ["a"; "b"; "c"] Scenario.context "")
               3 [0; 0; 0; 0; 1; 1; 1; 1; 0; 0; 0; 0; 0; 1; 1]%nat
               (Dispatcher.start (State unit) 2 Scenario.initial) = Some p
             /\ Dispatcher.all_exited (State unit) p = true)
    by (vm_compute; eexists; split; reflexivity).
  destruct E as (p & E & A). exists p. split; [exact E|].
  refine (proj1 (proj1 (complete_runs_claim_each_index_once (State unit) _ _
                          3 2 Scenario.initial ltac:(lia) _ _) _ p E A)).
  - intros s. reflexivity.
  - intros idx s s' H. apply run_with_index32_false in H.
    vm_compute in H. discriminate H.
Defined.

Section InterruptFacts.
Import Dispatcher.
Variable Shared : Type.
Variable interrupted : Shared -> bool.
Variable run_with_index32 : Z -> Shared -> option (bool * Shared).
Variable size : Z.

Local Abbreviation Pool := (Dispatcher.Pool Shared).
Local Abbreviation step :=
  (Dispatcher.step Shared interrupted run_with_index32 size).
Local Abbreviation exec :=
  (Dispatcher.exec Shared interrupted run_with_index32 size).

Lemma past_the_test_set_worker w x y (ws : list Worker) :
  nth_error ws w = Some y ->
  (past_the_test (set_worker w x ws) + (if past_test y then 1 else 0)
   = past_the_test ws + (if past_test x then 1 else 0))%nat.
Proof.
  unfold past_the_test. revert w.
  induction ws as [|z ws IH]; intros [|w]; simpl; try discriminate.
  - intros H; inversion H; subst.
    destruct (past_test x), (past_test y); simpl; lia.
  - intros H. specialize (IH w H).
    destruct (past_test z); simpl; lia.
Qed.

(** The flag, once raised, stays raised over a call. *)
Hypothesis flag_stays :
  forall idx s r s',
    interrupted s = true -> run_with_index32 idx s = Some (r, s') ->
    interrupted s' = true.

(** Under a raised flag a move claims an index only for a worker that
    was past the test, and no worker gets past the test. *)
Lemma step_after_interrupt w (p p' : Pool) :
  interrupted (shared Shared p) = true ->
  step w p = Some p' ->
  interrupted (shared Shared p') = true
  /\ exists l,
       claimed Shared p' = claimed Shared p ++ l
       /\ (List.length l + past_the_test (workers Shared p')
           <= past_the_test (workers Shared p))%nat.
Proof.
  intros F. unfold Dispatcher.step.
  destruct (nth_error (workers Shared p) w) as [[| | |idx|]|] eqn:N.
  - intros H; inversion H; subst. unfold enter. simpl.
    split; [exact F|]. exists []. rewrite app_nil_r. split; [reflexivity|].
    pose proof (past_the_test_set_worker w AtLoopTop NotStarted _ N).
    simpl in *. lia.
  - rewrite F. intros H; inversion H; subst. unfold leave. simpl.
    split; [exact F|]. exists []. rewrite app_nil_r. split; [reflexivity|].
    pose proof (past_the_test_set_worker w Exited AtLoopTop _ N).
    simpl in *. lia.
  - destruct (orb _ _); intros H; inversion H; subst; unfold leave; simpl;
      (split; [exact F|]).
    + exists []. rewrite app_nil_r. split; [reflexivity|].
      pose proof (past_the_test_set_worker w Exited PastTest _ N).
      simpl in *. lia.
    + eexists [_]. split; [reflexivity|].
      pose proof (past_the_test_set_worker w
                    (Holding (i Shared p mod 2 ^ 32)) PastTest _ N).
      simpl in *. lia.
  - destruct (run_with_index32 idx (shared Shared p)) as [[[|] s']|] eqn:B;
      intros H; inversion H; subst; unfold leave; simpl;
      (split; [exact (flag_stays idx _ _ _ F B)|]);
      exists []; rewrite app_nil_r; (split; [reflexivity|]).
    + pose proof (past_the_test_set_worker w AtLoopTop (Holding idx) _ N).
      simpl in *. lia.
    + pose proof (past_the_test_set_worker w Exited (Holding idx) _ N).
      simpl in *. lia.
  - intros H; inversion H; subst. split; [exact F|].
    exists []. rewrite app_nil_r. split; [reflexivity|simpl; lia].
  - intros H; inversion H; subst. split; [exact F|].
    exists []. rewrite app_nil_r. split; [reflexivity|simpl; lia].
Qed.

Lemma exec_after_interrupt sched (p p' : Pool) :
  interrupted (shared Shared p) = true ->
  exec sched p = Some p' ->
  exists l,
    claimed Shared p' = claimed Shared p ++ l
    /\ (List.length l + past_the_test (workers Shared p')
        <= past_the_test (workers Shared p))%nat.
Proof.
  revert p. induction sched as [|w sched IH]; simpl; intros p F H.
  - inversion H; subst. exists []. rewrite app_nil_r.
    split; [reflexivity|simpl; lia].
  - destruct (step w p) as [p1|] eqn:S1; [|discriminate].
    destruct (step_after_interrupt w p p1 F S1) as (F1 & l1 & C1 & B1).
    destruct (IH p1 F1 H) as (l2 & C2 & B2).
    exists (l1 ++ l2). split.
    + rewrite C2, C1. now rewrite app_assoc.
    + rewrite length_app. lia.
Qed.
End InterruptFacts.

(** X13.  The interrupt flag is tested in the loop condition only, not
    again in the critical section.  Once the flag is raised (and stays
    raised), whatever the interleaving: the history of claims only grows
    at its end, by at most one index for each worker that had passed the
    test of the flag and not yet entered the critical section when the
    flag was raised; when there is no such worker, no index is claimed
    any more. *)
Theorem interrupt_stops_the_claims_but_one_each :
  forall (Shared : Type) (interrupted : Shared -> bool)
         (run_with_index32 : Z -> Shared -> option (bool * Shared))
         (size : Z) (sched : list nat) (p p' : Dispatcher.Pool Shared),
    (forall idx s r s',
        interrupted s = true -> run_with_index32 idx s = Some (r, s') ->
        interrupted s' = true) ->
    interrupted (Dispatcher.shared Shared p) = true ->
    Dispatcher.exec Shared interrupted run_with_index32 size sched p
    = Some p' ->
    (exists l,
        Dispatcher.claimed Shared p' = Dispatcher.claimed Shared p ++ l
        /\ (List.length l
            <= Dispatcher.past_the_test (Dispatcher.workers Shared p))%nat)
    /\ (Dispatcher.past_the_test (Dispatcher.workers Shared p) = 0%nat ->
        Dispatcher.claimed Shared p' = Dispatcher.claimed Shared p).
Proof.
  intros Shared interrupted body size sched p p' Stays F E.
  destruct (exec_after_interrupt Shared interrupted body size Stays sched p
              p' F E) as (l & C & B).
  split.
  - exists l. split; [exact C|lia].
  - intros Z0. rewrite C. destruct l; [now rewrite app_nil_r|simpl in B; lia].
Qed.

(** The theorem on a pool of three inputs interrupted while its first
    worker holds index 0, its second worker is past the test and its
    third is at the loop top: the second worker still claims index 1,
    the third claims nothing, and all three leave. *)
Lemma interrupt_stops_the_claims_but_one_each_witness :
  let p := Dispatcher.mkPool bool 1 3
             [Dispatcher.Holding 0; Dispatcher.PastTest;
              Dispatcher.AtLoopTop] [(0%nat, 0)] true in
  exists p',
    Dispatcher.exec bool (fun s => s) (fun _ _ => Some (true, true)) 3
      [0; 1; 2; 1; 0; 1]%nat p = Some p'
    /\ Dispatcher.claimed bool p' = [(0%nat, 0); (1%nat, 1)]
    /\ Dispatcher.all_exited bool p' = true
    /\ (List.length (Dispatcher.claimed bool p') <= 2)%nat.
Proof.
  intros p.
  assert (E : exists p',
             Dispatcher.exec bool (fun s => s) (fun _ _ => Some (true, true))
               3 [0; 1; 2; 1; 0; 1]%nat p = Some p'
             /\ Dispatcher.claimed bool p' = [(0%nat, 0); (1%nat, 1)]
             /\ Dispatcher.all_exited bool p' = true)
    by (eexists; split; [|split]; vm_compute; reflexivity).
  destruct E as (p' & E & C & A). exists p'.
  split; [exact E|]. split; [exact C|]. split; [exact A|].
  destruct (proj1 (interrupt_stops_the_claims_but_one_each bool (fun s => s)
                     (fun _ _ => Some (true, true)) 3 [0; 1; 2; 1; 0; 1]%nat
                     p p'
                     ltac:(intros idx s r s' _ H; inversion H; reflexivity)
                     eq_refl E)) as (l & Cl & B).
  rewrite Cl, length_app. unfold p in B. cbn in B. cbn. lia.
Defined.

Section TimeoutFacts.
Import Dispatcher.
Variable Shared : Type.
Variable interrupted : Shared -> bool.
Variable run_with_index32 : Z -> Shared -> option (bool * Shared).
Variable size : Z.

Local Abbreviation Pool := (Dispatcher.Pool Shared).
Local Abbreviation step :=
  (Dispatcher.step Shared interrupted run_with_index32 size).
Local Abbreviation exec :=
  (Dispatcher.exec Shared interrupted run_with_index32 size).

Lemma claimers_set_worker w x y (ws : list Worker) :
  nth_error ws w = Some y ->
  (claimers (set_worker w x ws) + (if may_claim y then 1 else 0)
   = claimers ws + (if may_claim x then 1 else 0))%nat.
Proof.
  unfold claimers. revert w.
  induction ws as [|z ws IH]; intros [|w]; simpl; try discriminate.
  - intros H; inversion H; subst.
    destruct (may_claim x), (may_claim y); simpl; lia.
  - intros H. specialize (IH w H).
    destruct (may_claim z); simpl; lia.
Qed.

(** Every call returns false: the budget is spent. *)
Hypothesis spent :
  forall idx s r s', run_with_index32 idx s = Some (r, s') -> r = false.

Lemma step_spent w (p p' : Pool) :
  step w p = Some p' ->
  (List.length (claimed Shared p') + claimers (workers Shared p')
   <= List.length (claimed Shared p) + claimers (workers Shared p))%nat.
Proof.
  unfold Dispatcher.step.
  destruct (nth_error (workers Shared p) w) as [[| | |idx|]|] eqn:N.
  - intros H; inversion H; subst. unfold enter. simpl.
    pose proof (claimers_set_worker w AtLoopTop NotStarted _ N).
    simpl in *. lia.
  - pose proof (claimers_set_worker w Exited AtLoopTop _ N) as E1.
    pose proof (claimers_set_worker w PastTest AtLoopTop _ N) as E2.
    destruct (interrupted _); intros H; inversion H; subst; unfold leave;
      simpl in *; lia.
  - pose proof (claimers_set_worker w Exited PastTest _ N) as E1.
    pose proof (claimers_set_worker w (Holding (i Shared p mod 2 ^ 32))
                  PastTest _ N) as E2.
    destruct (orb _ _); intros H; inversion H; subst; unfold leave;
      simpl in *; rewrite ?length_app; simpl; lia.
  - destruct (run_with_index32 idx (shared Shared p)) as [[r s']|] eqn:B;
      [|discriminate].
    rewrite (spent _ _ _ _ B). intros H; inversion H; subst.
    unfold leave. simpl.
    pose proof (claimers_set_worker w Exited (Holding idx) _ N) as E.
    simpl in E. lia.
  - intros H; inversion H; subst. lia.
  - intros H; inversion H; subst. lia.
Qed.

Lemma exec_spent sched (p p' : Pool) :
  exec sched p = Some p' ->
  (List.length (claimed Shared p') + claimers (workers Shared p')
   <= List.length (claimed Shared p) + claimers (workers Shared p))%nat.
Proof.
  revert p. induction sched as [|w sched IH]; simpl; intros p H.
  - inversion H; subst. lia.
  - destruct (step w p) as [p1|] eqn:S1; [|discriminate].
    pose proof (step_spent w p p1 S1). specialize (IH p1 H). lia.
Qed.

Lemma claimers_start (n : nat) : claimers (repeat NotStarted n) = n.
Proof.
  unfold claimers. induction n; simpl; [reflexivity|]. now rewrite IHn.
Qed.
End TimeoutFacts.

(** X14.  When every call of [run_with_index32] returns false (the
    runtime budget is spent from the start), a worker leaves after its
    first call: whatever the interleaving and however long the input
    list, no more indices are claimed than there are workers. *)
Theorem spent_budget_bounds_the_claims :
  forall (Shared : Type) (interrupted : Shared -> bool)
         (run_with_index32 : Z -> Shared -> option (bool * Shared))
         (size : Z) (n : nat) (s0 : Shared) (sched : list nat)
         (p : Dispatcher.Pool Shared),
    (forall idx s r s',
        run_with_index32 idx s = Some (r, s') -> r = false) ->
    Dispatcher.exec Shared interrupted run_with_index32 size sched
      (Dispatcher.start Shared n s0) = Some p ->
    (List.length (Dispatcher.claimed Shared p) <= n)%nat.
Proof.
  intros Shared interrupted body size n s0 sched p Spent E.
  pose proof (exec_spent Shared interrupted body size Spent sched _ p E)
    as H.
  simpl in H. rewrite claimers_start in H. lia.
Qed.

(** The theorem on two workers and five inputs. *)
Lemma spent_budget_bounds_the_claims_witness :
  exists p,
    Dispatcher.exec unit (fun _ => false) (fun _ s => Some (false, s)) 5
      [0; 0; 0; 0; 1; 1; 1; 1]%nat (Dispatcher.start unit 2 tt) = Some p
    /\ Dispatcher.all_exited unit p = true
    /\ (List.length (Dispatcher.claimed unit p) <= 2)%nat.
Proof.
  assert (E : exists p,
             Dispatcher.exec unit (fun _ => false)
               (fun _ s => Some (false, s)) 5
               [0; 0; 0; 0; 1; 1; 1; 1]%nat
               (Dispatcher.start unit 2 tt) = Some p
             /\ Dispatcher.all_exited unit p = true)
    by (eexists; split; vm_compute; reflexivity).
  destruct E as (p & E & A). exists p. split; [exact E|]. split; [exact A|].
  refine (spent_budget_bounds_the_claims unit (fun _ => false)
            (fun _ s => Some (false, s)) 5 2 tt _ p _ E).
  intros idx s r s' H. now inversion H.
Defined.

(** X15.  The main thread's wait on [active] ends, whatever the
    scheduler, the interrupts and the timeouts (given a
    [run_with_index32] that returns on every index of the list, and at
    most 255 workers, which is what the [uint8_t] counter holds).  When
    it ends [active] is zero and no worker is inside its loop: each one
    has left it or has not run yet.  The workers have all left when the
    main thread never gets to test [active] before a worker that can
    move; and none of them has run when the main thread tests first. *)
Theorem wait_ends_with_no_worker_inside :
  forall (Shared : Type) (interrupted : Shared -> bool)
         (run_with_index32 : Z -> Shared -> option (bool * Shared))
         (size : Z) (poll : Shared -> bool * Shared)
         (pick : Shared -> nat * Shared) (n : nat) (s0 : Shared),
    (0 < n <= 255)%nat ->
    (forall idx s, 0 <= idx < size ->
                   exists r s', run_with_index32 idx s = Some (r, s')) ->
    let p0 := Dispatcher.start Shared n s0 in
    exists p,
      Dispatcher.wait Shared interrupted run_with_index32 size poll pick
        (Z.to_nat (Dispatcher.moves_left Shared size p0)) p0 = Some p
      /\ Dispatcher.active Shared p = 0
      /\ Dispatcher.none_in_loop Shared p = true
      /\ ((forall s, fst (poll s) = false) ->
          Dispatcher.all_exited Shared p = true)
      /\ (fst (poll s0) = true ->
          Dispatcher.workers Shared p = repeat Dispatcher.NotStarted n
          /\ Dispatcher.claimed Shared p = []).
Proof.
  intros Shared interrupted body size poll pick n s0 Hn Total p0.
  destruct (wait_keeps Shared interrupted body size poll pick
              (fun _ _ => True) (fun _ => I) (fun _ _ _ _ _ => I))
    with (fuel := Z.to_nat (Dispatcher.moves_left Shared size p0)) (p := p0)
    as (p & W & _ & _).
  - intros idx s R. destruct (Total idx s R) as (r & s' & E). eauto.
  - intros s. exact I.
  - intros s. exact I.
  - apply start_consistent.
  - exists p. split; [exact W|].
    destruct (wait_completes_all Shared interrupted body size poll pick
                (Z.to_nat (Dispatcher.moves_left Shared size p0)) p0 p
                (start_consistent Shared size n s0)
                (start_counted Shared n s0 ltac:(lia)) ltac:(lia) W)
      as ((A & N & _) & P).
    split; [exact A|]. split; [exact N|]. split; [exact P|].
    intros T.
    assert (F : Z.to_nat (Dispatcher.moves_left Shared size p0)
                = S (Nat.pred (Z.to_nat
                                 (Dispatcher.moves_left Shared size p0)))).
    { pose proof (start_moves Shared size n s0 ltac:(lia)). fold p0 in H.
      lia. }
    rewrite F in W. destruct (poll s0) as [tests s1] eqn:Ps.
    simpl in T. subst tests.
    unfold p0 in W.
    rewrite (wait_eager Shared interrupted body size poll pick _ n s0 s1 Ps)
      in W.
    inversion W; subst. split; reflexivity.
Qed.

(** The theorem on three workers and two inputs, the scheduler taking
    the last runnable worker each time and the main thread testing
    [active] when the workers are gone. *)
Lemma wait_ends_with_no_worker_inside_witness :
  exists p,
    Dispatcher.wait unit (fun _ => false) (fun _ s => Some (true, s)) 2
      (fun s => (false, s)) (fun s => (2%nat, s))
      (Z.to_nat (Dispatcher.moves_left unit 2 (Dispatcher.start unit 3 tt)))
      (Dispatcher.start unit 3 tt) = Some p
    /\ Dispatcher.active unit p = 0
    /\ Dispatcher.all_exited unit p = true.
Proof.
  destruct (wait_ends_with_no_worker_inside unit (fun _ => false)
              (fun _ s => Some (true, s)) 2 (fun s => (false, s))
              (fun s => (2%nat, s)) 3 tt ltac:(lia)
              ltac:(intros idx s _; eauto))
    as (p & W & A & _ & E & _).
  exists p. split; [exact W|]. split; [exact A|].
  apply E. intros s. reflexivity.
Defined.

(** ** The runtime budget *)

Lemma pow2_nonneg (e : Z) : Qle 0 (Double.pow2 e).
Proof.
  unfold Double.pow2. destruct (0 <=? e) eqn:E.
  - unfold Qle, inject_Z. simpl. pose proof (Z.pow_nonneg 2 e). lia.
  - unfold Qle. simpl. lia.
Qed.

Lemma nearest_even_nonneg (n d : Z) :
  0 <= n -> 0 < d -> 0 <= Double.nearest_even n d.
Proof.
  intros Hn Hd. unfold Double.nearest_even.
  assert (0 <= n / d) by (apply Z.div_pos; lia).
  repeat match goal with |- context [if ?c then _ else _] => destruct c end;
    lia.
Qed.

Lemma round_pos_nonneg (x : Q) : Qle 0 (Double.round_pos x).
Proof.
  unfold Double.round_pos. destruct (Qnum x <=? 0) eqn:N;
    [apply Qle_refl|].
  apply Z.leb_gt in N. rewrite Qred_correct.
  apply Qmult_le_0_compat; [|apply pow2_nonneg].
  match goal with
  | |- Qle 0 (inject_Z ?m) => assert (M : 0 <= m)
  end.
  { destruct (0 <=? Z.max (-1074) _) eqn:E.
    - apply nearest_even_nonneg; [lia|].
      apply Z.mul_pos_pos; [lia|]. apply Z.pow_pos_nonneg; lia.
    - apply nearest_even_nonneg; [|lia].
      apply Z.mul_nonneg_nonneg; [lia|]. apply Z.pow_nonneg. lia. }
  unfold Qle, inject_Z. cbn [Qnum Qden]. lia.
Qed.

(** Rounding keeps a value that is not negative from becoming
    negative. *)
Lemma round_nonneg (x : Q) : Qle 0 x -> Qle 0 (Double.round x).
Proof.
  intros H. unfold Double.round.
  apply Qle_bool_iff in H. rewrite H. apply round_pos_nonneg.
Qed.

Lemma seconds_nonneg (d : Q) : Qle 0 d -> Qle 0 (seconds d).
Proof.
  intros H. unfold seconds, Double.div. apply round_nonneg.
  apply Qle_shift_div_l; [reflexivity|].
  rewrite Qmult_0_l. apply round_nonneg.
  apply Qmult_le_0_compat; [exact H|discriminate].
Qed.

(** A budget of zero seconds is spent as soon as the clock reads no less
    than [begin]. *)
Lemma zero_budget_spent (settings_ : Settings.t) (begin now : Q) :
  Settings.max_runtime settings_ = 0 -> Qle begin now ->
  exceeded_max_runtime settings_ (seconds (Qminus now begin)) = true.
Proof.
  intros Z0 Le. unfold exceeded_max_runtime. rewrite Z0.
  apply andb_true_iff. split; [reflexivity|].
  apply Qle_bool_iff.
  assert (E : Double.mul (Double.round (inject_Z 0)) (Double.round (9 # 10))
              = 0%Q) by (vm_compute; reflexivity).
  rewrite E. apply seconds_nonneg.
  unfold Qminus. setoid_replace 0%Q with (begin + - begin)%Q by ring.
  apply Qplus_le_l. exact Le.
Qed.

Lemma spent_budget_returns_false
  (World : Type) (env : Env.t World) (nettest_ : Nettest.t World)
  (settings_ : Settings.t) (begin : Q) (t : string) (inputs : list string)
  (ctx : NettestContext.t) (base : string) (i : Z) (st : State World)
  (now : Q) (w1 : World) :
  Env.steady_clock_now env (world st) = (now, w1) ->
  exceeded_max_runtime settings_ (seconds (Qminus now begin)) = true ->
  run_with_index32 env nettest_ settings_ begin t inputs ctx base i st
  = Some (false,
          mkState w1
            (trace st
             ++ (if log_level_value log_info
                    <=? log_level_value (Settings.log_level settings_)
                 then [Emitted
                         (event "log"
                            (object_of
                               [("log_level", JString "INFO");
                                ("message",
                                 JString
                                   "libnettest2: exceeded max runtime")]))]
                 else []))
            (info st)).
Proof.
  intros Clock S. unfold run_with_index32, bind, the_world. rewrite Clock.
  rewrite S.
  unfold EMIT_INFO, EMIT_LOG, get_log_level, emit_ev, log_item, ret.
  destruct (log_level_value log_info
            <=? log_level_value (Settings.log_level settings_)); simpl.
  - reflexivity.
  - now rewrite app_nil_r.
Qed.

(** X16.  [run_with_index32] returns false exactly when its test of the
    runtime budget succeeds, that is when the seconds elapsed since
    [begin], as a [double], are no less than the product of doubles
    [max_runtime * 0.9]: then it returns at once, having emitted nothing
    but the INFO log line (when the log level lets it through), without
    building a record or calling the nettest; and nothing else (a failing
    nettest, a failed submission) makes it return false.  The product is
    rounded: with [max_runtime = 13] it is the double just above 11.7, so
    that a call made 11.7 s after [begin] still measures. *)
Theorem run_with_index32_false_iff_budget_spent :
  forall (World : Type) (env : Env.t World) (nettest_ : Nettest.t World)
         (settings_ : Settings.t) (begin : Q) (t : string)
         (inputs : list string) (ctx : NettestContext.t) (base : string)
         (i : Z) (st : State World) (now : Q) (w1 : World),
    Env.steady_clock_now env (world st) = (now, w1) ->
    let spent :=
      andb (0 <=? Settings.max_runtime settings_)
           (Qle_bool
              (Double.mul
                 (Double.round (inject_Z (Settings.max_runtime settings_)))
                 (Double.round (9 # 10)))
              (seconds (Qminus now begin))) in
    (spent = true ->
     run_with_index32 env nettest_ settings_ begin t inputs ctx base i st
     = Some (false,
             mkState w1
               (trace st
                ++ (if log_level_value log_info
                       <=? log_level_value (Settings.log_level settings_)
                    then [Emitted
                            (event "log"
                               (object_of
                                  [("log_level", JString "INFO");
                                   ("message",
                                    JString
                                      "libnettest2: exceeded max runtime")]))]
                    else []))
               (info st)))
    /\ (forall st',
           run_with_index32 env nettest_ settings_ begin t inputs ctx base i
             st = Some (false, st') ->
           spent = true).
Proof.
  intros World env nettest_ settings_ begin t inputs ctx base i st now w1
    Clock spent. split.
  - intros S.
    exact (spent_budget_returns_false World env nettest_ settings_ begin t
             inputs ctx base i st now w1 Clock S).
  - intros st' H.
    pose proof (run_with_index32_false env nettest_ settings_ begin t inputs
                  ctx base i st st' H) as B.
    rewrite Clock in B. exact B.
Qed.

(** The theorem on a budget of zero seconds; and a budget of 13 seconds
    at 11.7 seconds from [begin], where the call measures. *)
Lemma run_with_index32_false_iff_budget_spent_witness :
  run_with_index32 Scenario.offline Scenario.dummy_nettest
    (Settings.set_max_runtime 0 Settings.default) (inject_Z 0)
    "2018-10-01 12:00:00" [""] Scenario.context "" 0 Scenario.initial
  = Some (false, Scenario.initial)
  /\ Qle_bool (Qmult (inject_Z 13) (9 # 10))
              (Qminus (inject_Z 0) (-117 # 10)) = true
  /\ exceeded_max_runtime (Settings.set_max_runtime 13 Settings.default)
       (seconds (Qminus (inject_Z 0) (-117 # 10))) = false
  /\ exists st',
       run_with_index32 Scenario.offline Scenario.dummy_nettest
         (Settings.set_max_runtime 13 Settings.default) (-117 # 10)
         "2018-10-01 12:00:00" [""] Scenario.context "" 0 Scenario.initial
       = Some (true, st').
Proof.
  split.
  - exact (proj1 (run_with_index32_false_iff_budget_spent unit
                    Scenario.offline Scenario.dummy_nettest
                    (Settings.set_max_runtime 0 Settings.default)
                    (inject_Z 0) "2018-10-01 12:00:00" [""]
                    Scenario.context "" 0 Scenario.initial (inject_Z 0) tt
                    eq_refl)
             ltac:(vm_compute; reflexivity)).
  - split; [vm_compute; reflexivity|].
    split; [vm_compute; reflexivity|].
    eexists. vm_compute. reflexivity.
Defined.

(** X17.  Settings that [parse_settings] has read from a document
    without an ["/options/max_runtime"] entry carry a budget of zero
    seconds, which is spent as soon as the clock reads no less than
    [begin]: every call of [run_with_index32] returns false without
    measuring anything. *)
Theorem parsed_settings_without_max_runtime_measure_nothing :
  forall (parse : string -> option json) (str : string) (doc : json)
         (pst pst' : ParseSettings.PState)
         (World : Type) (env : Env.t World) (nettest_ : Nettest.t World)
         (begin : Q) (t : string) (inputs : list string)
         (ctx : NettestContext.t) (base : string) (i : Z) (st : State World)
         (now : Q) (w1 : World),
    parse str = Some doc ->
    at_pointer (ParseSettings.pointer_tokens "/options/max_runtime") doc
    = None ->
    ParseSettings.parse_settings parse str pst = (true, pst') ->
    Env.steady_clock_now env (world st) = (now, w1) ->
    Qle begin now ->
    exists T,
      run_with_index32 env nettest_ (ParseSettings.settings pst') begin t
        inputs ctx base i st
      = Some (false, mkState w1 (trace st ++ T) (info st))
      /\ forall x, In x T -> exists ev, x = Emitted (event "log" ev).
Proof.
  intros parse str doc pst pst' World env nettest_ begin t inputs ctx base i
    st now w1 P Missing Parsed Clock Le.
  pose proof (fields_uint_missing doc "/options/max_runtime"
                Settings.max_runtime UINT16_MAX pst pst'
                ltac:(simpl; tauto) Missing
                (parse_settings_fields parse str doc pst pst' P Parsed))
    as Zero.
  pose proof (spent_budget_returns_false World env nettest_
                (ParseSettings.settings pst') begin t inputs ctx base i st
                now w1 Clock) as Spent.
  eexists. split.
  - apply Spent. apply zero_budget_spent; [exact Zero|exact Le].
  - intros x I.
    destruct (log_level_value log_info
              <=? log_level_value
                    (Settings.log_level (ParseSettings.settings pst')));
      [|destruct I].
    destruct I as [<-|[]]. eexists. reflexivity.
Qed.

(** The theorem on the document [{"name": "dummy", "options":
    {"no_bouncer": 1}}]. *)
Lemma parsed_settings_without_max_runtime_measure_nothing_witness :
  exists pst' T,
    ParseSettings.parse_settings (fun _ => Some Scenario.numeric_no_bouncer)
      "" (ParseSettings.mkPState Settings.default "" "") = (true, pst')
    /\ run_with_index32 Scenario.offline Scenario.dummy_nettest
         (ParseSettings.settings pst') (inject_Z 0) "2018-10-01 12:00:00"
         [""] Scenario.context "" 0 Scenario.initial
       = Some (false, mkState tt (trace Scenario.initial ++ T)
                        (info Scenario.initial)).
Proof.
  assert (E : exists pst',
             ParseSettings.parse_settings
               (fun _ => Some Scenario.numeric_no_bouncer) ""
               (ParseSettings.mkPState Settings.default "" "")
             = (true, pst'))
    by (vm_compute; eexists; reflexivity).
  destruct E as (pst' & E). exists pst'.
  destruct (parsed_settings_without_max_runtime_measure_nothing
              (fun _ => Some Scenario.numeric_no_bouncer) ""
              Scenario.numeric_no_bouncer
              (ParseSettings.mkPState Settings.default "" "") pst' unit
              Scenario.offline Scenario.dummy_nettest (inject_Z 0)
              "2018-10-01 12:00:00" [""] Scenario.context "" 0
              Scenario.initial (inject_Z 0) tt eq_refl eq_refl E eq_refl
              ltac:(apply Qle_refl)) as (T & R & _).
  exists T. split; [exact E|exact R].
Defined.

(** ** The URLs of the collector *)

Lemma append_snoc_inj (s1 s2 : string) (c : ascii) :
  s1 +++ String c "" = s2 +++ String c "" -> s1 = s2.
Proof.
  revert s2. induction s1 as [|a s1 IH]; intros [|b s2] E; simpl in E.
  - reflexivity.
  - inversion E as [[A B]]. destruct s2; discriminate B.
  - inversion E as [[A B]]. destruct s1; discriminate B.
  - inversion E as [[A B]]. f_equal. exact (IH _ B).
Qed.

(** A string is in one way only a string that does not end in a slash
    followed by slashes. *)
Lemma stripped_unique (r1 r2 : string) (k1 k2 : nat) :
  (forall s, r1 <> s +++ "/") -> (forall s, r2 <> s +++ "/") ->
  r1 +++ slashes k1 = r2 +++ slashes k2 -> r1 = r2.
Proof.
  intros N1 N2. revert k2.
  induction k1 as [|k1 IH]; intros [|k2] E.
  - simpl in E. now rewrite !append_nil_r in E.
  - exfalso. rewrite <- slashes_snoc, <- append_assoc in E.
    simpl in E. rewrite append_nil_r in E. exact (N1 _ E).
  - exfalso. rewrite <- slashes_snoc, <- append_assoc in E.
    simpl in E. rewrite append_nil_r in E. exact (N2 _ (eq_sym E)).
  - rewrite <- !slashes_snoc, <- !append_assoc in E.
    apply append_snoc_inj in E. exact (IH _ E).
Qed.

Lemma without_final_slash_more_slashes (base : string) (k : nat) :
  without_final_slash (base +++ slashes k) = without_final_slash base.
Proof.
  unfold without_final_slash.
  destruct (without_final_slash_loop_spec (String.length base) base
              (Nat.le_refl _)) as (k1 & E1 & N1).
  destruct (without_final_slash_loop_spec
              (String.length (base +++ slashes k)) (base +++ slashes k)
              (Nat.le_refl _)) as (k2 & E2 & N2).
  apply (stripped_unique _ _ k2 (k1 + k)); [exact N2|exact N1|].
  rewrite <- E2.
  assert (S : forall a b, slashes (a + b) = slashes a +++ slashes b).
  { intros a b. induction a; simpl; congruence. }
  rewrite S, <- append_assoc, <- E1. reflexivity.
Qed.

(** X18.  The three requests to the collector do not depend on the
    slashes that end the collector's base URL: [open_report],
    [update_report] and [close_report] behave on a base URL followed by
    any number of slashes as they do on the base URL. *)
Theorem collector_requests_ignore_final_slashes :
  forall (World : Type) (env : Env.t World) (nettest_ : Nettest.t World)
         (settings_ : Settings.t) (base : string) (k : nat)
         (t : string) (ctx : NettestContext.t) (rid str : string)
         (err : ErrContext.t) (st : State World),
    open_report env nettest_ settings_ (base +++ slashes k) t ctx rid err st
    = open_report env nettest_ settings_ base t ctx rid err st
    /\ update_report env settings_ (base +++ slashes k) rid str err st
       = update_report env settings_ base rid str err st
    /\ close_report env settings_ (base +++ slashes k) rid err st
       = close_report env settings_ base rid err st.
Proof.
  intros. unfold open_report, update_report, close_report.
  rewrite !without_final_slash_more_slashes. auto.
Qed.

(** ** [open_report] *)

(** X19.  [open_report] always returns.  When it returns false,
    [*report_id] is empty, whatever it held before the call; when it
    returns true, the POST to [<base>/report] succeeded, its reply parses
    to a document with a string under ["report_id"], and [*report_id] is
    that string. *)
Theorem open_report_never_keeps_a_stale_id :
  forall (World : Type) (env : Env.t World) (nettest_ : Nettest.t World)
         (settings_ : Settings.t) (base t : string)
         (ctx : NettestContext.t) (rid : string) (err : ErrContext.t)
         (st : State World),
    exists ok id err' st',
      open_report env nettest_ settings_ base t ctx rid err st
      = Some ((ok, id, err'), st')
      /\ (ok = false -> id = "")
      /\ (ok = true ->
          exists request reply b e w doc,
            Env.curlx_post_json env (without_final_slash base +++ "/report")
              request curl_timeout (info st) err (world st)
            = (true, reply, b, e, w)
            /\ Env.json_parse env reply = inl doc
            /\ at_key "report_id" doc = Some (JString id)).
Proof.
  intros. unfold open_report.
  cbn [set_path option_bind StdMap.find StdMap.insert_or_assign
       String.compare Ascii.compare].
  unfold bind at 1. unfold or_terminate at 1.
  cbn -[without_final_slash].
  match goal with
  | |- context [Env.json_dump env ?d] =>
      destruct (Env.json_dump env d) as [request|what]
  end.
  - unfold bind, EMIT_DEBUG, EMIT_WARNING, EMIT_LOG, emit_ev, log_item, ret,
      curlx_post_json, get_log_level.
    destruct (log_level_value log_debug
              <=? log_level_value (Settings.log_level settings_));
      destruct (log_level_value log_warning
                <=? log_level_value (Settings.log_level settings_));
      cbn -[without_final_slash];
      destruct (Env.curlx_post_json env _ request curl_timeout (info st) err
                  (world st)) as [[[[ok reply] b] e] w] eqn:Post;
      destruct ok; cbn -[without_final_slash];
      try (do 4 eexists; split; [reflexivity|]; split;
           [reflexivity|discriminate]);
      destruct (Env.json_parse env reply) as [doc|what] eqn:Parse;
      cbn -[without_final_slash];
      try (do 4 eexists; split; [reflexivity|]; split;
           [reflexivity|discriminate]);
      destruct (at_key "report_id" doc) as [x|] eqn:Key;
      try (destruct x); cbn -[without_final_slash];
      try (do 4 eexists; split; [reflexivity|]; split;
           [reflexivity|discriminate]);
      (do 4 eexists; split; [reflexivity|]; split; [discriminate|]);
      intros _; exists request, reply, b, e, w, doc; auto.
  - unfold bind, EMIT_WARNING, EMIT_LOG, emit_ev, log_item, ret,
      get_log_level.
    destruct (log_level_value log_warning
              <=? log_level_value (Settings.log_level settings_)); cbn;
      do 4 eexists; (split; [reflexivity|]); split;
      (reflexivity || discriminate).
Qed.

(** ** The annotations and the test helpers of a record *)

Lemma find_map_values {A B : Type} (f : A -> B) (k : string)
  (m : StdMap.t A) :
  StdMap.find k (StdMap.map_values f m) = option_map f (StdMap.find k m).
Proof.
  induction m as [|[k' v] m IH]; simpl; [reflexivity|].
  destruct (String.eqb k k'); [reflexivity|exact IH].
Qed.

Section HelperFacts.

(** One endpoint replaces what stands under the helper's name. *)
Lemma add_test_helper_entry key epnt o h :
  StdMap.find "test_helpers" o = Some (JObject h) ->
  add_test_helper key (JObject o) epnt
  = Some (JObject
            (StdMap.insert_or_assign "test_helpers"
               (JObject (StdMap.insert_or_assign key (helper_entry epnt) h))
               o)).
Proof.
  intros F. unfold add_test_helper, helper_entry.
  repeat match goal with
         | |- context [if ?c then _ else _] => destruct c
         end;
    repeat (progress (cbn [set_path option_bind StdMap.empty];
                      rewrite ?F, ?find_insert_same, ?insert_insert_same));
    reflexivity.
Qed.

Lemma add_test_helpers_members helpers o h :
  add_test_helpers helpers
    (JObject (StdMap.insert_or_assign "test_helpers" (JObject h) o))
  = Some (JObject (StdMap.insert_or_assign "test_helpers"
                     (JObject (helpers_object helpers h)) o)).
Proof.
  unfold add_test_helpers, helpers_object.
  revert h. induction helpers as [|[key l] helpers IH]; intros h;
    [reflexivity|].
  cbn [fold_left fst snd].
  assert (Inner : forall h',
             fold_left
               (fun m epnt =>
                  option_bind m (fun m => add_test_helper key m epnt))
               l (Some (JObject (StdMap.insert_or_assign "test_helpers"
                                   (JObject h') o)))
             = Some (JObject
                       (StdMap.insert_or_assign "test_helpers"
                          (JObject
                             (fold_left
                                (fun h epnt =>
                                   StdMap.insert_or_assign key
                                     (helper_entry epnt) h) l h')) o))).
  { induction l as [|e l IHl]; intros h'; [reflexivity|].
    cbn [fold_left option_bind].
    rewrite (add_test_helper_entry key e _ h' (find_insert_same _ _ _)).
    rewrite insert_insert_same. apply IHl. }
  rewrite Inner. apply IH.
Qed.

Lemma add_test_helpers_from_empty helpers o :
  StdMap.insert_or_assign "test_helpers" (JObject []) o = o ->
  add_test_helpers helpers (JObject o)
  = Some (JObject (StdMap.insert_or_assign "test_helpers"
                     (JObject (helpers_object helpers [])) o)).
Proof.
  intros E. rewrite <- E at 1. rewrite add_test_helpers_members.
  reflexivity.
Qed.

(** The endpoints of one helper: the last one stays. *)
Lemma endpoints_last key (l : list EndpointInfo.t) e h :
  fold_left
    (fun h epnt => StdMap.insert_or_assign key (helper_entry epnt) h)
    (l ++ [e]) h
  = StdMap.insert_or_assign key (helper_entry e)
      (fold_left
         (fun h epnt => StdMap.insert_or_assign key (helper_entry epnt) h)
         l h).
Proof. now rewrite fold_left_app. Qed.

Lemma endpoints_other key (l : list EndpointInfo.t) k h :
  key <> k ->
  StdMap.find k
    (fold_left
       (fun h epnt => StdMap.insert_or_assign key (helper_entry epnt) h)
       l h)
  = StdMap.find k h.
Proof.
  intros N. revert h. induction l as [|e l IH]; intros h; [reflexivity|].
  cbn [fold_left]. rewrite IH. now apply find_insert_other.
Qed.

Lemma endpoints_none key h :
  fold_left
    (fun h (epnt : EndpointInfo.t) =>
       StdMap.insert_or_assign key (helper_entry epnt) h) [] h = h.
Proof. reflexivity. Qed.

(** The members of [test_helpers], by name. *)
Lemma helpers_object_find helpers h k :
  NoDup (List.map fst helpers) ->
  StdMap.find k (helpers_object helpers h)
  = match StdMap.find k helpers with
    | Some l =>
        match rev l with
        | e :: _ => Some (helper_entry e)
        | [] => StdMap.find k h
        end
    | None => StdMap.find k h
    end.
Proof.
  unfold helpers_object. intros ND. revert h.
  induction helpers as [|[key l] helpers IH]; intros h; [reflexivity|].
  cbn [fold_left fst snd StdMap.find].
  inversion ND as [|? ? Notin ND']; subst.
  rewrite (IH ND').
  destruct (String.eqb_spec k key) as [->|NE].
  - assert (F : StdMap.find key helpers = None).
    { clear -Notin. induction helpers as [|[k' l'] helpers IH]; simpl;
        [reflexivity|].
      simpl in Notin.
      destruct (String.eqb_spec key k') as [->|_]; [tauto|].
      apply IH. tauto. }
    rewrite F.
    destruct (rev l) as [|e r] eqn:R.
    + apply (f_equal (@rev _)) in R. rewrite rev_involutive in R.
      subst l. reflexivity.
    + apply (f_equal (@rev _)) in R. rewrite rev_involutive in R.
      subst l. cbn [rev]. rewrite endpoints_last. apply find_insert_same.
  - assert (E : StdMap.find k
                  (fold_left
                     (fun h epnt =>
                        StdMap.insert_or_assign key (helper_entry epnt) h)
                     l h) = StdMap.find k h)
      by (apply endpoints_other; congruence).
    destruct (StdMap.find k helpers) as [l'|]; [|exact E].
    destruct (rev l'); [exact E|reflexivity].
Qed.
End HelperFacts.

(** Name the next result that [make_measurement] takes from the world,
    keeping the members of [test_helpers]. *)
Ltac oracle_members :=
  match goal with
  | |- context [add_test_helpers ?h (JObject ?o)] =>
      rewrite (add_test_helpers_from_empty h o eq_refl)
  | _ => oracle
  end.

Section RecordMembers.
Context {World : Type}.
Variable env : Env.t World.
Variable nettest_ : Nettest.t World.
Variable settings_ : Settings.t.

Lemma make_measurement_members t inputs ctx i st rv m st' :
  make_measurement env nettest_ settings_ t inputs ctx i st
  = Some ((rv, m), st') ->
  at_key "annotations" m
  = Some
      (JObject
         (StdMap.insert_or_assign "probe_network_name"
            (JString (if Settings.save_real_probe_asn settings_
                      then NettestContext.probe_network_name ctx else ""))
            (StdMap.insert_or_assign "platform"
               (JString (if negb (String.eqb (Settings.platform settings_)
                                    "")
                         then Settings.platform settings_
                         else Env.LIBNETTEST2_PLATFORM env))
               (StdMap.insert_or_assign "engine_version_full"
                  (JString (Settings.engine_version_full settings_))
                  (StdMap.insert_or_assign "engine_version"
                     (JString (Settings.engine_version settings_))
                     (StdMap.insert_or_assign "engine_name"
                        (JString (Settings.engine_name settings_))
                        (StdMap.map_values JString
                           (Settings.annotations settings_))))))))
  /\ at_key "test_helpers" m
     = Some (JObject (helpers_object (NettestContext.test_helpers ctx) [])).
Proof.
  unfold_measurement. unfold of_string_map.
  destruct (i <? 0) eqn:Hi;
    [cbn; repeat (oracle_members; cbn); discriminate|].
  destruct (nth_error inputs (Z.to_nat i)) as [input|] eqn:Hin;
    [|cbn; repeat (oracle_members; cbn); discriminate].
  repeat (cbn; oracle_members). cbn.
  match goal with
  | |- context [match ?j with JNull => _ | _ => _ end] =>
      destruct j; cbn; try discriminate
  end;
    intros H; inversion H; subst; clear H; split; reflexivity.
Qed.
End RecordMembers.

(** X20.  In every record built by [run_with_index32] the annotations
    [engine_name], [engine_version], [engine_version_full], [platform] and
    [probe_network_name] are the Runner's own, also when the settings
    carry an annotation of the same name: [platform] is the setting, or
    the platform the library was built for when the setting is empty, and
    [probe_network_name] is withheld unless [save_real_probe_asn] is true.
    Every other annotation of the settings is in the record as it is.  A
    record is built for every index of the input list, given a nettest
    that leaves [*test_keys] null or an object. *)
Theorem runner_annotations_override_the_settings :
  forall (World : Type) (env : Env.t World) (nettest_ : Nettest.t World)
         (settings_ : Settings.t) (t : string) (inputs : list string)
         (ctx : NettestContext.t) (i : Z) (st : State World),
    (forall rv m st',
        make_measurement env nettest_ settings_ t inputs ctx i st
        = Some ((rv, m), st') ->
        exists a,
          at_key "annotations" m = Some (JObject a)
          /\ StdMap.find "engine_name" a
             = Some (JString (Settings.engine_name settings_))
          /\ StdMap.find "engine_version" a
             = Some (JString (Settings.engine_version settings_))
          /\ StdMap.find "engine_version_full" a
             = Some (JString (Settings.engine_version_full settings_))
          /\ StdMap.find "platform" a
             = Some (JString
                       (if String.eqb (Settings.platform settings_) ""
                        then Env.LIBNETTEST2_PLATFORM env
                        else Settings.platform settings_))
          /\ StdMap.find "probe_network_name" a
             = Some (JString
                       (if Settings.save_real_probe_asn settings_
                        then NettestContext.probe_network_name ctx
                        else ""))
          /\ forall k,
               ~ In k ["engine_name"; "engine_version";
                       "engine_version_full"; "platform";
                       "probe_network_name"] ->
               StdMap.find k a
               = option_map JString
                   (StdMap.find k (Settings.annotations settings_)))
    /\ (fills_test_keys nettest_ ->
        0 <= i < Z.of_nat (List.length inputs) ->
        exists rv m st',
          make_measurement env nettest_ settings_ t inputs ctx i st
          = Some ((rv, m), st')).
Proof.
  intros World env nettest_ settings_ t inputs ctx i st. split.
  - intros rv m st' H.
    destruct (make_measurement_members env nettest_ settings_ t inputs ctx i
                st rv m st' H) as (A & _).
    eexists. split; [exact A|].
    repeat split.
    + repeat (rewrite find_insert_other by discriminate).
      apply find_insert_same.
    + repeat (rewrite find_insert_other by discriminate).
      apply find_insert_same.
    + repeat (rewrite find_insert_other by discriminate).
      apply find_insert_same.
    + rewrite find_insert_other by discriminate.
      rewrite find_insert_same.
      destruct (String.eqb (Settings.platform settings_) ""); reflexivity.
    + apply find_insert_same.
    + intros k N. simpl in N.
      repeat (rewrite find_insert_other by (intros E; apply N; auto 6)).
      apply find_map_values.
  - intros contract R.
    destruct (yields_make_measurement env nettest_ settings_ contract t
                inputs ctx i R st) as ([rv m] & st' & T & E & _).
    now exists rv, m, st'.
Qed.

(** The theorem on settings that carry an [engine_name] annotation of
    their own and one more annotation. *)
Lemma runner_annotations_override_the_settings_witness :
  exists rv m st' a,
    make_measurement Scenario.offline Scenario.dummy_nettest
      (Settings.set_annotations
         [("engine_name", "mine"); ("purpose", "test")] Settings.default)
      "2018-10-01 12:00:00" [""] Scenario.context 0 Scenario.initial
    = Some ((rv, m), st')
    /\ at_key "annotations" m = Some (JObject a)
    /\ StdMap.find "engine_name" a = Some (JString "libnettest2")
    /\ StdMap.find "purpose" a = Some (JString "test").
Proof.
  destruct (runner_annotations_override_the_settings unit Scenario.offline
              Scenario.dummy_nettest
              (Settings.set_annotations
                 [("engine_name", "mine"); ("purpose", "test")]
                 Settings.default)
              "2018-10-01 12:00:00" [""] Scenario.context 0 Scenario.initial)
    as (Fields & Built).
  destruct Built as (rv & m & st' & Make).
  - intros s c input b w. simpl. left. reflexivity.
  - simpl. lia.
  - destruct (Fields rv m st' Make) as (a & A & Name & _ & _ & _ & _ & Rest).
    exists rv, m, st', a. split; [exact Make|]. split; [exact A|].
    split; [exact Name|].
    rewrite Rest; [reflexivity|].
    simpl. intros [E|[E|[E|[E|[E|[]]]]]]; discriminate E.
Defined.

(** X21.  In every record built by [run_with_index32], [test_helpers]
    has one member for each helper of the context that has an endpoint,
    and the member describes the last endpoint of the helper (its address;
    its type when it is onion, https or cloudfront; its front when it is
    cloudfront): the endpoints before the last leave nothing.  A record is
    built for every index of the input list, given a nettest that leaves
    [*test_keys] null or an object. *)
Theorem test_helpers_describe_the_last_endpoint :
  forall (World : Type) (env : Env.t World) (nettest_ : Nettest.t World)
         (settings_ : Settings.t) (t : string) (inputs : list string)
         (ctx : NettestContext.t) (i : Z) (st : State World),
    NoDup (List.map fst (NettestContext.test_helpers ctx)) ->
    (forall rv m st',
        make_measurement env nettest_ settings_ t inputs ctx i st
        = Some ((rv, m), st') ->
        exists h,
          at_key "test_helpers" m = Some (JObject h)
          /\ forall key,
               StdMap.find key h
               = match StdMap.find key (NettestContext.test_helpers ctx) with
                 | Some endpoints =>
                     match rev endpoints with
                     | last :: _ => Some (helper_entry last)
                     | [] => None
                     end
                 | None => None
                 end)
    /\ (fills_test_keys nettest_ ->
        0 <= i < Z.of_nat (List.length inputs) ->
        exists rv m st',
          make_measurement env nettest_ settings_ t inputs ctx i st
          = Some ((rv, m), st')).
Proof.
  intros World env nettest_ settings_ t inputs ctx i st ND. split.
  - intros rv m st' H.
    destruct (make_measurement_members env nettest_ settings_ t inputs ctx i
                st rv m st' H) as (_ & Hh).
    eexists. split; [exact Hh|].
    intros key. rewrite (helpers_object_find _ [] key ND).
    destruct (StdMap.find key (NettestContext.test_helpers ctx)) as [l|];
      [|reflexivity].
    destruct (rev l); reflexivity.
  - intros contract R.
    destruct (yields_make_measurement env nettest_ settings_ contract t
                inputs ctx i R st) as ([rv m] & st' & T & E & _).
    now exists rv, m, st'.
Qed.

(** The theorem on a context with two endpoints for the helper
    [backend]: the record has the second one, a cloudfront endpoint. *)
Lemma test_helpers_describe_the_last_endpoint_witness :
  exists rv m st' h,
    make_measurement Scenario.offline Scenario.dummy_nettest
      Settings.default "2018-10-01 12:00:00" [""]
      (NettestContext.set_test_helpers
         [("backend",
           [EndpointInfo.mk endpoint_type_onion "httpo://xyz.onion" "";
            EndpointInfo.mk endpoint_type_cloudfront
              "https://d.cloudfront.net" "a.ssl.fastly.net"])]
         Scenario.context) 0 Scenario.initial
    = Some ((rv, m), st')
    /\ at_key "test_helpers" m = Some (JObject h)
    /\ StdMap.find "backend" h
       = Some (object_of
                 [("address", JString "https://d.cloudfront.net");
                  ("front", JString "a.ssl.fastly.net");
                  ("type", JString "cloudfront")]).
Proof.
  destruct (test_helpers_describe_the_last_endpoint unit Scenario.offline
              Scenario.dummy_nettest Settings.default "2018-10-01 12:00:00"
              [""]
              (NettestContext.set_test_helpers
                 [("backend",
                   [EndpointInfo.mk endpoint_type_onion "httpo://xyz.onion"
                      "";
                    EndpointInfo.mk endpoint_type_cloudfront
                      "https://d.cloudfront.net" "a.ssl.fastly.net"])]
                 Scenario.context) 0 Scenario.initial)
    as (Fields & Built).
  - simpl. constructor; [simpl; tauto|constructor].
  - destruct Built as (rv & m & st' & Make).
    + intros s c input b w. simpl. left. reflexivity.
    + simpl. lia.
    + destruct (Fields rv m st' Make) as (h & Hh & Find).
      exists rv, m, st', h. split; [exact Make|]. split; [exact Hh|].
      rewrite Find. reflexivity.
Defined.

(** ** What a run leaves in the history *)

Section OnlyFacts.
Context {World : Type}.
Variable env : Env.t World.
Variable nettest_ : Nettest.t World.
Variable settings_ : Settings.t.
Variable P : Item -> Prop.

Local Open Scope runner_scope.

Lemma only_ret {A : Type} (a : A) : only P (@ret World A a).
Proof.
  intros st. exists a, st, []. repeat split; [|constructor].
  now rewrite app_nil_r.
Qed.

Lemma only_bind {A B : Type} (m : M World A) (k : A -> M World B) :
  only P m -> (forall a, only P (k a)) -> only P (bind m k).
Proof.
  intros Hm Hk st. destruct (Hm st) as (a & st1 & T1 & E1 & Tr1 & F1).
  destruct (Hk a st1) as (b & st2 & T2 & E2 & Tr2 & F2).
  exists b, st2, (T1 ++ T2). unfold bind. rewrite E1. split; [exact E2|].
  split.
  - now rewrite Tr2, Tr1, app_assoc.
  - apply Forall_app. auto.
Qed.

(** The same, keeping what is known of the value handed over. *)
Lemma only_bind_post {A B : Type} (Q : A -> Prop) (m : M World A)
    (k : A -> M World B) :
  only P m -> returns Q m -> (forall a, Q a -> only P (k a)) ->
  only P (bind m k).
Proof.
  intros Hm HQ Hk st. destruct (Hm st) as (a & st1 & T1 & E1 & Tr1 & F1).
  destruct (Hk a (HQ st a st1 E1) st1) as (b & st2 & T2 & E2 & Tr2 & F2).
  exists b, st2, (T1 ++ T2). unfold bind. rewrite E1. split; [exact E2|].
  split.
  - now rewrite Tr2, Tr1, app_assoc.
  - apply Forall_app. auto.
Qed.

Lemma only_log_item (x : Item) : P x -> only P (@log_item World x).
Proof.
  intros H st.
  exists tt, (mkState (world st) (trace st ++ [x]) (info st)), [x].
  repeat split. constructor; [exact H|constructor].
Qed.

Lemma only_emit_ev (key : string) (value : json) :
  P (Emitted (event key value)) -> only P (@emit_ev World key value).
Proof. apply only_log_item. Qed.

(** A computation that leaves the history alone. *)
Lemma only_untraced {A : Type} (m : M World A) :
  (forall st, exists a st', m st = Some (a, st') /\ trace st' = trace st) ->
  only P m.
Proof.
  intros H st. destruct (H st) as (a & st' & E & Tr).
  exists a, st', []. repeat split; [exact E| |constructor].
  now rewrite app_nil_r.
Qed.

Lemma only_the_world {A : Type} (f : World -> A * World) :
  only P (the_world f).
Proof.
  apply only_untraced. intros st. unfold the_world.
  destruct (f (world st)) as [a w]. eexists _, _. split; reflexivity.
Qed.

Lemma only_get_info : only P (@get_info World).
Proof.
  apply only_untraced. intros st. eexists _, _. split; reflexivity.
Qed.

Lemma only_put_info (b : BytesInfo.t) : only P (@put_info World b).
Proof.
  apply only_untraced. intros st. eexists _, _. split; reflexivity.
Qed.

Lemma only_curlx_post_json url body timeout err :
  only P (curlx_post_json env url body timeout err).
Proof.
  apply only_untraced. intros st. unfold curlx_post_json.
  destruct (Env.curlx_post_json env url body timeout (info st) err (world st))
    as [[[[ok rb] b] e] w].
  eexists _, _. split; reflexivity.
Qed.

Lemma only_curlx_get url timeout err :
  only P (curlx_get env url timeout err).
Proof.
  apply only_untraced. intros st. unfold curlx_get.
  destruct (Env.curlx_get env url timeout (info st) err (world st))
    as [[[[ok rb] b] e] w].
  eexists _, _. split; reflexivity.
Qed.

Lemma only_query_bouncer name helpers version cs hs err :
  only P (query_bouncer env name helpers version cs hs err).
Proof.
  apply only_untraced. intros st. unfold query_bouncer.
  destruct (Env.query_bouncer env name helpers version cs hs (info st) err
              (world st)) as [[[[[ok cs'] hs'] b] e] w].
  eexists _, _. split; reflexivity.
Qed.

Lemma only_lookup_asn dbpath ip asn network_name err :
  only P (lookup_asn env dbpath ip asn network_name err).
Proof.
  apply only_untraced. intros st. unfold lookup_asn.
  destruct (Env.lookup_asn env dbpath ip asn network_name err (world st))
    as [[[[ok asn'] name'] e] w].
  eexists _, _. split; reflexivity.
Qed.

Lemma only_lookup_cc dbpath ip cc err :
  only P (lookup_cc env dbpath ip cc err).
Proof.
  apply only_untraced. intros st. unfold lookup_cc.
  destruct (Env.lookup_cc env dbpath ip cc err (world st))
    as [[[ok cc'] e] w].
  eexists _, _. split; reflexivity.
Qed.

Lemma only_lookup_resolver_ip ip err :
  only P (lookup_resolver_ip env ip err).
Proof.
  apply only_untraced. intros st. unfold lookup_resolver_ip.
  destruct (Env.lookup_resolver_ip env ip (info st) err (world st))
    as [[[[ok ip'] b] e] w].
  eexists _, _. split; reflexivity.
Qed.
End OnlyFacts.

Section MayLogFacts.
Context {World : Type}.
Variable env : Env.t World.
Variable nettest_ : Nettest.t World.
Variable settings_ : Settings.t.

Local Open Scope runner_scope.
Local Abbreviation logged := (may_log env nettest_ settings_).

Lemma only_EMIT_LOG level upper msg :
  In (level, upper) log_levels ->
  only logged (@EMIT_LOG World settings_ level upper msg).
Proof.
  intros L. unfold EMIT_LOG, get_log_level.
  destruct (Z.leb_spec (log_level_value level)
              (log_level_value (Settings.log_level settings_))).
  - apply only_emit_ev. now apply log_line with (level := level).
  - apply only_ret.
Qed.

Lemma only_event (key : string) (l : list (string * json)) :
  In key event_keys ->
  only logged (@emit_ev World key (object_of l)).
Proof. intros K. apply only_emit_ev. now apply log_event. Qed.

Lemma only_empty_event (key : string) :
  In key event_keys -> only logged (@emit_ev World key (JObject [])).
Proof. intros K. apply only_emit_ev. now apply log_event. Qed.

Lemma only_progress (q : Q) (message : string) :
  only logged (@progress World q message).
Proof. apply only_event. simpl. tauto. Qed.
End MayLogFacts.

(** Walk through a computation, leaving the calls to be justified. *)
Ltac sift :=
  repeat
    match goal with
    | |- only _ (bind _ _) => apply only_bind; [|intros]
    | |- only _ (ret _) => apply only_ret
    | |- only _ (the_world _) => apply only_the_world
    | |- only _ get_info => apply only_get_info
    | |- only _ (put_info _) => apply only_put_info
    | |- only _ (EMIT_WARNING _ _) =>
        apply only_EMIT_LOG; simpl; tauto
    | |- only _ (EMIT_INFO _ _) => apply only_EMIT_LOG; simpl; tauto
    | |- only _ (EMIT_DEBUG _ _) => apply only_EMIT_LOG; simpl; tauto
    | |- only _ (progress _ _) => apply only_progress
    | |- only _ (curlx_post_json _ _ _ _ _) => apply only_curlx_post_json
    | |- only _ (curlx_get _ _ _ _) => apply only_curlx_get
    | |- only _ (query_bouncer _ _ _ _ _ _ _) => apply only_query_bouncer
    | |- only _ (lookup_asn _ _ _ _ _ _) => apply only_lookup_asn
    | |- only _ (lookup_cc _ _ _ _ _) => apply only_lookup_cc
    | |- only _ (lookup_resolver_ip _ _ _) => apply only_lookup_resolver_ip
    | |- only _ (emit_ev _ (library_error _)) =>
        unfold library_error; apply only_event; simpl; tauto
    | |- only _ (emit_ev _ (object_of _)) =>
        apply only_event; simpl; tauto
    | |- only _ (emit_ev _ (JObject [])) =>
        apply only_empty_event; simpl; tauto
    | |- only _ (or_terminate (Some _)) => apply only_ret
    | |- only _ (if ?c then _ else _) => destruct c eqn:?
    | |- only _ (match ?x with inl _ => _ | inr _ => _ end) => destruct x
    | |- only _ (match ?x with Some _ => _ | None => _ end) =>
        destruct x eqn:?
    | |- only _ (match ?x with (_, _) => _ end) => destruct x
    end.

Section MayLogMethods.
Context {World : Type}.
Variable env : Env.t World.
Variable nettest_ : Nettest.t World.
Variable settings_ : Settings.t.

Local Open Scope runner_scope.
Local Abbreviation logged := (may_log env nettest_ settings_).

Lemma only_lookup_ip ip err : only logged (lookup_ip env settings_ ip err).
Proof. unfold lookup_ip. sift. Qed.

Lemma only_open_report base t ctx rid err :
  only logged (open_report env nettest_ settings_ base t ctx rid err).
Proof. unfold open_report. cbn [set_path option_bind]. sift. Qed.

Lemma only_update_report base rid str err :
  only logged (update_report env settings_ base rid str err).
Proof. unfold update_report. cbn [set_path option_bind]. sift. Qed.

Lemma only_close_report base rid err :
  only logged (close_report env settings_ base rid err).
Proof. unfold close_report. sift. Qed.

Lemma only_submit_measurement ctx base i m :
  only logged (submit_measurement env settings_ ctx base i m).
Proof.
  unfold submit_measurement.
  destruct (Env.json_dump env m) as [str|what]; [|sift].
  apply only_bind; [|intros; sift].
  destruct (Settings.no_collector settings_) eqn:NC; cbn [negb andb].
  - sift.
  - destruct (String.eqb_spec (NettestContext.report_id ctx) "") as [E|NE];
      cbn [negb]; [sift|].
    apply only_bind; [|intros].
    + apply only_log_item. now apply log_update_report.
    + apply only_bind; [apply only_update_report|intros [ok err]]. sift.
Qed.

Lemma only_input_at (inputs : list string) (i : Z) :
  0 <= i < Z.of_nat (List.length inputs) ->
  only logged (@input_at World inputs i).
Proof.
  intros R. unfold input_at.
  destruct (i <? 0) eqn:Hi; [lia|].
  destruct (nth_error inputs (Z.to_nat i)) eqn:Hn.
  - apply only_ret.
  - apply nth_error_None in Hn. lia.
Qed.

Hypothesis contract : fills_test_keys nettest_.

Lemma only_make_measurement t inputs ctx i :
  shared_inputs env nettest_ settings_ inputs ->
  0 <= i < Z.of_nat (List.length inputs) ->
  only logged (make_measurement env nettest_ settings_ t inputs ctx i).
Proof.
  intros S R st. unfold_measurement.
  destruct (i <? 0) eqn:Hi; [lia|].
  destruct (nth_error inputs (Z.to_nat i)) as [input|] eqn:Hn;
    [|apply nth_error_None in Hn; lia].
  assert (L : logged (Called (call_nettest_run input))).
  { apply (log_nettest_run env nettest_ settings_ inputs input S).
    exact (nth_error_In _ _ Hn). }
  repeat (cbn; oracle). cbn.
  match goal with
  | H : Nettest.run _ _ _ _ JNull ?b ?w = (_, ?j, _, _) |- _ =>
      pose proof (contract settings_ ctx input b w) as C;
      rewrite H in C; simpl in C
  end.
  destruct C as [->|C];
    [|match type of C with is_object ?j = true =>
        destruct j; try discriminate C end];
    cbn; eexists _, _, [_]; (split; [reflexivity|]); (split; [reflexivity|]);
    (constructor; [exact L|constructor]).
Qed.

Lemma only_run_with_index32 begin t inputs ctx base i :
  shared_inputs env nettest_ settings_ inputs ->
  0 <= i < Z.of_nat (List.length inputs) ->
  only logged
    (run_with_index32 env nettest_ settings_ begin t inputs ctx base i).
Proof.
  intros S R. unfold run_with_index32. sift;
    first [ now apply only_input_at
          | now apply only_make_measurement
          | apply only_submit_measurement
          | idtac ].
Qed.

(** *** The stages *)

Lemma only_bouncer_stage ctx :
  only logged (bouncer_stage env nettest_ settings_ ctx).
Proof.
  unfold bouncer_stage.
  destruct (Settings.no_bouncer settings_) eqn:NB; cbn [negb]; [sift|].
  apply only_bind; [|intros; sift].
  apply only_log_item. now apply log_query_bouncer.
Qed.

Lemma only_probe_ip_stage ctx :
  only logged (probe_ip_stage env settings_ ctx).
Proof.
  unfold probe_ip_stage.
  destruct (String.eqb_spec (Settings.probe_ip settings_) "") as [E|NE];
    [|sift].
  destruct (Settings.no_ip_lookup settings_) eqn:N; cbn [negb]; [sift|].
  apply only_bind; [|intros].
  - apply only_log_item. now apply log_lookup_ip.
  - apply only_bind; [apply only_lookup_ip|intros]. sift.
Qed.

Lemma only_probe_asn_stage ctx :
  only logged (probe_asn_stage env settings_ ctx).
Proof.
  unfold probe_asn_stage.
  destruct (String.eqb_spec (Settings.probe_asn settings_) "") as [E|NE];
    [|sift].
  destruct (Settings.no_asn_lookup settings_) eqn:N; cbn [negb]; [sift|].
  apply only_bind; [|intros; sift].
  apply only_log_item. now apply log_lookup_asn.
Qed.

Lemma only_probe_cc_stage ctx :
  only logged (probe_cc_stage env settings_ ctx).
Proof.
  unfold probe_cc_stage.
  destruct (String.eqb_spec (Settings.probe_cc settings_) "") as [E|NE];
    [|sift].
  destruct (Settings.no_cc_lookup settings_) eqn:N; cbn [negb]; [sift|].
  apply only_bind; [|intros; sift].
  apply only_log_item. now apply log_lookup_cc.
Qed.

Lemma only_geoip_events ctx : only logged (@geoip_events World ctx).
Proof. unfold geoip_events. sift. Qed.

Lemma only_resolver_stage ctx :
  only logged (resolver_stage env settings_ ctx).
Proof.
  unfold resolver_stage. apply only_bind; [|intros; sift].
  destruct (Settings.no_resolver_lookup settings_) eqn:N; cbn [negb];
    [sift|].
  apply only_bind; [|intros; sift].
  apply only_log_item. now apply log_lookup_resolver_ip.
Qed.

Lemma only_select_collector collectors base :
  only logged (@select_collector World settings_ collectors base).
Proof.
  induction collectors as [|epnt collectors IH]; simpl.
  - apply only_ret.
  - destruct (_ =? _); [sift|exact IH].
Qed.

Lemma only_open_report_stage ctx t :
  only logged (open_report_stage env nettest_ settings_ ctx t).
Proof.
  unfold open_report_stage.
  destruct (Settings.no_collector settings_) eqn:NC; cbn [negb]; [sift|].
  destruct (String.eqb_spec (Settings.collector_base_url settings_) "")
    as [E|NE]; [|sift].
  apply only_bind; [apply only_select_collector|intros base].
  apply only_bind; [sift|intros _].
  apply only_bind; [|intros _].
  - apply only_log_item. now apply log_open_report.
  - apply only_bind; [apply only_open_report|intros]. sift.
Qed.

Lemma only_close_report_stage ctx base :
  only logged (close_report_stage env settings_ ctx base).
Proof.
  unfold close_report_stage.
  destruct (Settings.no_collector settings_) eqn:NC; cbn [negb andb];
    [sift|].
  destruct (String.eqb_spec (NettestContext.report_id ctx) "") as [E|NE];
    cbn [negb]; [sift|].
  apply only_bind; [|intros _].
  - apply only_log_item. now apply log_close_report.
  - apply only_bind; [apply only_close_report|intros]. sift.
Qed.

Lemma only_dispatch parallelism begin t inputs ctx base :
  shared_inputs env nettest_ settings_ inputs ->
  only logged
    (dispatch env nettest_ settings_ parallelism begin t inputs ctx base).
Proof.
  intros S st.
  set (R := fun s s' : State World =>
              exists T, trace s' = trace s ++ T /\ Forall logged T).
  destruct (dispatch_keeps env nettest_ settings_ R parallelism begin t
              inputs ctx base) with (st := st) as (st' & E & T & Tr & F).
  - intros s. exists []. split; [now rewrite app_nil_r|constructor].
  - intros s1 s2 s3 (T1 & E1 & F1) (T2 & E2 & F2). exists (T1 ++ T2). split.
    + now rewrite E2, E1, app_assoc.
    + apply Forall_app. auto.
  - intros s w. exists []. simpl. split; [now rewrite app_nil_r|constructor].
  - intros idx s Rg.
    destruct (only_run_with_index32 begin t inputs ctx base idx S Rg s)
      as (r & s' & T & E & Tr & F).
    exists r, s'. split; [exact E|]. exists T. auto.
  - exists tt, st', T. auto.
Qed.

Lemma only_measure_stage ctx base t :
  only logged (measure_stage env nettest_ settings_ ctx base t).
Proof.
  unfold measure_stage.
  destruct (andb _ _); [sift|].
  apply (only_bind_post _
           (fun inputs => inputs = candidates nettest_ settings_)).
  - sift.
  - unfold candidates. destruct (Nettest.needs_input nettest_).
    + apply returns_ret. reflexivity.
    + apply returns_bind. intros _. apply returns_ret. reflexivity.
  - intros inputs ->.
    apply (only_bind_post _ (shared_inputs env nettest_ settings_)).
    + sift.
    + unfold shared_inputs.
      destruct (Settings.randomize_input settings_).
      * intros st a st' E. unfold the_world in E.
        destruct (Env.shuffle env (candidates nettest_ settings_) (world st))
          as [l w] eqn:Sh.
        inversion E; subst. right. split; [reflexivity|].
        exists (world st). now rewrite Sh.
      * apply returns_ret. now left.
    + intros inputs S.
      apply only_bind; [sift|intros begin].
      apply only_bind; [now apply only_dispatch|intros _].
      apply only_bind; [sift|intros _].
      apply only_bind; [apply only_close_report_stage|intros _].
      sift.
Qed.

(** Every run finishes, and leaves in the history only what [may_log]
    lists. *)
Lemma only_run : only logged (run env nettest_ settings_).
Proof.
  unfold run.
  apply only_bind; [sift|intros _].
  apply only_bind; [sift|intros _].
  apply only_bind; [sift|intros _].
  apply only_bind; [apply only_bouncer_stage|intros ctx1].
  apply only_bind; [sift|intros _].
  apply only_bind; [apply only_probe_ip_stage|intros ctx2].
  apply only_bind; [apply only_probe_asn_stage|intros ctx3].
  apply only_bind; [apply only_probe_cc_stage|intros ctx4].
  apply only_bind; [apply only_geoip_events|intros _].
  apply only_bind; [apply only_resolver_stage|intros ctx5].
  apply only_bind; [sift|intros _].
  apply only_bind; [sift|intros _].
  apply only_bind; [sift|intros t].
  apply only_bind; [apply only_open_report_stage|intros [ctx6 base]].
  apply only_bind; [sift|intros _].
  apply only_bind; [apply only_measure_stage|intros _].
  sift.
Qed.
End MayLogMethods.

(** Every run returns true, and what it has added to the history is
    what [may_log] lists. *)
Lemma run_logs_only_what_it_may {World : Type} (env : Env.t World)
    (nettest_ : Nettest.t World) (settings_ : Settings.t) :
  fills_test_keys nettest_ ->
  forall st, exists st' T,
    run env nettest_ settings_ st = Some (true, st')
    /\ trace st' = trace st ++ T
    /\ Forall (may_log env nettest_ settings_) T.
Proof.
  intros contract st.
  destruct (only_run env nettest_ settings_ contract st)
    as (a & st' & T & E & Tr & F).
  pose proof (returns_true_run env nettest_ settings_ st a st' E) as ->.
  exists st', T. auto.
Qed.

(** X22.  The switches of the settings are honoured by every run: with
    [no_bouncer] the bouncer is never queried; with [no_ip_lookup],
    [no_asn_lookup], [no_cc_lookup] (or with the value configured) the
    corresponding lookup is never made; with [no_resolver_lookup] the
    resolver is never looked up; with [no_collector] no report is ever
    opened, updated or closed. *)
Theorem switched_off_stages_make_no_call :
  forall (World : Type) (env : Env.t World) (nettest_ : Nettest.t World)
         (settings_ : Settings.t),
    fills_test_keys nettest_ ->
    forall st, exists st' T,
      run env nettest_ settings_ st = Some (true, st')
      /\ trace st' = trace st ++ T
      /\ (Settings.no_bouncer settings_ = true ->
          ~ In (Called call_query_bouncer) T)
      /\ (Settings.no_ip_lookup settings_ = true
          \/ Settings.probe_ip settings_ <> "" ->
          ~ In (Called call_lookup_ip) T)
      /\ (Settings.no_asn_lookup settings_ = true
          \/ Settings.probe_asn settings_ <> "" ->
          forall dbpath ip, ~ In (Called (call_lookup_asn dbpath ip)) T)
      /\ (Settings.no_cc_lookup settings_ = true
          \/ Settings.probe_cc settings_ <> "" ->
          forall dbpath ip, ~ In (Called (call_lookup_cc dbpath ip)) T)
      /\ (Settings.no_resolver_lookup settings_ = true ->
          ~ In (Called call_lookup_resolver_ip) T)
      /\ (Settings.no_collector settings_ = true ->
          forall base report_id json_str,
            ~ In (Called (call_open_report base)) T
            /\ ~ In (Called (call_update_report base report_id json_str)) T
            /\ ~ In (Called (call_close_report base report_id)) T).
Proof.
  intros World env nettest_ settings_ contract st.
  destruct (run_logs_only_what_it_may env nettest_ settings_ contract st)
    as (st' & T & E & Tr & F).
  exists st', T. split; [exact E|]. split; [exact Tr|].
  rewrite Forall_forall in F.
  repeat split; intros;
    match goal with
    | |- ~ In ?x T => intros I; specialize (F x I); inversion F; subst
    end;
    try congruence;
    match goal with
    | H : _ \/ _ |- _ => destruct H; congruence
    end.
Qed.

(** The theorem on a run without bouncer and without collector. *)
Lemma switched_off_stages_make_no_call_witness :
  exists st' T,
    run Scenario.offline Scenario.dummy_nettest
      (Settings.set_no_collector true
         (Settings.set_no_bouncer true Settings.default))
      Scenario.initial = Some (true, st')
    /\ trace st' = trace Scenario.initial ++ T
    /\ ~ In (Called call_query_bouncer) T
    /\ (forall base, ~ In (Called (call_open_report base)) T).
Proof.
  destruct (switched_off_stages_make_no_call unit Scenario.offline
              Scenario.dummy_nettest
              (Settings.set_no_collector true
                 (Settings.set_no_bouncer true Settings.default))
              (fun s c input b w => or_introl eq_refl) Scenario.initial)
    as (st' & T & E & Tr & B & _ & _ & _ & _ & C).
  exists st', T. split; [exact E|]. split; [exact Tr|].
  split; [exact (B eq_refl)|].
  intros base. exact (proj1 (C eq_refl base "" "")).
Defined.

(** X23.  The log lines of a run respect the log level: every [log]
    event carries a level among WARNING, INFO and DEBUG that is not above
    [settings.log_level]; with the level QUIET or ERR a run emits no
    [log] event at all. *)
Theorem log_lines_respect_the_log_level :
  forall (World : Type) (env : Env.t World) (nettest_ : Nettest.t World)
         (settings_ : Settings.t),
    fills_test_keys nettest_ ->
    forall st, exists st' T,
      run env nettest_ settings_ st = Some (true, st')
      /\ trace st' = trace st ++ T
      /\ (forall ev,
             In (Emitted ev) T ->
             at_key "key" ev = Some (JString "log") ->
             exists level upper msg,
               at_key "value" ev
               = Some (object_of [("log_level", JString upper);
                                  ("message", JString msg)])
               /\ In (level, upper)
                     [(log_warning, "WARNING"); (log_info, "INFO");
                      (log_debug, "DEBUG")]
               /\ log_level_value level
                  <= log_level_value (Settings.log_level settings_))
      /\ (log_level_value (Settings.log_level settings_)
          < log_level_value log_warning ->
          forall ev, In (Emitted ev) T ->
                     at_key "key" ev <> Some (JString "log")).
Proof.
  intros World env nettest_ settings_ contract st.
  destruct (run_logs_only_what_it_may env nettest_ settings_ contract st)
    as (st' & T & E & Tr & F).
  exists st', T. split; [exact E|]. split; [exact Tr|].
  rewrite Forall_forall in F.
  assert (Lines : forall ev,
             In (Emitted ev) T ->
             at_key "key" ev = Some (JString "log") ->
             exists level upper msg,
               at_key "value" ev
               = Some (object_of [("log_level", JString upper);
                                  ("message", JString msg)])
               /\ In (level, upper) log_levels
               /\ log_level_value level
                  <= log_level_value (Settings.log_level settings_)).
  { intros ev I K. specialize (F _ I). inversion F; subst.
    - exfalso. cbn in K. inversion K; subst.
      match goal with
      | H : In "log" event_keys |- _ =>
          simpl in H;
          repeat (destruct H as [H|H]; [discriminate H|]); exact H
      end.
    - exists level, upper, msg. auto. }
  split; [exact Lines|].
  intros Low ev I K.
  destruct (Lines ev I K) as (level & upper & msg & _ & L & Le).
  simpl in L.
  destruct L as [L|[L|[L|[]]]]; inversion L; subst; simpl in *; lia.
Qed.

(** The theorem on a run at the level QUIET. *)
Lemma log_lines_respect_the_log_level_witness :
  exists st' T,
    run Scenario.offline Scenario.dummy_nettest
      (Settings.set_log_level log_quiet Settings.default) Scenario.initial
    = Some (true, st')
    /\ trace st' = trace Scenario.initial ++ T
    /\ forall ev, In (Emitted ev) T ->
                  at_key "key" ev <> Some (JString "log").
Proof.
  destruct (log_lines_respect_the_log_level unit Scenario.offline
              Scenario.dummy_nettest
              (Settings.set_log_level log_quiet Settings.default)
              (fun s c input b w => or_introl eq_refl) Scenario.initial)
    as (st' & T & E & Tr & _ & Quiet).
  exists st', T. split; [exact E|]. split; [exact Tr|].
  apply Quiet. simpl. lia.
Defined.

(** X24.  Every event of a run is a document with the two members
    ["key"] and ["value"], where the value is an object (so the assertion
    of [emit_ev] holds) and the key is ["log"] or one of the twenty event
    names of [event_keys]. *)
Theorem events_are_well_formed :
  forall (World : Type) (env : Env.t World) (nettest_ : Nettest.t World)
         (settings_ : Settings.t),
    fills_test_keys nettest_ ->
    forall st, exists st' T,
      run env nettest_ settings_ st = Some (true, st')
      /\ trace st' = trace st ++ T
      /\ forall ev,
           In (Emitted ev) T ->
           exists key value,
             ev = object_of [("key", JString key); ("value", value)]
             /\ is_object value = true
             /\ In key ("log" :: event_keys).
Proof.
  intros World env nettest_ settings_ contract st.
  destruct (run_logs_only_what_it_may env nettest_ settings_ contract st)
    as (st' & T & E & Tr & F).
  exists st', T. split; [exact E|]. split; [exact Tr|].
  rewrite Forall_forall in F.
  intros ev I. specialize (F _ I). inversion F; subst.
  - exists key, (JObject o). split; [reflexivity|].
    split; [reflexivity|]. now right.
  - eexists "log", _. split; [reflexivity|]. split; [reflexivity|].
    now left.
Qed.

(** The theorem on a run of the default settings. *)
Lemma events_are_well_formed_witness :
  exists st' T,
    run Scenario.offline Scenario.dummy_nettest Settings.default
      Scenario.initial = Some (true, st')
    /\ trace st' = trace Scenario.initial ++ T
    /\ forall ev, In (Emitted ev) T ->
                  exists key value,
                    ev = object_of [("key", JString key); ("value", value)]
                    /\ is_object value = true
                    /\ In key ("log" :: event_keys).
Proof.
  exact (events_are_well_formed unit Scenario.offline Scenario.dummy_nettest
           Settings.default (fun s c input b w => or_introl eq_refl)
           Scenario.initial).
Defined.

(** X25.  Given a shuffle that returns elements of the list it is
    given, a run measures configured inputs only: the nettest is called
    on members of [settings.inputs] when it needs input, and on the empty
    input when it does not. *)
Theorem only_configured_inputs_are_measured :
  forall (World : Type) (env : Env.t World) (nettest_ : Nettest.t World)
         (settings_ : Settings.t),
    fills_test_keys nettest_ ->
    (forall l w x, In x (fst (Env.shuffle env l w)) -> In x l) ->
    forall st, exists st' T,
      run env nettest_ settings_ st = Some (true, st')
      /\ trace st' = trace st ++ T
      /\ forall input,
           In (Called (call_nettest_run input)) T ->
           if Nettest.needs_input nettest_
           then In input (Settings.inputs settings_)
           else input = "".
Proof.
  intros World env nettest_ settings_ contract Shuffle st.
  destruct (run_logs_only_what_it_may env nettest_ settings_ contract st)
    as (st' & T & E & Tr & F).
  exists st', T. split; [exact E|]. split; [exact Tr|].
  rewrite Forall_forall in F.
  intros input I. specialize (F _ I). inversion F; subst.
  assert (C : In input (candidates nettest_ settings_)).
  { match goal with
    | H : shared_inputs _ _ _ _ |- _ =>
        destruct H as [->|(_ & w & ->)]
    end; [assumption|].
    eapply Shuffle. eassumption. }
  unfold candidates in C.
  destruct (Nettest.needs_input nettest_); [exact C|].
  destruct C as [C|[]]. now subst.
Qed.

(** The theorem on a run of a nettest that takes input, on three
    inputs. *)
Lemma only_configured_inputs_are_measured_witness :
  exists st' T,
    run Scenario.offline Scenario.failing_nettest Scenario.three_inputs
      Scenario.initial = Some (true, st')
    /\ trace st' = trace Scenario.initial ++ T
    /\ forall input, In (Called (call_nettest_run input)) T ->
                     In input ["a"; "b"; "c"].
Proof.
  exact (only_configured_inputs_are_measured unit Scenario.offline
           Scenario.failing_nettest Scenario.three_inputs
           (fun s c input b w => or_intror eq_refl)
           (fun l w x I => I) Scenario.initial).
Defined.

(** ** The write callback *)

(** X26.  For sizes in the range of [size_t]: the write callback turns
    down a block (by a failed assertion, or by returning 0 under
    [NDEBUG]) exactly when [size * nmemb] does not fit a [size_t]; in every
    other case with [nmemb > 0] it appends the [size * nmemb] bytes of the
    block, the product having not wrapped around, and returns [nmemb].  A
    [size] of zero is not turned down: nothing is appended and [nmemb] is
    returned. *)
Theorem write_callback_guards_the_product :
  forall (NDEBUG : bool) (ptr : string) (size nmemb : Z) (ss : string),
    0 <= size <= Curl.SIZE_MAX ->
    0 < nmemb <= Curl.SIZE_MAX ->
    (Curl.SIZE_MAX < size * nmemb ->
     Curl.libnettest2_curl_stringstream_callback NDEBUG ptr size nmemb ss
     = if NDEBUG then Some (0, ss) else None)
    /\ (size * nmemb <= Curl.SIZE_MAX ->
        Curl.libnettest2_curl_stringstream_callback NDEBUG ptr size nmemb ss
        = Some (nmemb,
                ss +++ String.substring 0 (Z.to_nat (size * nmemb)) ptr))
    /\ (size = 0 ->
        Curl.libnettest2_curl_stringstream_callback NDEBUG ptr size nmemb ss
        = Some (nmemb, ss)).
Proof.
  intros NDEBUG ptr size nmemb ss Hs Hn.
  unfold Curl.libnettest2_curl_stringstream_callback.
  destruct (Z.leb_spec nmemb 0) as [L|_]; [lia|].
  assert (Guard : Curl.SIZE_MAX / nmemb < size
                  <-> Curl.SIZE_MAX < size * nmemb).
  { split; intros H.
    - apply Z.nle_gt. intros C. apply Z.nle_gt in H. apply H.
      apply Z.div_le_lower_bound; lia.
    - apply Z.div_lt_upper_bound; lia. }
  split; [|split].
  - intros Over. destruct (Z.ltb_spec (Curl.SIZE_MAX / nmemb) size) as [_|G];
      [reflexivity|]. apply Guard in Over. lia.
  - intros Fits. destruct (Z.ltb_spec (Curl.SIZE_MAX / nmemb) size) as [G|_].
    + apply Guard in G. lia.
    + rewrite Z.mod_small by (unfold Curl.SIZE_MAX in *; nia). reflexivity.
  - intros ->. destruct (Z.ltb_spec (Curl.SIZE_MAX / nmemb) 0) as [G|_].
    + apply Guard in G. lia.
    + simpl. destruct ptr; now rewrite append_nil_r.
Qed.

(** The theorem on a block of five bytes, [size] being 1. *)
Lemma write_callback_guards_the_product_witness :
  Curl.libnettest2_curl_stringstream_callback false "hello" 1 5 "{}"
  = Some (5, "{}hello").
Proof.
  exact (proj1 (proj2 (write_callback_guards_the_product false "hello" 1 5
                         "{}" ltac:(unfold Curl.SIZE_MAX; lia)
                         ltac:(unfold Curl.SIZE_MAX; lia)))
           ltac:(unfold Curl.SIZE_MAX; lia)).
Defined.

(** ** The reply of the bouncer *)

Section BouncerFacts.
Import Bouncer.

(** The endpoints under a name, none when the name is absent. *)
Local Abbreviation under key hs :=
  (match StdMap.find key hs with Some l => l | None => [] end).

(** [hs'] is [hs] with typed endpoints pushed under some names. *)
Local Abbreviation grown hs hs' :=
  (forall key : string,
      exists more : list EndpointInfo.t,
        Forall typed more
        /\ under key hs' = under key hs ++ more
        /\ (StdMap.find key hs <> None -> StdMap.find key hs' <> None)).

Lemma grown_refl (hs : StdMap.t (list EndpointInfo.t)) : grown hs hs.
Proof.
  intros key. exists []. split; [constructor|].
  split; [now rewrite app_nil_r|auto].
Qed.

Lemma grown_trans (h1 h2 h3 : StdMap.t (list EndpointInfo.t)) :
  grown h1 h2 -> grown h2 h3 -> grown h1 h3.
Proof.
  intros G1 G2 key.
  destruct (G1 key) as (m1 & F1 & E1 & K1).
  destruct (G2 key) as (m2 & F2 & E2 & K2).
  exists (m1 ++ m2). split; [apply Forall_app; auto|].
  split; [now rewrite E2, E1, app_assoc|auto].
Qed.

Lemma grown_push_back key info (hs : StdMap.t (list EndpointInfo.t)) :
  typed info -> grown hs (push_back key info hs).
Proof.
  intros T key'. unfold push_back.
  destruct (String.eqb_spec key key') as [<-|NE].
  - exists [info]. rewrite find_insert_same.
    split; [constructor; [exact T|constructor]|].
    split; [reflexivity|discriminate].
  - exists []. rewrite (find_insert_other key key' _ _ NE).
    split; [constructor|]. split; [now rewrite app_nil_r|auto].
Qed.

Lemma alternate_typed entry info :
  alternate entry = Some (Some info) -> typed info.
Proof.
  unfold alternate, typed. intros H.
  destruct (at_key "type" entry) as [ty|]; [|discriminate].
  destruct (equals ty "https").
  - destruct (string_at "address" entry); inversion H; subst. simpl. auto.
  - destruct (equals ty "cloudfront"); [|discriminate].
    destruct (string_at "address" entry); [|discriminate].
    destruct (string_at "front" entry); inversion H; subst. simpl. auto.
Qed.

Lemma collector_alternates_grow entries cs :
  exists more,
    snd (collector_alternates entries cs) = cs ++ more
    /\ Forall typed more.
Proof.
  revert cs. induction entries as [|e entries IH]; intros cs; simpl.
  - exists []. split; [now rewrite app_nil_r|constructor].
  - destruct (alternate e) as [[info|]|] eqn:A.
    + destruct (IH (cs ++ [info])) as (more & E & F).
      exists (info :: more). rewrite E, <- app_assoc.
      split; [reflexivity|].
      constructor; [exact (alternate_typed e info A)|exact F].
    + apply IH.
    + exists []. split; [now rewrite app_nil_r|constructor].
Qed.

Lemma helpers_grow entries hs : grown hs (snd (helpers entries hs)).
Proof.
  revert hs. induction entries as [|[key value] entries IH]; intros hs;
    simpl.
  - apply grown_refl.
  - destruct (get_string value) as [address|]; [|apply grown_refl].
    eapply grown_trans; [|apply IH].
    apply grown_push_back. left. simpl. auto.
Qed.

Lemma helper_alternates_grow key entries hs :
  grown hs (snd (helper_alternates key entries hs)).
Proof.
  revert hs. induction entries as [|e entries IH]; intros hs; simpl.
  - apply grown_refl.
  - destruct (alternate e) as [[info|]|] eqn:A.
    + eapply grown_trans; [|apply IH].
      apply grown_push_back. exact (alternate_typed e info A).
    + apply IH.
    + apply grown_refl.
Qed.

Lemma helpers_alternate_grow entries hs :
  grown hs (snd (helpers_alternate entries hs)).
Proof.
  revert hs. induction entries as [|[key value] entries IH]; intros hs;
    simpl.
  - apply grown_refl.
  - pose proof (helper_alternates_grow key (elements value) hs) as G.
    destruct (helper_alternates key (elements value) hs) as [ok hs1].
    simpl in G. destruct ok; [|exact G].
    eapply grown_trans; [exact G|apply IH].
Qed.

Lemma net_test_grows entry cs hs :
  (exists more,
      snd (fst (net_test entry cs hs)) = cs ++ more /\ Forall typed more)
  /\ grown hs (snd (net_test entry cs hs)).
Proof.
  unfold net_test.
  assert (Same : exists more : list EndpointInfo.t,
             cs = cs ++ more /\ Forall typed more)
    by (exists []; split; [now rewrite app_nil_r|constructor]).
  destruct (string_at "collector" entry) as [address|];
    [|split; [exact Same|apply grown_refl]].
  assert (One : exists more,
             cs ++ [EndpointInfo.mk endpoint_type_onion address ""]
             = cs ++ more /\ Forall typed more).
  { eexists. split; [reflexivity|].
    constructor; [left; simpl; auto|constructor]. }
  destruct (at_key "collector-alternate" entry) as [alternates|];
    [|split; [exact One|apply grown_refl]].
  destruct (collector_alternates_grow (elements alternates)
              (cs ++ [EndpointInfo.mk endpoint_type_onion address ""]))
    as (more & E & F).
  destruct (collector_alternates (elements alternates) _) as [ok cs1].
  simpl in E. subst cs1.
  assert (Two : exists more',
             (cs ++ [EndpointInfo.mk endpoint_type_onion address ""])
               ++ more = cs ++ more' /\ Forall typed more').
  { eexists. rewrite <- app_assoc. split; [reflexivity|].
    constructor; [left; simpl; auto|exact F]. }
  destruct ok; cbn [negb]; [|split; [exact Two|apply grown_refl]].
  destruct (at_key "test-helpers" entry) as [named|];
    [|split; [exact Two|apply grown_refl]].
  pose proof (helpers_grow (items named) hs) as G1.
  destruct (helpers (items named) hs) as [ok hs1]. simpl in G1.
  destruct ok; cbn [negb]; [|split; [exact Two|exact G1]].
  destruct (at_key "test-helpers-alternate" entry) as [named'|];
    [|split; [exact Two|exact G1]].
  pose proof (helpers_alternate_grow (items named') hs1) as G2.
  destruct (helpers_alternate (items named') hs1) as [ok hs2]. simpl in G2.
  split; [exact Two|]. eapply grown_trans; [exact G1|exact G2].
Qed.

Lemma net_tests_grow entries cs hs :
  (exists more,
      snd (fst (net_tests entries cs hs)) = cs ++ more /\ Forall typed more)
  /\ grown hs (snd (net_tests entries cs hs)).
Proof.
  revert cs hs. induction entries as [|e entries IH]; intros cs hs; simpl.
  - split; [|apply grown_refl].
    exists []. split; [now rewrite app_nil_r|constructor].
  - destruct (net_test_grows e cs hs) as ((m1 & E1 & F1) & G1).
    destruct (net_test e cs hs) as [[ok cs1] hs1]. simpl in E1, G1.
    destruct ok.
    + destruct (IH cs1 hs1) as ((m2 & E2 & F2) & G2).
      split; [|eapply grown_trans; [exact G1|exact G2]].
      exists (m1 ++ m2). rewrite E2, E1, app_assoc.
      split; [reflexivity|apply Forall_app; auto].
    + split; [|exact G1]. exists m1. auto.
Qed.

Lemma read_reply_grows doc cs hs :
  (exists more,
      snd (fst (read_reply doc cs hs)) = cs ++ more /\ Forall typed more)
  /\ grown hs (snd (read_reply doc cs hs)).
Proof.
  unfold read_reply. destruct (at_key "net-tests" doc) as [tests|].
  - apply net_tests_grow.
  - split; [|apply grown_refl].
    exists []. split; [now rewrite app_nil_r|constructor].
Qed.

Lemma net_tests_app entries1 entries2 cs hs :
  net_tests (entries1 ++ entries2) cs hs
  = let '(ok, cs1, hs1) := net_tests entries1 cs hs in
    if ok then net_tests entries2 cs1 hs1 else (false, cs1, hs1).
Proof.
  revert cs hs. induction entries1 as [|e entries1 IH]; intros cs hs; simpl.
  - destruct (net_tests entries2 cs hs) as [[ok cs1] hs1]. reflexivity.
  - destruct (net_test e cs hs) as [[ok cs1] hs1].
    destruct ok; [apply IH|reflexivity].
Qed.
End BouncerFacts.

(** X27.  Whatever the reply of the bouncer, and whether or not reading
    it fails: every endpoint that [query_bouncer] leaves in [*collectors]
    and in [*test_helpers] is an onion, an https or a cloudfront endpoint
    (never one of type none), and only a cloudfront endpoint has a
    front. *)
Theorem bouncer_endpoints_are_typed :
  forall doc : json,
    Forall Bouncer.typed
      (snd (fst (Bouncer.read_reply doc [] StdMap.empty)))
    /\ forall key l,
         StdMap.find key (snd (Bouncer.read_reply doc [] StdMap.empty))
         = Some l ->
         Forall Bouncer.typed l.
Proof.
  intros doc.
  destruct (read_reply_grows doc [] StdMap.empty) as ((more & E & F) & G).
  split; [rewrite E; exact F|].
  intros key l H. destruct (G key) as (more' & F' & E' & _).
  rewrite H in E'. simpl in E'. subst l. exact F'.
Qed.

(** X28.  Reading the reply only appends.  What [*collectors] and the
    lists of [*test_helpers] held when the block was entered stays in
    front, in order; and what the first entries of the reply have added
    stays when a later entry is read, also when that entry makes
    [query_bouncer] return false: the endpoints read before an exception
    are not taken back. *)
Theorem bouncer_reply_only_appends :
  forall (doc : json) (collectors : list EndpointInfo.t)
         (test_helpers : StdMap.t (list EndpointInfo.t)),
    (exists more,
        snd (fst (Bouncer.read_reply doc collectors test_helpers))
        = collectors ++ more)
    /\ (forall key l,
           StdMap.find key test_helpers = Some l ->
           exists more,
             StdMap.find key
               (snd (Bouncer.read_reply doc collectors test_helpers))
             = Some (l ++ more))
    /\ (forall entries1 entries2,
           exists more,
             snd (fst (Bouncer.net_tests (entries1 ++ entries2) collectors
                         test_helpers))
             = snd (fst (Bouncer.net_tests entries1 collectors
                           test_helpers)) ++ more).
Proof.
  intros doc cs hs.
  destruct (read_reply_grows doc cs hs) as ((more & E & F) & G).
  split; [exists more; exact E|]. split.
  - intros key l H. destruct (G key) as (more' & _ & E' & K).
    rewrite H in E', K. exists more'.
    destruct (StdMap.find key
                (snd (Bouncer.read_reply doc cs hs))) as [l'|].
    + now rewrite E'.
    + exfalso. apply K; [discriminate|reflexivity].
  - intros entries1 entries2. rewrite net_tests_app.
    destruct (Bouncer.net_tests entries1 cs hs) as [[ok cs1] hs1].
    destruct ok; cbn [fst snd].
    + destruct (net_tests_grow entries2 cs1 hs1) as ((m & Em & _) & _).
      exists m. exact Em.
    + exists []. now rewrite app_nil_r.
Qed.

(** A reply whose second entry has no collector: reading fails, and the
    collectors of the first entry are there. *)
Lemma bouncer_reply_read_in_part :
  Bouncer.read_reply
    (object_of
       [("net-tests",
         JArray
           [object_of
              [("collector", JString "httpo://abc.onion");
               ("collector-alternate",
                JArray [object_of [("type", JString "https");
                                   ("address",
                                    JString "https://a.collector.ooni.io")]]);
               ("test-helpers", JObject []);
               ("test-helpers-alternate", JObject [])];
            object_of [("name", JString "web_connectivity")]])])
    [] StdMap.empty
  = (false,
     [EndpointInfo.mk endpoint_type_onion "httpo://abc.onion" "";
      EndpointInfo.mk endpoint_type_https "https://a.collector.ooni.io" ""],
     StdMap.empty).
Proof. vm_compute. reflexivity. Qed.
